(** * full-stack-jun: the Telegram analytics bot and its dashboard

    A shallow embedding of the parts of the bot ([bot/src]) and of the
    dashboard route ([web/app/api/analyze/route.ts]) that carry the
    statistics cache, the message store, the three LLM provider clients,
    the /analyze orchestrator, the response parsers and the digest parser,
    and further the queries of the store, the ingestion of messages, the
    digest from its period to its reply, the retries and model fallback of
    the Gemini client, the keyboards of the statistics, the target of
    /analyze and the POST handler of the dashboard, followed by the
    properties proved about them.

    Part I holds the definitions, one module per source unit; Part II holds
    the lemmas and theorems. *)

From Stdlib Require Import ZArith NArith List Lia String Ascii Bool.
From Stdlib Require Import DecimalString Permutation SpecFloat.
From Stdlib Require ZifyBool.
From stdpp Require Import gmap.

From Stdlib Require Import Sorted.
From Stdlib Require DecimalPos DecimalZ.

Import ListNotations.
Open Scope Z_scope.

(* ===================================================================== *)
(** * Part I. The embedding                                               *)
(* ===================================================================== *)

(** ** JavaScript strings

    A JavaScript string is a sequence of UTF-16 code units; [length],
    [split], [trim], [startsWith], [includes] and the regular expressions
    without the [u] flag all work on code units. *)

Abbreviation jsstring := (list N).

Module JS.

(** [js] reads a literal of this file (UTF-8 bytes) as the code units of the
    JavaScript literal with the same text. *)
Fixpoint utf16_of_utf8 (bs : list N) : jsstring :=
  let cont (b : N) : N := N.land b 63 in
  match bs with
  | [] => []
  | b :: r =>
      if (b <? 128)%N then b :: utf16_of_utf8 r
      else if (b <? 224)%N then
        match r with
        | b2 :: r2 => (N.shiftl (N.land b 31) 6 + cont b2)%N :: utf16_of_utf8 r2
        | _ => []
        end
      else if (b <? 240)%N then
        match r with
        | b2 :: b3 :: r3 =>
            (N.shiftl (N.land b 15) 12 + N.shiftl (cont b2) 6 + cont b3)%N
              :: utf16_of_utf8 r3
        | _ => []
        end
      else
        match r with
        | b2 :: b3 :: b4 :: r4 =>
            let cp := (N.shiftl (N.land b 7) 18 + N.shiftl (cont b2) 12
                       + N.shiftl (cont b3) 6 + cont b4)%N in
            let v := (cp - 65536)%N in
            (55296 + N.shiftr v 10)%N :: (56320 + N.land v 1023)%N
              :: utf16_of_utf8 r4
        | _ => []
        end
  end.

Definition js (s : string) : jsstring :=
  utf16_of_utf8 (List.map N_of_ascii (list_ascii_of_string s)).

(** The line feed, the separator of [split('\n')] and [join('\n')]. *)
Definition LF : N := 10%N.

(** [WhiteSpace] and [LineTerminator] of ECMAScript: what [trim] strips and
    what [\s] matches. *)
Definition isWhiteSpace (c : N) : bool :=
  ((9 <=? c) && (c <=? 13) || (c =? 32) || (c =? 160) || (c =? 5760)
   || (8192 <=? c) && (c <=? 8202) || (c =? 8232) || (c =? 8233)
   || (c =? 8239) || (c =? 8287) || (c =? 12288) || (c =? 65279))%N.

(** [LineTerminator]: what [.] does not match. *)
Definition isLineTerminator (c : N) : bool :=
  ((c =? 10) || (c =? 13) || (c =? 8232) || (c =? 8233))%N.

Fixpoint trimStart (s : jsstring) : jsstring :=
  match s with
  | c :: r => if isWhiteSpace c then trimStart r else s
  | [] => []
  end.

Fixpoint trimEnd (s : jsstring) : jsstring :=
  match s with
  | [] => []
  | c :: r =>
      match trimEnd r with
      | [] => if isWhiteSpace c then [] else [c]
      | r' => c :: r'
      end
  end.

Definition trim (s : jsstring) : jsstring := trimEnd (trimStart s).

(** Truthiness of a string: the empty string is the only falsy one. *)
Definition truthy (s : jsstring) : bool :=
  match s with [] => false | _ => true end.

(** [s.split(sep)] for a separator of one code unit. *)
Fixpoint split (sep : N) (s : jsstring) : list jsstring :=
  match s with
  | [] => [[]]
  | c :: r =>
      if (c =? sep)%N then [] :: split sep r
      else match split sep r with
           | l :: ls => (c :: l) :: ls
           | [] => [[c]]
           end
  end.

(** [a.join(sep)]. *)
Fixpoint join (sep : jsstring) (a : list jsstring) : jsstring :=
  match a with
  | [] => []
  | x :: r => match r with [] => x | _ => x ++ sep ++ join sep r end
  end.

Fixpoint startsWith (s p : jsstring) : bool :=
  match p, s with
  | [], _ => true
  | a :: p', b :: s' => (a =? b)%N && startsWith s' p'
  | _ :: _, [] => false
  end.

(** [s.includes(p)]. *)
Fixpoint includes (s p : jsstring) : bool :=
  startsWith s p ||
  match s with
  | [] => false
  | _ :: r => includes r p
  end.

(** [toLowerCase], on the code units of Basic Latin, Latin-1 and Cyrillic.
    The lower-cased string is only ever compared with the five Cyrillic
    labels of the analysis format, and no unit outside U+0410..U+042F
    lower-cases to a letter of these labels, so the other scripts (left
    unchanged here) cannot influence any test made on the result. *)
Definition lowerUnit (c : N) : N :=
  (if (65 <=? c) && (c <=? 90) then c + 32
   else if (192 <=? c) && (c <=? 222) && negb (c =? 215) then c + 32
   else if (1024 <=? c) && (c <=? 1039) then c + 80
   else if (1040 <=? c) && (c <=? 1071) then c + 32
   else c)%N.

Definition toLowerCase (s : jsstring) : jsstring := List.map lowerUnit s.

(** [Canonicalize] of a regular expression with the [i] flag and without
    the [u] flag: the upper case of the code unit, when that is one code
    unit and does not take a unit from 128 on below 128.  The function is
    that of the engine on Basic Latin, on Latin-1 (where U+00B5 goes to the
    Greek capital U+039C and U+00FF to U+0178), on U+0400..U+045F and on
    the old letter forms U+1C80..U+1C88 of Cyrillic Extended-C, whose upper
    case is an ordinary Cyrillic capital: U+1C82 stands for [о], U+1C84 and
    U+1C85 for [т].  The patterns of this file are made of Basic Latin and
    of the Cyrillic letters U+0410..U+044F; the units whose canonical form
    is a capital of these are exactly a..z, A..Z, U+0410..U+044F and
    U+1C80..U+1C86 (U+0131 and U+017F have the upper case I and S and are
    kept by the rule of 128), so that the units of other scripts, left as
    they are here, match no unit of a pattern, here and in the engine. *)
Definition canonicalize (c : N) : N :=
  (if (97 <=? c) && (c <=? 122) then c - 32
   else if c =? 181 then 924
   else if (224 <=? c) && (c <=? 254) && negb (c =? 247) then c - 32
   else if c =? 255 then 376
   else if (1072 <=? c) && (c <=? 1103) then c - 32
   else if (1104 <=? c) && (c <=? 1119) then c - 80
   else if c =? 7296 then 1042
   else if c =? 7297 then 1044
   else if c =? 7298 then 1054
   else if c =? 7299 then 1057
   else if (c =? 7300) || (c =? 7301) then 1058
   else if c =? 7302 then 1066
   else if c =? 7303 then 1122
   else if c =? 7304 then 42570
   else c)%N.

(** The pattern [p], read with the [i] flag, matches at the start of [s]. *)
Fixpoint matchesAtCI (p s : jsstring) : bool :=
  match p, s with
  | [], _ => true
  | a :: p', b :: s' => (canonicalize a =? canonicalize b)%N && matchesAtCI p' s'
  | _ :: _, [] => false
  end.

(** What follows the leftmost match of the literal pattern [p] (with the
    [i] flag) in [s]; [None] when [p] does not occur. *)
Fixpoint afterFirstCI (p s : jsstring) : option jsstring :=
  if matchesAtCI p s then Some (skipn (List.length p) s)
  else match s with
       | [] => None
       | _ :: r => afterFirstCI p r
       end.

(** The text before the leftmost match of [p] in [s], all of [s] when [p]
    does not occur: what a lazy [[\s\S]*?] followed by [(?:p|$)] captures. *)
Fixpoint upToCI (p s : jsstring) : jsstring :=
  if matchesAtCI p s then []
  else match s with
       | [] => []
       | c :: r => c :: upToCI p r
       end.

(** [a === b] on strings. *)
Fixpoint eqb (a b : jsstring) : bool :=
  match a, b with
  | [], [] => true
  | x :: a', y :: b' => (x =? y)%N && eqb a' b'
  | _, _ => false
  end.

(** The template rendering of an integral number, [`${n}`]. *)
Definition ofNumber (n : Z) : jsstring :=
  List.map N_of_ascii (list_ascii_of_string (NilZero.string_of_int (Z.to_int n))).

End JS.

(** ** Date

    The time arithmetic of ECMAScript (the abstract operations [Day],
    [YearFromTime], [MakeDay], [LocalTime], [UTC], ... of the language
    specification), on integral milliseconds.  A [Date] is represented by
    its time value, milliseconds of UTC since the epoch; [getFullYear],
    [getMonth], [getDate], [setDate], [setMonth] and the component
    constructor read and write local time, through the zone of the
    host. *)

Module JSDate.

Definition msPerDay : Z := 86400000.

Definition Day (t : Z) : Z := t / msPerDay.
Definition TimeWithinDay (t : Z) : Z := t mod msPerDay.

Definition isLeapYear (y : Z) : bool :=
  (y mod 4 =? 0) && (negb (y mod 100 =? 0) || (y mod 400 =? 0)).

Definition DaysInYear (y : Z) : Z := if isLeapYear y then 366 else 365.

Definition DayFromYear (y : Z) : Z :=
  365 * (y - 1970) + (y - 1969) / 4 - (y - 1901) / 100 + (y - 1601) / 400.

(** The largest [y] with [DayFromYear y <= d]: an estimate from the mean
    length of the Gregorian year, corrected by at most one. *)
Definition YearFromDay (d : Z) : Z :=
  let y0 := 1970 + (d * 400) / 146097 in
  if d <? DayFromYear y0 then y0 - 1
  else if DayFromYear (y0 + 1) <=? d then y0 + 1
  else y0.

Definition YearFromTime (t : Z) : Z := YearFromDay (Day t).

Definition InLeapYear (t : Z) : Z :=
  if isLeapYear (YearFromTime t) then 1 else 0.

Definition DayWithinYear (t : Z) : Z := Day t - DayFromYear (YearFromTime t).

Definition MonthFromTime (t : Z) : Z :=
  let d := DayWithinYear t in
  let l := InLeapYear t in
  if d <? 31 then 0
  else if d <? 59 + l then 1
  else if d <? 90 + l then 2
  else if d <? 120 + l then 3
  else if d <? 151 + l then 4
  else if d <? 181 + l then 5
  else if d <? 212 + l then 6
  else if d <? 243 + l then 7
  else if d <? 273 + l then 8
  else if d <? 304 + l then 9
  else if d <? 334 + l then 10
  else 11.

Definition DateFromTime (t : Z) : Z :=
  let d := DayWithinYear t in
  let l := InLeapYear t in
  match MonthFromTime t with
  | 0 => d + 1
  | 1 => d - 30
  | 2 => d - 58 - l
  | 3 => d - 89 - l
  | 4 => d - 119 - l
  | 5 => d - 150 - l
  | 6 => d - 180 - l
  | 7 => d - 211 - l
  | 8 => d - 242 - l
  | 9 => d - 272 - l
  | 10 => d - 303 - l
  | _ => d - 333 - l
  end.

(** Day within the year of the first day of month [mn] (0..11). *)
Definition monthStart (mn : Z) (leap : bool) : Z :=
  let l := if leap then 1 else 0 in
  match mn with
  | 0 => 0
  | 1 => 31
  | 2 => 59 + l
  | 3 => 90 + l
  | 4 => 120 + l
  | 5 => 151 + l
  | 6 => 181 + l
  | 7 => 212 + l
  | 8 => 243 + l
  | 9 => 273 + l
  | 10 => 304 + l
  | _ => 334 + l
  end.

Definition MakeTime (hour min sec ms : Z) : Z :=
  hour * 3600000 + min * 60000 + sec * 1000 + ms.

(** [MakeDay(year, month, date)]: months outside 0..11 carry into the year,
    dates outside the month carry into the neighbouring months. *)
Definition MakeDay (year month date : Z) : Z :=
  let ym := year + month / 12 in
  let mn := month mod 12 in
  DayFromYear ym + monthStart mn (isLeapYear ym) + date - 1.

Definition MakeDate (day time : Z) : Z := day * msPerDay + time.

(** The zone of the host, which the sources do not fix: the offset of
    local time from UTC in milliseconds, at a time value
    ([LocalTZA(t, true)]) and at a local time ([LocalTZA(t, false)]; a
    local time that a change of offset skips or repeats is read with the
    offset before the change). *)
Record Zone := {
  offsetAt : Z -> Z;
  offsetOfLocal : Z -> Z }.

Definition LocalTime (z : Zone) (t : Z) : Z := t + offsetAt z t.
Definition UTC (z : Zone) (t : Z) : Z := t - offsetOfLocal z t.

(** A zone whose offset never changes. *)
Definition fixedZone (offset : Z) : Zone :=
  {| offsetAt := fun _ => offset; offsetOfLocal := fun _ => offset |}.

Definition getFullYear (z : Zone) (t : Z) : Z := YearFromTime (LocalTime z t).
Definition getMonth (z : Zone) (t : Z) : Z := MonthFromTime (LocalTime z t).
Definition getDate (z : Zone) (t : Z) : Z := DateFromTime (LocalTime z t).

(** [d.setDate(dt)]. *)
Definition setDate (z : Zone) (t dt : Z) : Z :=
  let local := LocalTime z t in
  UTC z (MakeDate (MakeDay (YearFromTime local) (MonthFromTime local) dt)
           (TimeWithinDay local)).

(** [d.setMonth(m)]. *)
Definition setMonth (z : Zone) (t m : Z) : Z :=
  let local := LocalTime z t in
  UTC z (MakeDate (MakeDay (YearFromTime local) m (DateFromTime local))
           (TimeWithinDay local)).

(** [new Date(year, month, date)]: a year in 0..99 stands for 1900 + year. *)
Definition ofComponents (z : Zone) (year month date : Z) : Z :=
  let yr := if (0 <=? year) && (year <=? 99) then 1900 + year else year in
  UTC z (MakeDate (MakeDay yr month date) (MakeTime 0 0 0 0)).

(** The largest time value of a valid [Date] ([TimeClip]). *)
Definition maxTime : Z := 8640000000000000.

End JSDate.

(** ** bot/src/services/statsService.ts *)

Module StatsService.

Import JSDate.

(** [CACHE_TTL], seconds ([process.env.CACHE_TTL || '1200']). *)
Definition CACHE_TTL_default : Z := 1200.

(** [getCacheKey(chatId, period, userId?)]: [if (userId)] is false for a
    missing [userId] and for the number 0. *)
Definition getCacheKey (chatId : Z) (period : jsstring) (userId : option Z)
  : jsstring :=
  match userId with
  | Some u =>
      if u =? 0 then
        JS.js "stats:chat:" ++ JS.ofNumber chatId ++ JS.js ":period:" ++ period
      else
        JS.js "stats:chat:" ++ JS.ofNumber chatId ++ JS.js ":user:"
          ++ JS.ofNumber u ++ JS.js ":period:" ++ period
  | None =>
      JS.js "stats:chat:" ++ JS.ofNumber chatId ++ JS.js ":period:" ++ period
  end.

(** [{ startDate?: Date; endDate?: Date }]; the empty object has neither. *)
Record DateRange := { startDate : option Z; endDate : option Z }.

Definition noRange : DateRange := {| startDate := None; endDate := None |}.

(** [getDateRange(period)], with [now] the value of [new Date()], on a
    host of zone [z]. *)
Definition getDateRange (z : Zone) (period : jsstring) (now : Z) : DateRange :=
  if JS.eqb period (JS.js "today") then
    {| startDate := Some (ofComponents z (getFullYear z now) (getMonth z now)
                            (getDate z now));
       endDate := Some now |}
  else if JS.eqb period (JS.js "week") then
    let startDate := now in
    {| startDate := Some (setDate z startDate (getDate z now - 7));
       endDate := Some now |}
  else if JS.eqb period (JS.js "month") then
    let startDate := now in
    {| startDate := Some (setMonth z startDate (getMonth z now - 1));
       endDate := Some now |}
  else noRange.

(** [StatsResult] and [UserStatsResult]. *)
Record TopUser := {
  tu_user_id : Z; tu_count : Z;
  tu_username : option jsstring; tu_first_name : option jsstring }.

Record StatsResult := {
  topUsers : list TopUser; totalMessages : Z; totalUsers : Z }.

Record UserStatsResult := {
  us_userId : Z; us_username : option jsstring; us_firstName : option jsstring;
  us_messageCount : Z; us_period : jsstring }.

(** What the cache holds: the JSON text of either result.  [JSON.parse]
    gives the value back whatever type the reader expects. *)
Inductive Json :=
| JChatStats (r : StatsResult)
| JUserStats (r : UserStatsResult).

(** The Redis client: entries with the time (ms) at which they expire, and
    whether commands succeed ([get] and [setEx] throw when they do not). *)
Record Redis := {
  entries : gmap jsstring (Json * Z);
  connected : bool }.

Definition redisGet (r : Redis) (now : Z) (key : jsstring) : option (option Json) :=
  if connected r then
    Some (match entries r !! key with
          | Some (v, expires) => if now <? expires then Some v else None
          | None => None
          end)
  else None.

Definition redisSetEx (r : Redis) (now : Z) (key : jsstring) (ttl : Z) (v : Json)
  : Redis :=
  if connected r then
    {| entries := <[key := (v, now + ttl * 1000)]> (entries r);
       connected := connected r |}
  else r.

Section Service.

(** The zone of the host, and the store queries behind the service: the
    two aggregate queries of [getChatStats] taken together,
    [User.findByTelegramId] and [Message.countByUserId]. *)
Variable zone : Zone.
Variable CACHE_TTL : Z.
Variable chatStatsFromStore : DateRange -> Z -> StatsResult.
Variable findByTelegramId : Z -> option (Z * option jsstring * option jsstring).
Variable countByUserId : Z -> DateRange -> Z -> Z.

(** [getChatStats(chatId, period)]: the result and the cache afterwards. *)
Definition getChatStats (r : Redis) (now : Z) (chatId : Z) (period : jsstring)
  : Json * Redis :=
  let cacheKey := getCacheKey chatId period None in
  match redisGet r now cacheKey with
  | Some (Some cached) => (cached, r)
  | _ =>
      let dateRange := getDateRange zone period now in
      let result := JChatStats (chatStatsFromStore dateRange chatId) in
      (result, redisSetEx r now cacheKey CACHE_TTL result)
  end.

(** [getUserStats(chatId, userId, period)]; [None] is [null]. *)
Definition getUserStats (r : Redis) (now : Z) (chatId userId : Z)
  (period : jsstring) : option Json * Redis :=
  let cacheKey := getCacheKey chatId period (Some userId) in
  match redisGet r now cacheKey with
  | Some (Some cached) => (Some cached, r)
  | _ =>
      match findByTelegramId userId with
      | None => (None, r)
      | Some (id, username, first_name) =>
          let dateRange := getDateRange zone period now in
          let messageCount := countByUserId id dateRange chatId in
          let result := JUserStats
            {| us_userId := id; us_username := username;
               us_firstName := first_name; us_messageCount := messageCount;
               us_period := period |} in
          (Some result, redisSetEx r now cacheKey CACHE_TTL result)
      end
  end.

End Service.

End StatsService.

(** ** Effects

    The services talk to the store and to the providers and may throw.  A
    computation yields the events it caused, in order, and either a value
    or the message of the [Error] thrown. *)

Inductive Provider := DeepSeek | Qwen | Gemini.

Inductive Event :=
| EvFindUser (telegramId : Z)
    (** [User.findByTelegramId] *)
| EvFetchMessages (userId : Z) (limit : Z) (rows : nat)
    (** [Message.findByUserId(userId, { limit })] and the rows it returned *)
| EvAnalyzeUser (p : Provider)
    (** the orchestrator enters [analyzeUser] of a provider client *)
| EvCompletion (p : Provider) (prompt : jsstring).
    (** a request to the completion endpoint of a provider *)

Inductive Result (A : Type) :=
| Ok (a : A)
| Throw (message : jsstring).
Arguments Ok {A} a.
Arguments Throw {A} message.

Definition M (A : Type) : Type := list Event * Result A.

Definition emit (e : Event) : M unit := ([e], Ok tt).
Definition throw {A} (message : jsstring) : M A := ([], Throw message).
Definition lift {A} (r : Result A) : M A := ([], r).

#[export] Instance M_ret : MRet M := fun A a => ([], Ok a).
#[export] Instance M_bind : MBind M := fun A B f m =>
  match m with
  | (log, Ok a) => let '(log', r) := f a in (log ++ log', r)
  | (log, Throw e) => (log, Throw e)
  end.

(** [try { m } catch (err) { handler(err.message) }]. *)
Definition tryCatch {A} (m : M A) (handler : jsstring -> M A) : M A :=
  match m with
  | (log, Ok a) => (log, Ok a)
  | (log, Throw e) => let '(log', r) := handler e in (log ++ log', r)
  end.

Definition events {A} (m : M A) : list Event := fst m.
Definition outcome {A} (m : M A) : Result A := snd m.

(** ** The store: bot/src/models/User.ts, bot/src/models/Message.ts and the
    schema of the two tables *)

Module Store.

Record UserData := {
  u_id : Z;
  u_telegram_id : Z;
  u_username : option jsstring;
  u_first_name : option jsstring;
  u_last_name : option jsstring;
  u_created_at : Z;
  u_updated_at : Z }.

Record MessageData := {
  id : Z;
  user_id : Z;
  telegram_message_id : Z;
  chat_id : Z;
  text : jsstring;
  created_at : Z }.

Record CreateMessageData := {
  c_user_id : Z;
  c_telegram_message_id : Z;
  c_chat_id : Z;
  c_text : jsstring }.

(** The two tables, with the sequence behind [messages.id SERIAL]. *)
Record Db := {
  users : list UserData;
  messages : list MessageData;
  messages_id_seq : Z }.

(** [UNIQUE(telegram_message_id, chat_id)]: the row that conflicts. *)
Definition sameKey (tmid chat : Z) (m : MessageData) : bool :=
  (telegram_message_id m =? tmid) && (chat_id m =? chat).

(** [user_id INTEGER NOT NULL REFERENCES users(id)]. *)
Definition userExists (db : Db) (uid : Z) : bool :=
  existsb (fun u => u_id u =? uid) (users db).

(** The message of the server; the constraint has the name the server
    gives to a column constraint without one. *)
Definition fkViolation : jsstring :=
  JS.js "insert or update on table " ++ [34%N] ++ JS.js "messages" ++ [34%N]
  ++ JS.js " violates foreign key constraint " ++ [34%N]
  ++ JS.js "messages_user_id_fkey" ++ [34%N].

(** [Message.create(data)]:
    [INSERT ... ON CONFLICT (telegram_message_id, chat_id) DO NOTHING
    RETURNING *] and then [result.rows[0] || null].  The sequence value is
    drawn before the conflict is looked for; a conflict inserts nothing and
    returns no row; without a conflict the foreign key is checked. *)
Definition create (db : Db) (now : Z) (data : CreateMessageData)
  : Db * Result (option MessageData) :=
  let newId := messages_id_seq db + 1 in
  let db' := {| users := users db; messages := messages db;
                messages_id_seq := newId |} in
  if existsb (sameKey (c_telegram_message_id data) (c_chat_id data)) (messages db)
  then (db', Ok None)
  else if userExists db (c_user_id data) then
    let row := {| id := newId; user_id := c_user_id data;
                  telegram_message_id := c_telegram_message_id data;
                  chat_id := c_chat_id data; text := c_text data;
                  created_at := now |} in
    ({| users := users db; messages := messages db ++ [row];
        messages_id_seq := newId |}, Ok (Some row))
  else (db', Throw fkViolation).

(** [User.findByTelegramId]: [result.rows[0] || null]. *)
Definition findByTelegramId (db : Db) (telegramId : Z) : option UserData :=
  List.find (fun u => u_telegram_id u =? telegramId) (users db).

(** [User.findByUsername]. *)
Definition findByUsername (db : Db) (username : jsstring) : option UserData :=
  List.find (fun u => match u_username u with
                      | Some n => JS.eqb n username
                      | None => false
                      end) (users db).

(** [ORDER BY created_at DESC]. *)
Fixpoint insertDesc (m : MessageData) (l : list MessageData) : list MessageData :=
  match l with
  | [] => [m]
  | x :: r => if created_at x <? created_at m then m :: l else x :: insertDesc m r
  end.

Definition orderByCreatedDesc (l : list MessageData) : list MessageData :=
  fold_right insertDesc [] l.

Record FindOptions := {
  o_chatId : option Z;
  o_limit : option Z;
  o_startDate : option Z;
  o_endDate : option Z }.

Definition limitOnly (limit : Z) : FindOptions :=
  {| o_chatId := None; o_limit := Some limit; o_startDate := None; o_endDate := None |}.

Definition negativeLimit : jsstring := JS.js "LIMIT must not be negative".

(** [Message.findByUserId(userId, options)].  [LIMIT] is added when
    [options.limit] is truthy; the server rejects a negative one. *)
Definition findByUserId (db : Db) (userId : Z) (o : FindOptions)
  : Result (list MessageData) :=
  let keep (m : MessageData) : bool :=
    (user_id m =? userId)
    && match o_chatId o with Some c => chat_id m =? c | None => true end
    && match o_startDate o with Some d => d <=? created_at m | None => true end
    && match o_endDate o with Some d => created_at m <=? d | None => true end in
  let rows := orderByCreatedDesc (List.filter keep (messages db)) in
  match o_limit o with
  | Some l =>
      if l =? 0 then Ok rows
      else if l <? 0 then Throw negativeLimit
      else Ok (firstn (Z.to_nat l) rows)
  | None => Ok rows
  end.

(** The dashboard's [getUserMessages(userId, limit)]:
    [SELECT text ... ORDER BY created_at DESC LIMIT $2]. *)
Definition selectTexts (db : Db) (userId : Z) (limit : Z) : Result (list jsstring) :=
  if limit <? 0 then Throw negativeLimit
  else Ok (List.map text
             (firstn (Z.to_nat limit)
                (orderByCreatedDesc
                   (List.filter (fun m => user_id m =? userId) (messages db))))).

End Store.

(** ** The analysis shared by the provider clients

    [createAnalysisPrompt] and [parseAnalysisResponse] have the same text
    in bot/src/services/geminiService.ts, deepseekService.ts,
    qwenService.ts (where the parser is written out inside [analyzeUser])
    and in web/app/api/analyze/route.ts. *)

Module Analysis.

Record UserAnalysis := {
  style : jsstring;
  topics : jsstring;
  averageLength : jsstring;
  activity : jsstring;
  tone : jsstring;
  features : jsstring;
  messageCount : Z;
  period : jsstring }.

(** The record returned when the user has no stored message. *)
Definition insufficientData : UserAnalysis :=
  {| style := JS.js "Недостаточно данных";
     topics := JS.js "Нет сообщений для анализа";
     averageLength := JS.js "0";
     activity := JS.js "Недостаточно данных";
     tone := JS.js "Недостаточно данных";
     features := JS.js "Нет данных";
     messageCount := 0;
     period := JS.js "все время" |}.

(** [s ? ... : ...] on [string | null]. *)
Definition truthyOpt (s : option jsstring) : bool :=
  match s with Some x => JS.truthy x | None => false end.

(** [username ? `@${username}` : firstName || 'Пользователь']. *)
Definition displayName (username firstName : option jsstring) : jsstring :=
  match username with
  | Some u => if JS.truthy u then JS.js "@" ++ u else
      match firstName with
      | Some f => if JS.truthy f then f else JS.js "Пользователь"
      | None => JS.js "Пользователь"
      end
  | None =>
      match firstName with
      | Some f => if JS.truthy f then f else JS.js "Пользователь"
      | None => JS.js "Пользователь"
      end
  end.

Definition maxLength : Z := 6000.

(** [Math.floor(n * 0.6)] for an array length [n].  The product is a
    binary64 number; it is the exact integer when 5 divides [n] and is
    otherwise at least 0.2 away from an integer, so that the floor is that
    of the rational 3n/5 ([floor_times_0_6_binary64] below computes the
    binary64 product and agrees with it). *)
Definition floor_times_0_6 (n : nat) : nat := (3 * n) / 5.

(** The same number through the binary64 product, as [Math.floor] and [*]
    compute it. *)
Definition floor_times_0_6_binary64 (n : nat) : Z :=
  let x := binary_normalize 53 1024 (Z.of_nat n) 0 false in
  let c := S754_finite false 5404319552844595 (-53) in
  match SFmul 53 1024 x c with
  | S754_finite false m e =>
      if 0 <=? e then Z.pos m * 2 ^ e else Z.pos m / 2 ^ (- e)
  | _ => 0
  end.

(** [a.slice(-k)] for an integer [k >= 0]: [-0] is [0], so that [k = 0]
    yields the whole array; otherwise the last [k] elements. *)
Definition sliceLast {A} (k : nat) (a : list A) : list A :=
  match k with
  | O => a
  | _ => skipn (List.length a - k) a
  end.

(** The messages whose text goes into the prompt: all of them, or
    [messages.slice(-Math.floor(messages.length * 0.6))] when the joined
    text is longer than [maxLength]. *)
Definition promptMessages (messages : list jsstring) : list jsstring :=
  if maxLength <? Z.of_nat (List.length (JS.join [JS.LF] messages))
  then sliceLast (floor_times_0_6 (List.length messages)) messages
  else messages.

Definition messagesText (messages : list jsstring) : jsstring :=
  JS.join [JS.LF] (promptMessages messages).

Definition promptFormat : jsstring :=
  JS.js "Формат ответа (только текст, без markdown):" ++ [JS.LF]
  ++ JS.js "Стиль: [формальный/неформальный, дружелюбный/строгий]" ++ [JS.LF]
  ++ JS.js "Темы: [основные темы через запятую]" ++ [JS.LF]
  ++ JS.js "Активность: [время суток активности, если видно]" ++ [JS.LF]
  ++ JS.js "Тональность: [позитивная/нейтральная/негативная]" ++ [JS.LF]
  ++ JS.js "Особенности: [частые слова, эмодзи, выражения]" ++ [JS.LF]
  ++ [JS.LF] ++ JS.js "Кратко и конкретно.".

(** [createAnalysisPrompt(messages, username, firstName)]. *)
Definition createAnalysisPrompt (messages : list jsstring)
  (username firstName : option jsstring) : jsstring :=
  JS.js "Проанализируй стиль общения " ++ displayName username firstName
  ++ JS.js " по сообщениям:" ++ [JS.LF; JS.LF]
  ++ messagesText messages ++ [JS.LF; JS.LF]
  ++ promptFormat.

(** The five labels, as the parser spells them. *)
Definition label_style : jsstring := Eval vm_compute in JS.js "стиль:".
Definition label_topics : jsstring := Eval vm_compute in JS.js "темы:".
Definition label_activity : jsstring := Eval vm_compute in JS.js "активность:".
Definition label_tone : jsstring := Eval vm_compute in JS.js "тональность:".
Definition label_features : jsstring := Eval vm_compute in JS.js "особенности:".

(** The values a field keeps when no line carries its label. *)
Definition default_style : jsstring := Eval vm_compute in JS.js "Не указан".
Definition default_topics : jsstring := Eval vm_compute in JS.js "Не указаны".
Definition default_activity : jsstring := Eval vm_compute in JS.js "Не указана".
Definition default_tone : jsstring := Eval vm_compute in JS.js "Не указана".
Definition default_features : jsstring := Eval vm_compute in JS.js "Не указаны".

(** [line.replace(/^label\s*/i, '')]. *)
Definition removeLabel (label line : jsstring) : jsstring :=
  if JS.matchesAtCI label line
  then JS.trimStart (skipn (List.length label) line)
  else line.

(** The five local variables of the parser. *)
Record Fields := {
  f_style : jsstring;
  f_topics : jsstring;
  f_activity : jsstring;
  f_tone : jsstring;
  f_features : jsstring }.

Definition noFields : Fields :=
  {| f_style := default_style; f_topics := default_topics;
     f_activity := default_activity; f_tone := default_tone;
     f_features := default_features |}.

(** The body of [for (const line of lines)]. *)
Definition parseLine (f : Fields) (line : jsstring) : Fields :=
  let lower := JS.toLowerCase line in
  if JS.startsWith lower label_style then
    {| f_style := JS.trim (removeLabel label_style line);
       f_topics := f_topics f; f_activity := f_activity f;
       f_tone := f_tone f; f_features := f_features f |}
  else if JS.startsWith lower label_topics then
    {| f_style := f_style f;
       f_topics := JS.trim (removeLabel label_topics line);
       f_activity := f_activity f; f_tone := f_tone f;
       f_features := f_features f |}
  else if JS.startsWith lower label_activity then
    {| f_style := f_style f; f_topics := f_topics f;
       f_activity := JS.trim (removeLabel label_activity line);
       f_tone := f_tone f; f_features := f_features f |}
  else if JS.startsWith lower label_tone then
    {| f_style := f_style f; f_topics := f_topics f;
       f_activity := f_activity f;
       f_tone := JS.trim (removeLabel label_tone line);
       f_features := f_features f |}
  else if JS.startsWith lower label_features then
    {| f_style := f_style f; f_topics := f_topics f;
       f_activity := f_activity f; f_tone := f_tone f;
       f_features := JS.trim (removeLabel label_features line) |}
  else f.

(** [responseText.split('\n').map((line) => line.trim()).filter((line) => line)]. *)
Definition responseLines (responseText : jsstring) : list jsstring :=
  List.filter JS.truthy (List.map JS.trim (JS.split JS.LF responseText)).

(** [parseAnalysisResponse(responseText, messageCount, averageLength)]. *)
Definition parseAnalysisResponse (responseText : jsstring)
  (messageCount averageLength : Z) : UserAnalysis :=
  let f := fold_left parseLine (responseLines responseText) noFields in
  {| style := f_style f;
     topics := f_topics f;
     averageLength := JS.ofNumber averageLength ++ JS.js " символов";
     activity := f_activity f;
     tone := f_tone f;
     features := f_features f;
     messageCount := messageCount;
     period := JS.js "все время" |}.

(** [Math.round(totalLength / messages.length)] with
    [totalLength = messages.reduce((sum, msg) => sum + msg.length, 0)]:
    halves round up. *)
Definition averageMessageLength (messages : list jsstring) : Z :=
  let totalLength := Z.of_nat (list_sum (List.map (@List.length N) messages)) in
  let n := Z.of_nat (List.length messages) in
  (2 * totalLength + n) / (2 * n).

(** [Math.min(options?.limit || 30, 30)]. *)
Definition fetchLimit (limit : option Z) : Z :=
  Z.min (match limit with
         | Some l => if l =? 0 then 30 else l
         | None => 30
         end) 30.

End Analysis.

(** ** bot/src/services/geminiService.ts: the retries and the fallback of
    models *)

Module GeminiGenerate.

(** What [model.generateContent] throws: [error.status] and
    [error.message]. *)
Record ApiError := {
  e_status : option Z;
  e_message : jsstring }.

Definition statusIs (e : ApiError) (code : Z) : bool :=
  match e_status e with Some s => s =? code | None => false end.

(** [error.status !== 429 && !error.message?.includes('429')], negated. *)
Definition isRateLimit (e : ApiError) : bool :=
  statusIs e 429 || JS.includes (e_message e) (JS.js "429").

(** What the service does that can be seen from outside, in order: a
    request to a model, and a pause of at least so many milliseconds (the
    jitter [Math.random() * 1000] comes on top). *)
Inductive GEvent :=
| GenerateContent (model : jsstring) (prompt : jsstring)
| Sleep (atLeast : Z).

(** [this.model], the number of requests made so far, and the events. *)
Record GState := {
  model : jsstring;
  calls : nat;
  trace : list GEvent }.

Definition unknownError : ApiError :=
  {| e_status := None;
     e_message := JS.js "Неизвестная ошибка при повторных попытках" |}.

Section Service.

(** The answer of the API to the request number [n] (from 0), made to a
    model with a prompt: the text of the response, or an error. *)
Variable respond : nat -> jsstring -> jsstring -> ApiError + jsstring.

(** The closure [generateContent] of [analyzeUser]. *)
Definition generateContent (prompt : jsstring) (st : GState)
  : GState * (ApiError + jsstring) :=
  ({| model := model st; calls := S (calls st);
      trace := trace st ++ [GenerateContent (model st) prompt] |},
   respond (calls st) (model st) prompt).

Definition sleep (atLeast : Z) (st : GState) : GState :=
  {| model := model st; calls := calls st;
     trace := trace st ++ [Sleep atLeast] |}.

(** The loop of [retryWithBackoff]: [left] turns remain, the next one is
    turn number [attempt]. *)
Fixpoint retryLoop (fn : GState -> GState * (ApiError + jsstring))
  (left : nat) (attempt : nat) (baseDelay : Z) (lastError : option ApiError)
  (st : GState) : GState * (ApiError + jsstring) :=
  match left with
  | O => (st, inl (match lastError with Some e => e | None => unknownError end))
  | S left' =>
      match fn st with
      | (st', inr text) => (st', inr text)
      | (st', inl error) =>
          if negb (isRateLimit error) then (st', inl error)
          else
            let delay := baseDelay * 2 ^ Z.of_nat attempt in
            retryLoop fn left' (S attempt) baseDelay (Some error) (sleep delay st')
      end
  end.

(** [retryWithBackoff(fn, maxRetries, baseDelay)]. *)
Definition retryWithBackoff (fn : GState -> GState * (ApiError + jsstring))
  (maxRetries : nat) (baseDelay : Z) (st : GState)
  : GState * (ApiError + jsstring) :=
  retryLoop fn maxRetries 0 baseDelay None st.

Definition fallbackModels : list jsstring :=
  [JS.js "gemini-2.5-flash"; JS.js "gemini-2.5-pro"; JS.js "gemini-1.5-flash";
   JS.js "gemini-1.5-pro"; JS.js "gemini-pro"].

Definition rateLimitMessage : jsstring :=
  JS.js "Превышен лимит запросов к API. Подождите минуту и попробуйте снова.".
Definition tooLargeMessage : jsstring :=
  JS.js "Запрос слишком большой. Попробуйте проанализировать пользователя с меньшим количеством сообщений.".
Definition accessMessage : jsstring :=
  JS.js "Проблема с доступом к API. Проверьте API ключ.".
Definition allModelsMessage (last : jsstring) : jsstring :=
  JS.js "Все модели Gemini недоступны. Последняя ошибка: " ++ last.

Definition setModel (name : jsstring) (st : GState) : GState :=
  {| model := name; calls := calls st; trace := trace st |}.

Definition undefinedText : jsstring :=
  JS.js "Cannot read properties of undefined (reading 'split')".

(** The loop over [fallbackModels]: the error of a model is passed over
    unless the model is the last of the list.  (After a loop over no
    model at all the text would still be [undefined], on which the parser
    throws; the list of the source has five.) *)
Fixpoint fallbackLoop (prompt : jsstring) (models : list jsstring) (st : GState)
  : GState * Result jsstring :=
  match models with
  | [] => (st, Throw undefinedText)
  | modelName :: rest =>
      match retryWithBackoff (generateContent prompt) 2 1000 (setModel modelName st) with
      | (st', inr text) => (st', Ok text)
      | (st', inl fallbackError) =>
          match rest with
          | [] => (st', Throw (allModelsMessage (e_message fallbackError)))
          | _ => fallbackLoop prompt rest st'
          end
      end
  end.

(** The text of the analysis, as [analyzeUser] obtains it from the prompt:
    three turns with the model in use, the errors of status 429, 400 and
    403 told apart, and the other models tried after an error that speaks
    of 404. *)
Definition generate (prompt : jsstring) (st : GState) : GState * Result jsstring :=
  match retryWithBackoff (generateContent prompt) 3 2000 st with
  | (st', inr text) => (st', Ok text)
  | (st', inl error) =>
      if statusIs error 429 then (st', Throw rateLimitMessage)
      else if statusIs error 400 then (st', Throw tooLargeMessage)
      else if statusIs error 403 then (st', Throw accessMessage)
      else if JS.truthy (e_message error)
              && (JS.includes (e_message error) (JS.js "404") || statusIs error 404)
      then fallbackLoop prompt fallbackModels st'
      else (st', Throw (e_message error))
  end.

End Service.

End GeminiGenerate.

(** ** The provider clients: bot/src/services/deepseekService.ts,
    qwenService.ts and geminiService.ts *)

Module Providers.

Import Analysis.

(** What [fetch] resolves to: the status, the body as [response.text()]
    reads it, and [data.choices?.[0]?.message?.content] of the body as
    [response.json()] reads it ([None] is [undefined]; reading the body
    may throw). *)
Record HttpResponse := {
  status : Z;
  bodyText : jsstring;
  jsonContent : Result (option jsstring) }.

(** [response.ok]. *)
Definition ok (r : HttpResponse) : bool := (200 <=? status r) && (status r <=? 299).

(** The content of the first choice of a chat completion, as
    [QwenService.analyzeUser] looks at it. *)
Inductive ContentPart :=
| PartString (s : jsstring)
| PartObject (text : option jsstring).

Inductive Content :=
| ContentString (s : jsstring)
| ContentParts (parts : list ContentPart)
| ContentUndefined
| ContentOther (json : jsstring).

(** The environment, the store and the three remote services. *)
Record World := {
  db : Store.Db;
  DEEPSEEK_API_KEY : option jsstring;
  DASHSCOPE_API_KEY : option jsstring;
  GEMINI_API_KEY : option jsstring;
  (** the model that [GeminiService.model] stands for, [None] while it is
      [null] *)
  geminiModel : option jsstring;
  (** [fetch(`${API_URL}/v1/chat/completions`, ...)] with this prompt *)
  deepseekFetch : jsstring -> Result HttpResponse;
  (** [client.chat.completions.create(...)]: the content of
      [choices[0].message], [None] when there is no such choice *)
  qwenCreate : jsstring -> Result (option Content);
  (** the answer of the Gemini API to the request number [n] (from 0) of
      a call of [analyzeUser], made to a model with a prompt *)
  geminiRespond : nat -> jsstring -> jsstring
                  -> GeminiGenerate.ApiError + jsstring }.

(** [isAvailable()]: [!!key]. *)
Definition isAvailable (w : World) (p : Provider) : bool :=
  match p with
  | DeepSeek => truthyOpt (DEEPSEEK_API_KEY w)
  | Qwen => truthyOpt (DASHSCOPE_API_KEY w)
  | Gemini => truthyOpt (GEMINI_API_KEY w)
  end.

(** [User.findByTelegramId], as an effect. *)
Definition findUser (w : World) (telegramUserId : Z) : M (option Store.UserData) :=
  _ ← emit (EvFindUser telegramUserId);
  mret (Store.findByTelegramId (db w) telegramUserId).

(** [getUserMessages(telegramUserId, limit)], the same in the three
    services. *)
Definition getUserMessages (w : World) (telegramUserId : Z) (limit : Z)
  : M (list jsstring) :=
  user ← findUser w telegramUserId;
  match user with
  | None => mret []
  | Some u =>
      match Store.findByUserId (db w) (Store.u_id u) (Store.limitOnly limit) with
      | Ok rows =>
          _ ← emit (EvFetchMessages (Store.u_id u) limit (List.length rows));
          mret (List.map Store.text rows)
      | Throw e =>
          _ ← emit (EvFetchMessages (Store.u_id u) limit 0);
          throw e
      end
  end.

(** The common beginning of the three [analyzeUser]: the user, the limit,
    the messages, and the early results.  [inl] is what [analyzeUser]
    returns at once, [inr] what the rest of it works with. *)
Definition prepare (w : World) (telegramUserId : Z) (limit : option Z)
  : M (option UserAnalysis + (Store.UserData * list jsstring)) :=
  user ← findUser w telegramUserId;
  match user with
  | None => mret (inl None)
  | Some u =>
      let limit := fetchLimit limit in
      messages ← getUserMessages w telegramUserId limit;
      if (List.length messages =? 0)%nat
      then mret (inl (Some insufficientData))
      else mret (inr (u, messages))
  end.

Module DeepSeekService.

Definition INSUFFICIENT_BALANCE : jsstring := JS.js "DEEPSEEK_INSUFFICIENT_BALANCE".

(** [`DeepSeek API ошибка: ${response.status} - ${errorText}`]. *)
Definition apiError (status : Z) (errorText : jsstring) : jsstring :=
  JS.js "DeepSeek API ошибка: " ++ JS.ofNumber status ++ JS.js " - " ++ errorText.

(** From [fetch] to the parsed analysis. *)
Definition complete (w : World) (prompt : jsstring) (messages : list jsstring)
  : M (option UserAnalysis) :=
  _ ← emit (EvCompletion DeepSeek prompt);
  response ← lift (deepseekFetch w prompt);
  if negb (ok response) then
    let errorText := bodyText response in
    if status response =? 402 then throw INSUFFICIENT_BALANCE
    else throw (apiError (status response) errorText)
  else
    content ← lift (jsonContent response);
    let analysisText := match content with Some c => c | None => [] end in
    if negb (JS.truthy analysisText) then throw (JS.js "Пустой ответ от DeepSeek API")
    else mret (Some (parseAnalysisResponse analysisText
                       (Z.of_nat (List.length messages))
                       (averageMessageLength messages))).

(** [DeepSeekService.analyzeUser(telegramUserId, options)]. *)
Definition analyzeUser (w : World) (telegramUserId : Z) (limit : option Z)
  : M (option UserAnalysis) :=
  if negb (truthyOpt (DEEPSEEK_API_KEY w))
  then throw (JS.js "DEEPSEEK_API_KEY не установлен")
  else
    r ← prepare w telegramUserId limit;
    match r with
    | inl early => mret early
    | inr (user, messages) =>
        let prompt := createAnalysisPrompt messages
                        (Store.u_username user) (Store.u_first_name user) in
        complete w prompt messages
    end.

End DeepSeekService.

Module QwenService.

(** [part => typeof part === 'string' ? part : part?.text ?? ''], joined. *)
Definition partsText (parts : list ContentPart) : jsstring :=
  concat (List.map (fun p => match p with
                             | PartString s => s
                             | PartObject (Some t) => t
                             | PartObject None => []
                             end) parts).

(** [QwenService.analyzeUser(telegramUserId, options)]. *)
Definition analyzeUser (w : World) (telegramUserId : Z) (limit : option Z)
  : M (option UserAnalysis) :=
  if negb (isAvailable w Qwen)
  then throw (JS.js "DASHSCOPE_API_KEY не установлен, Qwen недоступен")
  else
    r ← prepare w telegramUserId limit;
    match r with
    | inl early => mret early
    | inr (user, messages) =>
        let prompt := createAnalysisPrompt messages
                        (Store.u_username user) (Store.u_first_name user) in
        _ ← emit (EvCompletion Qwen prompt);
        choice ← lift (qwenCreate w prompt);
        match choice with
        | None => throw (JS.js "Пустой ответ от Qwen API")
        | Some content =>
            let analysisText :=
              match content with
              | ContentString s => s
              | ContentParts parts => partsText parts
              | ContentUndefined => []
              | ContentOther json => json
              end in
            if negb (JS.truthy analysisText)
            then throw (JS.js "Пустой текст ответа от Qwen API")
            else mret (Some (parseAnalysisResponse analysisText
                               (Z.of_nat (List.length messages))
                               (averageMessageLength messages)))
        end
    end.

End QwenService.

Module GeminiService.

(** The model that [initialize()] sets: the first of its list, whose
    creation sends nothing and does not fail. *)
Definition firstModel : jsstring := JS.js "gemini-3-flash-preview".

(** [!this.model]. *)
Definition modelSet (w : World) : bool :=
  match geminiModel w with Some _ => true | None => false end.

(** The service when [analyzeUser] comes to its request: the model in
    use, no request made yet. *)
Definition ready (w : World) : GeminiGenerate.GState :=
  {| GeminiGenerate.model :=
       match geminiModel w with Some m => m | None => firstModel end;
     GeminiGenerate.calls := 0;
     GeminiGenerate.trace := [] |}.

(** The requests to [generateContent] and the text or the error they end
    in, with the retries and the fallback of models. *)
Definition geminiGenerate (w : World) (prompt : jsstring)
  : GeminiGenerate.GState * Result jsstring :=
  GeminiGenerate.generate (geminiRespond w) prompt (ready w).

(** The requests of a trace, as events: the pauses are left out. *)
Definition requests (trace : list GeminiGenerate.GEvent) : list Event :=
  flat_map (fun e => match e with
                     | GeminiGenerate.GenerateContent _ prompt =>
                         [EvCompletion Gemini prompt]
                     | GeminiGenerate.Sleep _ => []
                     end) trace.

(** [GeminiService.analyzeUser(telegramUserId, options)].  [initialize()]
    runs first when no model is set and throws without a key. *)
Definition analyzeUser (w : World) (telegramUserId : Z) (limit : option Z)
  : M (option UserAnalysis) :=
  if negb (modelSet w) && negb (truthyOpt (GEMINI_API_KEY w))
  then throw (JS.js "GEMINI_API_KEY не установлен в переменных окружения")
  else
    r ← prepare w telegramUserId limit;
    match r with
    | inl early => mret early
    | inr (user, messages) =>
        let prompt := createAnalysisPrompt messages
                        (Store.u_username user) (Store.u_first_name user) in
        let generated := geminiGenerate w prompt in
        analysisText ← (requests (GeminiGenerate.trace (fst generated)),
                        snd generated);
        mret (Some (parseAnalysisResponse analysisText
                      (Z.of_nat (List.length messages))
                      (averageMessageLength messages)))
    end.

End GeminiService.

(** The three clients behind one name. *)
Definition analyzeUser (w : World) (p : Provider) : Z -> option Z -> M (option UserAnalysis) :=
  match p with
  | DeepSeek => DeepSeekService.analyzeUser w
  | Qwen => QwenService.analyzeUser w
  | Gemini => GeminiService.analyzeUser w
  end.

End Providers.

(** ** web/app/api/analyze/route.ts: the DeepSeek client of the dashboard *)

Module Route.

Import Analysis Providers.

(** [analyzeUserWithDeepseek(username)]. *)
Definition analyzeUserWithDeepseek (w : World) (username : jsstring)
  : M (option UserAnalysis) :=
  if negb (truthyOpt (DEEPSEEK_API_KEY w))
  then throw (JS.js "DEEPSEEK_API_KEY не установлен")
  else
    match Store.findByUsername (db w) username with
    | None => mret None
    | Some user =>
        let limit := 30 in
        messages ← lift (Store.selectTexts (db w) (Store.u_id user) limit);
        _ ← emit (EvFetchMessages (Store.u_id user) limit (List.length messages));
        if (List.length messages =? 0)%nat then mret (Some insufficientData)
        else
          let prompt := createAnalysisPrompt messages
                          (Store.u_username user) (Store.u_first_name user) in
          _ ← emit (EvCompletion DeepSeek prompt);
          response ← lift (deepseekFetch w prompt);
          if negb (ok response) then
            let errorText := bodyText response in
            if status response =? 402
            then throw DeepSeekService.INSUFFICIENT_BALANCE
            else throw (DeepSeekService.apiError (status response) errorText)
          else
            content ← lift (jsonContent response);
            let analysisText := match content with Some c => c | None => [] end in
            if negb (JS.truthy analysisText)
            then throw (JS.js "Пустой ответ от DeepSeek API")
            else mret (Some (parseAnalysisResponse analysisText
                               (Z.of_nat (List.length messages))
                               (averageMessageLength messages)))
    end.

End Route.

(** ** bot/src/handlers/analyzeHandlers.ts: the provider loop of /analyze *)

Module AnalyzeHandlers.

Import Analysis.

Definition providers : list Provider := [DeepSeek; Qwen; Gemini].

(** The variables of the loop; [broke] records that [break] was reached. *)
Record LoopState := {
  analysis : option UserAnalysis;
  usedService : option Provider;
  lastError : option jsstring;
  deepseekInsufficient : bool;
  broke : bool }.

Definition initial : LoopState :=
  {| analysis := None; usedService := None; lastError := None;
     deepseekInsufficient := false; broke := false |}.

Definition noAlternative : jsstring :=
  JS.js "DeepSeek API: недостаточно средств на счету. Альтернативные API (Qwen / Gemini) недоступны.".

Definition noProvider : jsstring :=
  JS.js "Ни один LLM‑провайдер не смог выполнить анализ. Проверьте настройки ключей API.".

Definition isDeepSeek (p : Provider) : bool :=
  match p with DeepSeek => true | _ => false end.

Section Orchestrator.

(** The three provider clients, as the handler sees them. *)
Variable isAvailable : Provider -> bool.
Variable analyzeUser : Provider -> Z -> option Z -> M (option UserAnalysis).

(** One turn of [for (const provider of providers)]: the three branches of
    the [try] block have the same text up to the name of the service. *)
Definition iteration (targetUserId : Z) (st : LoopState) (provider : Provider)
  : M LoopState :=
  tryCatch
    (if negb (isAvailable provider) then mret st
     else
       _ ← emit (EvAnalyzeUser provider);
       a ← analyzeUser provider targetUserId (Some 30);
       mret {| analysis := a; usedService := Some provider;
               lastError := lastError st;
               deepseekInsufficient := deepseekInsufficient st;
               broke := true |})
    (fun message =>
       mret {| analysis := analysis st; usedService := usedService st;
               lastError := Some message;
               deepseekInsufficient :=
                 if isDeepSeek provider
                    && JS.includes message (JS.js "INSUFFICIENT_BALANCE")
                 then true else deepseekInsufficient st;
               broke := false |}).

Fixpoint loop (targetUserId : Z) (ps : list Provider) (st : LoopState)
  : M LoopState :=
  match ps with
  | [] => mret st
  | p :: rest =>
      st' ← iteration targetUserId st p;
      if broke st' then mret st' else loop targetUserId rest st'
  end.

(** Lines 104 to 175 of [handleAnalyzeCommand]: the analysis and the name
    of the service that gave it, or the error thrown to the handler. *)
Definition runProviders (targetUserId : Z) : M (UserAnalysis * option Provider) :=
  st ← loop targetUserId providers initial;
  match analysis st with
  | Some a => mret (a, usedService st)
  | None =>
      if deepseekInsufficient st && negb (isAvailable Qwen)
         && negb (isAvailable Gemini)
      then throw noAlternative
      else match lastError st with
           | Some e => throw e
           | None => throw noProvider
           end
  end.

End Orchestrator.

End AnalyzeHandlers.

(** ** bot/src/services/digestService.ts: the parser of the digest *)

Module DigestService.

Record ChatDigestResult := {
  summary : jsstring;
  actionItems : list jsstring;
  topics : jsstring;
  tone : jsstring }.

Definition noTasks : jsstring := Eval vm_compute in JS.js "Нет явных задач.".

Definition hdrSummary : jsstring := Eval vm_compute in JS.js "Summary:".
Definition hdrAction : jsstring := Eval vm_compute in JS.js "Action items:".
Definition hdrContext : jsstring := Eval vm_compute in JS.js "Context:".

(** [s.match(/hdr\s*([\s\S]*?)(?:stop|$)/i)?.[1]]: the match starts at the
    leftmost [hdr]; the greedy [\s*] never gives back, since what follows
    can always match; the lazy group ends at the first [stop] or at the end
    of the text. *)
Definition section (hdr stop s : jsstring) : option jsstring :=
  match JS.afterFirstCI hdr s with
  | Some rest => Some (JS.upToCI stop (JS.trimStart rest))
  | None => None
  end.

(** The capture of [hdr], [\s*] and a greedy group running to the end of
    the text (the pattern of [contextMatch]). *)
Definition sectionToEnd (hdr s : jsstring) : option jsstring :=
  match JS.afterFirstCI hdr s with
  | Some rest => Some (JS.trimStart rest)
  | None => None
  end.

Fixpoint restOfLine (s : jsstring) : jsstring :=
  match s with
  | c :: r => if JS.isLineTerminator c then [] else c :: restOfLine r
  | [] => []
  end.

(** The capture of [hdr], [\s*] and a greedy run of [.], which stops at
    a line terminator (the pattern of [topicsMatch] and [toneMatch]). *)
Definition lineAfter (hdr s : jsstring) : option jsstring :=
  match JS.afterFirstCI hdr s with
  | Some rest => Some (restOfLine (JS.trimStart rest))
  | None => None
  end.

(** [x || d] on a capture. *)
Definition orElse (x : option jsstring) (d : jsstring) : jsstring :=
  match x with
  | Some v => if JS.truthy v then v else d
  | None => d
  end.

Definition minus : N := 45%N.

Fixpoint dropDashes (s : jsstring) : jsstring :=
  match s with
  | c :: r => if (c =? minus)%N then dropDashes r else s
  | [] => []
  end.

(** [line.replace(/^-+\s*/, '')]. *)
Definition stripMarker (line : jsstring) : jsstring :=
  match line with
  | c :: r => if (c =? minus)%N then JS.trimStart (dropDashes r) else line
  | [] => []
  end.

(** [actionBlock.split('\n').map((line) => line.replace(/^-+\s*/, '').trim()).filter(Boolean)]. *)
Definition actionLines (actionBlock : jsstring) : list jsstring :=
  List.filter JS.truthy
    (List.map (fun line => JS.trim (stripMarker line))
       (JS.split JS.LF actionBlock)).

(** The [actionItems] of [generateDigest], from the text of the model. *)
Definition parseActionItems (raw : jsstring) : list jsstring :=
  let actionMatch := section hdrAction hdrContext raw in
  let actionBlock := JS.trim (orElse actionMatch []) in
  if JS.truthy actionBlock then actionLines actionBlock else [noTasks].

(** The parsing half of [generateDigest]. *)
Definition parseDigest (raw : jsstring) : ChatDigestResult :=
  let summaryMatch := section hdrSummary hdrAction raw in
  let contextMatch := sectionToEnd hdrContext raw in
  let summary := JS.trim (orElse summaryMatch raw) in
  let ctx := orElse contextMatch [] in
  let topicsMatch := if JS.truthy ctx then lineAfter (JS.js "Темы:") ctx else None in
  let toneMatch := if JS.truthy ctx then lineAfter (JS.js "Тон:") ctx else None in
  {| summary := summary;
     actionItems := parseActionItems raw;
     topics := match topicsMatch with
               | Some t => if JS.truthy t then JS.trim t else JS.js "Не указаны"
               | None => JS.js "Не указаны"
               end;
     tone := match toneMatch with
             | Some t => if JS.truthy t then JS.trim t else JS.js "Не указан"
             | None => JS.js "Не указан"
             end |}.

(** [generateDigest]: [null] without messages, otherwise the parsed reply
    of the model ([generateWithLLM], which may throw). *)
Definition generateDigest (messages : list jsstring) (llm : jsstring -> Result jsstring)
  (prompt : jsstring) : Result (option ChatDigestResult) :=
  if (List.length messages =? 0)%nat then Ok None
  else match llm prompt with
       | Ok raw => Ok (Some (parseDigest raw))
       | Throw e => Throw e
       end.

End DigestService.

(** ** bot/src/models/Message.ts: the queries *)

Module MessageQueries.

Import Store.

(** The [WHERE] clause shared by the queries of [Message]: the filters that
    are given, joined by [AND]. *)
Definition matches (chatId startDate endDate : option Z) (m : MessageData) : bool :=
  match chatId with Some c => chat_id m =? c | None => true end
  && match startDate with Some d => d <=? created_at m | None => true end
  && match endDate with Some d => created_at m <=? d | None => true end.

(** [Message.countByUserId(userId, options)]: [COUNT] of the rows. *)
Definition countByUserId (db : Db) (userId : Z) (chatId startDate endDate : option Z)
  : Z :=
  Z.of_nat (List.length
              (List.filter (fun m => (user_id m =? userId)
                                     && matches chatId startDate endDate m)
                 (messages db))).

(** [COUNT(DISTINCT e)]. *)
Definition countDistinct (l : list Z) : Z :=
  Z.of_nat (List.length (nodup Z.eq_dec l)).

(** [Message.getStats(options)]: [(totalMessages, totalUsers)]. *)
Definition getStats (db : Db) (chatId startDate endDate : option Z) : Z * Z :=
  let rows := List.filter (matches chatId startDate endDate) (messages db) in
  (countDistinct (List.map id rows), countDistinct (List.map user_id rows)).

End MessageQueries.


(** ** bot/src/models/User.ts: [findOrCreate], and the text handler of
    bot/src/index.ts *)

Module Ingest.

Import Store.

(** The store with the sequence behind [users.id SERIAL]. *)
Record BotDb := {
  base : Db;
  users_id_seq : Z }.

(** [CreateUserData]; a missing, [null] or empty name is stored as
    [NULL] ([data.username || null]). *)
Record CreateUserData := {
  n_telegram_id : Z;
  n_username : option jsstring;
  n_first_name : option jsstring;
  n_last_name : option jsstring }.

Definition orNull (s : option jsstring) : option jsstring :=
  match s with
  | Some x => if JS.truthy x then Some x else None
  | None => None
  end.

(** [UPDATE users SET ... WHERE telegram_id = $4], on one row. *)
Definition updateUser (now : Z) (data : CreateUserData) (u : UserData) : UserData :=
  if u_telegram_id u =? n_telegram_id data then
    {| u_id := u_id u; u_telegram_id := u_telegram_id u;
       u_username := orNull (n_username data);
       u_first_name := orNull (n_first_name data);
       u_last_name := orNull (n_last_name data);
       u_created_at := u_created_at u; u_updated_at := now |}
  else u.

Definition withUsers (bdb : BotDb) (us : list UserData) (seq : Z) : BotDb :=
  {| base := {| users := us; messages := messages (base bdb);
                messages_id_seq := messages_id_seq (base bdb) |};
     users_id_seq := seq |}.

(** [User.findOrCreate(data)]: the store afterwards and the row returned
    ([rows[0]] of the [UPDATE] or of the [INSERT]). *)
Definition findOrCreate (bdb : BotDb) (now : Z) (data : CreateUserData)
  : BotDb * option UserData :=
  let found := List.filter (fun u => u_telegram_id u =? n_telegram_id data)
                 (users (base bdb)) in
  if (0 <? List.length found)%nat then
    let us := List.map (updateUser now data) (users (base bdb)) in
    (withUsers bdb us (users_id_seq bdb),
     List.find (fun u => u_telegram_id u =? n_telegram_id data) us)
  else
    let row := {| u_id := users_id_seq bdb + 1;
                  u_telegram_id := n_telegram_id data;
                  u_username := orNull (n_username data);
                  u_first_name := orNull (n_first_name data);
                  u_last_name := orNull (n_last_name data);
                  u_created_at := now; u_updated_at := now |} in
    (withUsers bdb (users (base bdb) ++ [row]) (users_id_seq bdb + 1), Some row).

(** What the handler of [bot.on('text')] reads from the update. *)
Inductive ChatType := Private | Group | Supergroup | Channel.

Record TextUpdate := {
  chat_type : ChatType;
  upd_chat_id : Z;
  (** [ctx.from], which an update may lack *)
  from : option CreateUserData;
  message_id : Z;
  message_text : jsstring }.

Definition SLASH : N := 47%N.

Definition withBase (bdb : BotDb) (db : Db) : BotDb :=
  {| base := db; users_id_seq := users_id_seq bdb |}.

(** The handler of text messages: commands and chats that are not groups
    are passed over; otherwise the sender is upserted and the message
    inserted.  An error of the store is caught and logged: what was done
    before it stays done. *)
Definition onText (bdb : BotDb) (now : Z) (u : TextUpdate) : BotDb :=
  if JS.startsWith (message_text u) [SLASH] then bdb
  else
    match chat_type u with
    | Group | Supergroup =>
        match from u with
        | Some sender =>
            match findOrCreate bdb now sender with
            | (bdb1, Some user) =>
                withBase bdb1
                  (fst (create (base bdb1) now
                          {| c_user_id := u_id user;
                             c_telegram_message_id := message_id u;
                             c_chat_id := upd_chat_id u;
                             c_text := message_text u |}))
            | (bdb1, None) => bdb1
            end
        | None => bdb
        end
    | _ => bdb
    end.

End Ingest.

(** ** bot/src/services/digestService.ts: the period, the messages, the
    prompt and the providers; bot/src/handlers/digestHandlers.ts *)

Module DigestFlow.

Import JSDate Store Analysis Providers DigestService.

(** [period: 'today' | 'yesterday']. *)
Inductive Period := Today | Yesterday.

(** [getDateRange(period)], with [now] the value of [new Date()], on a
    host of zone [z]: [(startDate, endDate)]. *)
Definition getDateRange (z : Zone) (period : Period) (now : Z) : Z * Z :=
  match period with
  | Yesterday =>
      let start := ofComponents z (getFullYear z now) (getMonth z now)
                     (getDate z now - 1) in
      let end_ := ofComponents z (getFullYear z now) (getMonth z now)
                    (getDate z now) in
      (start, end_)
  | Today =>
      let start := ofComponents z (getFullYear z now) (getMonth z now)
                     (getDate z now) in
      (start, now)
  end.

(** [ORDER BY created_at ASC]. *)
Fixpoint insertAsc (m : MessageData) (l : list MessageData) : list MessageData :=
  match l with
  | [] => [m]
  | x :: r => if created_at m <? created_at x then m :: l else x :: insertAsc m r
  end.

Definition orderByCreatedAsc (l : list MessageData) : list MessageData :=
  fold_right insertAsc [] l.

(** The rows of the chat within the range, both ends included. *)
Definition inPeriod (chatId startDate endDate : Z) (m : MessageData) : bool :=
  (chat_id m =? chatId) && (startDate <=? created_at m) && (created_at m <=? endDate).

(** The rows behind [getChatMessages]: [LIMIT $4] is always part of the
    query; the server rejects a negative one. *)
Definition chatRows (z : Zone) (db : Db) (chatId : Z) (period : Period)
  (maxMessages : Z) (now : Z) : Result (list MessageData) :=
  let '(startDate, endDate) := getDateRange z period now in
  if maxMessages <? 0 then Throw negativeLimit
  else Ok (firstn (Z.to_nat maxMessages)
             (orderByCreatedAsc
                (List.filter (inPeriod chatId startDate endDate) (messages db)))).

(** [getChatMessages({ chatId, period, maxMessages })]:
    [res.rows.map((row) => row.text)]. *)
Definition getChatMessages (z : Zone) (db : Db) (chatId : Z) (period : Period)
  (maxMessages : Z) (now : Z) : Result (list jsstring) :=
  match chatRows z db chatId period maxMessages now with
  | Ok rows => Ok (List.map text rows)
  | Throw e => Throw e
  end.

Definition digestMaxLength : Z := 8000.

(** The messages whose text goes into the digest prompt. *)
Definition digestMessages (messages : list jsstring) : list jsstring :=
  if digestMaxLength <? Z.of_nat (List.length (JS.join [JS.LF] messages))
  then sliceLast (floor_times_0_6 (List.length messages)) messages
  else messages.

Definition QUOTE : N := 34%N.

(** [createDigestPrompt(messages, periodLabel)]. *)
Definition createDigestPrompt (messages : list jsstring) (periodLabel : jsstring)
  : jsstring :=
  JS.join [JS.LF]
    [ JS.js "Ты помощник, который делает дайджест группового чата Telegram.";
      JS.js "Ниже — сообщения за период: " ++ periodLabel ++ JS.js ".";
      [];
      JS.js "Твоя задача:";
      JS.js "1) Кратко пересказать, что обсуждали (2–4 предложения).";
      JS.js "2) Выделить список action items / задач (по пунктам).";
      JS.js "3) Описать основные темы и общее настроение участников.";
      [];
      JS.js "Формат ответа (строго придерживайся структуры, без markdown, только текст):";
      [];
      JS.js "Summary:";
      JS.js "- [краткий пересказ в 2–4 предложениях]";
      [];
      JS.js "Action items:";
      JS.js "- [задача 1]";
      JS.js "- [задача 2]";
      JS.js "- [и т.д.; если задач нет, напиши один пункт " ++ [QUOTE]
        ++ JS.js "Нет явных задач" ++ [QUOTE] ++ JS.js "]";
      [];
      JS.js "Context:";
      JS.js "- Темы: [перечисли основные темы через запятую]";
      JS.js "- Тон: [кратко опиши общее настроение: позитивное / нейтральное / напряжённое и т.п.]";
      [];
      JS.js "Сообщения чата:";
      JS.join [JS.LF] (digestMessages messages) ].

(** The content of the first choice as the digest looks at it: a string,
    another value (given by its JSON text), or nothing. *)
Inductive DigestContent :=
| DString (s : jsstring)
| DOther (json : jsstring)
| DNothing.

Definition allUnavailable : jsstring :=
  JS.js "Все LLM‑провайдеры недоступны для дайджеста".

Definition order : list Provider := [Qwen; Gemini; DeepSeek].

Section LLM.

(** The zone of the host, the keys, and what the three remote services
    answer to a digest request. *)
Variable zone : Zone.
Variable w : World.
Variable qwenDigest : jsstring -> Result DigestContent.
Variable geminiDigest : jsstring -> Result jsstring.
Variable deepseekDigest : jsstring -> Result HttpResponse.

(** What one iteration of [generateWithLLM] does for an available
    provider. *)
Definition callProvider (p : Provider) (prompt : jsstring) : M jsstring :=
  _ ← emit (EvCompletion p prompt);
  match p with
  | Qwen =>
      content ← lift (qwenDigest prompt);
      match content with
      | DString s =>
          if JS.truthy s then mret s else throw (JS.js "Пустой ответ от Qwen")
      | DOther json => mret json
      | DNothing => throw (JS.js "Пустой ответ от Qwen")
      end
  | Gemini => lift (geminiDigest prompt)
  | DeepSeek =>
      res ← lift (deepseekDigest prompt);
      content ← lift (jsonContent res);
      let text := match content with Some c => c | None => [] end in
      if negb (JS.truthy text) then throw (JS.js "Пустой ответ от DeepSeek")
      else mret text
  end.

(** The loop of [generateWithLLM] over the providers left, with
    [lastError]. *)
Fixpoint llmLoop (ps : list Provider) (lastError : option jsstring)
  (prompt : jsstring) : M jsstring :=
  match ps with
  | [] => throw (match lastError with Some e => e | None => allUnavailable end)
  | p :: rest =>
      if isAvailable w p then
        tryCatch (callProvider p prompt)
          (fun e => llmLoop rest (Some e) prompt)
      else llmLoop rest lastError prompt
  end.

(** [generateWithLLM(prompt)]. *)
Definition generateWithLLM (prompt : jsstring) : M jsstring :=
  llmLoop order None prompt.

Definition periodLabel (period : Period) : jsstring :=
  match period with
  | Today => JS.js "сегодня"
  | Yesterday => JS.js "вчера"
  end.

(** [generateDigest(options)]: [options.period || 'today'] and
    [options.maxMessages ?? 200]. *)
Definition generateDigest (chatId : Z) (period : option Period)
  (maxMessages : option Z) (now : Z) : M (option ChatDigestResult) :=
  let period := match period with Some p => p | None => Today end in
  let maxMessages := match maxMessages with Some n => n | None => 200 end in
  messages ← lift (getChatMessages zone (db w) chatId period maxMessages now);
  if (List.length messages =? 0)%nat then mret None
  else
    let prompt := createDigestPrompt messages (periodLabel period) in
    raw ← generateWithLLM prompt;
    mret (Some (parseDigest raw)).

End LLM.

(** What a handler asks of Telegram: [ctx.reply(text)], and
    [ctx.telegram.editMessageText] on the notice it has sent, with a plain
    text or with a text to be read as Markdown. *)
Inductive Sent :=
| Reply (text : jsstring)
| EditMessage (text : jsstring)
| EditMarkdown (text : jsstring).

(** What a handler leaves behind: the events of the services it called,
    its requests to Telegram in order, and whether it returned; it does
    not when the error of its last request leaves it. *)
Record Handled := {
  h_events : list Event;
  h_sent : list Sent;
  h_returned : bool }.

Section Telegram.

(** The answer of Telegram to the request number [n] (from 0) of a
    handler: [None] when the request is carried out, otherwise the message
    of the error that the request throws. *)
Variable refusal : nat -> Sent -> option jsstring.

(** [await] of a request: the requests made so far, this one included,
    and its error, if any. *)
Definition request (sent : list Sent) (s : Sent) : list Sent * option jsstring :=
  (sent ++ [s], refusal (List.length sent) s).

(** A request after which the handler returns; when it is refused,
    [recover], the [catch] around it, takes over with the message. *)
Definition finish (log : list Event) (sent : list Sent) (s : Sent)
  (recover : list Sent -> jsstring -> Handled) : Handled :=
  match request sent s with
  | (sent', None) => {| h_events := log; h_sent := sent'; h_returned := true |}
  | (sent', Some message) => recover sent' message
  end.

(** The [catch] of a handler as a whole: one reply; [ctx.reply] is always
    there, and an error of this reply leaves the handler. *)
Definition lastReply (text : jsstring) (log : list Event) (sent : list Sent)
  : Handled :=
  match request sent (Reply text) with
  | (sent', None) => {| h_events := log; h_sent := sent'; h_returned := true |}
  | (sent', Some _) => {| h_events := log; h_sent := sent'; h_returned := false |}
  end.

End Telegram.

Definition bulletItem (item : jsstring) : jsstring := JS.js "• " ++ item.

(** The text of the digest message. *)
Definition digestText (d : ChatDigestResult) : jsstring :=
  JS.js "🧾 Дайджест чата за сегодня" ++ [JS.LF; JS.LF]
  ++ JS.js "📝 *Краткий пересказ*" ++ [JS.LF] ++ summary d ++ [JS.LF; JS.LF]
  ++ JS.js "✅ *Action items*" ++ [JS.LF]
  ++ (if (0 <? List.length (actionItems d))%nat
      then JS.join [JS.LF] (List.map bulletItem (actionItems d))
      else JS.js "• Нет явных задач.")
  ++ [JS.LF; JS.LF]
  ++ JS.js "🔍 *Контекст*" ++ [JS.LF]
  ++ JS.js "• Темы: " ++ DigestService.topics d ++ [JS.LF]
  ++ JS.js "• Тон: " ++ DigestService.tone d.

Definition isGroupChat (t : option Ingest.ChatType) : bool :=
  match t with
  | Some Ingest.Group | Some Ingest.Supergroup => true
  | _ => false
  end.

Definition onlyGroups : jsstring :=
  JS.js "❌ Дайджест доступен только в групповых чатах.".
Definition waitingText : jsstring :=
  JS.js "⏳ Собираю сообщения за сегодня и готовлю дайджест… Это может занять до 10–15 секунд.".
Definition noMessagesText : jsstring :=
  JS.js "📭 За сегодня пока нет сообщений для дайджеста.".
Definition failedText : jsstring :=
  JS.js "❌ Не удалось сформировать дайджест. Попробуйте позже.".

Definition digestError : jsstring :=
  JS.js "Произошла ошибка при формировании дайджеста.".

(** [handleDigestCommand(ctx)], for the chat of the update ([None] when
    [ctx.chat] is missing) and the run of [generateDigest] for that chat,
    which is started only in a group chat and once the notice is sent.
    The digest is sent as Markdown; an error of [generateDigest] or of an
    edit is caught by the inner [catch], which edits the notice of failure
    in; an error of that edit, or of a reply, by the outer one. *)
Definition handleDigestCommand (refusal : nat -> Sent -> option jsstring)
  (chat : option Ingest.ChatType) (digest : M (option ChatDigestResult))
  : Handled :=
  let outer (log : list Event) :=
    fun (sent : list Sent) (_ : jsstring) => lastReply refusal digestError log sent in
  if negb (isGroupChat chat)
  then finish refusal [] [] (Reply onlyGroups) (outer [])
  else
    match request refusal [] (Reply waitingText) with
    | (sent, Some message) => outer [] sent message
    | (sent, None) =>
        let '(log, r) := digest in
        let inner :=
          fun (sent : list Sent) (_ : jsstring) =>
            finish refusal log sent (EditMessage failedText) (outer log) in
        match r with
        | Ok None => finish refusal log sent (EditMessage noMessagesText) inner
        | Ok (Some d) => finish refusal log sent (EditMarkdown (digestText d)) inner
        | Throw e => inner sent e
        end
    end.

End DigestFlow.

(** ** bot/src/handlers/statsHandlers.ts and bot/src/index.ts: the buttons
    of the statistics and the actions they lead to *)

Module StatsMenu.

(** [Markup.button.callback(text, data)]. *)
Record Button := {
  label : jsstring;
  callback_data : jsstring }.

(** [createPeriodButtons(chatId, currentPeriod?)]: three rows. *)
Definition createPeriodButtons (chatId : Z) : list (list Button) :=
  [ [ {| label := JS.js "📅 За сегодня";
         callback_data := JS.js "stats:period:" ++ JS.ofNumber chatId ++ JS.js ":today" |};
      {| label := JS.js "📆 За неделю";
         callback_data := JS.js "stats:period:" ++ JS.ofNumber chatId ++ JS.js ":week" |} ];
    [ {| label := JS.js "📊 За месяц";
         callback_data := JS.js "stats:period:" ++ JS.ofNumber chatId ++ JS.js ":month" |};
      {| label := JS.js "🌐 За всё время";
         callback_data := JS.js "stats:period:" ++ JS.ofNumber chatId ++ JS.js ":all" |} ];
    [ {| label := JS.js "🔙 Назад";
         callback_data := JS.js "stats:menu:" ++ JS.ofNumber chatId |} ] ].

(** [createStatsMenu(chatId)]: two rows. *)
Definition createStatsMenu (chatId : Z) : list (list Button) :=
  [ [ {| label := JS.js "📊 Общая статистика";
         callback_data := JS.js "stats:general:" ++ JS.ofNumber chatId |} ];
    [ {| label := JS.js "👤 Статистика пользователя";
         callback_data := JS.js "stats:user:" ++ JS.ofNumber chatId |} ] ].

(** The handlers that [bot.action] registers, with what they are called
    with. *)
Inductive Action :=
| GeneralStats (chatId : Z)
| UserStats (chatId : Z)
| PeriodSelection (chatId : Z) (period : jsstring)
| BackToMenu (chatId : Z).

(** [\d] and [\w] of a regular expression without flags. *)
Definition isDigit (c : N) : bool := ((48 <=? c) && (c <=? 57))%N.

Definition isWord (c : N) : bool :=
  ((48 <=? c) && (c <=? 57) || (65 <=? c) && (c <=? 90)
   || (97 <=? c) && (c <=? 122) || (c =? 95))%N.

Fixpoint takeWhile (f : N -> bool) (s : jsstring) : jsstring :=
  match s with
  | c :: r => if f c then c :: takeWhile f r else []
  | [] => []
  end.

(** [(-?\d+)] at the start of [s]: the capture and what follows it.  Both
    quantifiers are greedy, and in the patterns below no shorter match can
    succeed where the longest fails. *)
Definition intCapture (s : jsstring) : option (jsstring * jsstring) :=
  let '(sign, r) := match s with
                    | c :: r => if (c =? 45)%N then ([c], r) else ([], s)
                    | [] => ([], s)
                    end in
  let digits := takeWhile isDigit r in
  match digits with
  | [] => None
  | _ => Some (sign ++ digits, skipn (List.length digits) r)
  end.

(** [parseInt] of a capture of [(-?\d+)]: its decimal value. *)
Definition parseInt (capture : jsstring) : Z :=
  match NilZero.int_of_string
          (string_of_list_ascii (List.map ascii_of_N capture)) with
  | Some d => Z.of_int d
  | None => 0
  end.

(** What is left of [s] after the literal [prefix] that opens a pattern
    anchored with [^]. *)
Definition afterPrefix (prefix s : jsstring) : option jsstring :=
  if JS.startsWith s prefix then Some (skipn (List.length prefix) s) else None.

(** [^prefix(-?\d+)$]. *)
Definition chatOnly (prefix data : jsstring) : option Z :=
  match afterPrefix prefix data with
  | Some rest =>
      match intCapture rest with
      | Some (capture, []) => Some (parseInt capture)
      | _ => None
      end
  | None => None
  end.

(** [^stats:period:(-?\d+):(\w+)$]. *)
Definition chatAndPeriod (data : jsstring) : option (Z * jsstring) :=
  match afterPrefix (JS.js "stats:period:") data with
  | Some rest =>
      match intCapture rest with
      | Some (capture, c :: period) =>
          if (c =? 58)%N && JS.truthy period && forallb isWord period
          then Some (parseInt capture, period)
          else None
      | _ => None
      end
  | None => None
  end.

(** The actions in the order of their registration; the first whose
    pattern matches the data of the button handles it. *)
Definition dispatch (data : jsstring) : option Action :=
  match chatOnly (JS.js "stats:general:") data with
  | Some chatId => Some (GeneralStats chatId)
  | None =>
      match chatOnly (JS.js "stats:user:") data with
      | Some chatId => Some (UserStats chatId)
      | None =>
          match chatAndPeriod data with
          | Some (chatId, period) => Some (PeriodSelection chatId period)
          | None =>
              match chatOnly (JS.js "stats:menu:") data with
              | Some chatId => Some (BackToMenu chatId)
              | None => None
              end
          end
      end
  end.

End StatsMenu.

(** ** web/app/api/analyze/route.ts: the other two clients and the handler
    of [POST] *)

Module Dashboard.

Import Analysis Providers.

Definition models : list jsstring :=
  [JS.js "gemini-3-flash-preview"; JS.js "gemini-2.5-flash"; JS.js "gemini-2.5-pro";
   JS.js "gemini-1.5-flash"; JS.js "gemini-pro"].

Definition notAFunction : jsstring := JS.js "responseText.split is not a function".

(** [String.prototype.replace] with the pattern ['@'] and the replacement
    ['']: the first occurrence goes. *)
Fixpoint removeFirstAt (s : jsstring) : jsstring :=
  match s with
  | c :: r => if (c =? 64)%N then r else c :: removeFirstAt r
  | [] => []
  end.

(** [username.replace('@', '').trim()]. *)
Definition cleanUsername (username : jsstring) : jsstring :=
  JS.trim (removeFirstAt username).

(** [provider && ['qwen', 'gemini', 'deepseek'].includes(provider)]. *)
Definition selectedProvider (provider : option jsstring) : option Provider :=
  match provider with
  | Some s =>
      if JS.eqb s (JS.js "qwen") then Some Qwen
      else if JS.eqb s (JS.js "gemini") then Some Gemini
      else if JS.eqb s (JS.js "deepseek") then Some DeepSeek
      else None
  | None => None
  end.

(** ['auto'] is DeepSeek, Qwen, Gemini; a provider that is named is asked
    alone. *)
Definition order (provider : option jsstring) : list Provider :=
  match selectedProvider provider with
  | Some p => [p]
  | None => [DeepSeek; Qwen; Gemini]
  end.

(** The body of the request: [username] when it is a string, and
    [provider] when it is one. *)
Record Body := {
  b_username : option jsstring;
  b_provider : option jsstring }.

Record Response := {
  r_status : Z;
  r_body : jsstring + UserAnalysis }.

(** [recentAnalyses]: the user name and the time of the analysis. *)
Definition Recent : Type := list (jsstring * Z).

Definition errorResponse (status : Z) (message : jsstring) : Response :=
  {| r_status := status; r_body := inl message |}.

Section Handler.

Variable w : World.
(** [model.generateContent(prompt)] of the model of that name. *)
Variable geminiByModel : jsstring -> jsstring -> Result jsstring.

(** The first lines of the three clients: the user, the messages, and the
    early results. *)
Definition gather (username : jsstring)
  : M (option UserAnalysis + (Store.UserData * list jsstring)) :=
  match Store.findByUsername (db w) username with
  | None => mret (inl None)
  | Some user =>
      let limit := 30 in
      messages ← lift (Store.selectTexts (db w) (Store.u_id user) limit);
      _ ← emit (EvFetchMessages (Store.u_id user) limit (List.length messages));
      if (List.length messages =? 0)%nat then mret (inl (Some insufficientData))
      else mret (inr (user, messages))
  end.

(** The loop over the models of [analyzeUserWithGemini]: the error of a
    model is passed over unless the model is the last. *)
Fixpoint tryModels (prompt : jsstring) (names : list jsstring) : M jsstring :=
  match names with
  | [] => mret []
  | name :: rest =>
      _ ← emit (EvCompletion Gemini prompt);
      match geminiByModel name prompt with
      | Ok text => mret text
      | Throw e =>
          match rest with
          | [] => throw e
          | _ => tryModels prompt rest
          end
      end
  end.

(** [analyzeUserWithGemini(username)]. *)
Definition analyzeUserWithGemini (username : jsstring) : M (option UserAnalysis) :=
  if negb (truthyOpt (GEMINI_API_KEY w))
  then throw (JS.js "GEMINI_API_KEY не установлен")
  else
    r ← gather username;
    match r with
    | inl early => mret early
    | inr (user, messages) =>
        let prompt := createAnalysisPrompt messages
                        (Store.u_username user) (Store.u_first_name user) in
        analysisText ← tryModels prompt models;
        mret (Some (parseAnalysisResponse analysisText
                      (Z.of_nat (List.length messages))
                      (averageMessageLength messages)))
    end.

(** [part => typeof part === 'string' ? part : part.text || ''], joined by
    line feeds. *)
Definition partsLines (parts : list ContentPart) : jsstring :=
  JS.join [JS.LF]
    (List.map (fun p => match p with
                        | PartString s => s
                        | PartObject (Some t) => t
                        | PartObject None => []
                        end) parts).

(** A content that is neither a string nor an array, given by its JSON
    text, is falsy when it is [null], [0] or [false]. *)
Definition falsyJson (json : jsstring) : bool :=
  JS.eqb json (JS.js "null") || JS.eqb json (JS.js "0") || JS.eqb json (JS.js "false").

(** [analyzeUserWithQwen(username)].  A content of another kind that is
    not falsy reaches the parser, which cannot split it. *)
Definition analyzeUserWithQwen (username : jsstring) : M (option UserAnalysis) :=
  if negb (truthyOpt (DASHSCOPE_API_KEY w))
  then throw (JS.js "DASHSCOPE_API_KEY не установлен")
  else
    r ← gather username;
    match r with
    | inl early => mret early
    | inr (user, messages) =>
        let prompt := createAnalysisPrompt messages
                        (Store.u_username user) (Store.u_first_name user) in
        _ ← emit (EvCompletion Qwen prompt);
        choice ← lift (qwenCreate w prompt);
        match choice with
        | Some (ContentOther json) =>
            if falsyJson json then throw (JS.js "Пустой ответ от Qwen")
            else throw notAFunction
        | _ =>
            let analysisText :=
              match choice with
              | Some (ContentString s) => s
              | Some (ContentParts parts) => partsLines parts
              | _ => []
              end in
            if negb (JS.truthy analysisText) then throw (JS.js "Пустой ответ от Qwen")
            else mret (Some (parseAnalysisResponse analysisText
                               (Z.of_nat (List.length messages))
                               (averageMessageLength messages)))
        end
    end.

Definition analyzeWith (p : Provider) (username : jsstring) : M (option UserAnalysis) :=
  match p with
  | DeepSeek => Route.analyzeUserWithDeepseek w username
  | Qwen => analyzeUserWithQwen username
  | Gemini => analyzeUserWithGemini username
  end.

(** [for (const p of order)], with [analysis] and [lastError]. *)
Fixpoint providerLoop (username : jsstring) (ps : list Provider)
  (analysis : option UserAnalysis) (lastError : option jsstring)
  : list Event * (option UserAnalysis * option jsstring) :=
  match ps with
  | [] => ([], (analysis, lastError))
  | p :: rest =>
      match analysis with
      | Some _ => ([], (analysis, lastError))
      | None =>
          match analyzeWith p username with
          | (log, Ok a) =>
              let '(log', r) := providerLoop username rest a lastError in
              (log ++ log', r)
          | (log, Throw e) =>
              let '(log', r) := providerLoop username rest None (Some e) in
              (log ++ log', r)
          end
      end
  end.

Definition analysisError (message : jsstring) : jsstring :=
  JS.js "Ошибка при анализе: " ++ message.

(** [POST(request)]: the body as [request.json()] gives it (or its
    error), the list of recent analyses before, and the time.  The events,
    the response and the list afterwards. *)
Definition POST (body : Result Body) (recent : Recent) (now : Z)
  : list Event * (Response * Recent) :=
  match body with
  | Throw e => ([], (errorResponse 500 (analysisError e), recent))
  | Ok b =>
      match b_username b with
      | None => ([], (errorResponse 400 (JS.js "Username обязателен"), recent))
      | Some username =>
          if negb (JS.truthy username)
          then ([], (errorResponse 400 (JS.js "Username обязателен"), recent))
          else
            let clean := cleanUsername username in
            if negb (JS.truthy clean)
            then ([], (errorResponse 400 (JS.js "Username не может быть пустым"), recent))
            else
              match Store.findByUsername (db w) clean with
              | None =>
                  ([], (errorResponse 404
                          (JS.js "Пользователь @" ++ clean
                           ++ JS.js " не найден в базе данных"), recent))
              | Some _ =>
                  let '(log, (analysis, lastError)) :=
                    providerLoop clean (order (b_provider b)) None None in
                  match analysis with
                  | None =>
                      let message :=
                        match lastError with
                        | Some e => e
                        | None => JS.js "Не удалось выполнить анализ пользователя"
                        end in
                      (log, (errorResponse 500 (analysisError message), recent))
                  | Some a =>
                      (log, ({| r_status := 200; r_body := inr a |},
                             firstn 10 ((clean, now) :: recent)))
                  end
              end
      end
  end.

End Handler.

End Dashboard.

(** ** bot/src/handlers/analyzeHandlers.ts: the target of [/analyze] and
    what is sent *)

Module AnalyzeCommand.

Import Analysis Providers AnalyzeHandlers.

(** What the handler reads from the update of a text command: the text,
    the sender of the message replied to, and the sender of the command
    ([None] where the update has none). *)
Record Command := {
  c_text : jsstring;
  c_reply_from : option Z;
  c_sender : option Z }.

(** [text.match(/@(\w+)/)?.[1]]: the word after the leftmost [@] that has
    a word character behind it. *)
Fixpoint firstMention (s : jsstring) : option jsstring :=
  match s with
  | [] => None
  | c :: r =>
      if (c =? 64)%N then
        match StatsMenu.takeWhile StatsMenu.isWord r with
        | [] => firstMention r
        | name => Some name
        end
      else firstMention r
  end.

Inductive Target :=
| Analyse (telegramId : Z)
| UnknownUsername (username : jsstring)
| Usage.

(** [if (!targetUserId)] on an id of the update, a number: 0 is as good
    as none. *)
Definition checked (id : Z) : Target := if id =? 0 then Usage else Analyse id.

(** Whom the command is about: the sender of the message replied to,
    else the user named in the text, else the sender of the command.  The
    id of a user found by name is [user.telegram_id] as the driver hands a
    BIGINT column over, the text of the number (bot/src/config/database.ts
    sets no parser), and no such text is falsy: a user found by name is
    analysed whatever the id. *)
Definition resolveTarget (db : Store.Db) (cmd : Command) : Target :=
  match c_reply_from cmd with
  | Some id => checked id
  | None =>
      match firstMention (c_text cmd) with
      | Some username =>
          match Store.findByUsername db username with
          | Some user => Analyse (Store.u_telegram_id user)
          | None => UnknownUsername username
          end
      | None =>
          match c_sender cmd with
          | Some id => checked id
          | None => Usage
          end
      end
  end.

Definition serviceName (p : option Provider) : jsstring :=
  match p with
  | Some DeepSeek => JS.js "DeepSeek"
  | Some Qwen => JS.js "Qwen"
  | Some Gemini => JS.js "Gemini"
  | None => []
  end.

(** [formatAnalysisResult(analysis, username, firstName)] for an analysis
    that is there. *)
Definition formatAnalysisResult (a : UserAnalysis) (username firstName : option jsstring)
  : jsstring :=
  let displayName :=
    if truthyOpt username
    then JS.js "@" ++ match username with Some u => u | None => [] end
    else if truthyOpt firstName
         then match firstName with Some f => f | None => [] end
         else JS.js "Неизвестный" in
  JS.js "🔍 Анализ пользователя " ++ displayName ++ [JS.LF; JS.LF]
  ++ JS.js "📝 Стиль: " ++ style a ++ [JS.LF]
  ++ JS.js "💬 Темы: " ++ topics a ++ [JS.LF]
  ++ JS.js "📏 Средняя длина сообщений: " ++ averageLength a ++ [JS.LF]
  ++ JS.js "⏰ Активность: " ++ activity a ++ [JS.LF]
  ++ JS.js "😊 Тональность: " ++ tone a ++ [JS.LF]
  ++ JS.js "✨ Особенности: " ++ features a ++ [JS.LF; JS.LF]
  ++ JS.js "📊 На основе " ++ JS.ofNumber (messageCount a)
  ++ JS.js " сообщений за " ++ period a ++ JS.js ".".

Definition usageText : jsstring :=
  JS.js "❌ Не удалось определить пользователя для анализа." ++ [JS.LF; JS.LF]
  ++ JS.js "Использование:" ++ [JS.LF]
  ++ JS.js "• /analyze @username - анализ по username" ++ [JS.LF]
  ++ JS.js "• /analyze (reply на сообщение) - анализ пользователя из сообщения" ++ [JS.LF]
  ++ JS.js "• /analyze - анализ вашего профиля".

Definition unknownUsernameText (username : jsstring) : jsstring :=
  JS.js "❌ Пользователь @" ++ username ++ JS.js " не найден в базе данных.".

Definition processingText : jsstring :=
  JS.js "⏳ Анализирую пользователя... Это может занять несколько секунд.".

Definition notStoredText : jsstring := JS.js "❌ Пользователь не найден в базе данных.".

Definition limitNotice : jsstring :=
  JS.js "⚠️ Превышен лимит запросов к API. Подождите минуту и попробуйте снова.".
Definition tooMuchNotice : jsstring :=
  JS.js "⚠️ Слишком много данных для анализа. Попробуйте пользователя с меньшим количеством сообщений.".
Definition accessNotice : jsstring :=
  JS.js "⚠️ Проблема с доступом к API. Проверьте настройки.".
Definition failureNotice : jsstring :=
  JS.js "❌ Произошла ошибка при анализе пользователя.".

(** The notice for the message of an error, in the [catch] of the
    analysis. *)
Definition errorNotice (message : jsstring) : jsstring :=
  if JS.truthy message && JS.includes message (JS.js "лимит") then limitNotice
  else if JS.truthy message && JS.includes message (JS.js "слишком большой")
  then tooMuchNotice
  else if JS.truthy message && JS.includes message (JS.js "API ключ") then accessNotice
  else failureNotice.

Definition commandError : jsstring :=
  JS.js "Произошла ошибка при обработке команды.".

(** [handleAnalyzeCommand(ctx)] for a text command: the events of the
    analysis and the requests to Telegram.  An error of the providers or
    of an edit is caught by the inner [catch], which edits the notice for
    the message of the error in; an error of that edit, or of a reply, by
    the outer one. *)
Definition handleAnalyzeCommand (refusal : nat -> DigestFlow.Sent -> option jsstring)
  (w : World) (cmd : Command) : DigestFlow.Handled :=
  let outer (log : list Event) :=
    fun (sent : list DigestFlow.Sent) (_ : jsstring) =>
      DigestFlow.lastReply refusal commandError log sent in
  match resolveTarget (db w) cmd with
  | UnknownUsername username =>
      DigestFlow.finish refusal [] []
        (DigestFlow.Reply (unknownUsernameText username)) (outer [])
  | Usage =>
      DigestFlow.finish refusal [] [] (DigestFlow.Reply usageText) (outer [])
  | Analyse targetUserId =>
      match DigestFlow.request refusal [] (DigestFlow.Reply processingText) with
      | (sent, Some message) => outer [] sent message
      | (sent, None) =>
          let inner (log : list Event) :=
            fun (sent : list DigestFlow.Sent) (message : jsstring) =>
              DigestFlow.finish refusal log sent
                (DigestFlow.EditMessage (errorNotice message)) (outer log) in
          match Store.findByTelegramId (db w) targetUserId with
          | None =>
              DigestFlow.finish refusal [] sent
                (DigestFlow.EditMessage notStoredText) (inner [])
          | Some user =>
              match runProviders (isAvailable w) (analyzeUser w) targetUserId with
              | (log, Ok (a, usedService)) =>
                  let resultText :=
                    formatAnalysisResult a (Store.u_username user)
                      (Store.u_first_name user) in
                  let finalText :=
                    resultText ++ [JS.LF; JS.LF] ++ JS.js "🤖 Анализ выполнен через "
                    ++ serviceName usedService ++ JS.js " API" in
                  DigestFlow.finish refusal log sent
                    (DigestFlow.EditMessage finalText) (inner log)
              | (log, Throw e) => inner log sent e
              end
          end
      end
  end.

End AnalyzeCommand.

(** ** bot/src/models/Message.ts: the top users *)

Module TopUsers.

Import Store MessageQueries StatsService.

(** The group of a user in
    [FROM messages m JOIN users u ON m.user_id = u.id WHERE ...
     GROUP BY m.user_id, u.username, u.first_name]: [users.id] is the
    primary key, so the groups are the users with a row that passes the
    filters, and [COUNT] is the number of these rows. *)
Definition groupOf (db : Db) (chatId startDate endDate : option Z) (u : UserData)
  : option TopUser :=
  let n := countByUserId db (u_id u) chatId startDate endDate in
  if 0 <? n
  then Some {| tu_user_id := u_id u; tu_count := n;
               tu_username := u_username u; tu_first_name := u_first_name u |}
  else None.

Fixpoint groups (db : Db) (chatId startDate endDate : option Z)
  (us : list UserData) : list TopUser :=
  match us with
  | [] => []
  | u :: rest =>
      match groupOf db chatId startDate endDate u with
      | Some g => g :: groups db chatId startDate endDate rest
      | None => groups db chatId startDate endDate rest
      end
  end.

(** [ORDER BY count DESC], the order among equal counts being one the
    server may choose. *)
Fixpoint insertByCount (g : TopUser) (l : list TopUser) : list TopUser :=
  match l with
  | [] => [g]
  | x :: r => if tu_count x <? tu_count g then g :: l else x :: insertByCount g r
  end.

Definition orderByCountDesc (l : list TopUser) : list TopUser :=
  fold_right insertByCount [] l.

(** [Message.getTopUsersByMessageCount(limit, options)]; the server
    rejects a negative [LIMIT]. *)
Definition getTopUsersByMessageCount (db : Db) (limit : Z)
  (chatId startDate endDate : option Z) : Result (list TopUser) :=
  if limit <? 0 then Throw negativeLimit
  else Ok (firstn (Z.to_nat limit)
             (orderByCountDesc (groups db chatId startDate endDate (users db)))).

(** Any answer the query may give: the groups in an order of descending
    counts, cut at the limit. *)
Definition admissible (db : Db) (limit : Z) (chatId startDate endDate : option Z)
  (result : list TopUser) : Prop :=
  0 <= limit
  /\ exists ordered,
       Permutation ordered (groups db chatId startDate endDate (users db))
       /\ StronglySorted (fun a b => tu_count b <= tu_count a) ordered
       /\ result = firstn (Z.to_nat limit) ordered.

End TopUsers.

(* ===================================================================== *)
(** * Part II. Properties                                                 *)
(* ===================================================================== *)

(** ** The cache key *)

Section CacheKey.

Import StatsService.

Example key_general :
  getCacheKey 12345 (JS.js "today") None = JS.js "stats:chat:12345:period:today".
Proof. vm_compute. reflexivity. Qed.

Example key_user :
  getCacheKey 12345 (JS.js "week") (Some 67890)
  = JS.js "stats:chat:12345:user:67890:period:week".
Proof. vm_compute. reflexivity. Qed.

Example key_negative_chat :
  getCacheKey (-1001234) (JS.js "all") (Some 0)
  = JS.js "stats:chat:-1001234:period:all".
Proof. vm_compute. reflexivity. Qed.

Lemma redisGet_connected r now key v :
  redisGet r now key = Some v -> connected r = true.
Proof. unfold redisGet. destruct (connected r); [reflexivity | discriminate]. Qed.

Lemma redisGet_setEx r now now' key ttl v :
  connected r = true -> now' < now + ttl * 1000 ->
  redisGet (redisSetEx r now key ttl v) now' key = Some (Some v).
Proof.
  intros Hc Hlt. unfold redisGet, redisSetEx. rewrite Hc. cbn. rewrite ?Hc.
  rewrite lookup_insert_eq.
  destruct (Z.ltb_spec now' (now + ttl * 1000)); [reflexivity | lia].
Qed.

(** C10. [getCacheKey] leaves the user component out for a missing user id
    and for the user id 0 alike, so that [getUserStats(chatId, 0, period)]
    works on the key ["stats:chat:<chatId>:period:<period>"] of
    [getChatStats(chatId, period)]: once [getChatStats] has filled the
    entry, [getUserStats] for user 0 returns that chat-wide entry from the
    cache for as long as it lives. *)
Theorem getCacheKey_user_zero_is_chat_key :
  forall (chatId : Z) (period : jsstring),
    (forall userId, userId = None \/ userId = Some 0 ->
       getCacheKey chatId period userId
       = JS.js "stats:chat:" ++ JS.ofNumber chatId ++ JS.js ":period:" ++ period)
    /\ getCacheKey chatId period (Some 0) = getCacheKey chatId period None
    /\ (forall zone ttl fromStore findUser countMessages r now now',
          redisGet r now (getCacheKey chatId period None) = Some None ->
          now' < now + ttl * 1000 ->
          getUserStats zone ttl findUser countMessages
            (snd (getChatStats zone ttl fromStore r now chatId period))
            now' chatId 0 period
          = (Some (fst (getChatStats zone ttl fromStore r now chatId period)),
             snd (getChatStats zone ttl fromStore r now chatId period))).
Proof.
  intros chatId period. split; [| split].
  - intros userId [-> | ->]; reflexivity.
  - reflexivity.
  - intros zone ttl fromStore findUser countMessages r now now' Hmiss Hlt.
    pose proof (redisGet_connected _ _ _ _ Hmiss) as Hc.
    unfold getChatStats. rewrite Hmiss. cbn [fst snd].
    unfold getUserStats.
    change (getCacheKey chatId period (Some 0)) with (getCacheKey chatId period None).
    rewrite redisGet_setEx by assumption. reflexivity.
Qed.

Lemma getCacheKey_user_zero_is_chat_key_witness :
  let r := {| entries := ∅; connected := true |} in
  let fromStore := fun (_ : DateRange) (_ : Z) =>
    {| topUsers := []; totalMessages := 3; totalUsers := 2 |} in
  getUserStats (JSDate.fixedZone 0) 1200 (fun _ => None) (fun _ _ _ => 0)
    (snd (getChatStats (JSDate.fixedZone 0) 1200 fromStore r 5000 (-100) (JS.js "all")))
    6000 (-100) 0 (JS.js "all")
  = (Some (fst (getChatStats (JSDate.fixedZone 0) 1200 fromStore r 5000 (-100) (JS.js "all"))),
     snd (getChatStats (JSDate.fixedZone 0) 1200 fromStore r 5000 (-100) (JS.js "all"))).
Proof.
  intros r fromStore.
  apply (proj2 (proj2 (getCacheKey_user_zero_is_chat_key (-100) (JS.js "all")))).
  - reflexivity.
  - lia.
Defined.

End CacheKey.

(** ** The calendar *)

Section Calendar.

Import JSDate.

(** Days in month [m] (0..11) of year [y]. *)
Definition daysInMonth (y m : Z) : Z :=
  match m with
  | 1 => if isLeapYear y then 29 else 28
  | 3 | 5 | 8 | 10 => 30
  | _ => 31
  end.

Lemma DayFromYear_succ y : DayFromYear (y + 1) = DayFromYear y + DaysInYear y.
Proof.
  unfold DaysInYear, isLeapYear, DayFromYear.
  destruct (Z.eqb_spec (y mod 4) 0); destruct (Z.eqb_spec (y mod 100) 0);
    destruct (Z.eqb_spec (y mod 400) 0); cbn [andb orb negb];
    Z.to_euclidean_division_equations; lia.
Qed.

Lemma DaysInYear_range y : 365 <= DaysInYear y <= 366.
Proof. unfold DaysInYear. destruct (isLeapYear y); lia. Qed.

Lemma DayFromYear_mono a b : a <= b -> DayFromYear a <= DayFromYear b.
Proof. unfold DayFromYear. intros H. Z.to_euclidean_division_equations; lia. Qed.

Lemma YearFromDay_spec d :
  DayFromYear (YearFromDay d) <= d < DayFromYear (YearFromDay d + 1).
Proof.
  unfold YearFromDay.
  destruct (Z.ltb_spec d (DayFromYear (1970 + d * 400 / 146097)));
    [| destruct (Z.leb_spec (DayFromYear (1970 + d * 400 / 146097 + 1)) d)];
    unfold DayFromYear in *; Z.to_euclidean_division_equations; lia.
Qed.

(** [YearFromDay d] is the only year whose days include [d]. *)
Lemma YearFromDay_unique d y :
  DayFromYear y <= d < DayFromYear (y + 1) -> YearFromDay d = y.
Proof.
  intros Hy. pose proof (YearFromDay_spec d) as Hs.
  destruct (Z.lt_trichotomy (YearFromDay d) y) as [Hlt | [Heq | Hgt]]; [| exact Heq |].
  - pose proof (DayFromYear_mono (YearFromDay d + 1) y ltac:(lia)). lia.
  - pose proof (DayFromYear_mono (y + 1) (YearFromDay d) ltac:(lia)). lia.
Qed.

Lemma YearFromDay_epoch d : 0 <= d -> 1970 <= YearFromDay d.
Proof.
  intros Hd. pose proof (YearFromDay_spec d) as Hs.
  destruct (Z.le_gt_cases 1970 (YearFromDay d)) as [H | H]; [exact H |].
  pose proof (DayFromYear_mono (YearFromDay d + 1) 1970 ltac:(lia)) as Hm.
  change (DayFromYear 1970) with 0 in Hm. lia.
Qed.

Lemma DayWithinYear_range t :
  0 <= DayWithinYear t < DaysInYear (YearFromTime t).
Proof.
  unfold DayWithinYear, YearFromTime.
  pose proof (YearFromDay_spec (Day t)) as Hs.
  rewrite DayFromYear_succ in Hs. lia.
Qed.

Lemma InLeapYear_DaysInYear t : DaysInYear (YearFromTime t) = 365 + InLeapYear t.
Proof. unfold DaysInYear, InLeapYear. destruct (isLeapYear _); reflexivity. Qed.

Lemma MonthFromTime_range t : 0 <= MonthFromTime t <= 11.
Proof.
  unfold MonthFromTime.
  repeat match goal with |- context [if ?c then _ else _] => destruct c end; lia.
Qed.

(** [MakeDay] undoes the reading of year, month and date. *)
Lemma MakeDay_components t :
  MakeDay (YearFromTime t) (MonthFromTime t) (DateFromTime t) = Day t.
Proof.
  pose proof (DayWithinYear_range t) as Hr.
  rewrite InLeapYear_DaysInYear in Hr.
  pose proof (MonthFromTime_range t) as Hm.
  assert (Hd : Day t = DayFromYear (YearFromTime t) + DayWithinYear t)
    by (unfold DayWithinYear; lia).
  unfold MakeDay.
  rewrite (Z.div_small (MonthFromTime t) 12) by lia.
  rewrite (Z.mod_small (MonthFromTime t) 12) by lia.
  rewrite Z.add_0_r, Hd. clear Hd Hm.
  unfold DateFromTime, MonthFromTime, InLeapYear in *. unfold monthStart.
  revert Hr. generalize (DayWithinYear t) (YearFromTime t). intros d Y Hr.
  destruct (isLeapYear Y);
    repeat match goal with
           | |- context [if ?a <? ?b then _ else _] => destruct (Z.ltb_spec a b)
           end; cbn; lia.
Qed.

Lemma MakeDay_shift y m d k : MakeDay y m (d + k) = MakeDay y m d + k.
Proof. unfold MakeDay. lia. Qed.

Lemma time_decompose t : t = Day t * msPerDay + TimeWithinDay t.
Proof.
  unfold Day, TimeWithinDay.
  pose proof (Z.div_mod t msPerDay ltac:(unfold msPerDay; lia)). lia.
Qed.

Lemma TimeWithinDay_range t : 0 <= TimeWithinDay t < msPerDay.
Proof. unfold TimeWithinDay. apply Z.mod_pos_bound. unfold msPerDay. lia. Qed.

Lemma Day_MakeDate d tw : 0 <= tw < msPerDay -> Day (MakeDate d tw) = d.
Proof.
  intros H. unfold Day, MakeDate.
  rewrite Z.add_comm, Z.div_add by (unfold msPerDay; lia).
  rewrite Z.div_small by assumption. lia.
Qed.

Lemma TimeWithinDay_MakeDate d tw :
  0 <= tw < msPerDay -> TimeWithinDay (MakeDate d tw) = tw.
Proof.
  intros H. unfold TimeWithinDay, MakeDate.
  rewrite Z.add_comm, Z.mod_add by (unfold msPerDay; lia).
  apply Z.mod_small. assumption.
Qed.

Lemma month_cases m :
  0 <= m <= 11 ->
  m = 0 \/ m = 1 \/ m = 2 \/ m = 3 \/ m = 4 \/ m = 5 \/ m = 6 \/ m = 7
  \/ m = 8 \/ m = 9 \/ m = 10 \/ m = 11.
Proof. lia. Qed.

Ltac each_month H :=
  destruct (month_cases _ H) as
    [-> | [-> | [-> | [-> | [-> | [-> | [-> | [-> | [-> | [-> | [-> | ->]]]]]]]]]]].

Lemma DateFromTime_range t :
  1 <= DateFromTime t <= daysInMonth (YearFromTime t) (MonthFromTime t).
Proof.
  pose proof (DayWithinYear_range t) as Hr.
  rewrite InLeapYear_DaysInYear in Hr.
  unfold DateFromTime, MonthFromTime, InLeapYear, daysInMonth in *.
  revert Hr. generalize (DayWithinYear t) (YearFromTime t). intros d Y Hr.
  destruct (isLeapYear Y);
    repeat match goal with
           | |- context [if ?a <? ?b then _ else _] => destruct (Z.ltb_spec a b)
           end; cbn; lia.
Qed.

(** Reading year, month, date and time of day back from a date built from
    components that name a day of the calendar. *)
Lemma components_of_MakeDate y m d tw :
  0 <= m <= 11 -> 1 <= d <= daysInMonth y m -> 0 <= tw < msPerDay ->
  YearFromTime (MakeDate (MakeDay y m d) tw) = y
  /\ MonthFromTime (MakeDate (MakeDay y m d) tw) = m
  /\ DateFromTime (MakeDate (MakeDay y m d) tw) = d
  /\ TimeWithinDay (MakeDate (MakeDay y m d) tw) = tw.
Proof.
  intros Hm Hd Htw.
  assert (Hday : Day (MakeDate (MakeDay y m d) tw)
                 = DayFromYear y + (monthStart m (isLeapYear y) + d - 1)).
  { rewrite Day_MakeDate by assumption. unfold MakeDay.
    rewrite (Z.div_small m 12), (Z.mod_small m 12) by lia.
    rewrite Z.add_0_r. lia. }
  assert (Hin : 0 <= monthStart m (isLeapYear y) + d - 1 < DaysInYear y).
  { unfold DaysInYear, daysInMonth, monthStart in *.
    each_month Hm; destruct (isLeapYear y); lia. }
  assert (Hy : YearFromTime (MakeDate (MakeDay y m d) tw) = y).
  { unfold YearFromTime. apply YearFromDay_unique.
    rewrite Hday, DayFromYear_succ. lia. }
  split; [exact Hy |].
  assert (Hw : DayWithinYear (MakeDate (MakeDay y m d) tw)
               = monthStart m (isLeapYear y) + d - 1).
  { unfold DayWithinYear. rewrite Hy, Hday. lia. }
  split; [| split; [| apply TimeWithinDay_MakeDate; assumption]].
  - unfold MonthFromTime, InLeapYear. rewrite Hw, Hy. clear Hw Hy Hday.
    unfold DaysInYear, daysInMonth, monthStart in *.
    each_month Hm; destruct (isLeapYear y);
      repeat match goal with
             | |- context [if ?a <? ?b then _ else _] => destruct (Z.ltb_spec a b)
             end; lia.
  - unfold DateFromTime, MonthFromTime, InLeapYear. rewrite Hw, Hy.
    clear Hw Hy Hday.
    unfold DaysInYear, daysInMonth, monthStart in *.
    each_month Hm; destruct (isLeapYear y);
      repeat match goal with
             | |- context [if ?a <? ?b then _ else _] => destruct (Z.ltb_spec a b)
             end; cbn; lia.
Qed.

(** The month before month [m] of year [y]. *)
Definition previousMonth (y m : Z) : Z * Z :=
  if m =? 0 then (y - 1, 11) else (y, m - 1).

Lemma MakeDay_previousMonth y m d :
  0 <= m <= 11 ->
  MakeDay y (m - 1) d = MakeDay (fst (previousMonth y m)) (snd (previousMonth y m)) d.
Proof.
  intros Hm. unfold previousMonth, MakeDay.
  destruct (Z.eqb_spec m 0) as [-> | Hne]; cbn [fst snd].
  - change ((0 - 1) / 12) with (-1). change ((0 - 1) mod 12) with 11.
    change (11 / 12) with 0. change (11 mod 12) with 11.
    rewrite Z.add_0_r. reflexivity.
  - rewrite (Z.div_small (m - 1) 12), (Z.mod_small (m - 1) 12) by lia.
    reflexivity.
Qed.

End Calendar.

(** ** The date range of a period *)

Section DateRange.

Import JSDate StatsService.

(** Two zones without daylight saving: UTC, and five hours ahead of it. *)
Definition utc : Zone := fixedZone 0.
Definition tashkent : Zone := fixedZone 18000000.

(** A zone with daylight saving: one hour ahead of UTC, two hours from
    29 March 2026, 01:00 UTC, when local time goes from 02:00 to 03:00. *)
Definition springForward : Z := MakeDate (MakeDay 2026 2 29) (MakeTime 1 0 0 0).

Definition central : Zone :=
  {| offsetAt := fun t => if t <? springForward then 3600000 else 7200000;
     offsetOfLocal := fun t =>
       if t <? springForward + 7200000 then 3600000 else 7200000 |}.

Example range_all : getDateRange utc (JS.js "all") 1769169600000 = noRange.
Proof. vm_compute. reflexivity. Qed.

Example range_unknown : getDateRange utc (JS.js "year") 1769169600000 = noRange.
Proof. vm_compute. reflexivity. Qed.

(** 23 January 2026, 12:00: a month back is 23 December 2025, 12:00. *)
Example range_month_january :
  getDateRange utc (JS.js "month") 1769169600000
  = {| startDate := Some (MakeDate (MakeDay 2025 11 23) (MakeTime 12 0 0 0));
       endDate := Some 1769169600000 |}.
Proof. vm_compute. reflexivity. Qed.

(** On 1 April 2026, 12:00 local time, in the zone with daylight saving:
    the week starts on 25 March, 12:00 local time, which is six days and
    23 hours before. *)
Example range_week_daylight_saving :
  let now := MakeDate (MakeDay 2026 3 1) (MakeTime 10 0 0 0) in
  getDateRange central (JS.js "week") now
  = {| startDate := Some (now - 7 * msPerDay + 3600000); endDate := Some now |}.
Proof. vm_compute. reflexivity. Qed.

(** The local time [local] is read with the offset in force at [now], and
    the instant it names has that offset too: no change of offset lies
    between the two.  In a zone without daylight saving this always
    holds. *)
Definition sameOffset (z : Zone) (now local : Z) : Prop :=
  offsetOfLocal z local = offsetAt z now
  /\ offsetAt z (local - offsetAt z now) = offsetAt z now.

Lemma sameOffset_fixed c now local : sameOffset (fixedZone c) now local.
Proof. split; reflexivity. Qed.

Lemma sameOffset_UTC z now local :
  sameOffset z now local ->
  UTC z local = local - offsetAt z now /\ LocalTime z (UTC z local) = local.
Proof.
  intros [H1 H2]. unfold UTC, LocalTime. rewrite H1, H2. split; lia.
Qed.

(** The year of a time from 1970 on is taken as it is by the constructor. *)
Lemma year_as_given local :
  0 <= local ->
  (if (0 <=? YearFromTime local) && (YearFromTime local <=? 99)
   then 1900 + YearFromTime local else YearFromTime local) = YearFromTime local.
Proof.
  intros Hl.
  assert (Hy : 1970 <= YearFromTime local).
  { unfold YearFromTime. apply YearFromDay_epoch. unfold Day.
    apply Z.div_pos; [assumption | unfold msPerDay; lia]. }
  destruct (Z.leb_spec 0 (YearFromTime local)); [| lia].
  destruct (Z.leb_spec (YearFromTime local) 99); [lia | reflexivity].
Qed.

(** The local midnight that [new Date(year, month, date + k)] names. *)
Lemma local_midnight local k :
  0 <= local ->
  MakeDate (MakeDay (if (0 <=? YearFromTime local) && (YearFromTime local <=? 99)
                     then 1900 + YearFromTime local else YearFromTime local)
              (MonthFromTime local) (DateFromTime local + k))
    (MakeTime 0 0 0 0)
  = local - TimeWithinDay local + k * msPerDay.
Proof.
  intros Hl. rewrite year_as_given by assumption.
  rewrite MakeDay_shift, MakeDay_components.
  unfold MakeDate, MakeTime. pose proof (time_decompose local). lia.
Qed.

Lemma getDateRange_today z now :
  0 <= LocalTime z now ->
  ofComponents z (getFullYear z now) (getMonth z now) (getDate z now)
  = UTC z (LocalTime z now - TimeWithinDay (LocalTime z now)).
Proof.
  intros Hl. unfold ofComponents, getFullYear, getMonth, getDate.
  pose proof (local_midnight (LocalTime z now) 0 Hl) as H.
  rewrite Z.add_0_r in H. cbv zeta. rewrite H. f_equal. lia.
Qed.

Lemma getDateRange_week z now :
  setDate z now (getDate z now - 7) = UTC z (LocalTime z now - 7 * msPerDay).
Proof.
  unfold setDate, getDate. cbv zeta.
  replace (DateFromTime (LocalTime z now) - 7)
    with (DateFromTime (LocalTime z now) + (-7)) by lia.
  rewrite MakeDay_shift, MakeDay_components.
  unfold MakeDate. pose proof (time_decompose (LocalTime z now)). f_equal. lia.
Qed.

(** C9, as the code has it.  For every zone of the host and every
    invocation time from 1970 on (in local time): ['all'] maps to the empty
    object, and the end of the three bounded ranges is [now].  The start
    of ['today'] is the instant of local midnight of the current date, the
    start of ['week'] is exactly seven days before [now], and the start of
    ['month'] is [now] with the month set one back, which is the same day
    of the month and time of day in the previous month (for January,
    December of the year before) whenever the previous month has that
    day; each of these three under the condition that the start is read
    with the zone offset of [now], as it always is in a zone without
    daylight saving. *)
Theorem getDateRange_periods :
  forall (z : Zone) (now : Z),
    let local := LocalTime z now in
    0 <= local ->
    getDateRange z (JS.js "all") now = noRange
    /\ (exists s,
          getDateRange z (JS.js "today") now
          = {| startDate := Some s; endDate := Some now |}
          /\ (sameOffset z now (local - TimeWithinDay local) ->
              s = now - TimeWithinDay local
              /\ getFullYear z s = getFullYear z now /\ getMonth z s = getMonth z now
              /\ getDate z s = getDate z now /\ TimeWithinDay (LocalTime z s) = 0))
    /\ (exists s,
          getDateRange z (JS.js "week") now
          = {| startDate := Some s; endDate := Some now |}
          /\ (offsetOfLocal z (local - 7 * msPerDay) = offsetAt z now ->
              s = now - 7 * msPerDay))
    /\ (exists s,
          getDateRange z (JS.js "month") now
          = {| startDate := Some s; endDate := Some now |}
          /\ (sameOffset z now
                (MakeDate (MakeDay (getFullYear z now) (getMonth z now - 1)
                             (getDate z now)) (TimeWithinDay local)) ->
              (getDate z now
               <= daysInMonth (fst (previousMonth (getFullYear z now) (getMonth z now)))
                              (snd (previousMonth (getFullYear z now) (getMonth z now))) ->
               getFullYear z s = fst (previousMonth (getFullYear z now) (getMonth z now))
               /\ getMonth z s = snd (previousMonth (getFullYear z now) (getMonth z now))
               /\ getDate z s = getDate z now
               /\ TimeWithinDay (LocalTime z s) = TimeWithinDay local)
              /\ (getMonth z now = 0 ->
                  getFullYear z s = getFullYear z now - 1 /\ getMonth z s = 11
                  /\ getDate z s = getDate z now
                  /\ TimeWithinDay (LocalTime z s) = TimeWithinDay local)))
    /\ (forall c, z = fixedZone c -> forall local', sameOffset z now local').
Proof.
  intros z now local Hlocal.
  pose proof (MonthFromTime_range local) as Hm.
  pose proof (DateFromTime_range local) as Hd.
  pose proof (TimeWithinDay_range local) as Htw.
  assert (Hmonth : forall y m,
            0 <= m <= 11 -> DateFromTime local <= daysInMonth y m ->
            YearFromTime (MakeDate (MakeDay y m (DateFromTime local)) (TimeWithinDay local)) = y
            /\ MonthFromTime (MakeDate (MakeDay y m (DateFromTime local)) (TimeWithinDay local)) = m
            /\ DateFromTime (MakeDate (MakeDay y m (DateFromTime local)) (TimeWithinDay local))
               = DateFromTime local
            /\ TimeWithinDay (MakeDate (MakeDay y m (DateFromTime local)) (TimeWithinDay local))
               = TimeWithinDay local).
  { intros y m Hm' Hle. apply components_of_MakeDate; [assumption | | assumption]. lia. }
  split; [reflexivity |]. split; [| split; [| split]].
  - exists (ofComponents z (getFullYear z now) (getMonth z now) (getDate z now)).
    split; [reflexivity |].
    rewrite getDateRange_today by assumption. fold local.
    intros Hsame. destruct (sameOffset_UTC z now _ Hsame) as [Hs Hback].
    split; [rewrite Hs; unfold local, LocalTime; lia |].
    unfold getFullYear, getMonth, getDate. rewrite Hback. fold local.
    assert (Hmid : local - TimeWithinDay local
                   = MakeDate (MakeDay (YearFromTime local) (MonthFromTime local)
                                 (DateFromTime local)) 0).
    { rewrite MakeDay_components. unfold MakeDate.
      pose proof (time_decompose local). lia. }
    rewrite Hmid.
    destruct (components_of_MakeDate (YearFromTime local) (MonthFromTime local)
                (DateFromTime local) 0 Hm Hd ltac:(unfold msPerDay; lia))
      as (H1 & H2 & H3 & H4).
    auto.
  - exists (setDate z now (getDate z now - 7)).
    split; [reflexivity |].
    rewrite getDateRange_week. fold local. intros Hoff.
    unfold UTC. rewrite Hoff. unfold local, LocalTime. lia.
  - exists (setMonth z now (getMonth z now - 1)).
    split; [reflexivity |].
    unfold setMonth, getMonth, getFullYear, getDate. cbv zeta. fold local.
    intros Hsame. destruct (sameOffset_UTC z now _ Hsame) as [_ Hback].
    rewrite Hback. rewrite MakeDay_previousMonth by assumption.
    split.
    + intros Hle. apply Hmonth; [| exact Hle].
      unfold previousMonth. destruct (Z.eqb_spec (MonthFromTime local) 0); cbn; lia.
    + intros H0. rewrite H0. cbn [previousMonth Z.eqb fst snd].
      apply Hmonth; [lia |]. unfold daysInMonth in *.
      rewrite H0 in Hd. cbn in Hd |- *. lia.
  - intros c -> local'. apply sameOffset_fixed.
Qed.

Lemma getDateRange_periods_witness :
  0 <= LocalTime tashkent 1769169600000
  /\ exists s,
       getDateRange tashkent (JS.js "week") 1769169600000
       = {| startDate := Some s; endDate := Some 1769169600000 |}
       /\ s = 1769169600000 - 7 * msPerDay.
Proof.
  assert (H : 0 <= LocalTime tashkent 1769169600000) by (vm_compute; discriminate).
  split; [exact H |].
  destruct (proj1 (proj2 (proj2 (getDateRange_periods tashkent 1769169600000 H))))
    as (s & Hs & Hweek).
  exists s. split; [exact Hs |]. apply Hweek. reflexivity.
Defined.

(** On 31 March 2026, 12:00, the ['month'] range starts on 3 March 2026:
    February has no 31st, the date carries over, and the month of the start
    is the month of [now], not the one before. *)
Lemma getDateRange_month_counterexample :
  let now := MakeDate (MakeDay 2026 2 31) (MakeTime 12 0 0 0) in
  getFullYear utc now = 2026 /\ getMonth utc now = 2 /\ getDate utc now = 31
  /\ exists s,
       startDate (getDateRange utc (JS.js "month") now) = Some s
       /\ getFullYear utc s = 2026 /\ getMonth utc s = 2 /\ getDate utc s = 3.
Proof.
  cbv zeta. repeat split.
  eexists. split; [reflexivity |]. vm_compute. repeat split.
Qed.

End DateRange.

(** ** Idempotent ingestion *)

Section Ingestion.

Import Store.

(** The pair under the [UNIQUE] constraint. *)
Definition messageKey (m : MessageData) : Z * Z :=
  (telegram_message_id m, chat_id m).

(** The table satisfies [UNIQUE(telegram_message_id, chat_id)]. *)
Definition uniqueKeys (db : Db) : Prop :=
  List.NoDup (List.map messageKey (messages db)).

Definition rowsWithKey (tmid chat : Z) (db : Db) : list MessageData :=
  List.filter (sameKey tmid chat) (messages db).

(** A run of [Message.create] calls, each at its own time. *)
Fixpoint createAll (db : Db) (calls : list (Z * CreateMessageData)) : Db :=
  match calls with
  | [] => db
  | (now, data) :: rest => createAll (fst (create db now data)) rest
  end.

Definition alice : UserData :=
  {| u_id := 1; u_telegram_id := 777; u_username := Some (JS.js "alice");
     u_first_name := None; u_last_name := None;
     u_created_at := 0; u_updated_at := 0 |}.

Definition oneUser : Db := {| users := [alice]; messages := []; messages_id_seq := 0 |}.

Definition hello : CreateMessageData :=
  {| c_user_id := 1; c_telegram_message_id := 42; c_chat_id := -100;
     c_text := JS.js "hello" |}.

Example create_twice :
  let first := create oneUser 10 hello in
  let second := create (fst first) 20 hello in
  snd first = Ok (Some {| id := 1; user_id := 1; telegram_message_id := 42;
                          chat_id := -100; text := JS.js "hello"; created_at := 10 |})
  /\ snd second = Ok None
  /\ messages (fst second) = messages (fst first)
  /\ List.length (messages (fst second)) = 1%nat.
Proof. vm_compute. repeat split. Qed.

Lemma sameKey_spec tmid chat m :
  sameKey tmid chat m = true <-> messageKey m = (tmid, chat).
Proof.
  unfold sameKey, messageKey. rewrite andb_true_iff, !Z.eqb_eq.
  split; [intros [-> ->]; reflexivity | intros [= -> ->]; split; reflexivity].
Qed.

Lemma stored_iff tmid chat l :
  existsb (sameKey tmid chat) l = true <-> In (tmid, chat) (List.map messageKey l).
Proof.
  rewrite existsb_exists, in_map_iff. split.
  - intros (m & Hin & Hk). exists m. split; [apply sameKey_spec; exact Hk | exact Hin].
  - intros (m & Hk & Hin). exists m. split; [exact Hin | apply sameKey_spec; exact Hk].
Qed.

(** What [create] does to the rows: nothing, or one more row for the pair
    of [data], and that only when the pair was not stored. *)
Lemma create_messages db now data :
  messages (fst (create db now data)) = messages db
  \/ (existsb (sameKey (c_telegram_message_id data) (c_chat_id data)) (messages db) = false
      /\ exists row,
           messages (fst (create db now data)) = messages db ++ [row]
           /\ messageKey row = (c_telegram_message_id data, c_chat_id data)).
Proof.
  unfold create.
  destruct (existsb _ (messages db)) eqn:He; [left; reflexivity |].
  destruct (userExists db (c_user_id data)); [| left; reflexivity].
  right. split; [reflexivity |]. eexists. split; reflexivity.
Qed.

Lemma create_keeps tmid chat db now data :
  existsb (sameKey tmid chat) (messages db) = true ->
  existsb (sameKey tmid chat) (messages (fst (create db now data))) = true.
Proof.
  intros H. destruct (create_messages db now data) as [-> | (_ & row & -> & _)].
  - exact H.
  - rewrite existsb_app, H. reflexivity.
Qed.

Lemma createAll_keeps tmid chat calls : forall db,
  existsb (sameKey tmid chat) (messages db) = true ->
  existsb (sameKey tmid chat) (messages (createAll db calls)) = true.
Proof.
  induction calls as [| [now data] rest IH]; intros db H; cbn.
  - exact H.
  - apply IH, create_keeps, H.
Qed.

Lemma create_unique db now data :
  uniqueKeys db -> uniqueKeys (fst (create db now data)).
Proof.
  unfold uniqueKeys. intros Hu.
  destruct (create_messages db now data) as [-> | (Hfresh & row & -> & Hk)].
  - exact Hu.
  - rewrite List.map_app. cbn [List.map]. rewrite Hk.
    apply List.NoDup_app; [exact Hu | repeat constructor; intros [] | ].
    intros k Hin [<- | []].
    apply stored_iff in Hin. congruence.
Qed.

Lemma createAll_unique calls : forall db,
  uniqueKeys db -> uniqueKeys (createAll db calls).
Proof.
  induction calls as [| [now data] rest IH]; intros db H; cbn.
  - exact H.
  - apply IH, create_unique, H.
Qed.

(** A conflicting insert returns [null] and leaves the rows alone. *)
Lemma create_conflict db now data :
  existsb (sameKey (c_telegram_message_id data) (c_chat_id data)) (messages db) = true ->
  snd (create db now data) = Ok None
  /\ messages (fst (create db now data)) = messages db.
Proof. intros H. unfold create. rewrite H. split; reflexivity. Qed.

(** A first insert by a known user returns the row it stored. *)
Lemma create_fresh db now data :
  existsb (sameKey (c_telegram_message_id data) (c_chat_id data)) (messages db) = false ->
  userExists db (c_user_id data) = true ->
  exists row,
    snd (create db now data) = Ok (Some row)
    /\ messages (fst (create db now data)) = messages db ++ [row]
    /\ user_id row = c_user_id data
    /\ telegram_message_id row = c_telegram_message_id data
    /\ chat_id row = c_chat_id data
    /\ text row = c_text data.
Proof.
  intros Hf Hu. unfold create. rewrite Hf, Hu.
  eexists. repeat split.
Qed.

(** After an insert by a known user its pair is stored, new or not. *)
Lemma create_stores db now data :
  userExists db (c_user_id data) = true ->
  existsb (sameKey (c_telegram_message_id data) (c_chat_id data))
    (messages (fst (create db now data))) = true.
Proof.
  intros Hu.
  destruct (existsb (sameKey (c_telegram_message_id data) (c_chat_id data))
              (messages db)) eqn:He.
  - apply create_keeps, He.
  - destruct (create_fresh db now data He Hu) as (row & _ & -> & _ & Ht & Hc & _).
    rewrite existsb_app. cbn. unfold sameKey. rewrite Ht, Hc, !Z.eqb_refl.
    apply orb_true_r.
Qed.

Lemma unique_count tmid chat l :
  List.NoDup (List.map messageKey l) ->
  existsb (sameKey tmid chat) l = true ->
  List.length (List.filter (sameKey tmid chat) l) = 1%nat.
Proof.
  induction l as [| m l IH]; cbn; intros Hnd He; [discriminate |].
  inversion Hnd as [| k ks Hnotin Hnd']; subst.
  destruct (sameKey tmid chat m) eqn:Hm; cbn.
  - f_equal. apply sameKey_spec in Hm. rewrite Hm in Hnotin.
    destruct (List.filter (sameKey tmid chat) l) as [| x xs] eqn:Hf; [reflexivity |].
    exfalso. apply Hnotin.
    assert (Hx : In x (List.filter (sameKey tmid chat) l)) by (rewrite Hf; left; reflexivity).
    apply filter_In in Hx. destruct Hx as [Hx Hk].
    apply sameKey_spec in Hk. rewrite <- Hk. apply in_map. exact Hx.
  - apply IH; assumption.
Qed.

Lemma count_at_most_one tmid chat l :
  List.NoDup (List.map messageKey l) ->
  (List.length (List.filter (sameKey tmid chat) l) <= 1)%nat.
Proof.
  intros Hnd. destruct (existsb (sameKey tmid chat) l) eqn:He.
  - rewrite (unique_count tmid chat l Hnd He). lia.
  - assert (Hf : List.filter (sameKey tmid chat) l = []).
    { clear Hnd. induction l as [| m l IH]; [reflexivity |].
      cbn in He |- *. apply orb_false_iff in He. destruct He as [-> He].
      exact (IH He). }
    rewrite Hf. cbn. lia.
Qed.

(** An insert that names a user the table does not hold, for a pair that
    is not stored: the foreign key rejects it and nothing is stored. *)
Lemma create_unknown_user db now data :
  existsb (sameKey (c_telegram_message_id data) (c_chat_id data)) (messages db) = false ->
  userExists db (c_user_id data) = false ->
  snd (create db now data) = Throw fkViolation
  /\ messages (fst (create db now data)) = messages db.
Proof. intros Hf Hu. unfold create. rewrite Hf, Hu. split; reflexivity. Qed.

(** An empty store: the user 1 that [hello] names is not there. *)
Definition noUser : Db := {| users := []; messages := []; messages_id_seq := 0 |}.

(** Two inserts of the same pair for a user that is not stored: the first
    call does not return a row and the later call does not return [null];
    both raise the error of the foreign key. *)
Lemma Message_create_unknown_user_counterexample :
  let first := create noUser 10 hello in
  let later := create (fst first) 20 hello in
  c_telegram_message_id hello = 42 /\ c_chat_id hello = -100
  /\ snd first = Throw fkViolation
  /\ snd later = Throw fkViolation
  /\ messages (fst later) = [].
Proof. vm_compute. repeat split. Qed.

(** C3, as the code has it.  Two inserts of the same
    [(telegram_message_id, chat_id)] store at most one row.  On a table
    that satisfies its uniqueness constraint, when the first call names a
    stored user: the first [Message.create] of a pair returns the row it
    inserted; any later call with the same pair, whatever was inserted in
    between, returns [null] without throwing and leaves the rows as they
    were, and the table holds exactly one row for the pair.  When the
    first call names a user that is not stored and the pair is new, it
    raises the error of the foreign key and stores nothing. *)
Theorem Message_create_idempotent :
  forall (db : Db) (now1 now2 : Z) (d1 d2 : CreateMessageData)
         (between : list (Z * CreateMessageData)),
    uniqueKeys db ->
    c_telegram_message_id d2 = c_telegram_message_id d1 ->
    c_chat_id d2 = c_chat_id d1 ->
    let first := create db now1 d1 in
    let before := createAll (fst first) between in
    let later := create before now2 d2 in
    (userExists db (c_user_id d1) = true ->
     (existsb (sameKey (c_telegram_message_id d1) (c_chat_id d1)) (messages db) = false ->
      exists row,
        snd first = Ok (Some row)
        /\ messages (fst first) = messages db ++ [row]
        /\ user_id row = c_user_id d1
        /\ telegram_message_id row = c_telegram_message_id d1
        /\ chat_id row = c_chat_id d1
        /\ text row = c_text d1)
     /\ snd later = Ok None
     /\ messages (fst later) = messages before
     /\ List.length
          (rowsWithKey (c_telegram_message_id d1) (c_chat_id d1) (fst later)) = 1%nat)
    /\ (userExists db (c_user_id d1) = false ->
        existsb (sameKey (c_telegram_message_id d1) (c_chat_id d1)) (messages db) = false ->
        snd first = Throw fkViolation /\ messages (fst first) = messages db)
    /\ (List.length
          (rowsWithKey (c_telegram_message_id d1) (c_chat_id d1) (fst later)) <= 1)%nat
    /\ uniqueKeys (fst later).
Proof.
  intros db now1 now2 d1 d2 between Hu Ht Hc first before later.
  assert (Hub : uniqueKeys before) by (apply createAll_unique, create_unique, Hu).
  assert (Hul : uniqueKeys (fst later)) by (apply create_unique, Hub).
  split; [| split; [| split; [| exact Hul]]].
  - intros Huser.
    assert (Hstored : existsb (sameKey (c_telegram_message_id d2) (c_chat_id d2))
                        (messages before) = true).
    { rewrite Ht, Hc. apply createAll_keeps, create_stores, Huser. }
    destruct (create_conflict before now2 d2 Hstored) as [Hnull Hsame].
    split; [| split; [exact Hnull | split; [exact Hsame |]]].
    + intros Hfresh. apply create_fresh; assumption.
    + unfold rowsWithKey. fold later in Hsame. rewrite Hsame.
      apply unique_count; [exact Hub |]. rewrite <- Ht, <- Hc. exact Hstored.
  - intros Hnouser Hfresh. apply create_unknown_user; assumption.
  - unfold rowsWithKey. apply count_at_most_one. exact Hul.
Qed.

Lemma Message_create_idempotent_witness :
  uniqueKeys oneUser
  /\ userExists oneUser (c_user_id hello) = true
  /\ snd (create (createAll (fst (create oneUser 10 hello)) []) 20 hello) = Ok None.
Proof.
  assert (Hu : uniqueKeys oneUser) by constructor.
  split; [exact Hu |]. split; [reflexivity |].
  exact (proj1 (proj2 (proj1 (Message_create_idempotent oneUser 10 20 hello hello []
                                Hu eq_refl eq_refl) eq_refl))).
Defined.

End Ingestion.

(** ** The truncation of the prompt *)

Section Truncation.

Import Analysis.

(** [ceil(n * 0.6)]. *)
Definition ceil_times_0_6 (n : nat) : nat := (3 * n + 4) / 5.

(** For the lengths an array of messages can have here, the binary64
    product [n * 0.6] has the floor of 3n/5. *)
Lemma floor_times_0_6_is_binary64 n :
  (n <= 2000)%nat -> floor_times_0_6_binary64 n = Z.of_nat (floor_times_0_6 n).
Proof.
  intros Hn.
  assert (Hall : forallb (fun k => floor_times_0_6_binary64 k
                                   =? Z.of_nat (floor_times_0_6 k))
                   (seq 0 2001) = true) by (vm_compute; reflexivity).
  rewrite forallb_forall in Hall.
  apply Z.eqb_eq, Hall, in_seq. lia.
Qed.

Lemma floor_times_0_6_le n : (floor_times_0_6 n <= n)%nat.
Proof.
  unfold floor_times_0_6.
  pose proof (Nat.div_mod_eq (3 * n) 5). lia.
Qed.

Lemma floor_times_0_6_pos n : (2 <= n)%nat -> (1 <= floor_times_0_6 n)%nat.
Proof.
  unfold floor_times_0_6. intros Hn.
  pose proof (Nat.div_mod_eq (3 * n) 5).
  pose proof (Nat.mod_upper_bound (3 * n) 5). lia.
Qed.

Lemma join_length_cons sep (x : jsstring) l :
  (List.length (JS.join sep l) <= List.length (JS.join sep (x :: l)))%nat.
Proof.
  destruct l as [| y l].
  - cbn. lia.
  - change (JS.join sep (x :: y :: l)) with (x ++ sep ++ JS.join sep (y :: l)).
    rewrite !length_app. lia.
Qed.

Lemma join_length_suffix sep (older l : list jsstring) :
  (List.length (JS.join sep l) <= List.length (JS.join sep (older ++ l)))%nat.
Proof.
  induction older as [| x older IH]; [cbn; lia |].
  etransitivity; [exact IH |]. apply (join_length_cons sep x (older ++ l)).
Qed.

Lemma sliceLast_suffix {A} k (a : list A) : exists older, a = older ++ sliceLast k a.
Proof.
  destruct k as [| k]; cbn [sliceLast].
  - exists []. reflexivity.
  - exists (firstn (List.length a - S k) a). symmetry. apply firstn_skipn.
Qed.

Lemma promptMessages_suffix messages :
  exists older, messages = older ++ promptMessages messages.
Proof.
  unfold promptMessages. destruct (maxLength <? _).
  - apply sliceLast_suffix.
  - exists []. reflexivity.
Qed.

Definition longMessage : jsstring := List.repeat 97%N 3001.

Example two_long_messages :
  List.map (@List.length N) (promptMessages [longMessage ++ [98%N]; longMessage])
  = [3001%nat].
Proof. vm_compute. reflexivity. Qed.

(** A single message longer than the budget is kept whole. *)
Example one_long_message :
  promptMessages [longMessage ++ longMessage] = [longMessage ++ longMessage].
Proof. vm_compute. reflexivity. Qed.

(** Two messages of 3001 characters join to 6003 characters; the prompt
    keeps one of them, and [ceil(2 * 0.6)] is 2. *)
Lemma promptMessages_ceil_counterexample :
  maxLength < Z.of_nat (List.length (JS.join [JS.LF] [longMessage; longMessage]))
  /\ List.length (promptMessages [longMessage; longMessage]) = 1%nat
  /\ ceil_times_0_6 (List.length [longMessage; longMessage]) = 2%nat.
Proof. vm_compute. repeat split. Qed.

(** C6, as the code has it.  When the joined text of the [n] messages is
    longer than 6000 characters, the prompt carries a suffix of the list of
    messages; for [n >= 2] it is exactly the last [floor(n * 0.6)] of them;
    and its joined text is no longer than the original one. *)
Theorem promptMessages_truncation :
  forall messages : list jsstring,
    maxLength < Z.of_nat (List.length (JS.join [JS.LF] messages)) ->
    (exists older, messages = older ++ promptMessages messages)
    /\ ((2 <= List.length messages)%nat ->
        promptMessages messages
        = skipn (List.length messages - (3 * List.length messages) / 5) messages
        /\ List.length (promptMessages messages) = floor_times_0_6 (List.length messages))
    /\ (List.length (messagesText messages)
        <= List.length (JS.join [JS.LF] messages))%nat.
Proof.
  intros messages Hlong.
  split; [apply promptMessages_suffix |]. split.
  - intros Hn. unfold promptMessages.
    destruct (Z.ltb_spec maxLength (Z.of_nat (List.length (JS.join [JS.LF] messages))));
      [| lia].
    pose proof (floor_times_0_6_pos _ Hn) as Hpos.
    pose proof (floor_times_0_6_le (List.length messages)) as Hle.
    unfold sliceLast.
    destruct (floor_times_0_6 (List.length messages)) as [| k] eqn:Hk; [lia |].
    unfold floor_times_0_6 in Hk. rewrite Hk.
    split; [reflexivity |]. rewrite length_skipn. lia.
  - unfold messagesText.
    destruct (promptMessages_suffix messages) as [older Hsplit].
    rewrite Hsplit at 2. apply join_length_suffix.
Qed.

Lemma promptMessages_truncation_witness :
  maxLength < Z.of_nat (List.length (JS.join [JS.LF] [longMessage; longMessage]))
  /\ (List.length (messagesText [longMessage; longMessage])
      <= List.length (JS.join [JS.LF] [longMessage; longMessage]))%nat.
Proof.
  assert (H : maxLength
              < Z.of_nat (List.length (JS.join [JS.LF] [longMessage; longMessage])))
    by (vm_compute; reflexivity).
  split; [exact H |].
  exact (proj2 (proj2 (promptMessages_truncation [longMessage; longMessage] H))).
Defined.

End Truncation.

(** ** Strings: trimming, splitting and joining *)

Section Strings.

Import JS.





Lemma trimStart_idem s : trimStart (trimStart s) = trimStart s.
Proof.
  induction s as [| c r IH]; cbn; [reflexivity |].
  destruct (isWhiteSpace c) eqn:Hc; [exact IH |]. cbn. rewrite Hc. reflexivity.
Qed.

Lemma trim_trimStart s : trim (trimStart s) = trim s.
Proof. unfold trim. rewrite trimStart_idem. reflexivity. Qed.



Lemma trimEnd_app_nonempty a b :
  trimEnd b <> [] -> trimEnd (a ++ b) = a ++ trimEnd b.
Proof.
  intros Hb. induction a as [| c a IH]; [reflexivity |].
  cbn. rewrite IH. destruct (a ++ trimEnd b) eqn:He; [| reflexivity].
  apply app_eq_nil in He. destruct He as [_ He]. contradiction.
Qed.


Lemma trimEnd_last a c :
  isWhiteSpace c = false -> trimEnd (a ++ [c]) = a ++ [c].
Proof.
  intros Hc. rewrite trimEnd_app_nonempty; cbn; rewrite Hc; [reflexivity | discriminate].
Qed.

Lemma split_nonempty sep s : split sep s <> [].
Proof.
  destruct s as [| c r]; cbn; [discriminate |].
  destruct (c =? sep)%N; [discriminate |].
  destruct (split sep r); discriminate.
Qed.

Lemma split_app sep a b :
  split sep (a ++ sep :: b) = split sep a ++ split sep b.
Proof.
  induction a as [| c a IH]; cbn.
  - rewrite N.eqb_refl. reflexivity.
  - destruct (c =? sep)%N.
    + rewrite IH. reflexivity.
    + rewrite IH. pose proof (split_nonempty sep a) as Hne.
      destruct (split sep a) as [| l ls]; [contradiction | reflexivity].
Qed.

Lemma split_without sep s : ~ In sep s -> split sep s = [s].
Proof.
  induction s as [| c r IH]; intros Hn; cbn; [reflexivity |].
  destruct (N.eqb_spec c sep) as [-> | Hne].
  - exfalso. apply Hn. left. reflexivity.
  - rewrite IH; [reflexivity |]. intros Hin. apply Hn. right. exact Hin.
Qed.


End Strings.

(** ** The response parser *)

Section Parser.

Import JS Analysis ZifyBool.




























(** *** Well-formed responses *)


Definition SPACE : N := 32%N.


(** A value that a line can carry exactly: trimmed, and on one line. *)
Definition clean (v : jsstring) : Prop := trim v = v /\ ~ In LF v.




























(** Labels in any case, a later line winning over an earlier one, a line
    without a label, blank lines, and a field that is never named. *)
Example parse_mixed :
  let a := parseAnalysisResponse (js "СТИЛЬ: строгий

тЕмЫ:   погода
Привет!
Стиль: формальный  
Особенности:
Тональность: нейтральная") 4 17 in
  style a = js "формальный" /\ topics a = js "погода"
  /\ activity a = js "Не указана" /\ tone a = js "нейтральная"
  /\ features a = [] /\ averageLength a = js "17 символов"
  /\ messageCount a = 4.
Proof. vm_compute. repeat split. Qed.



End Parser.

(** ** The action items of the digest *)

Section Digest.

Import JS DigestService.

Definition threeTasksReply : jsstring :=
  js "Summary:
- обсуждали релиз

Action items:
- подготовить отчёт
-   позвонить клиенту  
- обновить зависимости

Context:
- Темы: релиз, отчёт
- Тон: нейтральный".

Example digest_three_tasks :
  parseDigest threeTasksReply
  = {| summary := js "- обсуждали релиз";
       actionItems := [js "подготовить отчёт"; js "позвонить клиенту";
                       js "обновить зависимости"];
       topics := js "релиз, отчёт";
       tone := js "нейтральный" |}.
Proof. vm_compute. reflexivity. Qed.

Definition noTasksReply : jsstring :=
  js "Summary:
- поздоровались

Action items:

Context:
- Темы: приветствия
- Тон: позитивный".

Example digest_no_tasks : actionItems (parseDigest noTasksReply) = [noTasks].
Proof. vm_compute. reflexivity. Qed.

Example digest_no_section :
  actionItems (parseDigest (js "Сегодня было тихо.")) = [noTasks].
Proof. vm_compute. reflexivity. Qed.

(** The headers of the context are found whatever the case of their
    letters, the old letter forms included: U+1C84 has the upper case of
    the first letter of both headers. *)
Definition oldLettersReply : jsstring :=
  js "Context:
- " ++ [7300%N] ++ js "ЕМЫ: погода
- " ++ [7300%N] ++ js "он: спокойный".

Example digest_old_letters :
  topics (parseDigest oldLettersReply) = js "погода"
  /\ tone (parseDigest oldLettersReply) = js "спокойный".
Proof. vm_compute. split; reflexivity. Qed.

(** An action block that is empty once trimmed gives the one entry. *)
Lemma parseActionItems_empty_block raw :
  trim (orElse (section hdrAction hdrContext raw) []) = [] ->
  parseActionItems raw = [noTasks].
Proof. intros H. unfold parseActionItems. rewrite H. reflexivity. Qed.

(** A bullet line: the marker, a space, the task. *)
Definition bullet (task : jsstring) : jsstring := minus :: SPACE :: task.

(** A task as a bullet can carry it: trimmed, on one line, not empty. *)
Definition task_ok (task : jsstring) : Prop :=
  trim task = task /\ ~ In LF task /\ task <> [].

Lemma stripMarker_bullet task :
  task_ok task -> trim (stripMarker (bullet task)) = task.
Proof.
  intros (Ht & _ & Hne). unfold bullet, stripMarker.
  change ((minus =? minus)%N) with true. cbn iota.
  change (dropDashes (SPACE :: task)) with (SPACE :: task).
  change (trimStart (SPACE :: task)) with (trimStart task).
  rewrite trim_trimStart. exact Ht.
Qed.

Lemma split_join_lines (ls : list jsstring) :
  ls <> [] -> (forall l, In l ls -> ~ In LF l) ->
  split LF (join [LF] ls) = ls.
Proof.
  induction ls as [| x r IH]; intros Hne Hno; [contradiction |].
  destruct r as [| y r].
  - cbn [join]. apply split_without, Hno. left. reflexivity.
  - change (join [LF] (x :: y :: r)) with (x ++ LF :: join [LF] (y :: r)).
    rewrite split_app, IH.
    + rewrite split_without by (apply Hno; left; reflexivity). reflexivity.
    + discriminate.
    + intros l Hl. apply Hno. right. exact Hl.
Qed.

(** A block of bullet lines gives its tasks, in order. *)
Lemma actionLines_bullets tasks :
  tasks <> [] -> Forall task_ok tasks ->
  actionLines (join [LF] (List.map bullet tasks)) = tasks.
Proof.
  intros Hne Hok. unfold actionLines.
  rewrite split_join_lines.
  - clear Hne. induction Hok as [| task tasks Htask _ IH]; [reflexivity |].
    cbn [List.map List.filter]. rewrite stripMarker_bullet by exact Htask.
    destruct task as [| c task]; [exfalso; apply (proj2 (proj2 Htask)); reflexivity |].
    cbn [truthy]. f_equal. exact IH.
  - destruct tasks; [contradiction | discriminate].
  - intros l Hl. apply in_map_iff in Hl. destruct Hl as (task & <- & Hin).
    rewrite List.Forall_forall in Hok. destruct (Hok task Hin) as (_ & Hno & _).
    unfold bullet. intros [H | [H | H]]; [discriminate H | discriminate H | exact (Hno H)].
Qed.

(** The reply whose action section holds a bare marker. *)
Definition bareMarkerReply : jsstring :=
  js "Summary:
- обсудили планы

Action items:
-

Context:
- Темы: планы
- Тон: нейтральный".

(** C5. On a reply whose "Action items:" section holds only a bare
    marker, the section is not empty, the default is not taken, the one
    line is emptied by the stripping of its marker and dropped: the list of
    action items of the digest is empty. *)
Theorem parseDigest_bare_marker_no_items :
  generateDigest [js "привет"] (fun _ => Ok bareMarkerReply) (js "prompt")
  = Ok (Some (parseDigest bareMarkerReply))
  /\ trim (orElse (section hdrAction hdrContext bareMarkerReply) []) = [minus]
  /\ actionItems (parseDigest bareMarkerReply) = [].
Proof. vm_compute. repeat split. Qed.

End Digest.

(** ** The requests of the Gemini client *)

Section GeminiRequests.

Import GeminiGenerate Providers.

#[local] Opaque JS.js.

Variable respond : nat -> jsstring -> jsstring -> ApiError + jsstring.

(** From [st] to [st'] the service made [n] requests, all with the
    prompt. *)
Definition asked (prompt : jsstring) (st st' : GState) (n : nat) : Prop :=
  calls st' = (calls st + n)%nat
  /\ GeminiService.requests (trace st')
     = GeminiService.requests (trace st) ++ repeat (EvCompletion Gemini prompt) n.

Lemma requests_app a b :
  GeminiService.requests (a ++ b)
  = GeminiService.requests a ++ GeminiService.requests b.
Proof. apply flat_map_app. Qed.

Lemma asked_none prompt st : asked prompt st st 0.
Proof. split; [lia | cbn; rewrite app_nil_r; reflexivity]. Qed.

Lemma asked_trans prompt st1 st2 st3 n m :
  asked prompt st1 st2 n -> asked prompt st2 st3 m -> asked prompt st1 st3 (n + m).
Proof.
  intros [Hc1 Ht1] [Hc2 Ht2]. split; [lia |].
  rewrite Ht2, Ht1, repeat_app, app_assoc. reflexivity.
Qed.

Lemma asked_request prompt st :
  asked prompt st (fst (generateContent respond prompt st)) 1.
Proof.
  split; [cbn; lia |]. cbn [generateContent fst trace].
  rewrite requests_app. reflexivity.
Qed.

Lemma asked_sleep prompt st delay : asked prompt st (sleep delay st) 0.
Proof.
  split; [cbn; lia |]. cbn [sleep trace].
  rewrite requests_app. reflexivity.
Qed.

Lemma asked_setModel prompt st name : asked prompt st (setModel name st) 0.
Proof. split; [cbn; lia | cbn; rewrite app_nil_r; reflexivity]. Qed.

Lemma retryLoop_asked prompt baseDelay :
  forall left a lastError st,
    exists n,
      (n <= left)%nat /\ ((0 < left)%nat -> (1 <= n)%nat)
      /\ asked prompt st
           (fst (retryLoop (generateContent respond prompt) left a baseDelay
                   lastError st)) n.
Proof.
  induction left as [| left IH]; intros a lastError st.
  - exists 0%nat. split; [lia |]. split; [lia |]. apply asked_none.
  - cbn [retryLoop].
    pose proof (asked_request prompt st) as H1.
    destruct (generateContent respond prompt st) as [st' [error | text]];
      cbn [fst] in H1.
    + destruct (isRateLimit error); cbn [negb].
      * destruct (IH (S a) (Some error)
                    (sleep (baseDelay * 2 ^ Z.of_nat a) st')) as (n & Hn & _ & Hasked).
        exists (1 + n)%nat. split; [lia |]. split; [lia |].
        apply (asked_trans prompt st st' _ 1 n H1).
        replace n with (0 + n)%nat by lia.
        exact (asked_trans _ _ _ _ _ _ (asked_sleep prompt st' _) Hasked).
      * exists 1%nat. split; [lia |]. split; [lia | exact H1].
    + exists 1%nat. split; [lia |]. split; [lia | exact H1].
Qed.

Lemma fallbackLoop_asked prompt :
  forall models st,
    exists n,
      (n <= 2 * List.length models)%nat /\ (models <> [] -> (1 <= n)%nat)
      /\ asked prompt st (fst (fallbackLoop respond prompt models st)) n.
Proof.
  induction models as [| name rest IH]; intros st.
  - exists 0%nat. split; [cbn; lia |]. split; [contradiction | apply asked_none].
  - cbn [fallbackLoop]. unfold retryWithBackoff.
    destruct (retryLoop_asked prompt 1000 2 0%nat None (setModel name st))
      as (n & Hn & Hpos & Hasked).
    specialize (Hpos ltac:(lia)).
    assert (Hfrom : asked prompt st
              (fst (retryLoop (generateContent respond prompt) 2 0 1000 None
                      (setModel name st))) n).
    { replace n with (0 + n)%nat by lia.
      exact (asked_trans _ _ _ _ _ _ (asked_setModel prompt st name) Hasked). }
    destruct (retryLoop (generateContent respond prompt) 2 0 1000 None
                (setModel name st)) as [st' [e | text]]; cbn [fst] in *.
    + destruct rest as [| name2 rest].
      * exists n. cbn [List.length]. split; [lia |]. split; [lia | exact Hfrom].
      * destruct (IH st') as (m & Hm & _ & Hrest).
        exists (n + m)%nat. cbn [List.length] in *. split; [lia |]. split; [lia |].
        exact (asked_trans _ _ _ _ _ _ Hfrom Hrest).
    + exists n. cbn [List.length]. split; [lia |]. split; [lia | exact Hfrom].
Qed.

(** A call of [generate] makes between one and 13 requests, all with the
    prompt it was given. *)
Lemma generate_asked prompt st :
  exists n,
    (1 <= n <= 13)%nat /\ asked prompt st (fst (generate respond prompt st)) n.
Proof.
  unfold generate, retryWithBackoff.
  destruct (retryLoop_asked prompt 2000 3 0%nat None st) as (n & Hn & Hpos & Hasked).
  specialize (Hpos ltac:(lia)).
  destruct (retryLoop (generateContent respond prompt) 3 0 2000 None st)
    as [st' [error | text]]; cbn [fst] in *.
  - destruct (statusIs error 429); [exists n; split; [lia | exact Hasked] |].
    destruct (statusIs error 400); [exists n; split; [lia | exact Hasked] |].
    destruct (statusIs error 403); [exists n; split; [lia | exact Hasked] |].
    destruct (JS.truthy (e_message error)
              && (JS.includes (e_message error) (JS.js "404") || statusIs error 404));
      [| exists n; split; [lia | exact Hasked]].
    destruct (fallbackLoop_asked prompt fallbackModels st') as (m & Hm & _ & Hrest).
    change (List.length fallbackModels) with 5%nat in Hm.
    exists (n + m)%nat. split; [lia |].
    exact (asked_trans _ _ _ _ _ _ Hasked Hrest).
  - exists n. split; [lia | exact Hasked].
Qed.

End GeminiRequests.

(** The requests of the Gemini client of the bot, as events. *)
Lemma geminiGenerate_requests (w : Providers.World) (prompt : jsstring) :
  exists n,
    (1 <= n <= 13)%nat
    /\ Providers.GeminiService.requests
         (GeminiGenerate.trace (fst (Providers.GeminiService.geminiGenerate w prompt)))
       = repeat (EvCompletion Gemini prompt) n.
Proof.
  unfold Providers.GeminiService.geminiGenerate.
  destruct (generate_asked (Providers.geminiRespond w) prompt
              (Providers.GeminiService.ready w)) as (n & Hn & _ & Hreq).
  exists n. split; [exact Hn |]. rewrite Hreq. reflexivity.
Qed.

(** ** The provider clients *)

Section Clients.

Import JS Analysis Providers Store.

#[local] Opaque JS.js.

(** Evaluation that leaves the queries and the texts folded. *)
Ltac steps :=
  cbn -[findByUserId selectTexts findByTelegramId findByUsername fetchLimit
        createAnalysisPrompt parseAnalysisResponse averageMessageLength
        insufficientData DeepSeekService.complete].

(** The [(limit, rows)] of the fetches among the events. *)
Fixpoint fetches (es : list Event) : list (Z * nat) :=
  match es with
  | EvFetchMessages _ limit rows :: r => (limit, rows) :: fetches r
  | _ :: r => fetches r
  | [] => []
  end.

(** The prompts sent to a completion endpoint among the events. *)
Fixpoint completions (es : list Event) : list (Provider * jsstring) :=
  match es with
  | EvCompletion p prompt :: r => (p, prompt) :: completions r
  | _ :: r => completions r
  | [] => []
  end.

Lemma fetches_app a b : fetches (a ++ b) = fetches a ++ fetches b.
Proof.
  induction a as [| e a IH]; [reflexivity |].
  destruct e; steps; rewrite IH; reflexivity.
Qed.

Lemma completions_app a b : completions (a ++ b) = completions a ++ completions b.
Proof.
  induction a as [| e a IH]; [reflexivity |].
  destruct e; steps; rewrite IH; reflexivity.
Qed.

Lemma fetchLimit_cases limit :
  fetchLimit limit <= 30 /\ fetchLimit limit <> 0
  /\ (forall l, limit = Some l -> l <> 0 -> fetchLimit limit = Z.min l 30)
  /\ (limit = None \/ limit = Some 0 -> fetchLimit limit = 30).
Proof.
  unfold fetchLimit. destruct limit as [l |].
  - destruct (Z.eqb_spec l 0).
    + repeat split; try lia. intros l' [= <-] Hne. contradiction.
    + repeat split; try lia.
      * intros l' [= <-] _. reflexivity.
      * intros [H | [= H]]; [discriminate H | contradiction].
  - repeat split; try lia. intros l [=].
Qed.

(** What [prepare] does, by the state of the store. *)
Lemma prepare_unknown w id limit :
  findByTelegramId (db w) id = None ->
  prepare w id limit = ([EvFindUser id], Ok (inl None)).
Proof.
  intros H. unfold prepare, findUser. steps. rewrite H. reflexivity.
Qed.

Lemma prepare_known w id limit u :
  findByTelegramId (db w) id = Some u ->
  prepare w id limit
  = match findByUserId (db w) (u_id u) (limitOnly (fetchLimit limit)) with
    | Ok rows =>
        ([EvFindUser id; EvFindUser id;
          EvFetchMessages (u_id u) (fetchLimit limit) (List.length rows)],
         Ok (match rows with
             | [] => inl (Some insufficientData)
             | _ => inr (u, List.map text rows)
             end))
    | Throw e =>
        ([EvFindUser id; EvFindUser id;
          EvFetchMessages (u_id u) (fetchLimit limit) 0], Throw e)
    end.
Proof.
  intros H. unfold prepare, getUserMessages, findUser. steps. rewrite H. steps.
  destruct (findByUserId (db w) (u_id u) (limitOnly (fetchLimit limit)))
    as [rows | e]; steps; [| reflexivity].
  destruct rows; reflexivity.
Qed.

Lemma findByUserId_rows db uid lim rows :
  lim <> 0 ->
  findByUserId db uid (limitOnly lim) = Ok rows ->
  0 < lim /\ Z.of_nat (List.length rows) <= lim.
Proof.
  unfold findByUserId, limitOnly. steps. intros Hne.
  destruct (Z.eqb_spec lim 0); [contradiction |].
  destruct (Z.ltb_spec lim 0); [discriminate |].
  intros [= <-]. split; [lia |].
  pose proof (firstn_le_length (Z.to_nat lim)
    (orderByCreatedDesc
       (List.filter (fun m => (user_id m =? uid) && true && true && true)
          (messages db)))) as Hl.
  pose proof (length_firstn (Z.to_nat lim)
    (orderByCreatedDesc
       (List.filter (fun m => (user_id m =? uid) && true && true && true)
          (messages db)))) as Hf.
  rewrite Hf. lia.
Qed.

Lemma prepare_fetches w id limit :
  completions (events (prepare w id limit)) = []
  /\ (fetches (events (prepare w id limit)) = []
      \/ exists rows,
           fetches (events (prepare w id limit)) = [(fetchLimit limit, rows)]
           /\ Z.of_nat rows <= Z.max 0 (fetchLimit limit)).
Proof.
  destruct (findByTelegramId (db w) id) as [u |] eqn:Hu.
  - rewrite (prepare_known w id limit u Hu).
    destruct (findByUserId (db w) (u_id u) (limitOnly (fetchLimit limit)))
      as [rows | e] eqn:Hf; steps.
    + split; [reflexivity |]. right. eexists. split; [reflexivity |].
      destruct (fetchLimit_cases limit) as (_ & Hne & _).
      destruct (findByUserId_rows _ _ _ _ Hne Hf). lia.
    + split; [reflexivity |]. right. eexists. split; [reflexivity |]. lia.
  - rewrite (prepare_unknown w id limit Hu). steps. split; [reflexivity | left; reflexivity].
Qed.

Lemma complete_events w prompt messages :
  events (DeepSeekService.complete w prompt messages) = [EvCompletion DeepSeek prompt].
Proof.
  unfold DeepSeekService.complete. steps.
  destruct (deepseekFetch w prompt) as [r | e]; steps; [| reflexivity].
  destruct (ok r); steps.
  - destruct (jsonContent r) as [[c |] | e]; steps; try reflexivity.
    destruct (truthy c); reflexivity.
  - destruct (status r =? 402); reflexivity.
Qed.

Lemma fetches_requests p prompt n :
  fetches (repeat (EvCompletion p prompt) n) = [].
Proof. induction n as [| n IH]; [reflexivity | exact IH]. Qed.


(** The events of an [analyzeUser]: none, those of the common beginning,
    or these and then the requests to the completion endpoint of the
    provider, all with one prompt: one request, and for Gemini, with its
    retries and its other models, up to 13. *)
Lemma analyzeUser_events w p id limit :
  events (analyzeUser w p id limit) = []
  \/ events (analyzeUser w p id limit) = events (prepare w id limit)
  \/ exists prompt n,
       (1 <= n <= 13)%nat /\ (p <> Gemini -> n = 1%nat)
       /\ events (analyzeUser w p id limit)
          = events (prepare w id limit) ++ repeat (EvCompletion p prompt) n.
Proof.
  destruct p; cbn [analyzeUser].
  - unfold DeepSeekService.analyzeUser.
    destruct (truthyOpt (DEEPSEEK_API_KEY w)); cbn [negb]; [| left; reflexivity].
    right. destruct (prepare w id limit) as [log [[early | [user messages]] | e]]; steps.
    + left. rewrite app_nil_r. reflexivity.
    + right. eexists. exists 1%nat. split; [lia |]. split; [reflexivity |].
      pose proof (complete_events w
        (createAnalysisPrompt messages (u_username user) (u_first_name user))
        messages) as Hc.
      destruct (DeepSeekService.complete w _ messages) as [log' r'].
      cbn [events fst] in Hc. subst log'. reflexivity.
    + left. reflexivity.
  - unfold QwenService.analyzeUser.
    destruct (isAvailable w Qwen); cbn [negb]; [| left; reflexivity].
    right. destruct (prepare w id limit) as [log [[early | [user messages]] | e]]; steps.
    + left. rewrite app_nil_r. reflexivity.
    + right. eexists. exists 1%nat. split; [lia |]. split; [reflexivity |].
      destruct (qwenCreate w _) as [[content |] | e]; steps; try reflexivity.
      destruct (truthy _); reflexivity.
    + left. reflexivity.
  - unfold GeminiService.analyzeUser.
    destruct (negb (GeminiService.modelSet w) && negb (truthyOpt (GEMINI_API_KEY w)));
      [left; reflexivity |].
    right. destruct (prepare w id limit) as [log [[early | [user messages]] | e]];
      cbn [mbind M_bind mret M_ret events fst].
    + left. rewrite app_nil_r. reflexivity.
    + right.
      destruct (geminiGenerate_requests w
                  (createAnalysisPrompt messages (u_username user) (u_first_name user)))
        as (n & Hn & Hreq).
      eexists. exists n. split; [exact Hn |]. split; [intros H; contradiction |].
      cbv zeta. rewrite Hreq.
      destruct (snd (GeminiService.geminiGenerate w _)) as [t | e];
        cbn [fst]; rewrite ?app_nil_r; reflexivity.
    + left. reflexivity.
Qed.

(** *** The limit of the fetch *)

Definition bob : UserData :=
  {| u_id := 1; u_telegram_id := 777; u_username := Some (js "bob");
     u_first_name := None; u_last_name := None;
     u_created_at := 0; u_updated_at := 0 |}.

Definition bobSays (n : Z) (t : jsstring) : MessageData :=
  {| id := n; user_id := 1; telegram_message_id := 100 + n; chat_id := -5;
     text := t; created_at := 1000 * n |}.

Definition goodReply : jsstring :=
  js "Стиль: неформальный
Темы: погода
Активность: вечер
Тональность: позитивная
Особенности: смайлики".

(** A world with every key set, whose services all answer [goodReply]. *)
Definition worldWith (msgs : list MessageData) : World :=
  {| db := {| users := [bob]; messages := msgs; messages_id_seq := 10 |};
     DEEPSEEK_API_KEY := Some (js "sk-1");
     DASHSCOPE_API_KEY := Some (js "sk-2");
     GEMINI_API_KEY := Some (js "sk-3");
     geminiModel := Some GeminiService.firstModel;
     deepseekFetch := fun _ =>
       Ok {| status := 200; bodyText := []; jsonContent := Ok (Some goodReply) |};
     qwenCreate := fun _ => Ok (Some (ContentString goodReply));
     geminiRespond := fun _ _ _ => inr goodReply |}.

Example analyze_one_message :
  outcome (analyzeUser (worldWith [bobSays 1 (js "привет")]) Qwen 777 (Some 30))
  = Ok (Some {| style := js "неформальный"; topics := js "погода";
                averageLength := js "6 символов"; activity := js "вечер";
                tone := js "позитивная"; features := js "смайлики";
                messageCount := 1; period := js "все время" |}).
Proof. vm_compute. reflexivity. Qed.

Example analyze_unknown_user :
  outcome (analyzeUser (worldWith []) Gemini 555 (Some 30)) = Ok None.
Proof. vm_compute. reflexivity. Qed.

(** A requested limit of 0 fetches with the limit 30: one message comes
    back, and [min(0, 30)] is 0. *)
Lemma analyzeUser_limit_zero_counterexample :
  fetches (events (analyzeUser (worldWith [bobSays 1 (js "привет")])
                     DeepSeek 777 (Some 0)))
  = [(30, 1%nat)]
  /\ Z.min 0 30 = 0.
Proof. vm_compute. split; reflexivity. Qed.

(** C8, as the code has it.  An [analyzeUser] fetches messages at most
    once, with the limit [min(requested || 30, 30)]: the smaller of the
    requested limit and 30 when the requested limit is positive, and 30
    when it is missing or 0.  No call gets more than 30 messages, and none
    more than a positive requested limit. *)
Theorem analyzeUser_fetch_limit :
  forall w p id limit,
    (List.length (fetches (events (analyzeUser w p id limit))) <= 1)%nat
    /\ forall lim rows,
         In (lim, rows) (fetches (events (analyzeUser w p id limit))) ->
         lim = fetchLimit limit
         /\ Z.of_nat rows <= 30
         /\ (forall l, limit = Some l -> 0 < l ->
             lim = Z.min l 30 /\ Z.of_nat rows <= Z.min l 30)
         /\ (limit = None \/ limit = Some 0 -> lim = 30).
Proof.
  intros w p id limit.
  destruct (prepare_fetches w id limit) as [Hcompl Hfetch].
  destruct (fetchLimit_cases limit) as (Hle & Hne & Hpos & Hdef).
  assert (Hshape : fetches (events (analyzeUser w p id limit)) = []
                   \/ fetches (events (analyzeUser w p id limit))
                      = fetches (events (prepare w id limit))).
  { destruct (analyzeUser_events w p id limit) as [-> | [-> | (prompt & n & _ & _ & ->)]].
    - left. reflexivity.
    - right. reflexivity.
    - right. rewrite fetches_app, fetches_requests. apply app_nil_r. }
  destruct Hshape as [-> | ->]; [split; [steps; lia | intros lim rows []] |].
  destruct Hfetch as [-> | (n & -> & Hn)]; [split; [steps; lia | intros lim rows []] |].
  split; [steps; lia |].
  intros lim rows [[= <- <-] | []].
  split; [reflexivity |]. split; [lia |]. split.
  - intros l Hl Hlpos. rewrite (Hpos l Hl) in * by lia. split; [reflexivity | lia].
  - exact Hdef.
Qed.

Lemma analyzeUser_fetch_limit_witness :
  In (5, 1%nat)
     (fetches (events (analyzeUser (worldWith [bobSays 1 (js "привет")])
                         Gemini 777 (Some 5))))
  /\ 5 = fetchLimit (Some 5).
Proof.
  assert (H : In (5, 1%nat)
                (fetches (events (analyzeUser (worldWith [bobSays 1 (js "привет")])
                                    Gemini 777 (Some 5)))))
    by (vm_compute; left; reflexivity).
  split; [exact H |].
  exact (proj1 (proj2 (analyzeUser_fetch_limit
                         (worldWith [bobSays 1 (js "привет")]) Gemini 777 (Some 5))
                  5 1%nat H)).
Defined.

(** *** A user without messages *)

Lemma orderByCreatedDesc_nil : orderByCreatedDesc [] = [].
Proof. reflexivity. Qed.

Lemma findByUserId_none db uid lim :
  0 < lim ->
  (forall m, In m (messages db) -> user_id m <> uid) ->
  findByUserId db uid (limitOnly lim) = Ok [].
Proof.
  intros Hlim Hnone. unfold findByUserId, limitOnly. steps.
  destruct (Z.eqb_spec lim 0); [lia |].
  destruct (Z.ltb_spec lim 0); [lia |].
  assert (Hf : List.filter (fun m => (user_id m =? uid) && true && true && true)
                 (messages db) = []).
  { induction (messages db) as [| m ms IH]; [reflexivity |].
    steps. destruct (Z.eqb_spec (user_id m) uid) as [He | _].
    - exfalso. apply (Hnone m); [left; reflexivity | exact He].
    - steps. apply IH. intros m' Hm'. apply Hnone. right. exact Hm'. }
  rewrite Hf. steps. rewrite firstn_nil. reflexivity.
Qed.

Lemma fetchLimit_positive limit :
  match limit with Some l => 0 <= l | None => True end -> 0 < fetchLimit limit.
Proof.
  unfold fetchLimit. destruct limit as [l |]; [| lia].
  intros Hl. destruct (Z.eqb_spec l 0); lia.
Qed.

Lemma prepare_no_messages w id limit u :
  findByTelegramId (db w) id = Some u ->
  (forall m, In m (messages (db w)) -> user_id m <> u_id u) ->
  match limit with Some l => 0 <= l | None => True end ->
  prepare w id limit
  = ([EvFindUser id; EvFindUser id; EvFetchMessages (u_id u) (fetchLimit limit) 0],
     Ok (inl (Some insufficientData))).
Proof.
  intros Hu Hnone Hl. rewrite (prepare_known w id limit u Hu).
  rewrite findByUserId_none by (try apply fetchLimit_positive; assumption).
  reflexivity.
Qed.

(** A world like [worldWith], without the key of DeepSeek. *)
Definition worldWithoutDeepSeekKey : World :=
  {| db := db (worldWith []);
     DEEPSEEK_API_KEY := None;
     DASHSCOPE_API_KEY := DASHSCOPE_API_KEY (worldWith []);
     GEMINI_API_KEY := GEMINI_API_KEY (worldWith []);
     geminiModel := Some GeminiService.firstModel;
     deepseekFetch := deepseekFetch (worldWith []);
     qwenCreate := qwenCreate (worldWith []);
     geminiRespond := geminiRespond (worldWith []) |}.

(** Without its key, the DeepSeek client throws for a known user who has
    no message: the key is looked at before the store. *)
Lemma analyzeUser_without_key_counterexample :
  findByTelegramId (db worldWithoutDeepSeekKey) 777 = Some bob
  /\ messages (db worldWithoutDeepSeekKey) = []
  /\ outcome (analyzeUser worldWithoutDeepSeekKey DeepSeek 777 (Some 30))
     = Throw (js "DEEPSEEK_API_KEY не установлен").
Proof. vm_compute. repeat split. Qed.

(** C7, as the code has it.  For every provider client whose key is set,
    [analyzeUser] with a limit that is missing or not negative, on a known
    user with no stored message, returns the fixed "insufficient data"
    record, whose [messageCount] is 0, and sends nothing to the completion
    endpoint of any provider: its only effects are the two look-ups of the
    user and the fetch of the messages. *)
Theorem analyzeUser_no_messages :
  forall w p id limit u,
    isAvailable w p = true ->
    findByTelegramId (db w) id = Some u ->
    (forall m, In m (messages (db w)) -> user_id m <> u_id u) ->
    match limit with Some l => 0 <= l | None => True end ->
    outcome (analyzeUser w p id limit) = Ok (Some insufficientData)
    /\ messageCount insufficientData = 0
    /\ completions (events (analyzeUser w p id limit)) = []
    /\ events (analyzeUser w p id limit)
       = [EvFindUser id; EvFindUser id;
          EvFetchMessages (u_id u) (fetchLimit limit) 0].
Proof.
  intros w p id limit u Hav Hu Hnone Hl.
  pose proof (prepare_no_messages w id limit u Hu Hnone Hl) as Hp.
  assert (H : analyzeUser w p id limit
              = ([EvFindUser id; EvFindUser id;
                  EvFetchMessages (u_id u) (fetchLimit limit) 0],
                 Ok (Some insufficientData))).
  { destruct p; cbn [analyzeUser isAvailable] in *.
    - unfold DeepSeekService.analyzeUser. rewrite Hav. cbn [negb].
      rewrite Hp. reflexivity.
    - unfold QwenService.analyzeUser. cbn [isAvailable]. rewrite Hav. cbn [negb].
      rewrite Hp. reflexivity.
    - unfold GeminiService.analyzeUser. rewrite Hav. cbn [negb].
      rewrite andb_false_r. rewrite Hp. reflexivity. }
  rewrite H. repeat split.
Qed.

Lemma analyzeUser_no_messages_witness :
  isAvailable (worldWith []) Qwen = true
  /\ outcome (analyzeUser (worldWith []) Qwen 777 None) = Ok (Some insufficientData).
Proof.
  split; [reflexivity |].
  refine (proj1 (analyzeUser_no_messages (worldWith []) Qwen 777 None bob
                   eq_refl eq_refl _ I)).
  intros m [].
Defined.

(** *** The DeepSeek client *)

Lemma complete_not_ok w prompt messages r :
  deepseekFetch w prompt = Ok r ->
  (status r = 402 ->
   outcome (DeepSeekService.complete w prompt messages)
   = Throw (js "DEEPSEEK_INSUFFICIENT_BALANCE"))
  /\ (ok r = false -> status r <> 402 ->
      outcome (DeepSeekService.complete w prompt messages)
      = Throw (js "DeepSeek API ошибка: " ++ ofNumber (status r)
               ++ js " - " ++ bodyText r)).
Proof.
  intros Hr. unfold DeepSeekService.complete. steps. rewrite Hr. steps. split.
  - intros H402. unfold ok. rewrite H402. reflexivity.
  - intros Hok Hne. rewrite Hok. steps.
    destruct (Z.eqb_spec (status r) 402); [contradiction | reflexivity].
Qed.

Lemma deepseek_reached w id limit u rows :
  truthyOpt (DEEPSEEK_API_KEY w) = true ->
  findByTelegramId (db w) id = Some u ->
  findByUserId (db w) (u_id u) (limitOnly (fetchLimit limit)) = Ok rows ->
  rows <> [] ->
  DeepSeekService.analyzeUser w id limit
  = ([EvFindUser id; EvFindUser id;
      EvFetchMessages (u_id u) (fetchLimit limit) (List.length rows);
      EvCompletion DeepSeek
        (createAnalysisPrompt (List.map text rows) (u_username u) (u_first_name u))],
     outcome (DeepSeekService.complete w
                (createAnalysisPrompt (List.map text rows) (u_username u) (u_first_name u))
                (List.map text rows))).
Proof.
  intros Hkey Hu Hf Hne. unfold DeepSeekService.analyzeUser.
  rewrite Hkey. cbn [negb]. rewrite (prepare_known w id limit u Hu), Hf.
  destruct rows as [| row rows]; [contradiction |].
  pose proof (complete_events w
    (createAnalysisPrompt (List.map text (row :: rows)) (u_username u) (u_first_name u))
    (List.map text (row :: rows))) as Hc.
  cbn [mbind M_bind].
  destruct (DeepSeekService.complete w _ _) as [log' r'].
  cbn [events fst] in Hc. subst log'. reflexivity.
Qed.

(** The dashboard's client, when it gets as far as the request. *)
Lemma route_reached w username u msgs :
  truthyOpt (DEEPSEEK_API_KEY w) = true ->
  findByUsername (db w) username = Some u ->
  selectTexts (db w) (u_id u) 30 = Ok msgs ->
  msgs <> [] ->
  Route.analyzeUserWithDeepseek w username
  = ([EvFetchMessages (u_id u) 30 (List.length msgs);
      EvCompletion DeepSeek
        (createAnalysisPrompt msgs (u_username u) (u_first_name u))],
     outcome (DeepSeekService.complete w
                (createAnalysisPrompt msgs (u_username u) (u_first_name u)) msgs)).
Proof.
  intros Hkey Hu Hs Hne. unfold Route.analyzeUserWithDeepseek.
  rewrite Hkey, Hu. cbn [negb]. rewrite Hs.
  destruct msgs as [| m msgs]; [contradiction |].
  unfold DeepSeekService.complete. steps.
  destruct (deepseekFetch w _) as [r | e]; steps; [| reflexivity].
  destruct (ok r); steps.
  - destruct (jsonContent r) as [[c |] | e]; steps; try reflexivity.
    destruct (truthy c); reflexivity.
  - destruct (status r =? 402); reflexivity.
Qed.

Lemma route_requests w username :
  (List.length (completions (events (Route.analyzeUserWithDeepseek w username))) <= 1)%nat.
Proof.
  unfold Route.analyzeUserWithDeepseek.
  destruct (truthyOpt (DEEPSEEK_API_KEY w)); cbn [negb]; [| steps; lia].
  destruct (findByUsername (db w) username) as [u |]; [| steps; lia].
  destruct (selectTexts (db w) (u_id u) 30) as [msgs | e]; [| steps; lia].
  destruct msgs as [| m msgs]; [steps; lia |].
  steps. destruct (deepseekFetch w _) as [r | e]; steps; [| lia].
  destruct (ok r); steps.
  - destruct (jsonContent r) as [[c |] | e]; steps; try lia.
    destruct (truthy c); steps; lia.
  - destruct (status r =? 402); steps; lia.
Qed.

Lemma deepseek_requests w id limit :
  (List.length (completions (events (DeepSeekService.analyzeUser w id limit))) <= 1)%nat.
Proof.
  destruct (prepare_fetches w id limit) as [Hc _].
  destruct (analyzeUser_events w DeepSeek id limit)
    as [H | [H | (prompt & n & _ & Hone & H)]];
    cbn [analyzeUser] in H; rewrite H.
  - steps. lia.
  - rewrite Hc. steps. lia.
  - rewrite completions_app, Hc, (Hone ltac:(discriminate)). steps. lia.
Qed.

(** The calls of the bot's client that end before the request. *)
Definition endsEarly (w : World) (id : Z) (limit : option Z) : Prop :=
  truthyOpt (DEEPSEEK_API_KEY w) = false
  \/ findByTelegramId (db w) id = None
  \/ exists u,
       findByTelegramId (db w) id = Some u
       /\ (findByUserId (db w) (u_id u) (limitOnly (fetchLimit limit)) = Ok []
           \/ exists e,
                findByUserId (db w) (u_id u) (limitOnly (fetchLimit limit)) = Throw e).

(** The calls of the dashboard's client that end before the request. *)
Definition routeEndsEarly (w : World) (username : jsstring) : Prop :=
  truthyOpt (DEEPSEEK_API_KEY w) = false
  \/ findByUsername (db w) username = None
  \/ exists u,
       findByUsername (db w) username = Some u
       /\ (selectTexts (db w) (u_id u) 30 = Ok []
           \/ exists e, selectTexts (db w) (u_id u) 30 = Throw e).

Lemma deepseek_early w id limit :
  endsEarly w id limit ->
  completions (events (DeepSeekService.analyzeUser w id limit)) = [].
Proof.
  unfold DeepSeekService.analyzeUser.
  intros [Hkey | [Hnone | (u & Hu & Hrows)]].
  - rewrite Hkey. reflexivity.
  - destruct (truthyOpt (DEEPSEEK_API_KEY w)); [| reflexivity]. cbn [negb].
    rewrite (prepare_unknown w id limit Hnone). reflexivity.
  - destruct (truthyOpt (DEEPSEEK_API_KEY w)); [| reflexivity]. cbn [negb].
    rewrite (prepare_known w id limit u Hu).
    destruct Hrows as [-> | [e ->]]; reflexivity.
Qed.

Lemma route_early w username :
  routeEndsEarly w username ->
  completions (events (Route.analyzeUserWithDeepseek w username)) = [].
Proof.
  unfold Route.analyzeUserWithDeepseek.
  intros [Hkey | [Hnone | (u & Hu & Hrows)]].
  - rewrite Hkey. reflexivity.
  - destruct (truthyOpt (DEEPSEEK_API_KEY w)); [| reflexivity]. cbn [negb].
    rewrite Hnone. reflexivity.
  - destruct (truthyOpt (DEEPSEEK_API_KEY w)); [| reflexivity]. cbn [negb].
    rewrite Hu. destruct Hrows as [-> | [e ->]]; reflexivity.
Qed.

(** With its key set, the DeepSeek client sends nothing for a known user
    without messages: not every call makes a request. *)
Lemma deepseek_no_request_counterexample :
  truthyOpt (DEEPSEEK_API_KEY (worldWith [])) = true
  /\ findByTelegramId (db (worldWith [])) 777 = Some bob
  /\ outcome (DeepSeekService.analyzeUser (worldWith []) 777 (Some 30))
     = Ok (Some insufficientData)
  /\ completions (events (DeepSeekService.analyzeUser (worldWith []) 777 (Some 30)))
     = [].
Proof. vm_compute. repeat split. Qed.

(** C2, as the code has it.  The DeepSeek client, in the bot and in the
    dashboard, never sends more than one request in a call of
    [analyzeUser], and sends exactly one, with the prompt built from the
    messages, when its key is set, the user is known and at least one
    message is fetched.  It sends none when the call ends before that:
    without the key, for a user that is not stored, and when the fetch
    gives no message or fails.  When the response to that request has
    status 402, the call throws the error
    ['DEEPSEEK_INSUFFICIENT_BALANCE']; when it has any other status outside
    200..299, the call throws the error
    ["DeepSeek API ошибка: <status> - <body>"]. *)
Theorem deepseek_single_request :
  forall w : World,
    (forall id limit,
       (List.length (completions (events (DeepSeekService.analyzeUser w id limit)))
        <= 1)%nat)
    /\ (forall username,
          (List.length (completions (events (Route.analyzeUserWithDeepseek w username)))
           <= 1)%nat)
    /\ (forall id limit u rows,
          truthyOpt (DEEPSEEK_API_KEY w) = true ->
          findByTelegramId (db w) id = Some u ->
          findByUserId (db w) (u_id u) (limitOnly (fetchLimit limit)) = Ok rows ->
          rows <> [] ->
          let prompt :=
            createAnalysisPrompt (List.map text rows) (u_username u) (u_first_name u) in
          completions (events (DeepSeekService.analyzeUser w id limit))
          = [(DeepSeek, prompt)]
          /\ forall r, deepseekFetch w prompt = Ok r ->
               (status r = 402 ->
                outcome (DeepSeekService.analyzeUser w id limit)
                = Throw (js "DEEPSEEK_INSUFFICIENT_BALANCE"))
               /\ (ok r = false -> status r <> 402 ->
                   outcome (DeepSeekService.analyzeUser w id limit)
                   = Throw (js "DeepSeek API ошибка: " ++ ofNumber (status r)
                            ++ js " - " ++ bodyText r)))
    /\ (forall username u msgs,
          truthyOpt (DEEPSEEK_API_KEY w) = true ->
          findByUsername (db w) username = Some u ->
          selectTexts (db w) (u_id u) 30 = Ok msgs ->
          msgs <> [] ->
          let prompt := createAnalysisPrompt msgs (u_username u) (u_first_name u) in
          completions (events (Route.analyzeUserWithDeepseek w username))
          = [(DeepSeek, prompt)]
          /\ forall r, deepseekFetch w prompt = Ok r ->
               (status r = 402 ->
                outcome (Route.analyzeUserWithDeepseek w username)
                = Throw (js "DEEPSEEK_INSUFFICIENT_BALANCE"))
               /\ (ok r = false -> status r <> 402 ->
                   outcome (Route.analyzeUserWithDeepseek w username)
                   = Throw (js "DeepSeek API ошибка: " ++ ofNumber (status r)
                            ++ js " - " ++ bodyText r)))
    /\ (forall id limit,
          endsEarly w id limit ->
          completions (events (DeepSeekService.analyzeUser w id limit)) = [])
    /\ (forall username,
          routeEndsEarly w username ->
          completions (events (Route.analyzeUserWithDeepseek w username)) = []).
Proof.
  intros w. split; [intros; apply deepseek_requests |].
  split; [intros; apply route_requests |].
  split; [| split; [| split; [intros; apply deepseek_early; assumption
                             | intros; apply route_early; assumption]]].
  - intros id limit u rows Hkey Hu Hf Hne prompt.
    rewrite (deepseek_reached w id limit u rows Hkey Hu Hf Hne).
    split; [reflexivity |]. intros r Hr. cbn [outcome snd].
    apply complete_not_ok. exact Hr.
  - intros username u msgs Hkey Hu Hs Hne prompt.
    rewrite (route_reached w username u msgs Hkey Hu Hs Hne).
    split; [reflexivity |]. intros r Hr. cbn [outcome snd].
    apply complete_not_ok. exact Hr.
Qed.

(** A world whose DeepSeek account is out of funds. *)
Definition worldOutOfFunds : World :=
  {| db := db (worldWith [bobSays 1 (js "привет")]);
     DEEPSEEK_API_KEY := Some (js "sk-1");
     DASHSCOPE_API_KEY := None;
     GEMINI_API_KEY := None;
     geminiModel := None;
     deepseekFetch := fun _ =>
       Ok {| status := 402; bodyText := js "Insufficient Balance";
             jsonContent := Ok None |};
     qwenCreate := fun _ => Throw (js "unreachable");
     geminiRespond := fun _ _ _ => inl GeminiGenerate.unknownError |}.

Example deepseek_server_error :
  outcome (DeepSeekService.analyzeUser
             {| db := db worldOutOfFunds;
                DEEPSEEK_API_KEY := Some (js "sk-1");
                DASHSCOPE_API_KEY := None; GEMINI_API_KEY := None;
                geminiModel := None;
                deepseekFetch := fun _ =>
                  Ok {| status := 503; bodyText := js "busy";
                        jsonContent := Ok None |};
                qwenCreate := qwenCreate worldOutOfFunds;
                geminiRespond := geminiRespond worldOutOfFunds |} 777 None)
  = Throw (js "DeepSeek API ошибка: 503 - busy").
Proof. vm_compute. reflexivity. Qed.

Lemma deepseek_single_request_witness :
  status {| status := 402; bodyText := js "Insufficient Balance";
            jsonContent := Ok None |} = 402
  /\ outcome (DeepSeekService.analyzeUser worldOutOfFunds 777 (Some 30))
     = Throw (js "DEEPSEEK_INSUFFICIENT_BALANCE")
  /\ endsEarly worldOutOfFunds 555 (Some 30)
  /\ completions (events (DeepSeekService.analyzeUser worldOutOfFunds 555 (Some 30)))
     = [].
Proof.
  assert (Hearly : endsEarly worldOutOfFunds 555 (Some 30))
    by (right; left; reflexivity).
  split; [reflexivity |]. split; [| split; [exact Hearly |]].
  - refine (proj1 (proj2 (proj1 (proj2 (proj2 (deepseek_single_request worldOutOfFunds)))
                            777 (Some 30) bob [bobSays 1 (js "привет")]
                            eq_refl eq_refl eq_refl _)
                     _ eq_refl) eq_refl).
    discriminate.
  - exact (proj1 (proj2 (proj2 (proj2 (proj2 (deepseek_single_request worldOutOfFunds)))))
             555 (Some 30) Hearly).
Defined.

End Clients.

(** ** The provider loop of /analyze *)

Section Handler.

Import JS Analysis AnalyzeHandlers.

#[local] Opaque JS.js.

Variable isAvailable : Provider -> bool.
Variable analyzeUser : Provider -> Z -> option Z -> M (option UserAnalysis).
Variable targetUserId : Z.

(** The call the handler makes to a provider client. *)
Definition attempt (p : Provider) : M (option UserAnalysis) :=
  analyzeUser p targetUserId (Some 30).

(** The providers whose client is entered, read off the order of the
    list: the unavailable ones are passed over, and the first client that
    returns is the last one entered. *)
Fixpoint entered (ps : list Provider) : list Provider :=
  match ps with
  | [] => []
  | p :: rest =>
      if isAvailable p then
        p :: match outcome (attempt p) with
             | Ok _ => []
             | Throw _ => entered rest
             end
      else entered rest
  end.


(** The failure of DeepSeek is of the insufficient-balance kind, as the
    handler recognises it. *)
Definition insufficientBalance (e : jsstring) : bool :=
  includes e (js "INSUFFICIENT_BALANCE").


Definition allFail : Prop :=
  forall p, isAvailable p = true -> exists e, outcome (attempt p) = Throw e.

(** The state of the loop after a client returned, and after it threw. *)
Definition afterReturn (st : LoopState) (p : Provider) (a : option UserAnalysis)
  : LoopState :=
  {| analysis := a; usedService := Some p; lastError := lastError st;
     deepseekInsufficient := deepseekInsufficient st; broke := true |}.

Definition afterThrow (st : LoopState) (p : Provider) (e : jsstring) : LoopState :=
  {| analysis := analysis st; usedService := usedService st;
     lastError := Some e;
     deepseekInsufficient :=
       if isDeepSeek p && insufficientBalance e then true
       else deepseekInsufficient st;
     broke := false |}.

(** The variables of the loop once it has run over [ps]. *)
Fixpoint finalState (ps : list Provider) (st : LoopState) : LoopState :=
  match ps with
  | [] => st
  | p :: rest =>
      if isAvailable p then
        match outcome (attempt p) with
        | Ok a => afterReturn st p a
        | Throw e => finalState rest (afterThrow st p e)
        end
      else finalState rest st
  end.

Lemma iteration_run st p :
  iteration isAvailable analyzeUser targetUserId st p
  = if isAvailable p then
      (EvAnalyzeUser p :: events (attempt p),
       Ok match outcome (attempt p) with
          | Ok a => afterReturn st p a
          | Throw e => afterThrow st p e
          end)
    else ([], Ok st).
Proof.
  unfold iteration, attempt, afterReturn, afterThrow, insufficientBalance,
    events, outcome, tryCatch, mbind, M_bind, mret, M_ret, emit.
  destruct (isAvailable p); cbn [negb]; [| reflexivity].
  destruct (analyzeUser p targetUserId (Some 30)) as [log [a | e]];
    cbn [fst snd app]; rewrite app_nil_r; reflexivity.
Qed.

Lemma loop_run ps : forall st,
  broke st = false ->
  loop isAvailable analyzeUser targetUserId ps st
  = (flat_map (fun p => EvAnalyzeUser p :: events (attempt p)) (entered ps),
     Ok (finalState ps st)).
Proof.
  induction ps as [| p rest IH]; intros st Hb; [reflexivity |].
  cbn [loop entered finalState flat_map]. rewrite iteration_run.
  unfold mbind, M_bind, mret, M_ret.
  destruct (isAvailable p).
  - destruct (outcome (attempt p)) as [a | e].
    + cbn [broke afterReturn flat_map app]. rewrite !app_nil_r. reflexivity.
    + cbn [broke afterThrow]. rewrite IH by reflexivity. cbn [flat_map app]. reflexivity.
  - rewrite Hb, IH by exact Hb. reflexivity.
Qed.

(** What [runProviders] does, from the state the loop ends in. *)
Lemma runProviders_run :
  runProviders isAvailable analyzeUser targetUserId
  = (flat_map (fun p => EvAnalyzeUser p :: events (attempt p)) (entered providers),
     match analysis (finalState providers initial) with
     | Some a => Ok (a, usedService (finalState providers initial))
     | None =>
         if deepseekInsufficient (finalState providers initial)
            && negb (isAvailable Qwen) && negb (isAvailable Gemini)
         then Throw noAlternative
         else match lastError (finalState providers initial) with
              | Some e => Throw e
              | None => Throw noProvider
              end
     end).
Proof.
  unfold runProviders. rewrite loop_run by reflexivity.
  unfold mbind, M_bind, mret, M_ret, throw.
  destruct (analysis (finalState providers initial)).
  - rewrite app_nil_r. reflexivity.
  - destruct (deepseekInsufficient _ && _ && _).
    + rewrite app_nil_r. reflexivity.
    + destruct (lastError _); rewrite app_nil_r; reflexivity.
Qed.

(** Every provider entered is available, and they are entered in the
    order of the list. *)
Lemma entered_prefix ps :
  exists notTried, List.filter isAvailable ps = entered ps ++ notTried.
Proof.
  induction ps as [| p rest [notTried IH]]; [exists []; reflexivity |].
  cbn [List.filter entered]. destruct (isAvailable p).
  - destruct (outcome (attempt p)).
    + exists (List.filter isAvailable rest). reflexivity.
    + exists notTried. cbn [app]. rewrite IH. reflexivity.
  - exists notTried. exact IH.
Qed.








End Handler.

Section HandlerExamples.

Import JS Analysis Providers AnalyzeHandlers.

(** DeepSeek is out of funds and Qwen answers: the analysis is Qwen's, and
    Gemini is not entered. *)
Example fallback_to_qwen :
  let w :=
    {| db := db worldOutOfFunds;
       DEEPSEEK_API_KEY := Some (js "sk-1");
       DASHSCOPE_API_KEY := Some (js "sk-2");
       GEMINI_API_KEY := Some (js "sk-3");
       geminiModel := Some GeminiService.firstModel;
       deepseekFetch := deepseekFetch worldOutOfFunds;
       qwenCreate := fun _ => Ok (Some (ContentString goodReply));
       geminiRespond := fun _ _ _ => inr goodReply |} in
  let run := runProviders (isAvailable w) (analyzeUser w) 777 in
  List.filter (fun e => match e with EvAnalyzeUser _ => true | _ => false end)
    (events run)
  = [EvAnalyzeUser DeepSeek; EvAnalyzeUser Qwen]
  /\ exists a, outcome run = Ok (a, Some Qwen).
Proof. vm_compute. split; [reflexivity | eexists; reflexivity]. Qed.

(** No key at all: no client is entered. *)
Example no_provider :
  let w :=
    {| db := db worldOutOfFunds;
       DEEPSEEK_API_KEY := None; DASHSCOPE_API_KEY := None; GEMINI_API_KEY := None;
       geminiModel := None;
       deepseekFetch := deepseekFetch worldOutOfFunds;
       qwenCreate := qwenCreate worldOutOfFunds;
       geminiRespond := geminiRespond worldOutOfFunds |} in
  runProviders (isAvailable w) (analyzeUser w) 777 = ([], Throw noProvider).
Proof. vm_compute. reflexivity. Qed.

Lemma worldOutOfFunds_allFail :
  allFail (isAvailable worldOutOfFunds) (analyzeUser worldOutOfFunds) 777.
Proof.
  intros p Hp. destruct p; [| discriminate Hp | discriminate Hp].
  eexists. vm_compute. reflexivity.
Qed.

(** DeepSeek is out of funds and is the only client with a key. *)
Example out_of_funds_no_alternative :
  outcome (runProviders (isAvailable worldOutOfFunds) (analyzeUser worldOutOfFunds) 777)
  = Throw noAlternative.
Proof. vm_compute. reflexivity. Qed.








End HandlerExamples.

(** ** The queries of [Message] *)

Section Queries.

Import Store MessageQueries.

(** Newest first. *)
Definition newestFirst (rows : list MessageData) : Prop :=
  StronglySorted (fun a b => created_at b <= created_at a) rows.

Lemma insertDesc_perm m l : Permutation (insertDesc m l) (m :: l).
Proof.
  induction l as [| x r IH]; [reflexivity |].
  cbn. destruct (created_at x <? created_at m); [reflexivity |].
  rewrite IH. apply perm_swap.
Qed.

Lemma orderByCreatedDesc_perm l : Permutation (orderByCreatedDesc l) l.
Proof.
  induction l as [| x r IH]; [reflexivity |].
  cbn. rewrite insertDesc_perm. apply perm_skip, IH.
Qed.

Lemma insertDesc_sorted m l : newestFirst l -> newestFirst (insertDesc m l).
Proof.
  unfold newestFirst. induction l as [| x r IH]; intros Hs.
  - repeat constructor.
  - apply StronglySorted_inv in Hs. destruct Hs as [Hr Hx]. cbn.
    destruct (Z.ltb_spec (created_at x) (created_at m)).
    + constructor; [constructor; assumption |].
      constructor; [lia |].
      rewrite List.Forall_forall in Hx |- *. intros y Hy. specialize (Hx y Hy). lia.
    + constructor; [apply IH; exact Hr |].
      rewrite List.Forall_forall in Hx |- *. intros y Hy.
      apply (Permutation_in _ (insertDesc_perm m r)) in Hy.
      destruct Hy as [<- | Hy]; [lia | apply Hx; exact Hy].
Qed.

Lemma orderByCreatedDesc_sorted l : newestFirst (orderByCreatedDesc l).
Proof.
  induction l as [| x r IH]; [constructor |].
  cbn. apply insertDesc_sorted, IH.
Qed.

Lemma In_firstn {A} (x : A) n l : In x (firstn n l) -> In x l.
Proof.
  intros H. rewrite <- (firstn_skipn n l). apply in_or_app. left. exact H.
Qed.

Lemma newestFirst_firstn n rows : newestFirst rows -> newestFirst (firstn n rows).
Proof.
  unfold newestFirst. revert n. induction rows as [| x r IH]; intros n Hs.
  - rewrite firstn_nil. constructor.
  - destruct n as [| n]; [constructor |]. cbn.
    apply StronglySorted_inv in Hs. destruct Hs as [Hr Hx].
    constructor; [apply IH; exact Hr |].
    rewrite List.Forall_forall in Hx |- *. intros y Hy. apply Hx.
    apply (In_firstn _ _ _ Hy).
Qed.

Lemma newestFirst_app a b :
  newestFirst (a ++ b) ->
  forall x y, In x a -> In y b -> created_at y <= created_at x.
Proof.
  unfold newestFirst. induction a as [| h a IH]; intros Hs x y Hx Hy; [destruct Hx |].
  cbn in Hs. apply StronglySorted_inv in Hs. destruct Hs as [Hs Hh].
  destruct Hx as [<- | Hx].
  - rewrite List.Forall_forall in Hh. apply Hh, in_or_app. right. exact Hy.
  - exact (IH Hs x y Hx Hy).
Qed.

Lemma findByUserId_filter o userId m :
  ((user_id m =? userId)
   && match o_chatId o with Some c => chat_id m =? c | None => true end
   && match o_startDate o with Some d => d <=? created_at m | None => true end
   && match o_endDate o with Some d => created_at m <=? d | None => true end)
  = ((user_id m =? userId) && matches (o_chatId o) (o_startDate o) (o_endDate o) m).
Proof. unfold matches. rewrite !andb_assoc. reflexivity. Qed.

(** The rows a query of [findByUserId] selects before [LIMIT]. *)
Definition selected (db : Db) (userId : Z) (o : FindOptions) : list MessageData :=
  List.filter (fun m => (user_id m =? userId)
                        && matches (o_chatId o) (o_startDate o) (o_endDate o) m)
    (messages db).

Lemma findByUserId_unfold db userId o :
  findByUserId db userId o
  = match o_limit o with
    | Some l =>
        if l =? 0 then Ok (orderByCreatedDesc (selected db userId o))
        else if l <? 0 then Throw negativeLimit
        else Ok (firstn (Z.to_nat l) (orderByCreatedDesc (selected db userId o)))
    | None => Ok (orderByCreatedDesc (selected db userId o))
    end.
Proof.
  unfold findByUserId, selected.
  rewrite (List.filter_ext _ _ (findByUserId_filter o userId)). reflexivity.
Qed.

Lemma selected_spec db userId o m :
  In m (selected db userId o)
  <-> In m (messages db) /\ user_id m = userId
      /\ matches (o_chatId o) (o_startDate o) (o_endDate o) m = true.
Proof.
  unfold selected. rewrite filter_In, andb_true_iff, Z.eqb_eq. tauto.
Qed.

Lemma findByUserId_newestFirst db userId o rows :
  findByUserId db userId o = Ok rows -> newestFirst rows.
Proof.
  rewrite findByUserId_unfold.
  pose proof (orderByCreatedDesc_sorted (selected db userId o)) as Hsort.
  destruct (o_limit o) as [l |].
  - destruct (l =? 0); [intros [= <-]; exact Hsort |].
    destruct (l <? 0); [discriminate |].
    intros [= <-]. apply newestFirst_firstn, Hsort.
  - intros [= <-]. exact Hsort.
Qed.

(** X1. Every row that [Message.findByUserId] returns is a stored message
    of that user that passes the filters given, and the rows come newest
    first.  The selected rows that are not returned are no newer than any
    returned row: the returned rows and the rows left out are together the
    selected rows, each as often as it is stored.  With a positive limit
    the number of returned rows is the smaller of the limit and the number
    of selected rows; without a limit, or with the limit 0, every selected
    row is returned; a negative limit is an error of the query. *)
Theorem findByUserId_rows_spec :
  forall db userId o,
    (forall rows, findByUserId db userId o = Ok rows ->
       (forall m, In m rows ->
          In m (messages db) /\ user_id m = userId
          /\ matches (o_chatId o) (o_startDate o) (o_endDate o) m = true)
       /\ newestFirst rows
       /\ (exists older,
             Permutation (rows ++ older) (selected db userId o)
             /\ forall a b, In a rows -> In b older -> created_at b <= created_at a)
       /\ (forall l, o_limit o = Some l -> 0 < l ->
             Z.of_nat (List.length rows)
             = Z.min l (Z.of_nat (List.length (selected db userId o))))
       /\ (o_limit o = None \/ o_limit o = Some 0 ->
             Permutation rows (selected db userId o)))
    /\ ((exists rows, findByUserId db userId o = Ok rows)
        <-> match o_limit o with Some l => 0 <= l | None => True end).
Proof.
  intros db userId o. rewrite findByUserId_unfold.
  pose proof (orderByCreatedDesc_perm (selected db userId o)) as Hperm.
  pose proof (orderByCreatedDesc_sorted (selected db userId o)) as Hsort.
  set (sorted := orderByCreatedDesc (selected db userId o)) in *.
  assert (Hin : forall m, In m sorted ->
                  In m (messages db) /\ user_id m = userId
                  /\ matches (o_chatId o) (o_startDate o) (o_endDate o) m = true).
  { intros m Hm. apply selected_spec. exact (Permutation_in _ Hperm Hm). }
  assert (Hcut : forall n,
             exists older,
               Permutation (firstn n sorted ++ older) (selected db userId o)
               /\ forall a b, In a (firstn n sorted) -> In b older ->
                    created_at b <= created_at a).
  { intros n. exists (skipn n sorted). split.
    - rewrite firstn_skipn. exact Hperm.
    - intros a b Ha Hb. apply (newestFirst_app (firstn n sorted) (skipn n sorted));
        [rewrite firstn_skipn; exact Hsort | exact Ha | exact Hb]. }
  assert (Hall : exists older,
             Permutation (sorted ++ older) (selected db userId o)
             /\ forall a b, In a sorted -> In b older ->
                  created_at b <= created_at a).
  { exists []. rewrite app_nil_r. split; [exact Hperm | intros a b _ []]. }
  split.
  - intros rows Hrows.
    destruct (o_limit o) as [l |].
    + destruct (Z.eqb_spec l 0) as [He | Hne].
      * injection Hrows as <-.
        split; [exact Hin |]. split; [exact Hsort |]. split; [exact Hall |]. split.
        -- intros l' [= <-] Hl. lia.
        -- intros _. exact Hperm.
      * destruct (Z.ltb_spec l 0); [discriminate |].
        injection Hrows as <-.
        split; [intros m Hm; apply Hin; exact (In_firstn _ _ _ Hm) |].
        split; [apply newestFirst_firstn, Hsort |]. split; [apply Hcut |]. split.
        -- intros l' [= <-] Hl.
           rewrite length_firstn, (Permutation_length Hperm). lia.
        -- intros [[=] | [= He]]. contradiction.
    + injection Hrows as <-.
      split; [exact Hin |]. split; [exact Hsort |]. split; [exact Hall |]. split.
      * intros l [=].
      * intros _. exact Hperm.
  - destruct (o_limit o) as [l |]; [| split; [trivial | intros _; eexists; reflexivity]].
    destruct (Z.eqb_spec l 0) as [He | Hne]; [split; [lia | intros _; eexists; reflexivity] |].
    destruct (Z.ltb_spec l 0).
    + split; [intros [rows [=]] | lia].
    + split; [lia | intros _; eexists; reflexivity].
Qed.

(** Two users of a chat. *)
Definition ann : UserData :=
  {| u_id := 7; u_telegram_id := 70; u_username := Some (JS.js "ann");
     u_first_name := Some (JS.js "Ann"); u_last_name := None;
     u_created_at := 0; u_updated_at := 0 |}.

Definition ben : UserData :=
  {| u_id := 8; u_telegram_id := 80; u_username := None;
     u_first_name := Some (JS.js "Ben"); u_last_name := None;
     u_created_at := 0; u_updated_at := 0 |}.

Definition threeRows : Db :=
  {| users := [ann; ben];
     messages :=
       [ {| id := 1; user_id := 7; telegram_message_id := 11; chat_id := -1;
            text := JS.js "a"; created_at := 100 |};
         {| id := 2; user_id := 8; telegram_message_id := 12; chat_id := -1;
            text := JS.js "b"; created_at := 200 |};
         {| id := 3; user_id := 7; telegram_message_id := 13; chat_id := -1;
            text := JS.js "c"; created_at := 300 |};
         {| id := 4; user_id := 7; telegram_message_id := 14; chat_id := -2;
            text := JS.js "d"; created_at := 400 |} ];
     messages_id_seq := 4 |}.

Example findByUserId_newest_two :
  match findByUserId threeRows 7 (limitOnly 2) with
  | Ok rows => List.map id rows
  | Throw _ => []
  end = [4; 3].
Proof. vm_compute. reflexivity. Qed.

Lemma findByUserId_rows_spec_witness :
  exists rows older,
    findByUserId threeRows 7 (limitOnly 2) = Ok rows
    /\ List.map id rows = [4; 3]
    /\ Permutation (rows ++ older) (selected threeRows 7 (limitOnly 2))
    /\ forall a b, In a rows -> In b older -> created_at b <= created_at a.
Proof.
  destruct (findByUserId threeRows 7 (limitOnly 2)) as [rows | e] eqn:H;
    [| vm_compute in H; discriminate].
  destruct (proj1 (findByUserId_rows_spec threeRows 7 (limitOnly 2)) rows H)
    as (_ & _ & (older & Hperm & Hnewer) & _).
  exists rows, older. split; [reflexivity |].
  split; [vm_compute in H; injection H as <-; reflexivity |].
  split; [exact Hperm | exact Hnewer].
Defined.

(** X2. [Message.countByUserId] counts exactly the rows that
    [Message.findByUserId] returns for the same filters without a limit. *)
Theorem countByUserId_is_length :
  forall db userId chatId startDate endDate,
    exists rows,
      findByUserId db userId
        {| o_chatId := chatId; o_limit := None;
           o_startDate := startDate; o_endDate := endDate |} = Ok rows
      /\ countByUserId db userId chatId startDate endDate
         = Z.of_nat (List.length rows).
Proof.
  intros db userId chatId startDate endDate.
  rewrite findByUserId_unfold. cbn [o_limit]. eexists. split; [reflexivity |].
  rewrite (Permutation_length (orderByCreatedDesc_perm _)). reflexivity.
Qed.

End Queries.

(** ** The messages that reach the analysis prompt *)

Section PromptOrder.

Import Store Analysis.

Lemma sliceLast_map {A B} (f : A -> B) k l :
  sliceLast k (List.map f l) = List.map f (sliceLast k l).
Proof.
  destruct k as [| k]; [reflexivity |].
  cbn [sliceLast]. rewrite length_map, skipn_map. reflexivity.
Qed.

Definition threeLong : Db :=
  {| users := [ann]; messages_id_seq := 3;
     messages :=
       [ {| id := 1; user_id := 7; telegram_message_id := 1; chat_id := -1;
            text := 111%N :: longMessage; created_at := 100 |};
         {| id := 2; user_id := 7; telegram_message_id := 2; chat_id := -1;
            text := 109%N :: longMessage; created_at := 200 |};
         {| id := 3; user_id := 7; telegram_message_id := 3; chat_id := -1;
            text := 110%N :: longMessage; created_at := 300 |} ] |}.

(** The newest of three long messages is left out of the prompt. *)
Example prompt_drops_newest :
  match findByUserId threeLong 7 (limitOnly 30) with
  | Ok rows => (List.map id rows,
                List.map (fun t => hd 0%N t) (promptMessages (List.map text rows)))
  | Throw _ => ([], [])
  end = ([3; 2; 1], [111%N]).
Proof. vm_compute. reflexivity. Qed.

(** X3. The messages of a user are fetched newest first and the prompt,
    when their joined text is over the budget, keeps the last of them:
    what the truncation leaves out of the analysis prompt are the newest
    messages, and what it keeps are the oldest.  With at least two fetched
    messages, the [n - floor(0.6 n)] newest are left out, so at least the
    newest one is. *)
Theorem prompt_keeps_oldest :
  forall db userId limit rows,
    findByUserId db userId (limitOnly limit) = Ok rows ->
    maxLength < Z.of_nat (List.length (JS.join [JS.LF] (List.map text rows))) ->
    (2 <= List.length rows)%nat ->
    exists newest kept,
      rows = newest ++ kept
      /\ promptMessages (List.map text rows) = List.map text kept
      /\ List.length kept = floor_times_0_6 (List.length rows)
      /\ (1 <= List.length newest)%nat
      /\ forall a b, In a newest -> In b kept -> created_at b <= created_at a.
Proof.
  intros db userId limit rows Hrows Hlong Hn.
  pose proof (findByUserId_newestFirst _ _ _ _ Hrows) as Hsorted.
  pose proof (floor_times_0_6_pos _ Hn) as Hpos.
  assert (Hlt : (floor_times_0_6 (List.length rows) < List.length rows)%nat).
  { unfold floor_times_0_6. pose proof (Nat.div_mod_eq (3 * List.length rows) 5).
    pose proof (Nat.mod_upper_bound (3 * List.length rows) 5). lia. }
  exists (firstn (List.length rows - floor_times_0_6 (List.length rows)) rows),
         (skipn (List.length rows - floor_times_0_6 (List.length rows)) rows).
  split; [symmetry; apply firstn_skipn |]. split.
  - unfold promptMessages.
    destruct (Z.ltb_spec maxLength
                (Z.of_nat (List.length (JS.join [JS.LF] (List.map text rows)))));
      [| lia].
    rewrite length_map, sliceLast_map. f_equal. unfold sliceLast.
    destruct (floor_times_0_6 (List.length rows)); [lia | reflexivity].
  - split; [rewrite length_skipn; lia |].
    split; [rewrite length_firstn; lia |].
    apply newestFirst_app. rewrite firstn_skipn. exact Hsorted.
Qed.

Lemma prompt_keeps_oldest_witness :
  findByUserId threeLong 7 (limitOnly 30) = Ok (rev (messages threeLong))
  /\ exists newest kept,
       rev (messages threeLong) = newest ++ kept
       /\ promptMessages (List.map text (rev (messages threeLong)))
          = List.map text kept.
Proof.
  assert (H : findByUserId threeLong 7 (limitOnly 30) = Ok (rev (messages threeLong)))
    by (vm_compute; reflexivity).
  split; [exact H |].
  destruct (prompt_keeps_oldest threeLong 7 30 (rev (messages threeLong)) H)
    as (newest & kept & H1 & H2 & _).
  - vm_compute. reflexivity.
  - cbn. lia.
  - exists newest, kept. split; assumption.
Defined.

End PromptOrder.

(** ** The upsert of users and the handler of text messages *)

Section Upsert.

Import Store Ingest.

(** [UNIQUE] on [users.telegram_id]. *)
Definition uniqueTelegramIds (bdb : BotDb) : Prop :=
  List.NoDup (List.map u_telegram_id (users (base bdb))).

(** [users.id] is a key, drawn from the sequence. *)
Definition userIdsFresh (bdb : BotDb) : Prop :=
  List.NoDup (List.map u_id (users (base bdb)))
  /\ forall u, In u (users (base bdb)) -> u_id u <= users_id_seq bdb.

Lemma find_filter_none {A} (f : A -> bool) l :
  List.filter f l = [] -> List.find f l = None.
Proof.
  induction l as [| x l IH]; [reflexivity |]. cbn.
  destruct (f x); [discriminate | exact IH].
Qed.

Lemma find_filter_some {A} (f : A -> bool) l :
  (0 < List.length (List.filter f l))%nat -> exists x, List.find f l = Some x.
Proof.
  induction l as [| x l IH]; cbn; [lia |].
  destruct (f x); [intros _; eexists; reflexivity | exact IH].
Qed.

Lemma updateUser_telegram_id now data u :
  u_telegram_id (updateUser now data u) = u_telegram_id u.
Proof. unfold updateUser. destruct (_ =? _); reflexivity. Qed.

Lemma updateUser_id now data u : u_id (updateUser now data u) = u_id u.
Proof. unfold updateUser. destruct (_ =? _); reflexivity. Qed.

Lemma updateUser_fields now data u :
  u_telegram_id u = n_telegram_id data ->
  u_username (updateUser now data u) = orNull (n_username data)
  /\ u_first_name (updateUser now data u) = orNull (n_first_name data)
  /\ u_last_name (updateUser now data u) = orNull (n_last_name data)
  /\ u_updated_at (updateUser now data u) = now
  /\ u_created_at (updateUser now data u) = u_created_at u.
Proof.
  intros H. unfold updateUser. rewrite H, Z.eqb_refl. repeat split.
Qed.

Lemma map_updateUser_ids now data us :
  List.map u_id (List.map (updateUser now data) us) = List.map u_id us
  /\ List.map u_telegram_id (List.map (updateUser now data) us)
     = List.map u_telegram_id us.
Proof.
  rewrite !List.map_map. split; apply List.map_ext; intros u.
  - apply updateUser_id.
  - apply updateUser_telegram_id.
Qed.

Lemma find_updated now data us u :
  List.find (fun v => u_telegram_id v =? n_telegram_id data) us = Some u ->
  List.find (fun v => u_telegram_id v =? n_telegram_id data)
    (List.map (updateUser now data) us)
  = Some (updateUser now data u).
Proof.
  induction us as [| x us IH]; [discriminate |]. cbn.
  rewrite updateUser_telegram_id.
  destruct (u_telegram_id x =? n_telegram_id data); [intros [= <-]; reflexivity | exact IH].
Qed.

Lemma find_other now data us tid :
  tid <> n_telegram_id data ->
  List.find (fun v => u_telegram_id v =? tid) (List.map (updateUser now data) us)
  = List.find (fun v => u_telegram_id v =? tid) us.
Proof.
  intros Hne. induction us as [| x us IH]; [reflexivity |]. cbn.
  rewrite updateUser_telegram_id.
  destruct (Z.eqb_spec (u_telegram_id x) tid) as [He | _]; [| exact IH].
  unfold updateUser. destruct (Z.eqb_spec (u_telegram_id x) (n_telegram_id data));
    [congruence | reflexivity].
Qed.

Lemma find_app_fresh (f : UserData -> bool) us row :
  List.find f us = None -> List.find f (us ++ [row]) = if f row then Some row else None.
Proof.
  induction us as [| x us IH]; [reflexivity |]. cbn.
  destruct (f x); [discriminate | exact IH].
Qed.

(** What one call of [User.findOrCreate] does. *)
Lemma findOrCreate_spec :
  forall bdb now data,
    uniqueTelegramIds bdb -> userIdsFresh bdb ->
    exists row,
      snd (findOrCreate bdb now data) = Some row
      /\ findByTelegramId (base (fst (findOrCreate bdb now data))) (n_telegram_id data)
         = Some row
      /\ u_telegram_id row = n_telegram_id data
      /\ u_username row = orNull (n_username data)
      /\ u_first_name row = orNull (n_first_name data)
      /\ u_last_name row = orNull (n_last_name data)
      /\ u_updated_at row = now
      /\ match findByTelegramId (base bdb) (n_telegram_id data) with
         | Some old =>
             u_id row = u_id old /\ u_created_at row = u_created_at old
             /\ List.length (users (base (fst (findOrCreate bdb now data))))
                = List.length (users (base bdb))
         | None =>
             u_id row = users_id_seq bdb + 1 /\ u_created_at row = now
             /\ users (base (fst (findOrCreate bdb now data)))
                = users (base bdb) ++ [row]
         end
      /\ (forall tid, tid <> n_telegram_id data ->
            findByTelegramId (base (fst (findOrCreate bdb now data))) tid
            = findByTelegramId (base bdb) tid)
      /\ uniqueTelegramIds (fst (findOrCreate bdb now data))
      /\ userIdsFresh (fst (findOrCreate bdb now data))
      /\ messages (base (fst (findOrCreate bdb now data))) = messages (base bdb).
Proof.
  intros bdb now data Huniq [Hids Hseq].
  unfold findOrCreate, findByTelegramId, uniqueTelegramIds, userIdsFresh in *.
  destruct (Nat.ltb_spec 0
    (List.length (List.filter (fun u => u_telegram_id u =? n_telegram_id data)
                    (users (base bdb))))) as [Hfound | Hnone].
  - destruct (find_filter_some _ _ Hfound) as [old Hold].
    cbn [fst snd withUsers base users messages users_id_seq].
    rewrite (find_updated now data _ old Hold), Hold.
    assert (Hm : u_telegram_id old = n_telegram_id data).
    { apply find_some in Hold. destruct Hold as [_ H]. apply Z.eqb_eq, H. }
    exists (updateUser now data old).
    destruct (updateUser_fields now data old Hm) as (F1 & F2 & F3 & F4 & F5).
    rewrite updateUser_telegram_id, updateUser_id.
    destruct (map_updateUser_ids now data (users (base bdb))) as [Hmi Hmt].
    repeat split; try reflexivity; try assumption.
    + apply length_map.
    + intros tid Hne. apply find_other, Hne.
    + rewrite Hmt. exact Huniq.
    + rewrite Hmi. exact Hids.
    + intros u Hu. apply in_map_iff in Hu. destruct Hu as (v & <- & Hv).
      rewrite updateUser_id. apply Hseq, Hv.
  - assert (Hf : List.filter (fun u => u_telegram_id u =? n_telegram_id data)
                   (users (base bdb)) = []).
    { destruct (List.filter _ _); [reflexivity | cbn in Hnone; lia]. }
    pose proof (find_filter_none _ _ Hf) as Hfind.
    cbn [fst snd withUsers base users messages users_id_seq].
    rewrite Hfind. eexists. split; [reflexivity |].
    rewrite (find_app_fresh _ _ _ Hfind).
    cbn [u_telegram_id u_username u_first_name u_last_name u_updated_at u_id u_created_at].
    rewrite Z.eqb_refl.
    repeat split; try reflexivity.
    + intros tid Hne.
      destruct (List.find (fun u => u_telegram_id u =? tid) (users (base bdb)))
        as [v |] eqn:Hv.
      * apply find_some in Hv as Hv'. destruct Hv' as [Hin _].
        apply in_split in Hin. destruct Hin as (l1 & l2 & Hsplit).
        clear Hfind Hf. revert Hv. generalize (users (base bdb)). intros us.
        induction us as [| x us IH]; [discriminate |]. cbn.
        destruct (u_telegram_id x =? tid); [trivial | exact IH].
      * rewrite (find_app_fresh _ _ _ Hv).
        cbn [u_telegram_id].
        destruct (Z.eqb_spec (n_telegram_id data) tid); [congruence | reflexivity].
    + rewrite List.map_app. cbn [List.map u_telegram_id].
      apply List.NoDup_app; [exact Huniq | repeat constructor; intros [] |].
      intros k Hk [<- | []]. apply in_map_iff in Hk. destruct Hk as (v & Hvk & Hv).
      assert (Hin : In v (List.filter (fun u => u_telegram_id u =? n_telegram_id data)
                            (users (base bdb)))).
      { apply filter_In. split; [exact Hv | apply Z.eqb_eq; exact Hvk]. }
      rewrite Hf in Hin. destruct Hin.
    + rewrite List.map_app. cbn [List.map u_id].
      apply List.NoDup_app; [exact Hids | repeat constructor; intros [] |].
      intros k Hk [<- | []]. apply in_map_iff in Hk. destruct Hk as (v & Hvk & Hv).
      specialize (Hseq v Hv). lia.
    + intros u Hu. apply in_app_or in Hu. destruct Hu as [Hu | [<- | []]].
      * specialize (Hseq u Hu). lia.
      * cbn. lia.
Qed.

(** X4. [User.findOrCreate] is an upsert on the Telegram id.  It always
    returns a row, the one [findByTelegramId] finds afterwards, carrying
    the names given (an empty name as [NULL]).  If the user was known, the
    row keeps its id and creation time and no row is added; otherwise one
    row is added, with a new id.  The other users are found as before, and
    the uniqueness of Telegram ids and of ids is kept.  A later call for
    the same Telegram id, whatever names it brings, returns the row of the
    same id and creation time and adds no row. *)
Theorem findOrCreate_upsert :
  forall bdb now data,
    uniqueTelegramIds bdb -> userIdsFresh bdb ->
    exists row,
      snd (findOrCreate bdb now data) = Some row
      /\ findByTelegramId (base (fst (findOrCreate bdb now data))) (n_telegram_id data)
         = Some row
      /\ u_telegram_id row = n_telegram_id data
      /\ u_username row = orNull (n_username data)
      /\ u_first_name row = orNull (n_first_name data)
      /\ u_last_name row = orNull (n_last_name data)
      /\ u_updated_at row = now
      /\ match findByTelegramId (base bdb) (n_telegram_id data) with
         | Some old =>
             u_id row = u_id old /\ u_created_at row = u_created_at old
             /\ List.length (users (base (fst (findOrCreate bdb now data))))
                = List.length (users (base bdb))
         | None =>
             u_id row = users_id_seq bdb + 1 /\ u_created_at row = now
             /\ users (base (fst (findOrCreate bdb now data)))
                = users (base bdb) ++ [row]
         end
      /\ (forall tid, tid <> n_telegram_id data ->
            findByTelegramId (base (fst (findOrCreate bdb now data))) tid
            = findByTelegramId (base bdb) tid)
      /\ uniqueTelegramIds (fst (findOrCreate bdb now data))
      /\ userIdsFresh (fst (findOrCreate bdb now data))
      /\ messages (base (fst (findOrCreate bdb now data))) = messages (base bdb)
      /\ (forall now2 data2,
            n_telegram_id data2 = n_telegram_id data ->
            exists row2,
              snd (findOrCreate (fst (findOrCreate bdb now data)) now2 data2) = Some row2
              /\ u_id row2 = u_id row /\ u_created_at row2 = u_created_at row
              /\ u_updated_at row2 = now2
              /\ List.length
                   (users (base (fst (findOrCreate (fst (findOrCreate bdb now data))
                                        now2 data2))))
                 = List.length (users (base (fst (findOrCreate bdb now data))))).
Proof.
  intros bdb now data Hu Hf.
  destruct (findOrCreate_spec bdb now data Hu Hf)
    as (row & H1 & H2 & H3 & H4 & H5 & H6 & H7 & H8 & H9 & H10 & H11 & H12).
  exists row. repeat (split; [assumption |]).
  intros now2 data2 Hsame.
  destruct (findOrCreate_spec (fst (findOrCreate bdb now data)) now2 data2 H10 H11)
    as (row2 & G1 & _ & _ & _ & _ & _ & G7 & G8 & _).
  rewrite Hsame, H2 in G8. destruct G8 as (G8 & G9 & G10).
  exists row2. repeat split; assumption.
Qed.

End Upsert.

Section TextHandler.

Import Store Ingest.

Definition carol : CreateUserData :=
  {| n_telegram_id := 42; n_username := Some (JS.js "carol");
     n_first_name := Some (JS.js "Carol"); n_last_name := Some [] |}.

Definition emptyBot : BotDb :=
  {| base := {| users := []; messages := []; messages_id_seq := 0 |};
     users_id_seq := 0 |}.

Example upsert_twice :
  let first := findOrCreate emptyBot 10 carol in
  let second := findOrCreate (fst first) 20
                  {| n_telegram_id := 42; n_username := None;
                     n_first_name := Some (JS.js "C."); n_last_name := None |} in
  option_map u_id (snd first) = Some 1
  /\ option_map u_last_name (snd first) = Some None
  /\ option_map u_id (snd second) = Some 1
  /\ option_map u_username (snd second) = Some None
  /\ option_map u_created_at (snd second) = Some 10
  /\ option_map u_updated_at (snd second) = Some 20
  /\ List.length (users (base (fst second))) = 1%nat.
Proof. vm_compute. repeat split. Qed.

Lemma findOrCreate_upsert_witness :
  uniqueTelegramIds emptyBot /\ userIdsFresh emptyBot
  /\ exists row,
       snd (findOrCreate emptyBot 10 carol) = Some row
       /\ findByTelegramId (base (fst (findOrCreate emptyBot 10 carol))) 42 = Some row.
Proof.
  assert (H1 : uniqueTelegramIds emptyBot) by constructor.
  assert (H2 : userIdsFresh emptyBot) by (split; [constructor | intros u []]).
  split; [exact H1 |]. split; [exact H2 |].
  destruct (findOrCreate_upsert emptyBot 10 carol H1 H2) as (row & Ha & Hb & _).
  exists row. split; assumption.
Defined.

Definition isGroup (t : ChatType) : bool :=
  match t with Group | Supergroup => true | _ => false end.

Lemma onText_group bdb now u sender :
  JS.startsWith (message_text u) [SLASH] = false ->
  isGroup (chat_type u) = true ->
  from u = Some sender ->
  uniqueTelegramIds bdb -> userIdsFresh bdb ->
  exists user,
    snd (findOrCreate bdb now sender) = Some user
    /\ userExists (base (fst (findOrCreate bdb now sender))) (u_id user) = true
    /\ onText bdb now u
       = withBase (fst (findOrCreate bdb now sender))
           (fst (create (base (fst (findOrCreate bdb now sender))) now
                   {| c_user_id := u_id user;
                      c_telegram_message_id := message_id u;
                      c_chat_id := upd_chat_id u;
                      c_text := message_text u |})).
Proof.
  intros Hcmd Hgroup Hfrom Hu Hf.
  destruct (findOrCreate_spec bdb now sender Hu Hf) as (user & Hs & Hfind & _).
  exists user. split; [exact Hs |]. split.
  - unfold userExists. apply existsb_exists. exists user. split.
    + unfold findByTelegramId in Hfind. apply find_some in Hfind. apply Hfind.
    + apply Z.eqb_refl.
  - unfold onText. rewrite Hcmd, Hfrom.
    destruct (findOrCreate bdb now sender) as [bdb1 r]. cbn [fst snd] in *.
    rewrite Hs. destruct (chat_type u); try discriminate; reflexivity.
Qed.

Lemma create_users db now data : users (fst (create db now data)) = users db.
Proof.
  unfold create. destruct (existsb _ _); [reflexivity |].
  destruct (userExists db _); reflexivity.
Qed.

(** X5. The handler of text messages stores nothing for a command (a text
    that begins with "/"), for a chat that is not a group or supergroup,
    and for an update without sender.  For any other message it upserts the
    sender and stores the message under [(message_id, chat_id)]: the
    insert never fails on the foreign key, the pair has exactly one row,
    and handling the same update again leaves the messages as they are. *)
Theorem onText_stores_once :
  forall bdb now u,
    uniqueTelegramIds bdb -> userIdsFresh bdb -> uniqueKeys (base bdb) ->
    (JS.startsWith (message_text u) [SLASH] = true
     \/ isGroup (chat_type u) = false \/ from u = None ->
     onText bdb now u = bdb)
    /\ (JS.startsWith (message_text u) [SLASH] = false ->
        isGroup (chat_type u) = true ->
        forall sender, from u = Some sender ->
          uniqueTelegramIds (onText bdb now u)
          /\ userIdsFresh (onText bdb now u)
          /\ uniqueKeys (base (onText bdb now u))
          /\ (exists user,
                findByTelegramId (base (onText bdb now u)) (n_telegram_id sender)
                = Some user)
          /\ List.length (rowsWithKey (message_id u) (upd_chat_id u)
                            (base (onText bdb now u))) = 1%nat
          /\ forall now2,
               messages (base (onText (onText bdb now u) now2 u))
               = messages (base (onText bdb now u))).
Proof.
  intros bdb now u Hu Hf Hk. split.
  - intros [Hcmd | [Hgroup | Hfrom]]; unfold onText.
    + rewrite Hcmd. reflexivity.
    + destruct (JS.startsWith _ _); [reflexivity |].
      destruct (chat_type u); try discriminate; reflexivity.
    + destruct (JS.startsWith _ _); [reflexivity |]. rewrite Hfrom.
      destruct (chat_type u); reflexivity.
  - intros Hcmd Hgroup sender Hfrom.
    assert (Hstep : forall b t,
              uniqueTelegramIds b -> userIdsFresh b -> uniqueKeys (base b) ->
              uniqueTelegramIds (onText b t u) /\ userIdsFresh (onText b t u)
              /\ uniqueKeys (base (onText b t u))
              /\ (exists user, findByTelegramId (base (onText b t u))
                                 (n_telegram_id sender) = Some user)
              /\ existsb (sameKey (message_id u) (upd_chat_id u))
                   (messages (base (onText b t u))) = true
              /\ (existsb (sameKey (message_id u) (upd_chat_id u))
                    (messages (base b)) = true ->
                  messages (base (onText b t u)) = messages (base b))).
    { intros b t Hb1 Hb2 Hb3.
      destruct (onText_group b t u sender Hcmd Hgroup Hfrom Hb1 Hb2)
        as (user & Hs & Hex & ->).
      destruct (findOrCreate_spec b t sender Hb1 Hb2)
        as (row & Hrow & Hfind & _ & _ & _ & _ & _ & _ & _ & Hu1 & Hf1 & Hmsgs).
      set (b1 := fst (findOrCreate b t sender)) in *.
      set (data := {| c_user_id := u_id user; c_telegram_message_id := message_id u;
                      c_chat_id := upd_chat_id u; c_text := message_text u |}).
      unfold uniqueTelegramIds, userIdsFresh, withBase.
      cbn [base users_id_seq]. rewrite !create_users.
      split; [exact Hu1 |]. split; [exact Hf1 |]. split.
      - apply create_unique. unfold uniqueKeys. rewrite Hmsgs. exact Hb3.
      - split.
        + exists row. unfold findByTelegramId. rewrite create_users. exact Hfind.
        + split.
          * apply (create_stores (base b1) t data). exact Hex.
          * intros Hstored.
            rewrite <- Hmsgs.
            apply (create_conflict (base b1) t data).
            cbn [c_telegram_message_id c_chat_id data]. rewrite Hmsgs. exact Hstored. }
    destruct (Hstep bdb now Hu Hf Hk) as (H1 & H2 & H3 & H4 & H5 & _).
    split; [exact H1 |]. split; [exact H2 |]. split; [exact H3 |].
    split; [exact H4 |]. split.
    + unfold rowsWithKey. apply unique_count; assumption.
    + intros now2.
      destruct (Hstep (onText bdb now u) now2 H1 H2 H3) as (_ & _ & _ & _ & _ & H6).
      apply H6, H5.
Qed.

Definition helloUpdate : TextUpdate :=
  {| chat_type := Supergroup; upd_chat_id := -1001; from := Some carol;
     message_id := 5; message_text := JS.js "всем привет" |}.

Example onText_twice :
  let once := onText emptyBot 10 helloUpdate in
  let twice := onText once 20 helloUpdate in
  List.map id (messages (base once)) = [1]
  /\ messages (base twice) = messages (base once)
  /\ messages_id_seq (base twice) = 2
  /\ List.map u_updated_at (users (base twice)) = [20].
Proof. vm_compute. repeat split. Qed.

Example onText_command :
  onText emptyBot 10
    {| chat_type := Group; upd_chat_id := -1; from := Some carol;
       message_id := 6; message_text := JS.js "/stats" |} = emptyBot.
Proof. vm_compute. reflexivity. Qed.

Lemma onText_stores_once_witness :
  uniqueTelegramIds emptyBot /\ userIdsFresh emptyBot /\ uniqueKeys (base emptyBot)
  /\ List.length (rowsWithKey 5 (-1001) (base (onText emptyBot 10 helloUpdate))) = 1%nat.
Proof.
  assert (H1 : uniqueTelegramIds emptyBot) by constructor.
  assert (H2 : userIdsFresh emptyBot) by (split; [constructor | intros u []]).
  assert (H3 : uniqueKeys (base emptyBot)) by constructor.
  split; [exact H1 |]. split; [exact H2 |]. split; [exact H3 |].
  exact (proj1 (proj2 (proj2 (proj2 (proj2
           (proj2 (onText_stores_once emptyBot 10 helloUpdate H1 H2 H3)
              eq_refl eq_refl carol eq_refl)))))).
Defined.

End TextHandler.

(** ** bot/src/services/statsService.ts: the cache *)

Section StatsCache.

Import StatsService.

Definition COLON : N := 58.

Lemma uint_digits d :
  List.Forall (fun c => c <> COLON)
    (List.map N_of_ascii (list_ascii_of_string (NilEmpty.string_of_uint d))).
Proof. induction d; cbn; constructor; try assumption; discriminate. Qed.

Lemma ofNumber_no_colon n : List.Forall (fun c => c <> COLON) (JS.ofNumber n).
Proof.
  unfold JS.ofNumber. destruct (Z.to_int n) as [d | d]; cbn.
  - destruct d; try apply uint_digits. repeat constructor. discriminate.
  - constructor; [discriminate |].
    destruct d; try apply uint_digits. repeat constructor. discriminate.
Qed.

Lemma to_int_not_nil n : Z.to_int n <> Decimal.Pos Decimal.Nil /\ Z.to_int n <> Decimal.Neg Decimal.Nil.
Proof.
  destruct n as [| p | p]; cbn; split; try discriminate;
    intros H; injection H as H; revert H; apply DecimalPos.Unsigned.to_uint_nonnil.
Qed.

Lemma ofNumber_inj a b : JS.ofNumber a = JS.ofNumber b -> a = b.
Proof.
  unfold JS.ofNumber. intros H.
  apply DecimalZ.to_int_inj.
  destruct (to_int_not_nil a) as [Ha1 Ha2], (to_int_not_nil b) as [Hb1 Hb2].
  pose proof (NilZero.isi _ Ha1 Ha2) as Ia. pose proof (NilZero.isi _ Hb1 Hb2) as Ib.
  assert (Hs : NilZero.string_of_int (Z.to_int a) = NilZero.string_of_int (Z.to_int b)).
  { rewrite <- (string_of_list_ascii_of_string (NilZero.string_of_int (Z.to_int a))),
            <- (string_of_list_ascii_of_string (NilZero.string_of_int (Z.to_int b))).
    f_equal.
    revert H. generalize (list_ascii_of_string (NilZero.string_of_int (Z.to_int a)))
                         (list_ascii_of_string (NilZero.string_of_int (Z.to_int b))).
    induction l as [| x l IH]; intros [| y l']; cbn; intros H; try discriminate;
      [reflexivity |].
    injection H as Hx Hl. f_equal; [| apply IH, Hl].
    rewrite <- (ascii_N_embedding x), <- (ascii_N_embedding y), Hx. reflexivity. }
  rewrite Hs in Ia. rewrite Ia in Ib. injection Ib as Ib. exact Ib.
Qed.

(** Two texts that end their colon-free heads with a colon agree part by
    part. *)
Lemma colon_split (a b x y : jsstring) :
  List.Forall (fun c => c <> COLON) a -> List.Forall (fun c => c <> COLON) b ->
  a ++ COLON :: x = b ++ COLON :: y -> a = b /\ x = y.
Proof.
  intros Ha. revert b. induction Ha as [| c a Hc Ha IH]; intros b Hb H.
  - destruct Hb as [| d b Hd Hb]; cbn in H.
    + injection H as H. split; [reflexivity | exact H].
    + injection H as H _. symmetry in H. contradiction.
  - destruct Hb as [| d b Hd Hb]; cbn in H.
    + injection H as H _. contradiction.
    + injection H as H1 H2. destruct (IH b Hb H2) as [-> ->]. subst. split; reflexivity.
Qed.

(** The user component as [getCacheKey] reads it. *)
Definition userPart (userId : option Z) : option Z :=
  match userId with
  | Some u => if u =? 0 then None else Some u
  | None => None
  end.

Definition keyPrefix : jsstring := Eval vm_compute in JS.js "stats:chat:".
Definition periodTag : jsstring := Eval vm_compute in JS.js "period:".
Definition userTag : jsstring := Eval vm_compute in JS.js "user:".

Lemma getCacheKey_shape chatId period userId :
  getCacheKey chatId period userId
  = keyPrefix ++ JS.ofNumber chatId ++ COLON ::
      match userPart userId with
      | Some u => userTag ++ JS.ofNumber u ++ COLON :: periodTag ++ period
      | None => periodTag ++ period
      end.
Proof.
  unfold getCacheKey, userPart.
  change (JS.js "stats:chat:") with keyPrefix.
  change (JS.js ":period:") with (COLON :: periodTag).
  change (JS.js ":user:") with (COLON :: userTag).
  destruct userId as [u |]; [destruct (u =? 0) |]; reflexivity.
Qed.

Lemma getCacheKey_parts chatId1 period1 userId1 chatId2 period2 userId2 :
  getCacheKey chatId1 period1 userId1 = getCacheKey chatId2 period2 userId2 ->
  chatId1 = chatId2 /\ period1 = period2 /\ userPart userId1 = userPart userId2.
Proof.
  rewrite !getCacheKey_shape. intros H.
  apply app_inv_head in H.
  apply colon_split in H; try apply ofNumber_no_colon.
  destruct H as [Hc H]. apply ofNumber_inj in Hc. split; [exact Hc |].
  destruct (userPart userId1) as [a |], (userPart userId2) as [b |].
  - apply app_inv_head in H.
    apply colon_split in H; try apply ofNumber_no_colon.
    destruct H as [Hu H]. apply ofNumber_inj in Hu. apply app_inv_head in H.
    subst. split; reflexivity.
  - discriminate.
  - discriminate.
  - apply app_inv_head in H. split; [exact H | reflexivity].
Qed.

(** X6. Cache keys are shared exactly as far as [getCacheKey] drops a
    falsy user id: two calls work on the same key if and only if they are
    for the same chat, the same period and the same user component, where
    a missing user id and the user id 0 both count as none.  A period text
    cannot make the key of one chat or user run into that of another. *)
Theorem getCacheKey_injective :
  forall chatId1 period1 userId1 chatId2 period2 userId2,
    getCacheKey chatId1 period1 userId1 = getCacheKey chatId2 period2 userId2
    <-> chatId1 = chatId2 /\ period1 = period2 /\ userPart userId1 = userPart userId2.
Proof.
  intros c1 p1 u1 c2 p2 u2. split; [apply getCacheKey_parts |].
  intros (-> & -> & Hu). rewrite !getCacheKey_shape, Hu. reflexivity.
Qed.

Lemma getCacheKey_injective_witness :
  getCacheKey (-100) (JS.js "week") (Some 0) = getCacheKey (-100) (JS.js "week") None.
Proof.
  apply (proj2 (getCacheKey_injective (-100) (JS.js "week") (Some 0)
                  (-100) (JS.js "week") None)).
  repeat split.
Defined.

Lemma redisSetEx_connected r now key ttl v :
  connected (redisSetEx r now key ttl v) = connected r.
Proof. unfold redisSetEx. destruct (connected r) eqn:E; [reflexivity | exact E]. Qed.

Lemma redisGet_setEx_other r now key key' ttl v t :
  key' <> key ->
  redisGet (redisSetEx r now key ttl v) t key' = redisGet r t key'.
Proof.
  intros Hne. unfold redisGet, redisSetEx.
  destruct (connected r) eqn:Hc; cbn; rewrite ?Hc; [| reflexivity].
  rewrite lookup_insert_ne by congruence. reflexivity.
Qed.

Lemma redisGet_setEx_expired r now now' key ttl v :
  connected r = true -> now + ttl * 1000 <= now' ->
  redisGet (redisSetEx r now key ttl v) now' key = Some None.
Proof.
  intros Hc Hle. unfold redisGet, redisSetEx. rewrite Hc. cbn. rewrite ?Hc.
  rewrite lookup_insert_eq.
  destruct (Z.ltb_spec now' (now + ttl * 1000)); [lia | reflexivity].
Qed.

Lemma redisGet_disconnected r now key : connected r = false -> redisGet r now key = None.
Proof. intros H. unfold redisGet. rewrite H. reflexivity. Qed.

Lemma redisSetEx_disconnected r now key ttl v :
  connected r = false -> redisSetEx r now key ttl v = r.
Proof. intros H. unfold redisSetEx. rewrite H. reflexivity. Qed.

Lemma getCacheKey_other c p u c2 p2 u2 :
  c2 <> c \/ p2 <> p \/ userPart u2 <> userPart u ->
  getCacheKey c2 p2 u2 <> getCacheKey c p u.
Proof.
  intros H E. apply getCacheKey_parts in E. destruct E as (E1 & E2 & E3).
  destruct H as [H | [H | H]]; contradiction.
Qed.

(** X7. [getChatStats] is a cache-aside read with a fixed lifetime.  With
    Redis down it answers from the store and leaves the cache alone.  On a
    miss it answers from the store for the range of the period at that
    moment and stores the answer; for [CACHE_TTL] seconds from then on
    every call for the same chat and period gets that same answer,
    whatever the store holds by then, and does not extend the entry; from
    the expiry on a call reads the store again.  No call touches the entry
    of another chat, period or user. *)
Theorem getChatStats_cache_aside :
  forall zone ttl store r now chatId period,
    let out := getChatStats zone ttl store r now chatId period in
    (connected r = false ->
       out = (JChatStats (store (getDateRange zone period now) chatId), r))
    /\ (redisGet r now (getCacheKey chatId period None) = Some None ->
        fst out = JChatStats (store (getDateRange zone period now) chatId)
        /\ (forall store' now', now' < now + ttl * 1000 ->
              getChatStats zone ttl store' (snd out) now' chatId period = out)
        /\ (forall store' now', now + ttl * 1000 <= now' ->
              fst (getChatStats zone ttl store' (snd out) now' chatId period)
              = JChatStats (store' (getDateRange zone period now') chatId)))
    /\ (forall chatId2 period2 userId2 t,
          chatId2 <> chatId \/ period2 <> period \/ userPart userId2 <> None ->
          redisGet (snd out) t (getCacheKey chatId2 period2 userId2)
          = redisGet r t (getCacheKey chatId2 period2 userId2)).
Proof.
  intros zone ttl store r now c p out. subst out. split; [| split].
  - intros Hc. unfold getChatStats.
    rewrite redisGet_disconnected, redisSetEx_disconnected by exact Hc. reflexivity.
  - intros Hmiss. pose proof (redisGet_connected _ _ _ _ Hmiss) as Hc.
    assert (Hout : getChatStats zone ttl store r now c p
                   = (JChatStats (store (getDateRange zone p now) c),
                      redisSetEx r now (getCacheKey c p None) ttl
                        (JChatStats (store (getDateRange zone p now) c)))).
    { unfold getChatStats. rewrite Hmiss. reflexivity. }
    rewrite Hout. cbn [fst snd].
    split; [reflexivity |]. split.
    + intros store' now' Hlt. unfold getChatStats.
      rewrite redisGet_setEx by assumption. reflexivity.
    + intros store' now' Hle. unfold getChatStats.
      rewrite redisGet_setEx_expired by assumption. reflexivity.
  - intros c2 p2 u2 t Hne. unfold getChatStats.
    destruct (redisGet r now (getCacheKey c p None)) as [[cached |] |]; cbn [snd];
      try reflexivity;
      apply redisGet_setEx_other, (getCacheKey_other c p None); exact Hne.
Qed.

Definition emptyRedis : Redis := {| entries := ∅; connected := true |}.

Definition fixedStats (n : Z) (_ : DateRange) (_ : Z) : StatsResult :=
  {| topUsers := []; totalMessages := n; totalUsers := 1 |}.

Lemma getChatStats_cache_aside_witness :
  getChatStats utc 1200 (fixedStats 9)
    (snd (getChatStats utc 1200 (fixedStats 3) emptyRedis 5000 (-100) (JS.js "all")))
    1204999 (-100) (JS.js "all")
  = getChatStats utc 1200 (fixedStats 3) emptyRedis 5000 (-100) (JS.js "all").
Proof.
  apply (proj1 (proj2 (proj1 (proj2
           (getChatStats_cache_aside utc 1200 (fixedStats 3) emptyRedis 5000 (-100)
              (JS.js "all"))) eq_refl))).
  lia.
Defined.

(** X8. [getUserStats] for a user id other than 0.  A user the store does
    not know gives [null] and nothing is cached, so that the next call asks
    the store again.  A known user gives the internal id, the names and the
    count of the store for the range of the period at that moment; the
    answer is cached under the key of the Telegram id and served unchanged
    until it expires, whatever the store holds by then.  With Redis down
    the answer comes from the store and the cache is left alone. *)
Theorem getUserStats_cache_aside :
  forall zone ttl findUser count r now chatId userId period,
    userId <> 0 ->
    redisGet r now (getCacheKey chatId period (Some userId)) = Some None
    \/ connected r = false ->
    let out := getUserStats zone ttl findUser count r now chatId userId period in
    (findUser userId = None -> out = (None, r))
    /\ (forall id username first_name,
          findUser userId = Some (id, username, first_name) ->
          fst out
          = Some (JUserStats
                    {| us_userId := id; us_username := username;
                       us_firstName := first_name;
                       us_messageCount := count id (getDateRange zone period now) chatId;
                       us_period := period |})
          /\ (connected r = false -> snd out = r)
          /\ (connected r = true ->
              (forall findUser' count' now', now' < now + ttl * 1000 ->
                 getUserStats zone ttl findUser' count' (snd out) now' chatId userId period
                 = out)
              /\ (forall chatId2 period2 userId2 t,
                    chatId2 <> chatId \/ period2 <> period
                    \/ userPart userId2 <> Some userId ->
                    redisGet (snd out) t (getCacheKey chatId2 period2 userId2)
                    = redisGet r t (getCacheKey chatId2 period2 userId2)))).
Proof.
  intros zone ttl findUser count r now c u p Hu Hmiss out.
  assert (Hget : exists g, redisGet r now (getCacheKey c p (Some u)) = g
                           /\ (g = Some None \/ g = None)).
  { destruct Hmiss as [H | H].
    - exists (Some None). split; [exact H | left; reflexivity].
    - exists None. split; [apply redisGet_disconnected, H | right; reflexivity]. }
  destruct Hget as (g & Hg & Hcases).
  assert (Hpart : userPart (Some u) = Some u).
  { unfold userPart. destruct (Z.eqb_spec u 0); [contradiction | reflexivity]. }
  assert (Hout : out = match findUser u with
                       | None => (None, r)
                       | Some (id, username, first_name) =>
                           let result := JUserStats
                             {| us_userId := id; us_username := username;
                                us_firstName := first_name;
                                us_messageCount := count id (getDateRange zone p now) c;
                                us_period := p |} in
                           (Some result,
                            redisSetEx r now (getCacheKey c p (Some u)) ttl result)
                       end).
  { subst out. unfold getUserStats. rewrite Hg.
    destruct Hcases as [-> | ->]; reflexivity. }
  rewrite Hout. clear Hout out. split.
  - intros ->. reflexivity.
  - intros id username first_name ->. cbn [fst snd]. split; [reflexivity |]. split.
    + intros Hc. apply redisSetEx_disconnected, Hc.
    + intros Hc. split.
      * intros findUser' count' now' Hlt. unfold getUserStats.
        rewrite redisGet_setEx by assumption. reflexivity.
      * intros c2 p2 u2 t Hne.
        apply redisGet_setEx_other, (getCacheKey_other c p (Some u)).
        rewrite Hpart. exact Hne.
Qed.

Definition knownUser (t : Z) : option (Z * option jsstring * option jsstring) :=
  if t =? 42 then Some (1, Some (JS.js "carol"), None) else None.

Lemma getUserStats_cache_aside_witness :
  getUserStats utc 1200 knownUser (fun _ _ _ => 7) emptyRedis 5000 (-100) 41 (JS.js "all")
  = (None, emptyRedis).
Proof.
  apply (proj1 (getUserStats_cache_aside utc 1200 knownUser (fun _ _ _ => 7) emptyRedis
                  5000 (-100) 41 (JS.js "all") ltac:(lia) (or_introl eq_refl))).
  reflexivity.
Defined.

End StatsCache.

(** ** Counting: [Message.getStats], [Message.countByUserId] and the
    handler of text messages *)

Section Counting.

Import Store MessageQueries Ingest.

(** [messages.id] is a key, drawn from the sequence. *)
Definition messageIdsFresh (db : Db) : Prop :=
  List.NoDup (List.map id (messages db))
  /\ forall m, In m (messages db) -> id m <= messages_id_seq db.

Lemma create_ids_fresh db now data :
  messageIdsFresh db -> messageIdsFresh (fst (create db now data)).
Proof.
  intros [Hnd Hle]. unfold messageIdsFresh, create.
  destruct (existsb _ _); [| destruct (userExists _ _)]; cbn [fst messages messages_id_seq].
  - split; [exact Hnd |]. intros m Hm. specialize (Hle m Hm). lia.
  - split.
    + rewrite List.map_app. apply List.NoDup_app; [exact Hnd | repeat constructor; intros [] |].
      intros k Hin [<- | []]. apply in_map_iff in Hin. destruct Hin as (m & Hk & Hm).
      specialize (Hle m Hm). cbn in Hk. lia.
    + intros m Hm. apply in_app_or in Hm. destruct Hm as [Hm | [<- | []]].
      * specialize (Hle m Hm). lia.
      * cbn. lia.
  - split; [exact Hnd |]. intros m Hm. specialize (Hle m Hm). lia.
Qed.

Lemma NoDup_map_filter {A B} (f : A -> B) (p : A -> bool) l :
  List.NoDup (List.map f l) -> List.NoDup (List.map f (List.filter p l)).
Proof.
  induction l as [| x l IH]; cbn; intros H; [constructor |].
  inversion H as [| y ys Hnotin Hnd]; subst.
  destruct (p x); cbn; [| apply IH, Hnd].
  constructor; [| apply IH, Hnd].
  intros Hin. apply Hnotin. apply in_map_iff in Hin. destruct Hin as (z & Hz & Hin).
  apply filter_In in Hin. apply in_map_iff. exists z. split; [exact Hz | apply Hin].
Qed.

Lemma nodup_length_le (l : list Z) :
  (List.length (nodup Z.eq_dec l) <= List.length l)%nat.
Proof.
  induction l as [| x l IH]; cbn; [lia |].
  destruct (in_dec Z.eq_dec x l); cbn; lia.
Qed.

Lemma filter_length_le {A} (p : A -> bool) l :
  (List.length (List.filter p l) <= List.length l)%nat.
Proof. induction l as [| x l IH]; cbn; [lia |]. destruct (p x); cbn; lia. Qed.

Lemma filter_filter {A} (p q : A -> bool) l :
  List.filter p (List.filter q l) = List.filter (fun x => q x && p x) l.
Proof.
  induction l as [| x l IH]; [reflexivity |]. cbn.
  destruct (q x); cbn; [destruct (p x); cbn; rewrite IH; reflexivity | exact IH].
Qed.

Lemma filter_ext_bool {A} (p q : A -> bool) l :
  (forall x, p x = q x) -> List.filter p l = List.filter q l.
Proof.
  intros H. induction l as [| x l IH]; [reflexivity |]. cbn. rewrite H, IH. reflexivity.
Qed.

(** The rows of one user among rows. *)
Definition ofUser (u : Z) (rows : list MessageData) : list MessageData :=
  List.filter (fun m => user_id m =? u) rows.

(** The sum of the numbers of rows of the users [us]. *)
Fixpoint sumCounts (us : list Z) (rows : list MessageData) : Z :=
  match us with
  | [] => 0
  | u :: r => Z.of_nat (List.length (ofUser u rows)) + sumCounts r rows
  end.

Lemma sumCounts_cons_absent us m rows :
  ~ In (user_id m) us -> sumCounts us (m :: rows) = sumCounts us rows.
Proof.
  induction us as [| u us IH]; intros Hn; [reflexivity |].
  cbn [sumCounts]. rewrite IH by (intros H; apply Hn; right; exact H).
  unfold ofUser. cbn [List.filter].
  destruct (Z.eqb_spec (user_id m) u) as [E | E]; [| reflexivity].
  exfalso. apply Hn. left. symmetry. exact E.
Qed.

Lemma sumCounts_cons_present us m rows :
  List.NoDup us -> In (user_id m) us ->
  sumCounts us (m :: rows) = sumCounts us rows + 1.
Proof.
  induction us as [| u us IH]; intros Hnd Hin; [destruct Hin |].
  inversion Hnd as [| x xs Hnotin Hnd']; subst.
  cbn [sumCounts]. unfold ofUser at 1. cbn [List.filter].
  destruct (Z.eqb_spec (user_id m) u) as [E | E].
  - rewrite sumCounts_cons_absent by (rewrite E; exact Hnotin).
    cbn [List.length]. unfold ofUser. lia.
  - destruct Hin as [Hin | Hin]; [congruence |].
    rewrite IH by assumption. unfold ofUser. lia.
Qed.

Lemma sumCounts_distinct rows :
  sumCounts (nodup Z.eq_dec (List.map user_id rows)) rows
  = Z.of_nat (List.length rows).
Proof.
  induction rows as [| m rows IH]; [reflexivity |].
  cbn [List.map nodup].
  destruct (in_dec Z.eq_dec (user_id m) (List.map user_id rows)) as [Hin | Hnin].
  - rewrite sumCounts_cons_present; [| apply NoDup_nodup | apply nodup_In; exact Hin].
    rewrite IH. cbn [List.length]. lia.
  - cbn [sumCounts]. rewrite sumCounts_cons_absent by (rewrite nodup_In; exact Hnin).
    rewrite IH. unfold ofUser. cbn [List.filter]. rewrite Z.eqb_refl.
    assert (Hnone : List.filter (fun x => user_id x =? user_id m) rows = []).
    { clear IH. induction rows as [| x rows IHr]; [reflexivity |]. cbn.
      destruct (Z.eqb_spec (user_id x) (user_id m)) as [E | E].
      - exfalso. apply Hnin. left. exact E.
      - apply IHr. intros H. apply Hnin. right. exact H. }
    rewrite Hnone. cbn [List.length]. lia.
Qed.

(** The users [getStats] counts: those with a row that passes the filters. *)
Definition activeUsers (db : Db) (chatId startDate endDate : option Z) : list Z :=
  nodup Z.eq_dec
    (List.map user_id (List.filter (matches chatId startDate endDate) (messages db))).

Lemma countByUserId_ofUser db u chatId startDate endDate :
  countByUserId db u chatId startDate endDate
  = Z.of_nat (List.length
                (ofUser u (List.filter (matches chatId startDate endDate) (messages db)))).
Proof.
  unfold countByUserId, ofUser. rewrite filter_filter. do 2 f_equal.
  apply filter_ext_bool. intros m. apply andb_comm.
Qed.

Fixpoint sumZ (l : list Z) : Z :=
  match l with [] => 0 | x :: r => x + sumZ r end.

Lemma sumCounts_sumZ db us chatId startDate endDate :
  sumZ (List.map (fun u => countByUserId db u chatId startDate endDate) us)
  = sumCounts us (List.filter (matches chatId startDate endDate) (messages db)).
Proof.
  induction us as [| u us IH]; [reflexivity |].
  cbn [List.map sumZ sumCounts]. rewrite IH, countByUserId_ofUser. reflexivity.
Qed.

Lemma totalMessages_length db chatId startDate endDate :
  messageIdsFresh db ->
  fst (getStats db chatId startDate endDate)
  = Z.of_nat (List.length
                (List.filter (matches chatId startDate endDate) (messages db))).
Proof.
  intros [Hnd _]. unfold getStats, countDistinct. cbn [fst].
  rewrite nodup_fixed_point by (apply NoDup_map_filter, Hnd).
  rewrite length_map. reflexivity.
Qed.

(** X9. The figures of [getStats] and [countByUserId] fit together for any
    one choice of filters.  [totalMessages] is the number of stored rows
    that pass the filters; [totalUsers] is the number of users with a
    positive count, so it is at most [totalMessages] and is 0 exactly when
    [totalMessages] is; and the counts of those users add up to
    [totalMessages], so no user's count is above it. *)
Theorem getStats_counts :
  forall db chatId startDate endDate,
    messageIdsFresh db ->
    let users := activeUsers db chatId startDate endDate in
    let totalMessages := fst (getStats db chatId startDate endDate) in
    let totalUsers := snd (getStats db chatId startDate endDate) in
    totalMessages
    = Z.of_nat (List.length
                  (List.filter (matches chatId startDate endDate) (messages db)))
    /\ totalUsers = Z.of_nat (List.length users)
    /\ List.NoDup users
    /\ (forall u, In u users <-> 0 < countByUserId db u chatId startDate endDate)
    /\ sumZ (List.map (fun u => countByUserId db u chatId startDate endDate) users)
       = totalMessages
    /\ 0 <= totalUsers <= totalMessages
    /\ (totalUsers = 0 <-> totalMessages = 0)
    /\ (forall u, 0 <= countByUserId db u chatId startDate endDate <= totalMessages).
Proof.
  intros db c s e [Hnd _] us tm tu. subst us tm tu.
  unfold getStats, activeUsers, countDistinct. cbn [fst snd].
  set (rows := List.filter (matches c s e) (messages db)).
  assert (Htm : nodup Z.eq_dec (List.map id rows) = List.map id rows).
  { apply nodup_fixed_point. apply NoDup_map_filter, Hnd. }
  rewrite Htm, length_map.
  split; [reflexivity |]. split; [reflexivity |].
  split; [apply NoDup_nodup |]. split.
  { intros u. rewrite nodup_In, countByUserId_ofUser. fold rows.
    split.
    - intros Hin. apply in_map_iff in Hin. destruct Hin as (m & Hu & Hm).
      assert (Hin' : In m (ofUser u rows)).
      { apply filter_In. split; [exact Hm | apply Z.eqb_eq, Hu]. }
      destruct (ofUser u rows); [destruct Hin' | cbn; lia].
    - intros Hpos. destruct (ofUser u rows) as [| m l] eqn:E; [cbn in Hpos; lia |].
      assert (Hin : In m (ofUser u rows)) by (rewrite E; left; reflexivity).
      apply filter_In in Hin. destruct Hin as [Hm Hu]. apply Z.eqb_eq in Hu.
      apply in_map_iff. exists m. split; assumption. }
  split.
  { rewrite sumCounts_sumZ. fold rows. apply sumCounts_distinct. }
  pose proof (nodup_length_le (List.map user_id rows)) as Hle.
  rewrite length_map in Hle.
  split; [lia |]. split.
  { split; intros H0; [| lia].
    destruct rows as [| m rows']; [reflexivity |]. exfalso.
    cbn [List.map nodup] in H0.
    destruct (in_dec Z.eq_dec (user_id m) (List.map user_id rows')) as [Hin | Hnin].
    - apply (nodup_In Z.eq_dec) in Hin.
      destruct (nodup Z.eq_dec (List.map user_id rows')); [destruct Hin | cbn in H0; lia].
    - cbn in H0. lia. }
  intros u. rewrite countByUserId_ofUser. fold rows.
  pose proof (filter_length_le (fun m => user_id m =? u) rows). unfold ofUser. lia.
Qed.

Lemma getStats_counts_witness :
  fst (getStats threeRows (Some (-1)) None None)
  = Z.of_nat (List.length
                (List.filter (matches (Some (-1)) None None) (messages threeRows))).
Proof.
  apply (getStats_counts threeRows (Some (-1)) None None).
  split; [vm_compute; repeat constructor; intros H; cbn in H; intuition lia |].
  intros m Hm. vm_compute in Hm |- *. intuition (subst; discriminate).
Defined.

Lemma create_fresh_row db now data :
  existsb (sameKey (c_telegram_message_id data) (c_chat_id data)) (messages db) = false ->
  userExists db (c_user_id data) = true ->
  exists row,
    messages (fst (create db now data)) = messages db ++ [row]
    /\ user_id row = c_user_id data
    /\ chat_id row = c_chat_id data
    /\ created_at row = now.
Proof.
  intros Hf Hu. unfold create. rewrite Hf, Hu.
  eexists. repeat split.
Qed.

Lemma findOrCreate_base bdb now data :
  messages (base (fst (findOrCreate bdb now data))) = messages (base bdb)
  /\ messages_id_seq (base (fst (findOrCreate bdb now data)))
     = messages_id_seq (base bdb).
Proof.
  unfold findOrCreate. destruct (0 <? _)%nat; split; reflexivity.
Qed.

Lemma onText_ids_fresh bdb now u :
  messageIdsFresh (base bdb) -> messageIdsFresh (base (onText bdb now u)).
Proof.
  intros Hfresh. unfold onText.
  destruct (JS.startsWith _ _); [exact Hfresh |].
  assert (Hup : forall sender,
            messageIdsFresh (base (fst (findOrCreate bdb now sender)))).
  { intros sender. destruct (findOrCreate_base bdb now sender) as [Hm Hs].
    unfold messageIdsFresh. rewrite Hm, Hs. exact Hfresh. }
  destruct (chat_type u); try exact Hfresh;
    (destruct (from u) as [sender |]; [| exact Hfresh]);
    specialize (Hup sender);
    destruct (findOrCreate bdb now sender) as [b1 [user |]]; cbn [fst] in Hup;
    try exact Hup; cbn [withBase base]; apply create_ids_fresh, Hup.
Qed.

(** The date filters as [matches] reads them, at the moment [now]. *)
Definition inRange (startDate endDate : option Z) (now : Z) : bool :=
  match startDate with Some d => d <=? now | None => true end
  && match endDate with Some d => now <=? d | None => true end.

(** X10. What a stored message does to the figures.  When the handler of
    text messages stores a message that is new for its chat, the count of
    its sender and the total of that chat each grow by exactly one for
    every date range that holds the moment of storing, and no figure of
    another chat or of another user changes.  When the message is already
    stored, no figure changes at all. *)
Theorem onText_counts :
  forall bdb now u sender,
    uniqueTelegramIds bdb -> userIdsFresh bdb -> messageIdsFresh (base bdb) ->
    JS.startsWith (message_text u) [SLASH] = false ->
    isGroup (chat_type u) = true ->
    from u = Some sender ->
    let after := base (onText bdb now u) in
    let stored := existsb (sameKey (message_id u) (upd_chat_id u))
                    (messages (base bdb)) in
    exists user,
      findByTelegramId after (n_telegram_id sender) = Some user
      /\ (stored = true ->
          forall userId chatId startDate endDate,
            countByUserId after userId chatId startDate endDate
            = countByUserId (base bdb) userId chatId startDate endDate
            /\ getStats after chatId startDate endDate
               = getStats (base bdb) chatId startDate endDate)
      /\ (stored = false ->
          (forall startDate endDate,
             inRange startDate endDate now = true ->
             countByUserId after (u_id user) (Some (upd_chat_id u)) startDate endDate
             = countByUserId (base bdb) (u_id user) (Some (upd_chat_id u))
                 startDate endDate + 1
             /\ fst (getStats after (Some (upd_chat_id u)) startDate endDate)
                = fst (getStats (base bdb) (Some (upd_chat_id u)) startDate endDate) + 1)
          /\ (forall userId chatId startDate endDate,
                userId <> u_id user \/ chatId <> upd_chat_id u
                \/ inRange startDate endDate now = false ->
                countByUserId after userId (Some chatId) startDate endDate
                = countByUserId (base bdb) userId (Some chatId) startDate endDate)
          /\ (forall chatId startDate endDate,
                chatId <> upd_chat_id u \/ inRange startDate endDate now = false ->
                getStats after (Some chatId) startDate endDate
                = getStats (base bdb) (Some chatId) startDate endDate)).
Proof.
  intros bdb now u sender Hu Hf Hfresh Hcmd Hgroup Hfrom after stored.
  destruct (onText_group bdb now u sender Hcmd Hgroup Hfrom Hu Hf)
    as (user & Hs & Hex & Hon).
  destruct (findOrCreate_spec bdb now sender Hu Hf)
    as (row & Hrow & Hfind & _).
  assert (row = user) by congruence. subst row.
  destruct (findOrCreate_base bdb now sender) as [Hmsgs Hseq].
  set (b1 := fst (findOrCreate bdb now sender)) in *.
  set (data := {| c_user_id := u_id user; c_telegram_message_id := message_id u;
                  c_chat_id := upd_chat_id u; c_text := message_text u |}) in *.
  assert (Hafter : after = fst (create (base b1) now data)).
  { subst after. rewrite Hon. reflexivity. }
  exists user. split.
  { rewrite Hafter. unfold findByTelegramId. rewrite create_users. exact Hfind. }
  split.
  - intros Hst.
    assert (Hsame : messages after = messages (base bdb)).
    { rewrite Hafter, <- Hmsgs. apply (create_conflict (base b1) now data).
      cbn [data c_telegram_message_id c_chat_id]. rewrite Hmsgs. exact Hst. }
    intros userId chatId startDate endDate.
    unfold countByUserId, getStats. rewrite Hsame. split; reflexivity.
  - intros Hst.
    destruct (create_fresh_row (base b1) now data) as (m & Happ & Hm1 & Hm3 & Hcreated).
    { cbn [data c_telegram_message_id c_chat_id]. rewrite Hmsgs. exact Hst. }
    { exact Hex. }
    assert (Hrows : messages after = messages (base bdb) ++ [m]).
    { rewrite Hafter, Happ, Hmsgs. reflexivity. }
    cbn [data c_user_id c_chat_id] in Hm1, Hm3.
    assert (Hmatch : forall c s e,
              matches (Some c) s e m = (upd_chat_id u =? c) && inRange s e now).
    { intros c s e. unfold matches, inRange. rewrite Hm3, Hcreated.
      rewrite andb_assoc. reflexivity. }
    assert (Hfresh' : messageIdsFresh after).
    { subst after. apply onText_ids_fresh, Hfresh. }
    assert (Hcount : forall userId c s e,
              countByUserId after userId (Some c) s e
              = countByUserId (base bdb) userId (Some c) s e
                + (if (u_id user =? userId) && ((upd_chat_id u =? c) && inRange s e now)
                   then 1 else 0)).
    { intros userId c s e. unfold countByUserId. rewrite Hrows, List.filter_app.
      rewrite length_app. cbn [List.filter]. rewrite Hmatch, Hm1.
      destruct (_ && _); cbn [List.length]; lia. }
    assert (Htotal : forall c s e,
              fst (getStats after (Some c) s e)
              = fst (getStats (base bdb) (Some c) s e)
                + (if (upd_chat_id u =? c) && inRange s e now then 1 else 0)).
    { intros c s e. rewrite !totalMessages_length by assumption.
      rewrite Hrows, List.filter_app, length_app. cbn [List.filter]. rewrite Hmatch.
      destruct (_ && _); cbn [List.length]; lia. }
    split; [| split].
    + intros s e Hin. rewrite Hcount, Htotal, Hin, !Z.eqb_refl. cbn. split; reflexivity.
    + intros userId c s e Hne. rewrite Hcount.
      destruct (Z.eqb_spec (u_id user) userId) as [E1 | E1];
        destruct (Z.eqb_spec (upd_chat_id u) c) as [E2 | E2];
        destruct (inRange s e now) eqn:E3; cbn; lia.
    + intros c s e Hne. unfold getStats.
      assert (Hfilter : List.filter (matches (Some c) s e) (messages after)
                        = List.filter (matches (Some c) s e) (messages (base bdb))).
      { rewrite Hrows, List.filter_app. cbn [List.filter]. rewrite Hmatch.
        destruct (Z.eqb_spec (upd_chat_id u) c) as [E2 | E2];
          destruct (inRange s e now) eqn:E3; cbn; try apply app_nil_r.
        exfalso. destruct Hne as [H | H]; [congruence | discriminate]. }
      rewrite Hfilter. reflexivity.
Qed.

Lemma onText_counts_witness :
  exists user,
    findByTelegramId (base (onText emptyBot 10 helloUpdate)) 42 = Some user
    /\ countByUserId (base (onText emptyBot 10 helloUpdate)) (u_id user)
         (Some (-1001)) None None = 1.
Proof.
  assert (H1 : uniqueTelegramIds emptyBot) by constructor.
  assert (H2 : userIdsFresh emptyBot) by (split; [constructor | intros u []]).
  assert (H3 : messageIdsFresh (base emptyBot)) by (split; [constructor | intros m []]).
  destruct (onText_counts emptyBot 10 helloUpdate carol H1 H2 H3 eq_refl eq_refl eq_refl)
    as (user & Hfind & _ & Hnew).
  exists user. split; [exact Hfind |].
  exact (proj1 (proj1 (Hnew eq_refl) None None eq_refl)).
Defined.

End Counting.

(** ** The digest *)

Section DigestPeriod.

Import JSDate Store Analysis DigestFlow.

Lemma ofComponents_date z now k :
  0 <= LocalTime z now ->
  ofComponents z (getFullYear z now) (getMonth z now) (getDate z now + k)
  = UTC z (LocalTime z now - TimeWithinDay (LocalTime z now) + k * msPerDay).
Proof.
  intros Hl. unfold ofComponents, getFullYear, getMonth, getDate. cbv zeta.
  rewrite (local_midnight (LocalTime z now) k Hl). reflexivity.
Qed.

(** 1 March 2026, 09:30 local time: yesterday is 28 February. *)
Example yesterday_of_first_march :
  let now := MakeDate (MakeDay 2026 2 1) (MakeTime 9 30 0 0) in
  getDateRange utc Yesterday now
  = (MakeDate (MakeDay 2026 1 28) 0, MakeDate (MakeDay 2026 2 1) 0).
Proof. vm_compute. reflexivity. Qed.

(** In the zone with daylight saving, on 30 March 2026, 09:00 local time:
    yesterday, the day on which the clocks went forward, is 23 hours
    long. *)
Example yesterday_of_23_hours :
  let now := MakeDate (MakeDay 2026 2 30) (MakeTime 7 0 0 0) in
  snd (getDateRange central Yesterday now) - fst (getDateRange central Yesterday now)
  = 23 * 3600000.
Proof. vm_compute. reflexivity. Qed.

(** X11. The periods of the digest, for every zone of the host and every
    moment [now] from 1970 on (in local time), when local midnight of
    today is read with the zone offset of [now].  ['today'] runs from the
    instant of local midnight to [now].  When the midnight before is read
    with that offset too, ['yesterday'] is the whole previous calendar
    day, 24 hours from its midnight to the midnight that begins today,
    across the ends of months and years; both ends count, so the two
    periods share exactly one instant, the midnight between them.  In a
    zone without daylight saving both conditions always hold. *)
Theorem digest_getDateRange_days :
  forall z now,
    let local := LocalTime z now in
    let midnight := now - TimeWithinDay local in
    0 <= local ->
    sameOffset z now (local - TimeWithinDay local) ->
    getDateRange z Today now = (midnight, now)
    /\ TimeWithinDay (LocalTime z midnight) = 0
    /\ Day (LocalTime z midnight) = Day local
    /\ (sameOffset z now (local - TimeWithinDay local - msPerDay) ->
        getDateRange z Yesterday now = (midnight - msPerDay, midnight)
        /\ Day (LocalTime z (fst (getDateRange z Yesterday now))) = Day local - 1
        /\ TimeWithinDay (LocalTime z (fst (getDateRange z Yesterday now))) = 0
        /\ forall chatId m,
             inPeriod chatId (fst (getDateRange z Yesterday now))
               (snd (getDateRange z Yesterday now)) m
             && inPeriod chatId (fst (getDateRange z Today now))
                  (snd (getDateRange z Today now)) m = true
             <-> chat_id m = chatId /\ created_at m = midnight)
    /\ (forall c, z = fixedZone c -> forall local', sameOffset z now local').
Proof.
  intros z now local midnight Hlocal Hsame.
  pose proof (ofComponents_date z now 0 Hlocal) as H0.
  pose proof (ofComponents_date z now (-1) Hlocal) as H1.
  fold local in H0, H1.
  rewrite !Z.add_0_r in H0.
  replace (getDate z now + -1) with (getDate z now - 1) in H1 by lia.
  replace (local - TimeWithinDay local + -1 * msPerDay)
    with (local - TimeWithinDay local - msPerDay) in H1 by lia.
  pose proof (TimeWithinDay_range local) as Hr.
  pose proof (time_decompose local) as Hd.
  destruct (sameOffset_UTC z now _ Hsame) as [Hu Hback].
  assert (Hmidnight : UTC z (local - TimeWithinDay local) = midnight).
  { rewrite Hu. subst midnight local. unfold LocalTime. lia. }
  rewrite Hmidnight in H0, Hback.
  assert (Hmid : local - TimeWithinDay local = MakeDate (Day local) 0)
    by (unfold MakeDate; lia).
  assert (Ht : getDateRange z Today now = (midnight, now)).
  { unfold getDateRange. rewrite H0. reflexivity. }
  split; [exact Ht |].
  split; [rewrite Hback, Hmid; apply TimeWithinDay_MakeDate; unfold msPerDay; lia |].
  split; [rewrite Hback, Hmid; apply Day_MakeDate; unfold msPerDay; lia |].
  split; [| intros c -> local'; apply sameOffset_fixed].
  intros Hsame1.
  destruct (sameOffset_UTC z now _ Hsame1) as [Hu1 Hback1].
  assert (Hbefore : UTC z (local - TimeWithinDay local - msPerDay) = midnight - msPerDay).
  { rewrite Hu1. subst midnight local. unfold LocalTime. lia. }
  rewrite Hbefore in H1, Hback1.
  assert (Hyes : local - TimeWithinDay local - msPerDay = MakeDate (Day local - 1) 0)
    by (unfold MakeDate; lia).
  assert (Hy : getDateRange z Yesterday now = (midnight - msPerDay, midnight)).
  { unfold getDateRange. rewrite H0, H1. reflexivity. }
  rewrite Ht, Hy. cbn [fst snd].
  split; [reflexivity |].
  split; [rewrite Hback1, Hyes; apply Day_MakeDate; unfold msPerDay; lia |].
  split; [rewrite Hback1, Hyes; apply TimeWithinDay_MakeDate; unfold msPerDay; lia |].
  intros chatId m. unfold inPeriod.
  rewrite !andb_true_iff, Z.eqb_eq, !Z.leb_le.
  assert (midnight <= now) by (subst midnight; lia).
  unfold msPerDay in *. lia.
Qed.

Lemma digest_getDateRange_days_witness :
  let now := 1769169600000 in
  let local := LocalTime tashkent now in
  0 <= local
  /\ sameOffset tashkent now (local - TimeWithinDay local)
  /\ sameOffset tashkent now (local - TimeWithinDay local - msPerDay)
  /\ getDateRange tashkent Yesterday now
     = (now - TimeWithinDay local - msPerDay, now - TimeWithinDay local).
Proof.
  cbv zeta.
  assert (H : 0 <= LocalTime tashkent 1769169600000) by (vm_compute; discriminate).
  assert (H0 : sameOffset tashkent 1769169600000
                 (LocalTime tashkent 1769169600000
                  - TimeWithinDay (LocalTime tashkent 1769169600000)))
    by (split; reflexivity).
  assert (H1 : sameOffset tashkent 1769169600000
                 (LocalTime tashkent 1769169600000
                  - TimeWithinDay (LocalTime tashkent 1769169600000) - msPerDay))
    by (split; reflexivity).
  split; [exact H |]. split; [exact H0 |]. split; [exact H1 |].
  apply (proj1 (proj1 (proj2 (proj2 (proj2
           (digest_getDateRange_days tashkent 1769169600000 H H0)))) H1)).
Defined.

(** Oldest first. *)
Definition oldestFirst (rows : list MessageData) : Prop :=
  StronglySorted (fun a b => created_at a <= created_at b) rows.

Lemma insertAsc_perm m l : Permutation (insertAsc m l) (m :: l).
Proof.
  induction l as [| x r IH]; [reflexivity |].
  cbn. destruct (created_at m <? created_at x); [reflexivity |].
  rewrite IH. apply perm_swap.
Qed.

Lemma orderByCreatedAsc_perm l : Permutation (orderByCreatedAsc l) l.
Proof.
  induction l as [| x r IH]; [reflexivity |].
  cbn. rewrite insertAsc_perm. apply perm_skip, IH.
Qed.

Lemma insertAsc_sorted m l : oldestFirst l -> oldestFirst (insertAsc m l).
Proof.
  unfold oldestFirst. induction l as [| x r IH]; intros Hs.
  - repeat constructor.
  - apply StronglySorted_inv in Hs. destruct Hs as [Hr Hx]. cbn.
    destruct (Z.ltb_spec (created_at m) (created_at x)).
    + constructor; [constructor; assumption |].
      constructor; [lia |].
      rewrite List.Forall_forall in Hx |- *. intros y Hy. specialize (Hx y Hy). lia.
    + constructor; [apply IH; exact Hr |].
      rewrite List.Forall_forall in Hx |- *. intros y Hy.
      apply (Permutation_in _ (insertAsc_perm m r)) in Hy.
      destruct Hy as [<- | Hy]; [lia | apply Hx; exact Hy].
Qed.

Lemma orderByCreatedAsc_sorted l : oldestFirst (orderByCreatedAsc l).
Proof.
  induction l as [| x r IH]; [constructor |].
  cbn. apply insertAsc_sorted, IH.
Qed.

Lemma oldestFirst_app a b :
  oldestFirst (a ++ b) ->
  oldestFirst a /\ forall x y, In x a -> In y b -> created_at x <= created_at y.
Proof.
  unfold oldestFirst. induction a as [| h a IH]; intros Hs.
  - split; [constructor | intros x y []].
  - cbn in Hs. apply StronglySorted_inv in Hs. destruct Hs as [Hs Hh].
    destruct (IH Hs) as [Ha Hab]. rewrite List.Forall_forall in Hh. split.
    + constructor; [exact Ha |]. rewrite List.Forall_forall. intros y Hy.
      apply Hh, in_or_app. left. exact Hy.
    + intros x y [<- | Hx] Hy; [apply Hh, in_or_app; right; exact Hy |].
      exact (Hab x y Hx Hy).
Qed.

(** The rows of the chat in the period, before [ORDER BY] and [LIMIT]. *)
Definition periodRows (z : Zone) (db : Db) (chatId : Z) (period : Period) (now : Z)
  : list MessageData :=
  List.filter (inPeriod chatId (fst (getDateRange z period now))
                 (snd (getDateRange z period now))) (messages db).

Lemma chatRows_unfold z db chatId period maxMessages now :
  chatRows z db chatId period maxMessages now
  = if maxMessages <? 0 then Throw negativeLimit
    else Ok (firstn (Z.to_nat maxMessages)
               (orderByCreatedAsc (periodRows z db chatId period now))).
Proof.
  unfold chatRows, periodRows. destruct (getDateRange z period now). reflexivity.
Qed.

Lemma chatRows_sorted z db chatId period maxMessages now rows :
  chatRows z db chatId period maxMessages now = Ok rows ->
  exists later,
    orderByCreatedAsc (periodRows z db chatId period now) = rows ++ later
    /\ oldestFirst rows
    /\ forall x y, In x rows -> In y later -> created_at x <= created_at y.
Proof.
  rewrite chatRows_unfold. destruct (maxMessages <? 0); [discriminate |].
  intros [= <-].
  exists (skipn (Z.to_nat maxMessages)
            (orderByCreatedAsc (periodRows z db chatId period now))).
  split; [symmetry; apply firstn_skipn |].
  apply oldestFirst_app. rewrite firstn_skipn. apply orderByCreatedAsc_sorted.
Qed.

Definition busyDay : Db :=
  {| users := [ann; ben]; messages_id_seq := 3;
     messages :=
       [ {| id := 1; user_id := 7; telegram_message_id := 1; chat_id := -1;
            text := JS.js "утро"; created_at := 1769169600000 - 3000 |};
         {| id := 2; user_id := 8; telegram_message_id := 2; chat_id := -1;
            text := JS.js "день"; created_at := 1769169600000 - 2000 |};
         {| id := 3; user_id := 7; telegram_message_id := 3; chat_id := -1;
            text := JS.js "вечер"; created_at := 1769169600000 - 1000 |} ] |}.

Example digest_takes_oldest :
  getChatMessages utc busyDay (-1) Today 2 1769169600000
  = Ok [JS.js "утро"; JS.js "день"].
Proof. vm_compute. reflexivity. Qed.

(** X12. [getChatMessages] returns the texts of stored messages of the
    chat whose time lies in the period, oldest first, [maxMessages] of
    them at most.  When the period holds more, it is the newest that are
    left out: a message of the period that is not returned is no older
    than any returned one.  A negative [maxMessages] is an error of the
    query, and 0 gives no message. *)
Theorem getChatMessages_oldest :
  forall z db chatId period maxMessages now,
    (forall rows, chatRows z db chatId period maxMessages now = Ok rows ->
       getChatMessages z db chatId period maxMessages now = Ok (List.map text rows)
       /\ oldestFirst rows
       /\ (forall m, In m rows ->
             In m (messages db) /\ chat_id m = chatId
             /\ fst (getDateRange z period now) <= created_at m
                <= snd (getDateRange z period now))
       /\ Z.of_nat (List.length rows)
          = Z.min maxMessages
              (Z.of_nat (List.length (periodRows z db chatId period now)))
       /\ (forall m, In m (periodRows z db chatId period now) -> ~ In m rows ->
             forall r, In r rows -> created_at r <= created_at m))
    /\ ((exists rows, chatRows z db chatId period maxMessages now = Ok rows)
        <-> 0 <= maxMessages)
    /\ (maxMessages < 0 ->
        getChatMessages z db chatId period maxMessages now = Throw negativeLimit).
Proof.
  intros z db chatId period maxMessages now. split; [| split].
  - intros rows Hrows.
    destruct (chatRows_sorted _ _ _ _ _ _ _ Hrows) as (later & Hall & Hsorted & Hlater).
    pose proof (orderByCreatedAsc_perm (periodRows z db chatId period now)) as Hperm.
    split; [unfold getChatMessages; rewrite Hrows; reflexivity |].
    split; [exact Hsorted |]. split; [| split].
    + intros m Hm.
      assert (Hin : In m (periodRows z db chatId period now)).
      { apply (Permutation_in _ Hperm). rewrite Hall. apply in_or_app. left. exact Hm. }
      unfold periodRows in Hin. apply filter_In in Hin. destruct Hin as [Hin Hp].
      unfold inPeriod in Hp. rewrite !andb_true_iff, Z.eqb_eq, !Z.leb_le in Hp.
      split; [exact Hin |]. lia.
    + rewrite chatRows_unfold in Hrows.
      destruct (Z.ltb_spec maxMessages 0); [discriminate |].
      injection Hrows as <-.
      rewrite length_firstn, (Permutation_length Hperm). lia.
    + intros m Hm Hnot r Hr.
      apply (Permutation_in _ (Permutation_sym Hperm)) in Hm.
      rewrite Hall in Hm. apply in_app_or in Hm.
      destruct Hm as [Hm | Hm]; [contradiction |].
      exact (Hlater r m Hr Hm).
  - rewrite chatRows_unfold. destruct (Z.ltb_spec maxMessages 0).
    + split; [intros [rows [=]] | lia].
    + split; [lia | intros _; eexists; reflexivity].
  - intros Hneg. unfold getChatMessages. rewrite chatRows_unfold.
    destruct (Z.ltb_spec maxMessages 0); [reflexivity | lia].
Qed.

Lemma getChatMessages_oldest_witness :
  getChatMessages utc busyDay (-1) Today 2 1769169600000
  = Ok (List.map text (firstn 2 (messages busyDay))).
Proof.
  apply (proj1 (getChatMessages_oldest utc busyDay (-1) Today 2 1769169600000)).
  vm_compute. reflexivity.
Defined.

(** X13. The digest prompt, when the joined text of two or more messages
    is over its budget of 8000, keeps the last [floor(0.6 n)] of the [n]
    messages it was given; these come oldest first from the query, so what
    is cut are the oldest ones, and every kept message is no older than
    any that is cut.  A single message is never cut, whatever its length,
    and neither is a text within the budget. *)
Theorem digestMessages_window :
  forall z db chatId period maxMessages now rows,
    chatRows z db chatId period maxMessages now = Ok rows ->
    (digestMaxLength < Z.of_nat (List.length (JS.join [JS.LF] (List.map text rows))) ->
     (2 <= List.length rows)%nat ->
     exists cut kept,
       rows = cut ++ kept
       /\ digestMessages (List.map text rows) = List.map text kept
       /\ List.length kept = floor_times_0_6 (List.length rows)
       /\ (1 <= List.length cut)%nat
       /\ forall a b, In a cut -> In b kept -> created_at a <= created_at b)
    /\ (List.length rows = 1%nat ->
        digestMessages (List.map text rows) = List.map text rows)
    /\ (Z.of_nat (List.length (JS.join [JS.LF] (List.map text rows))) <= digestMaxLength ->
        digestMessages (List.map text rows) = List.map text rows).
Proof.
  intros z db chatId period maxMessages now rows Hrows.
  destruct (chatRows_sorted _ _ _ _ _ _ _ Hrows) as (_ & _ & Hsorted & _).
  split; [| split].
  - intros Hlong Hn.
    pose proof (floor_times_0_6_pos _ Hn) as Hpos.
    assert (Hlt : (floor_times_0_6 (List.length rows) < List.length rows)%nat).
    { unfold floor_times_0_6. pose proof (Nat.div_mod_eq (3 * List.length rows) 5).
      pose proof (Nat.mod_upper_bound (3 * List.length rows) 5). lia. }
    exists (firstn (List.length rows - floor_times_0_6 (List.length rows)) rows),
           (skipn (List.length rows - floor_times_0_6 (List.length rows)) rows).
    split; [symmetry; apply firstn_skipn |]. split.
    + unfold digestMessages.
      destruct (Z.ltb_spec digestMaxLength
                  (Z.of_nat (List.length (JS.join [JS.LF] (List.map text rows)))));
        [| lia].
      rewrite length_map, sliceLast_map. f_equal. unfold sliceLast.
      destruct (floor_times_0_6 (List.length rows)); [lia | reflexivity].
    + split; [rewrite length_skipn; lia |].
      split; [rewrite length_firstn; lia |].
      apply oldestFirst_app. rewrite firstn_skipn. exact Hsorted.
  - intros H1. unfold digestMessages. rewrite length_map, H1.
    destruct (_ <? _); reflexivity.
  - intros Hle. unfold digestMessages.
    destruct (Z.ltb_spec digestMaxLength
                (Z.of_nat (List.length (JS.join [JS.LF] (List.map text rows)))));
      [lia | reflexivity].
Qed.

Lemma digestMessages_window_witness :
  digestMessages (List.map text (firstn 2 (messages busyDay)))
  = List.map text (firstn 2 (messages busyDay)).
Proof.
  apply (proj2 (proj2 (digestMessages_window utc busyDay (-1) Today 2 1769169600000
                         (firstn 2 (messages busyDay)) ltac:(vm_compute; reflexivity)))).
  vm_compute. discriminate.
Defined.

End DigestPeriod.

Section DigestProviders.

Import Analysis Providers DigestService DigestFlow.

#[local] Opaque JS.js.

Variable w : World.
Variable qwenDigest : jsstring -> Result DigestContent.
Variable geminiDigest : jsstring -> Result jsstring.
Variable deepseekDigest : jsstring -> Result HttpResponse.

Abbreviation call := (callProvider qwenDigest geminiDigest deepseekDigest).
Abbreviation loop := (llmLoop w qwenDigest geminiDigest deepseekDigest).

(** A call of a provider is one request, whatever comes of it. *)
Lemma callProvider_events p prompt :
  events (call p prompt) = [EvCompletion p prompt].
Proof.
  unfold callProvider, events. destruct p; cbn [mbind M_bind emit lift fst].
  - destruct (deepseekDigest prompt) as [res | e]; [| reflexivity].
    cbn. destruct (jsonContent res) as [content | e]; [| reflexivity].
    cbn. destruct (negb _); reflexivity.
  - destruct (qwenDigest prompt) as [[s | json |] | e]; try reflexivity.
    cbn. destruct (JS.truthy s); reflexivity.
  - destruct (geminiDigest prompt); reflexivity.
Qed.

(** The providers whose key is set, in the order of the loop. *)
Definition called (ps : list Provider) : list Provider :=
  List.filter (isAvailable w) ps.

(** The error that is thrown when every call fails. *)
Fixpoint lastThrown (prompt : jsstring) (ps : list Provider)
  (lastError : option jsstring) : option jsstring :=
  match ps with
  | [] => lastError
  | p :: rest =>
      match outcome (call p prompt) with
      | Throw e => lastThrown prompt rest (Some e)
      | Ok _ => lastThrown prompt rest lastError
      end
  end.

Definition fails (prompt : jsstring) (p : Provider) : Prop :=
  exists e, outcome (call p prompt) = Throw e.

Lemma call_shape p prompt :
  call p prompt = ([EvCompletion p prompt], outcome (call p prompt)).
Proof.
  pose proof (callProvider_events p prompt) as H.
  unfold events, outcome in *. destruct (call p prompt) as [log r].
  cbn in H. rewrite H. reflexivity.
Qed.

Lemma llmLoop_all_fail prompt ps lastError :
  (forall p, In p (called ps) -> fails prompt p) ->
  loop ps lastError prompt
  = (List.map (fun p => EvCompletion p prompt) (called ps),
     Throw (match lastThrown prompt (called ps) lastError with
            | Some e => e
            | None => allUnavailable
            end)).
Proof.
  revert lastError. induction ps as [| p ps IH]; intros lastError Hall.
  - reflexivity.
  - cbn [llmLoop called List.filter] in *.
    destruct (isAvailable w p) eqn:Hav.
    + destruct (Hall p (or_introl eq_refl)) as [e He].
      rewrite (call_shape p prompt), He. cbn [tryCatch].
      rewrite IH by (intros q Hq; apply Hall; right; exact Hq).
      cbn [List.map lastThrown]. rewrite He. reflexivity.
    + apply IH. exact Hall.
Qed.

Lemma llmLoop_first_success prompt ps lastError before p after text :
  called ps = before ++ p :: after ->
  (forall q, In q before -> fails prompt q) ->
  outcome (call p prompt) = Ok text ->
  loop ps lastError prompt
  = (List.map (fun q => EvCompletion q prompt) (before ++ [p]), Ok text).
Proof.
  revert lastError before. induction ps as [| x ps IH]; intros lastError before Hc Hb Hp.
  - destruct before; discriminate.
  - cbn [llmLoop called List.filter] in *.
    destruct (isAvailable w x) eqn:Hav.
    + destruct before as [| b before]; cbn in Hc; injection Hc as Hx Hc; subst x.
      * rewrite (call_shape p prompt), Hp. reflexivity.
      * destruct (Hb b (or_introl eq_refl)) as [e He].
        rewrite (call_shape b prompt), He. cbn [tryCatch].
        rewrite (IH (Some e) before Hc) by
          (try exact Hp; intros q Hq; apply Hb; right; exact Hq).
        reflexivity.
    + apply IH; assumption.
Qed.

(** X14. [generateWithLLM] asks the providers whose key is set, in the
    order Qwen, Gemini, DeepSeek, one request each, and a provider without
    key gets none.  The text of the first provider that answers is the
    result, and no later provider is asked.  When every provider that was
    asked fails, the error of the last of them is thrown; when no key is
    set at all, no request is made and the error says that no provider is
    available.  The answer of DeepSeek is taken from the body whatever the
    HTTP status of the response. *)
Theorem generateWithLLM_fallback :
  forall prompt,
    let asked := called order in
    let run := generateWithLLM w qwenDigest geminiDigest deepseekDigest prompt in
    (forall before p after text,
       asked = before ++ p :: after ->
       (forall q, In q before -> fails prompt q) ->
       outcome (call p prompt) = Ok text ->
       run = (List.map (fun q => EvCompletion q prompt) (before ++ [p]), Ok text))
    /\ ((forall q, In q asked -> fails prompt q) ->
        events run = List.map (fun q => EvCompletion q prompt) asked
        /\ (forall last e,
              asked = last ++ [e] ->
              exists message,
                outcome (call e prompt) = Throw message
                /\ outcome run = Throw message)
        /\ (asked = [] -> run = ([], Throw allUnavailable)))
    /\ (forall q, isAvailable w q = false ->
          ~ In (EvCompletion q prompt) (events run))
    /\ (forall res text,
          deepseekDigest prompt = Ok res ->
          jsonContent res = Ok (Some text) -> JS.truthy text = true ->
          outcome (call DeepSeek prompt) = Ok text).
Proof.
  intros prompt asked run. subst asked run. unfold generateWithLLM.
  split; [| split; [| split]].
  - intros before p after text Hc Hb Hp.
    apply (llmLoop_first_success prompt order None before p after text Hc Hb Hp).
  - intros Hall. rewrite (llmLoop_all_fail prompt order None Hall).
    cbn [events outcome fst snd].
    split; [reflexivity |]. split.
    + intros last e Hlast.
      destruct (Hall e) as [message He];
        [rewrite Hlast; apply in_or_app; right; left; reflexivity |].
      exists message. split; [exact He |].
      rewrite Hlast. clear Hlast Hall.
      generalize (@None jsstring). induction last as [| x last IH]; intros acc.
      * cbn [app lastThrown]. rewrite He. reflexivity.
      * cbn [app lastThrown]. destruct (outcome (call x prompt)); apply IH.
    + intros ->. reflexivity.
  - intros q Hq Hin.
    assert (Hev : forall ps lastError,
              forall ev, In ev (events (loop ps lastError prompt)) ->
                exists p, ev = EvCompletion p prompt /\ isAvailable w p = true).
    { induction ps as [| x ps IH]; intros lastError ev Hev.
      - destruct Hev.
      - cbn [llmLoop] in Hev. destruct (isAvailable w x) eqn:Hav.
        + rewrite (call_shape x prompt) in Hev.
          destruct (outcome (call x prompt)) as [text | e]; cbn [tryCatch events fst] in Hev.
          * destruct Hev as [<- | []]. exists x. split; [reflexivity | exact Hav].
          * destruct (loop ps (Some e) prompt) as [log r] eqn:Hl.
            cbn [events fst] in Hev. destruct Hev as [<- | Hev].
            -- exists x. split; [reflexivity | exact Hav].
            -- apply (IH (Some e) ev). rewrite Hl. exact Hev.
        + apply (IH lastError ev Hev). }
    destruct (Hev order None _ Hin) as (p & Hp & Hav).
    injection Hp as <-. congruence.
  - intros res text Hres Hjson Htext.
    unfold callProvider, outcome. cbn [mbind M_bind emit lift snd].
    rewrite Hres. cbn. rewrite Hjson. cbn. rewrite Htext. reflexivity.
Qed.

End DigestProviders.

Section DigestExamples.

Import Analysis Providers DigestService DigestFlow.

Definition threeKeys : World :=
  {| db := {| Store.users := []; Store.messages := []; Store.messages_id_seq := 0 |};
     DEEPSEEK_API_KEY := Some (JS.js "k1");
     DASHSCOPE_API_KEY := Some (JS.js "k2");
     GEMINI_API_KEY := None;
     geminiModel := None;
     deepseekFetch := fun _ => Throw (JS.js "unused");
     qwenCreate := fun _ => Throw (JS.js "unused");
     geminiRespond := fun _ _ _ => inl GeminiGenerate.unknownError |}.

(** DeepSeek answers with an error status and a body that still carries a
    content: the digest takes it. *)
Definition paymentRequired : HttpResponse :=
  {| status := 402; bodyText := JS.js "{}";
     jsonContent := Ok (Some (JS.js "Summary: нет средств")) |}.

Lemma generateWithLLM_fallback_witness :
  generateWithLLM threeKeys (fun _ => Ok DNothing) (fun _ => Ok (JS.js "gemini"))
    (fun _ => Ok paymentRequired) (JS.js "p")
  = ([EvCompletion Qwen (JS.js "p"); EvCompletion DeepSeek (JS.js "p")],
     Ok (JS.js "Summary: нет средств")).
Proof.
  apply (proj1 (generateWithLLM_fallback threeKeys (fun _ => Ok DNothing)
                  (fun _ => Ok (JS.js "gemini")) (fun _ => Ok paymentRequired)
                  (JS.js "p")) [Qwen] DeepSeek [] (JS.js "Summary: нет средств")).
  - vm_compute. reflexivity.
  - intros q [<- | []]. eexists. vm_compute. reflexivity.
  - vm_compute. reflexivity.
Defined.

End DigestExamples.

Section DigestReply.

Import JS Analysis Providers DigestService DigestFlow.

#[local] Opaque JS.js.

Lemma trimEnd_idem s : trimEnd (trimEnd s) = trimEnd s.
Proof.
  induction s as [| c r IH]; [reflexivity |]. cbn [trimEnd].
  destruct (trimEnd r) as [| x r'] eqn:Hr.
  - destruct (isWhiteSpace c) eqn:Hc; [reflexivity |]. cbn. rewrite Hc. reflexivity.
  - cbn [trimEnd] in *. rewrite IH. reflexivity.
Qed.

Lemma trimStart_head s :
  trimStart s = [] \/ exists c r, trimStart s = c :: r /\ isWhiteSpace c = false.
Proof.
  induction s as [| c r IH]; [left; reflexivity |]. cbn.
  destruct (isWhiteSpace c) eqn:Hc; [exact IH |].
  right. exists c, r. split; [reflexivity | exact Hc].
Qed.

Lemma trimEnd_keeps_head c r :
  isWhiteSpace c = false -> exists r', trimEnd (c :: r) = c :: r'.
Proof.
  intros Hc. cbn [trimEnd]. destruct (trimEnd r) as [| x r'].
  - rewrite Hc. exists []. reflexivity.
  - exists (x :: r'). reflexivity.
Qed.

Lemma trim_idem s : trim (trim s) = trim s.
Proof.
  unfold trim. destruct (trimStart_head s) as [-> | (c & r & -> & Hc)]; [reflexivity |].
  destruct (trimEnd_keeps_head c r Hc) as [r' Hr]. rewrite Hr.
  cbn [trimStart]. rewrite Hc, <- Hr. apply trimEnd_idem.
Qed.

Lemma In_trimStart c s : In c (trimStart s) -> In c s.
Proof.
  induction s as [| x r IH]; [trivial |]. cbn.
  destruct (isWhiteSpace x); [intros H; right; apply IH, H | trivial].
Qed.

Lemma In_trimEnd c s : In c (trimEnd s) -> In c s.
Proof.
  induction s as [| x r IH]; [trivial |]. cbn [trimEnd].
  destruct (trimEnd r) as [| y r'].
  - destruct (isWhiteSpace x); [intros [] | intros [<- | []]; left; reflexivity].
  - intros [<- | H]; [left; reflexivity | right; apply IH, H].
Qed.

Lemma In_trim c s : In c (trim s) -> In c s.
Proof. intros H. apply In_trimStart, In_trimEnd, H. Qed.

Lemma In_dropDashes c s : In c (dropDashes s) -> In c s.
Proof.
  induction s as [| x r IH]; [trivial |]. cbn.
  destruct (x =? minus)%N; [intros H; right; apply IH, H | trivial].
Qed.

Lemma In_stripMarker c s : In c (stripMarker s) -> In c s.
Proof.
  destruct s as [| x r]; [trivial |]. cbn.
  destruct (x =? minus)%N; [| trivial].
  intros H. right. apply In_dropDashes, In_trimStart, H.
Qed.

Lemma split_no_sep sep s piece : In piece (split sep s) -> ~ In sep piece.
Proof.
  revert piece. induction s as [| c r IH]; intros piece; cbn.
  - intros [<- | []] [].
  - destruct (N.eqb_spec c sep) as [-> | Hne].
    + intros [<- | H]; [intros [] | apply IH, H].
    + pose proof (split_nonempty sep r) as Hs.
      destruct (split sep r) as [| l ls]; [contradiction |].
      intros [<- | H].
      * intros [E | E]; [congruence |]. exact (IH l (or_introl eq_refl) E).
      * apply IH. right. exact H.
Qed.

Lemma actionLines_ok block : Forall task_ok (actionLines block).
Proof.
  unfold actionLines. rewrite List.Forall_forall. intros item Hin.
  apply filter_In in Hin. destruct Hin as [Hin Htruthy].
  apply in_map_iff in Hin. destruct Hin as (line & <- & Hline).
  split; [apply trim_idem |]. split.
  - intros H. apply In_trim, In_stripMarker in H.
    exact (split_no_sep _ _ _ Hline H).
  - intros E. rewrite E in Htruthy. discriminate.
Qed.

Lemma noTasks_ok : task_ok noTasks.
Proof.
  split; [vm_compute; reflexivity |]. split; [| discriminate].
  vm_compute. intuition discriminate.
Qed.

Lemma parseActionItems_ok raw : Forall task_ok (parseActionItems raw).
Proof.
  unfold parseActionItems. destruct (truthy _).
  - apply actionLines_ok.
  - constructor; [apply noTasks_ok | constructor].
Qed.

(** The bullets under the heading of the action items. *)
Definition shownItems (d : ChatDigestResult) : list jsstring :=
  if (0 <? List.length (actionItems d))%nat then actionItems d else [noTasks].

Lemma sentinel_bullet :
  JS.js "• Нет явных задач." = JS.join [LF] (List.map bulletItem [noTasks]).
Proof. vm_compute. reflexivity. Qed.

Lemma bulletMark_one_line : ~ In LF (JS.js "• ").
Proof. vm_compute. intuition discriminate. Qed.

Lemma digestText_shown d :
  digestText d
  = JS.js "🧾 Дайджест чата за сегодня" ++ [LF; LF]
    ++ JS.js "📝 *Краткий пересказ*" ++ [LF] ++ summary d ++ [LF; LF]
    ++ JS.js "✅ *Action items*" ++ [LF]
    ++ JS.join [LF] (List.map bulletItem (shownItems d))
    ++ [LF; LF]
    ++ JS.js "🔍 *Контекст*" ++ [LF]
    ++ JS.js "• Темы: " ++ DigestService.topics d ++ [LF]
    ++ JS.js "• Тон: " ++ DigestService.tone d.
Proof.
  unfold digestText, shownItems.
  destruct (0 <? List.length (actionItems d))%nat; [reflexivity |].
  rewrite sentinel_bullet. reflexivity.
Qed.

(** X15. The action items of a digest, for every reply of a model.  Each
    item that [generateDigest] returns is a non-empty text on one line
    without white space at either end, and the summary is trimmed.  The
    message of [/digest] always lists at least one item: the items of the
    digest when there are any, and otherwise the one entry that says there
    are no tasks, also when the parsing left the list empty.  Each listed
    item is a line of its own that begins with the bullet. *)
Theorem digest_reply_items :
  forall raw,
    let d := parseDigest raw in
    Forall task_ok (actionItems d)
    /\ trim (summary d) = summary d
    /\ shownItems d <> []
    /\ Forall task_ok (shownItems d)
    /\ (actionItems d <> [] -> shownItems d = actionItems d)
    /\ (actionItems d = [] -> shownItems d = [noTasks])
    /\ split LF (JS.join [LF] (List.map bulletItem (shownItems d)))
       = List.map bulletItem (shownItems d)
    /\ exists head tail,
         digestText d
         = head ++ JS.join [LF] (List.map bulletItem (shownItems d)) ++ tail.
Proof.
  intros raw d.
  assert (Hitems : Forall task_ok (actionItems d)) by apply parseActionItems_ok.
  assert (Hshown : Forall task_ok (shownItems d)).
  { unfold shownItems. destruct (0 <? _)%nat; [exact Hitems |].
    constructor; [apply noTasks_ok | constructor]. }
  assert (Hne : shownItems d <> []).
  { unfold shownItems. destruct (actionItems d); cbn; discriminate. }
  split; [exact Hitems |].
  split; [apply trim_idem |].
  split; [exact Hne |]. split; [exact Hshown |].
  split; [unfold shownItems; destruct (actionItems d); [contradiction | reflexivity] |].
  split; [unfold shownItems; intros ->; reflexivity |].
  split.
  - apply split_join_lines.
    + destruct (shownItems d); [contradiction | discriminate].
    + intros l Hl. apply in_map_iff in Hl. destruct Hl as (item & <- & Hin).
      rewrite List.Forall_forall in Hshown. destruct (Hshown item Hin) as (_ & Hno & _).
      unfold bulletItem. intros H. apply in_app_or in H. destruct H as [H | H].
      * exact (bulletMark_one_line H).
      * exact (Hno H).
  - rewrite digestText_shown.
    exists (JS.js "🧾 Дайджест чата за сегодня" ++ [LF; LF]
            ++ JS.js "📝 *Краткий пересказ*" ++ [LF] ++ summary d ++ [LF; LF]
            ++ JS.js "✅ *Action items*" ++ [LF]),
           ([LF; LF] ++ JS.js "🔍 *Контекст*" ++ [LF]
            ++ JS.js "• Темы: " ++ DigestService.topics d ++ [LF]
            ++ JS.js "• Тон: " ++ DigestService.tone d).
    rewrite <- !app_assoc. reflexivity.
Qed.

Example digest_bare_marker_shows_default :
  actionItems (parseDigest bareMarkerReply) = []
  /\ shownItems (parseDigest bareMarkerReply) = [noTasks].
Proof. vm_compute. split; reflexivity. Qed.

Lemma digest_reply_items_witness :
  shownItems (parseDigest bareMarkerReply) = [noTasks].
Proof.
  apply (proj1 (proj2 (proj2 (proj2 (proj2 (proj2
           (digest_reply_items bareMarkerReply))))))).
  vm_compute. reflexivity.
Defined.

End DigestReply.

Section DigestCommand.

Import JS JSDate Store Analysis Providers DigestService DigestFlow.

#[local] Opaque JS.js.

Variable zone : Zone.
Variable w : World.
Variable qwenDigest : jsstring -> Result DigestContent.
Variable geminiDigest : jsstring -> Result jsstring.
Variable deepseekDigest : jsstring -> Result HttpResponse.
Variable refusal : nat -> Sent -> option jsstring.

Abbreviation digestOf chatId now :=
  (generateDigest zone w qwenDigest geminiDigest deepseekDigest chatId (Some Today)
     None now).
Abbreviation llm := (generateWithLLM w qwenDigest geminiDigest deepseekDigest).

(** Telegram carries out the request number [n] of the handler. *)
Definition accepted (n : nat) (s : Sent) : Prop := refusal n s = None.

(** The rows the digest of today is made from. *)
Definition todayRows (chatId now : Z) : list MessageData :=
  firstn 200 (orderByCreatedAsc (periodRows zone (db w) chatId Today now)).

Lemma todayRows_fetched chatId now :
  getChatMessages zone (db w) chatId Today 200 now
  = Ok (List.map text (todayRows chatId now)).
Proof.
  unfold getChatMessages. rewrite chatRows_unfold. reflexivity.
Qed.

Lemma todayRows_empty chatId now :
  todayRows chatId now = [] <-> periodRows zone (db w) chatId Today now = [].
Proof.
  unfold todayRows.
  pose proof (Permutation_length
                (orderByCreatedAsc_perm (periodRows zone (db w) chatId Today now)))
    as Hlen.
  destruct (orderByCreatedAsc (periodRows zone (db w) chatId Today now)) as [| x l];
    destruct (periodRows zone (db w) chatId Today now) as [| y l'];
    cbn in *; try discriminate; split; try reflexivity; discriminate.
Qed.

Lemma generateDigest_today chatId now :
  digestOf chatId now
  = match todayRows chatId now with
    | [] => ([], Ok None)
    | _ =>
        let prompt := createDigestPrompt (List.map text (todayRows chatId now))
                        (JS.js "сегодня") in
        (events (llm prompt),
         match outcome (llm prompt) with
         | Ok raw => Ok (Some (parseDigest raw))
         | Throw e => Throw e
         end)
    end.
Proof.
  unfold generateDigest. rewrite todayRows_fetched.
  destruct (todayRows chatId now) as [| m rows]; [reflexivity |].
  cbn [List.map List.length Nat.eqb lift mbind M_bind app periodLabel].
  unfold events, outcome.
  destruct (llm _) as [log [raw | e]];
    cbn [mbind M_bind mret M_ret fst snd app]; rewrite ?app_nil_r; reflexivity.
Qed.

(** The requests of the outer [catch], entered before request [n]. *)
Definition outerRequests : list Sent := [Reply digestError].

(** The requests of the inner [catch], entered before request [n]: the
    notice of failure and, when that is refused, the reply of the outer
    [catch]. *)
Definition innerRequests (n : nat) : list Sent :=
  EditMessage failedText ::
  match refusal n (EditMessage failedText) with
  | None => []
  | Some _ => outerRequests
  end.

(** The requests of an edit of the notice, which is request 1, and of what
    follows when it is refused. *)
Definition editRequests (edit : Sent) : list Sent :=
  edit ::
  match refusal 1 edit with
  | None => []
  | Some _ => innerRequests 2
  end.

Lemma lastReply_run text log sent :
  h_events (lastReply refusal text log sent) = log
  /\ h_sent (lastReply refusal text log sent) = sent ++ [Reply text]
  /\ (h_returned (lastReply refusal text log sent) = true
      <-> accepted (List.length sent) (Reply text)).
Proof.
  unfold lastReply, request, accepted.
  destruct (refusal (List.length sent) (Reply text)); cbn;
    repeat split; congruence.
Qed.

Lemma inner_run log n sent :
  List.length sent = n ->
  let out := finish refusal log sent (EditMessage failedText)
               (fun sent' (_ : jsstring) => lastReply refusal digestError log sent') in
  h_events out = log
  /\ h_sent out = sent ++ innerRequests n
  /\ (h_returned out = false ->
      exists before,
        h_sent out = before ++ [Reply digestError]
        /\ ~ accepted (List.length before) (Reply digestError)).
Proof.
  intros Hn out. subst out n. unfold finish, request, innerRequests.
  destruct (refusal (List.length sent) (EditMessage failedText)) as [m |];
    cbn [h_events h_sent h_returned].
  - destruct (lastReply_run digestError log (sent ++ [EditMessage failedText]))
      as (He & Hs & Hr).
    rewrite He, Hs. split; [reflexivity |].
    split; [rewrite <- app_assoc; reflexivity |].
    intros Hret. eexists. split; [reflexivity |].
    intros Hacc. apply Hr in Hacc. congruence.
  - split; [reflexivity |]. split; [reflexivity | discriminate].
Qed.

Lemma edit_run log edit :
  let out := finish refusal log [Reply waitingText] edit
               (fun sent (_ : jsstring) =>
                  finish refusal log sent (EditMessage failedText)
                    (fun sent' (_ : jsstring) =>
                       lastReply refusal digestError log sent')) in
  h_events out = log
  /\ h_sent out = Reply waitingText :: editRequests edit
  /\ (h_returned out = false ->
      exists before,
        h_sent out = before ++ [Reply digestError]
        /\ ~ accepted (List.length before) (Reply digestError)).
Proof.
  intros out.
  assert (Hout :
    out = match refusal 1 edit with
          | None => {| h_events := log; h_sent := [Reply waitingText; edit];
                       h_returned := true |}
          | Some _ =>
              finish refusal log [Reply waitingText; edit] (EditMessage failedText)
                (fun sent' (_ : jsstring) => lastReply refusal digestError log sent')
          end).
  { subst out. unfold finish at 1. unfold request at 1. cbn [List.length app].
    destruct (refusal 1 edit); reflexivity. }
  rewrite Hout. clear Hout out. unfold editRequests.
  destruct (refusal 1 edit) as [m |].
  - destruct (inner_run log 2 [Reply waitingText; edit] eq_refl) as (He & Hs & Hr).
    split; [exact He |]. split; [rewrite Hs; reflexivity | exact Hr].
  - cbn [h_events h_sent h_returned].
    split; [reflexivity |]. split; [reflexivity | discriminate].
Qed.

(** X16. What [/digest] asks of Telegram, whatever Telegram answers.
    Outside a group chat: one reply, and neither the store nor a provider
    is asked.  In a group chat: the notice, and when it is refused nothing
    else is done.  Once the notice is there, a chat without a message of
    today gets the edit that says so, and no provider is asked; otherwise
    the providers are asked with the prompt for the (at most 200, oldest)
    messages of today, and the edit is the digest parsed from the answer,
    sent as Markdown, or the notice of failure when no provider answers.
    An edit that Telegram refuses, as it does with a digest that is not
    well-formed Markdown, is followed by the notice of failure, and a
    refused notice of failure or reply by one last reply; only when that
    reply is refused too does the error leave the handler.  The handler
    makes at most four requests. *)
Theorem handleDigestCommand_outcomes :
  forall chat chatId now,
    let out := handleDigestCommand refusal chat (digestOf chatId now) in
    (isGroupChat chat = false ->
       h_events out = []
       /\ h_sent out
          = Reply onlyGroups ::
            match refusal 0 (Reply onlyGroups) with
            | None => []
            | Some _ => [Reply digestError]
            end)
    /\ (isGroupChat chat = true ->
        (~ accepted 0 (Reply waitingText) ->
           h_events out = [] /\ h_sent out = [Reply waitingText; Reply digestError])
        /\ (accepted 0 (Reply waitingText) ->
            (periodRows zone (db w) chatId Today now = [] ->
               h_events out = []
               /\ h_sent out
                  = Reply waitingText :: editRequests (EditMessage noMessagesText))
            /\ (periodRows zone (db w) chatId Today now <> [] ->
                let prompt := createDigestPrompt (List.map text (todayRows chatId now))
                                (JS.js "сегодня") in
                h_events out = events (llm prompt)
                /\ (forall raw, outcome (llm prompt) = Ok raw ->
                      let edit := EditMarkdown (digestText (parseDigest raw)) in
                      h_sent out = Reply waitingText :: editRequests edit
                      /\ (accepted 1 edit -> h_sent out = [Reply waitingText; edit])
                      /\ (~ accepted 1 edit ->
                          exists rest,
                            h_sent out
                            = Reply waitingText :: edit :: EditMessage failedText
                                :: rest))
                /\ (forall e, outcome (llm prompt) = Throw e ->
                      h_sent out = Reply waitingText :: innerRequests 1))))
    /\ (h_returned out = false ->
        exists before,
          h_sent out = before ++ [Reply digestError]
          /\ ~ accepted (List.length before) (Reply digestError))
    /\ (List.length (h_sent out) <= 4)%nat.
Proof.
  intros chat chatId now out.
  assert (Hrun :
    out = (if isGroupChat chat then
             match refusal 0 (Reply waitingText) with
             | Some _ => lastReply refusal digestError [] [Reply waitingText]
             | None =>
                 match todayRows chatId now with
                 | [] =>
                     finish refusal [] [Reply waitingText] (EditMessage noMessagesText)
                       (fun sent (_ : jsstring) =>
                          finish refusal [] sent (EditMessage failedText)
                            (fun sent' (_ : jsstring) =>
                               lastReply refusal digestError [] sent'))
                 | _ =>
                     let prompt :=
                       createDigestPrompt (List.map text (todayRows chatId now))
                         (JS.js "сегодня") in
                     let log := events (llm prompt) in
                     match outcome (llm prompt) with
                     | Ok raw =>
                         finish refusal log [Reply waitingText]
                           (EditMarkdown (digestText (parseDigest raw)))
                           (fun sent (_ : jsstring) =>
                              finish refusal log sent (EditMessage failedText)
                                (fun sent' (_ : jsstring) =>
                                   lastReply refusal digestError log sent'))
                     | Throw _ =>
                         finish refusal log [Reply waitingText] (EditMessage failedText)
                           (fun sent' (_ : jsstring) =>
                              lastReply refusal digestError log sent')
                     end
                 end
             end
           else finish refusal [] [] (Reply onlyGroups)
                  (fun sent (_ : jsstring) => lastReply refusal digestError [] sent))).
  { subst out. unfold handleDigestCommand. destruct (isGroupChat chat); [| reflexivity].
    cbn [negb]. unfold request at 1. cbn [List.length app].
    destruct (refusal 0 (Reply waitingText)); [reflexivity |].
    rewrite generateDigest_today.
    destruct (todayRows chatId now) as [| m rows]; [reflexivity |].
    cbv zeta. destruct (outcome (llm _)); reflexivity. }
  clearbody out. subst out.
  split; [| split; [| split]].
  - intros ->. unfold finish, request. cbn [List.length app].
    destruct (refusal 0 (Reply onlyGroups)); cbn [h_events h_sent].
    + destruct (lastReply_run digestError [] [Reply onlyGroups]) as (He & Hs & _).
      split; [exact He | exact Hs].
    + split; reflexivity.
  - intros ->. split.
    + intros Hno. unfold accepted in Hno.
      destruct (refusal 0 (Reply waitingText)); [| contradiction].
      destruct (lastReply_run digestError [] [Reply waitingText]) as (He & Hs & _).
      split; assumption.
    + intros Hyes. unfold accepted in Hyes. rewrite Hyes. split.
      * intros Hnone. apply todayRows_empty in Hnone. rewrite Hnone.
        destruct (edit_run [] (EditMessage noMessagesText)) as (He & Hs & _).
        split; assumption.
      * intros Hsome. cbv zeta.
        assert (Hrows : todayRows chatId now <> []).
        { intros H. apply Hsome, todayRows_empty, H. }
        destruct (todayRows chatId now) as [| m rows] eqn:Erows; [contradiction |].
        set (prompt := createDigestPrompt _ _).
        destruct (outcome (llm prompt)) as [raw | e] eqn:Hout.
        -- destruct (edit_run (events (llm prompt))
                       (EditMarkdown (digestText (parseDigest raw)))) as (He & Hs & _).
           split; [exact He |]. split; [| intros e [=]].
           intros raw' [= <-]. split; [exact Hs |]. rewrite Hs. unfold editRequests.
           split.
           ++ unfold accepted. intros ->. reflexivity.
           ++ unfold accepted. intros Hno.
              destruct (refusal 1 (EditMarkdown (digestText (parseDigest raw))));
                [| contradiction].
              eexists. reflexivity.
        -- destruct (inner_run (events (llm prompt)) 1 [Reply waitingText] eq_refl)
             as (He & Hs & _).
           split; [exact He |]. split; [intros raw [=] |].
           intros e' _. exact Hs.
  - destruct (isGroupChat chat).
    + destruct (refusal 0 (Reply waitingText)).
      * intros Hret. destruct (lastReply_run digestError [] [Reply waitingText])
          as (_ & Hs & Hr).
        eexists. split; [exact Hs |]. intros Hacc. apply Hr in Hacc. congruence.
      * destruct (todayRows chatId now) as [| m rows].
        -- apply (edit_run [] (EditMessage noMessagesText)).
        -- cbv zeta. destruct (outcome (llm _)) as [raw | e].
           ++ apply (edit_run (events (llm _))
                       (EditMarkdown (digestText (parseDigest raw)))).
           ++ apply (inner_run (events (llm _)) 1 [Reply waitingText] eq_refl).
    + unfold finish, request. cbn [List.length app].
      destruct (refusal 0 (Reply onlyGroups)); [| discriminate].
      intros Hret. destruct (lastReply_run digestError [] [Reply onlyGroups])
        as (_ & Hs & Hr).
      eexists. split; [exact Hs |]. intros Hacc. apply Hr in Hacc. congruence.
  - assert (Hinner : forall n, (List.length (innerRequests n) <= 2)%nat).
    { intros n. unfold innerRequests. destruct (refusal n _); cbn; lia. }
    assert (Hedit : forall edit, (List.length (editRequests edit) <= 3)%nat).
    { intros edit. unfold editRequests. destruct (refusal 1 edit); cbn [List.length];
        [specialize (Hinner 2%nat) |]; lia. }
    destruct (isGroupChat chat).
    + destruct (refusal 0 (Reply waitingText)).
      * destruct (lastReply_run digestError [] [Reply waitingText]) as (_ & -> & _).
        cbn. lia.
      * destruct (todayRows chatId now) as [| m rows].
        -- destruct (edit_run [] (EditMessage noMessagesText)) as (_ & -> & _).
           cbn [List.length]. specialize (Hedit (EditMessage noMessagesText)). lia.
        -- cbv zeta. destruct (outcome (llm _)) as [raw | e].
           ++ destruct (edit_run (events (llm (createDigestPrompt
                          (List.map text (m :: rows)) (JS.js "сегодня"))))
                         (EditMarkdown (digestText (parseDigest raw)))) as (_ & -> & _).
              cbn [List.length].
              specialize (Hedit (EditMarkdown (digestText (parseDigest raw)))). lia.
           ++ destruct (inner_run (events (llm (createDigestPrompt
                          (List.map text (m :: rows)) (JS.js "сегодня"))))
                         1 [Reply waitingText] eq_refl) as (_ & -> & _).
              cbn [List.length app]. specialize (Hinner 1%nat). lia.
    + unfold finish, request. cbn [List.length app].
      destruct (refusal 0 (Reply onlyGroups)); cbn [h_sent List.length]; [| lia].
      destruct (lastReply_run digestError [] [Reply onlyGroups]) as (_ & -> & _).
      cbn. lia.
Qed.

End DigestCommand.

Section DigestCommandExample.

Import JS Store Analysis Providers DigestService DigestFlow.

(** A chat with three messages of the day, and Qwen as the only
    provider. *)
Definition busyChat : World :=
  {| db := busyDay;
     DEEPSEEK_API_KEY := None; DASHSCOPE_API_KEY := Some (JS.js "k");
     GEMINI_API_KEY := None; geminiModel := None;
     deepseekFetch := fun _ => Throw (JS.js "unused");
     qwenCreate := fun _ => Throw (JS.js "unused");
     geminiRespond := fun _ _ _ => inr [] |}.

(** A digest whose summary holds an underscore that Markdown cannot
    pair. *)
Definition snakeReply : jsstring :=
  Eval vm_compute in JS.js "Summary:
- обсудили user_id

Action items:
- починить импорт

Context:
- Темы: база
- Тон: деловой".

(** Telegram takes plain text and refuses every text sent as Markdown. *)
Definition noMarkdown (_ : nat) (s : Sent) : option jsstring :=
  match s with
  | EditMarkdown _ => Some (JS.js "400: Bad Request: can't parse entities")
  | _ => None
  end.

Definition allAccepted (_ : nat) (_ : Sent) : option jsstring := None.

Example digest_sent_as_markdown :
  h_sent (handleDigestCommand allAccepted (Some Ingest.Supergroup)
            (generateDigest utc busyChat (fun _ => Ok (DString snakeReply))
               (fun _ => Ok []) (fun _ => Throw []) (-1) (Some Today) None
               1769169600000))
  = [Reply waitingText; EditMarkdown (digestText (parseDigest snakeReply))].
Proof. vm_compute. reflexivity. Qed.

Example digest_no_messages :
  handleDigestCommand allAccepted (Some Ingest.Supergroup)
    (generateDigest utc busyChat (fun _ => Ok DNothing) (fun _ => Ok [])
       (fun _ => Throw []) (-5) (Some Today) None 1769169600000)
  = {| h_events := []; h_sent := [Reply waitingText; EditMessage noMessagesText];
       h_returned := true |}.
Proof. vm_compute. reflexivity. Qed.

(** The digest that Telegram refuses as Markdown is followed by the notice
    of failure. *)
Lemma handleDigestCommand_outcomes_witness :
  exists rest,
    h_sent (handleDigestCommand noMarkdown (Some Ingest.Supergroup)
              (generateDigest utc busyChat (fun _ => Ok (DString snakeReply))
                 (fun _ => Ok []) (fun _ => Throw []) (-1) (Some Today) None
                 1769169600000))
    = Reply waitingText :: EditMarkdown (digestText (parseDigest snakeReply))
        :: EditMessage failedText :: rest.
Proof.
  refine (proj2 (proj2 (proj1 (proj2 (proj2 (proj2 (proj1 (proj2
            (handleDigestCommand_outcomes utc busyChat
               (fun _ => Ok (DString snakeReply)) (fun _ => Ok []) (fun _ => Throw [])
               noMarkdown (Some Ingest.Supergroup) (-1) 1769169600000))
            eq_refl) eq_refl) _)) snakeReply _)) _).
  - vm_compute. discriminate.
  - vm_compute. reflexivity.
  - unfold accepted.
    change (Some (JS.js "400: Bad Request: can't parse entities") <> None).
    discriminate.
Defined.

End DigestCommandExample.

(** ** The retries of the Gemini client *)

Section GeminiRetries.

Import GeminiGenerate.

#[local] Opaque JS.js.

Variable respond : nat -> jsstring -> jsstring -> ApiError + jsstring.

Abbreviation request := (generateContent respond).

(** [k] turns that each ended in a pause, from turn number [a] on. *)
Definition pausedTurns (m prompt : jsstring) (baseDelay : Z) (a k : nat)
  : list GEvent :=
  flat_map (fun j => [GenerateContent m prompt; Sleep (baseDelay * 2 ^ Z.of_nat j)])
    (seq a k).

Definition rateLimited (prompt : jsstring) (st : GState) (j : nat) : Prop :=
  exists e, respond (calls st + j) (model st) prompt = inl e /\ isRateLimit e = true.

Definition after (st : GState) (n : nat) (events : list GEvent) : GState :=
  {| model := model st; calls := calls st + n; trace := trace st ++ events |}.

Lemma retryLoop_run prompt baseDelay :
  forall k left a lastError st,
    (k <= left)%nat ->
    (forall j, (j < k)%nat -> rateLimited prompt st j) ->
    let out := retryLoop (request prompt) left a baseDelay lastError st in
    let m := model st in
    ((k < left)%nat ->
       (forall text, respond (calls st + k) m prompt = inr text ->
          out = (after st (k + 1)
                   (pausedTurns m prompt baseDelay a k ++ [GenerateContent m prompt]),
                 inr text))
       /\ (forall e, respond (calls st + k) m prompt = inl e ->
             isRateLimit e = false ->
             out = (after st (k + 1)
                      (pausedTurns m prompt baseDelay a k ++ [GenerateContent m prompt]),
                    inl e)))
    /\ (k = left ->
        fst out = after st k (pausedTurns m prompt baseDelay a k)
        /\ exists e, snd out = inl e
             /\ match k with
                | O => e = match lastError with Some x => x | None => unknownError end
                | S k' => respond (calls st + k') m prompt = inl e
                end).
Proof.
  induction k as [| k IH]; intros left a lastError st Hle Hrl out m; subst out m.
  - split.
    + intros Hlt. destruct left as [| left]; [lia |].
      cbn [retryLoop]. unfold generateContent at 1 3.
      rewrite Nat.add_0_r. unfold after, pausedTurns. cbn [seq flat_map app].
      replace (calls st + (0 + 1))%nat with (S (calls st)) by lia.
      split.
      * intros text ->. reflexivity.
      * intros e -> ->. reflexivity.
    + intros <-. cbn [retryLoop fst snd]. unfold after, pausedTurns.
      cbn [seq flat_map]. rewrite Nat.add_0_r, app_nil_r. split.
      * destruct st; reflexivity.
      * eexists. split; reflexivity.
  - destruct left as [| left]; [lia |].
    destruct (Hrl 0%nat ltac:(lia)) as (e0 & He0 & Hr0).
    rewrite Nat.add_0_r in He0.
    cbn [retryLoop]. unfold generateContent at 1 3 5 7. rewrite He0, Hr0. cbn [negb].
    set (st1 := sleep _ _).
    assert (Hcalls : calls st1 = S (calls st)) by reflexivity.
    assert (Hmodel : model st1 = model st) by reflexivity.
    assert (Hrl1 : forall j, (j < k)%nat -> rateLimited prompt st1 j).
    { intros j Hj. destruct (Hrl (S j) ltac:(lia)) as (e & He & Hr).
      exists e. rewrite Hcalls, Hmodel.
      replace (S (calls st) + j)%nat with (calls st + S j)%nat by lia.
      split; assumption. }
    assert (Hafter : forall n evs,
              after st1 n evs
              = after st (S n)
                  ([GenerateContent (model st) prompt;
                    Sleep (baseDelay * 2 ^ Z.of_nat a)] ++ evs)).
    { intros n evs. unfold after. rewrite Hcalls, Hmodel. subst st1. cbn [sleep trace].
      f_equal; [lia |]. rewrite <- !app_assoc. reflexivity. }
    assert (Hturns : forall extra,
              [GenerateContent (model st) prompt; Sleep (baseDelay * 2 ^ Z.of_nat a)]
              ++ pausedTurns (model st) prompt baseDelay (S a) k ++ extra
              = pausedTurns (model st) prompt baseDelay a (S k) ++ extra).
    { intros extra. unfold pausedTurns. cbn [seq flat_map app]. reflexivity. }
    destruct (IH left (S a) (Some e0) st1 ltac:(lia) Hrl1) as [Hin Hend].
    rewrite Hcalls, Hmodel in Hin, Hend. split.
    + intros Hlt. destruct (Hin ltac:(lia)) as [Hok Herr]. split.
      * intros text Ht.
        replace (S (calls st) + k)%nat with (calls st + S k)%nat in Hok by lia.
        rewrite (Hok text Ht), Hafter, Hturns. reflexivity.
      * intros e He Hr.
        replace (S (calls st) + k)%nat with (calls st + S k)%nat in Herr by lia.
        rewrite (Herr e He Hr), Hafter, Hturns. reflexivity.
    + intros Hk. destruct (Hend ltac:(lia)) as (Hst & e & He & Hlast). split.
      * rewrite Hst, Hafter. rewrite <- (app_nil_r (pausedTurns _ _ _ (S a) k)).
        rewrite Hturns, app_nil_r. reflexivity.
      * exists e. split; [exact He |].
        destruct k as [| k'].
        -- cbn in Hlast. subst e. rewrite Nat.add_0_r. exact He0.
        -- replace (calls st + S k')%nat with (S (calls st) + k')%nat by lia.
           exact Hlast.
Qed.

Definition requested (prompt : jsstring) (st : GState) : GState :=
  {| model := model st; calls := S (calls st);
     trace := trace st ++ [GenerateContent (model st) prompt] |}.

Lemma retryLoop_step prompt baseDelay left a lastError st :
  retryLoop (request prompt) (S left) a baseDelay lastError st
  = match respond (calls st) (model st) prompt with
    | inr text => (requested prompt st, inr text)
    | inl error =>
        if isRateLimit error
        then retryLoop (request prompt) left (S a) baseDelay (Some error)
               (sleep (baseDelay * 2 ^ Z.of_nat a) (requested prompt st))
        else (requested prompt st, inl error)
    end.
Proof.
  cbn [retryLoop]. unfold generateContent, requested.
  destruct (respond (calls st) (model st) prompt) as [e | text]; [| reflexivity].
  destruct (isRateLimit e); reflexivity.
Qed.

(** Whatever the API answers: the model in use stays, at most [left]
    requests are made, and what comes out is what the API said last. *)
Lemma retryLoop_outcome prompt baseDelay :
  forall left a lastError st,
    let out := retryLoop (request prompt) left a baseDelay lastError st in
    model (fst out) = model st
    /\ (calls st <= calls (fst out) <= calls st + left)%nat
    /\ ((0 < left)%nat -> (calls st < calls (fst out))%nat)
    /\ match snd out with
       | inr text =>
           (calls st < calls (fst out))%nat
           /\ respond (calls (fst out) - 1) (model st) prompt = inr text
       | inl e =>
           (calls (fst out) = calls st
            /\ e = match lastError with Some x => x | None => unknownError end)
           \/ ((calls st < calls (fst out))%nat
               /\ respond (calls (fst out) - 1) (model st) prompt = inl e)
       end.
Proof.
  induction left as [| left IH]; intros a lastError st out; subst out.
  - cbn. split; [reflexivity |]. split; [lia |]. split; [lia |].
    left. split; reflexivity.
  - rewrite retryLoop_step.
    destruct (respond (calls st) (model st) prompt) as [e | text] eqn:Hr.
    + destruct (isRateLimit e) eqn:Hrate.
      * set (st1 := sleep _ _).
        specialize (IH (S a) (Some e) st1).
        assert (Hcalls : calls st1 = S (calls st)) by reflexivity.
        assert (Hmodel : model st1 = model st) by reflexivity.
        cbn zeta in IH. rewrite Hcalls, Hmodel in IH.
        destruct IH as (Hm & Hc & _ & Hout).
        split; [exact Hm |]. split; [lia |]. split; [lia |].
        destruct (snd (retryLoop (request prompt) left (S a) baseDelay (Some e) st1))
          as [e' | text'].
        -- right. destruct Hout as [[Hc0 ->] | [Hlt Hresp]].
           ++ split; [lia |]. rewrite Hc0.
              replace (S (calls st) - 1)%nat with (calls st) by lia. exact Hr.
           ++ split; [lia | exact Hresp].
        -- destruct Hout as [Hlt Hresp]. split; [lia | exact Hresp].
      * unfold requested. cbn [fst snd calls model].
        split; [reflexivity |]. split; [lia |]. split; [lia |].
        right. split; [lia |].
        replace (S (calls st) - 1)%nat with (calls st) by lia. exact Hr.
    + unfold requested. cbn [fst snd calls model].
      split; [reflexivity |]. split; [lia |]. split; [lia |].
      split; [lia |].
      replace (S (calls st) - 1)%nat with (calls st) by lia. exact Hr.
Qed.

(** X17. [retryWithBackoff] of the Gemini client, for a request that is
    refused with a rate limit [k] times in a row.  Each such turn is
    followed by a pause of at least [baseDelay * 2^turn] milliseconds.  If
    turn [k] comes within [maxRetries] and succeeds, its text is returned
    after [k + 1] requests; if it fails with another error, that error is
    thrown at once, with no pause and no further request.  If all
    [maxRetries] turns are rate limited, the last error is thrown after
    [maxRetries] requests and as many pauses, the last of which is followed
    by nothing; with [maxRetries] 0 no request is made and the error is the
    unknown one.  In every case at most [maxRetries] requests are made. *)
Theorem retryWithBackoff_turns :
  forall prompt maxRetries baseDelay st,
    let out := retryWithBackoff (request prompt) maxRetries baseDelay st in
    let m := model st in
    (calls (fst out) <= calls st + maxRetries)%nat
    /\ forall k,
         (k <= maxRetries)%nat ->
         (forall j, (j < k)%nat -> rateLimited prompt st j) ->
         ((k < maxRetries)%nat ->
            (forall text, respond (calls st + k) m prompt = inr text ->
               out = (after st (k + 1)
                        (pausedTurns m prompt baseDelay 0 k
                         ++ [GenerateContent m prompt]),
                      inr text))
            /\ (forall e, respond (calls st + k) m prompt = inl e ->
                  isRateLimit e = false ->
                  out = (after st (k + 1)
                           (pausedTurns m prompt baseDelay 0 k
                            ++ [GenerateContent m prompt]),
                         inl e)))
         /\ (k = maxRetries ->
             fst out = after st k (pausedTurns m prompt baseDelay 0 k)
             /\ exists e, snd out = inl e
                  /\ match k with
                     | O => e = unknownError
                     | S k' => respond (calls st + k') m prompt = inl e
                     end).
Proof.
  intros prompt maxRetries baseDelay st out m. subst out m. unfold retryWithBackoff.
  split.
  - apply (retryLoop_outcome prompt baseDelay maxRetries 0%nat None st).
  - intros k Hk Hrl.
    exact (retryLoop_run prompt baseDelay k maxRetries 0%nat None st Hk Hrl).
Qed.

End GeminiRetries.

Section GeminiRetriesExample.

Import GeminiGenerate.

Definition tooManyRequests : ApiError :=
  {| e_status := Some 429; e_message := JS.js "Too Many Requests" |}.

Definition shortAnswer : jsstring := Eval vm_compute in JS.js "Стиль: краткий".
Definition shortPrompt : jsstring := Eval vm_compute in JS.js "p".

(** The first request meets the rate limit, the second is answered. *)
Definition busyOnce (n : nat) (_ _ : jsstring) : ApiError + jsstring :=
  match n with
  | O => inl tooManyRequests
  | _ => inr shortAnswer
  end.

Definition flashPreview : jsstring :=
  Eval vm_compute in JS.js "gemini-3-flash-preview".

Definition freshModel : GState :=
  {| model := flashPreview; calls := 0; trace := [] |}.

Example retry_after_rate_limit :
  retryWithBackoff (generateContent busyOnce shortPrompt) 3 2000 freshModel
  = ({| model := model freshModel; calls := 2;
        trace := [GenerateContent (model freshModel) shortPrompt;
                  Sleep 2000;
                  GenerateContent (model freshModel) shortPrompt] |},
     inr shortAnswer).
Proof. vm_compute. reflexivity. Qed.

Lemma retryWithBackoff_turns_witness :
  retryWithBackoff (generateContent busyOnce shortPrompt) 3 2000 freshModel
  = (after freshModel (1 + 1)
       (pausedTurns (model freshModel) shortPrompt 2000 0 1
        ++ [GenerateContent (model freshModel) shortPrompt]),
     inr shortAnswer).
Proof.
  assert (Hrl : forall j, (j < 1)%nat -> rateLimited busyOnce shortPrompt freshModel j).
  { intros j Hj. assert (j = 0)%nat as -> by lia.
    exists tooManyRequests. split; [reflexivity | vm_compute; reflexivity]. }
  refine (proj1 (proj1 (proj2 (retryWithBackoff_turns busyOnce shortPrompt 3 2000
                                 freshModel) 1%nat _ Hrl) _) shortAnswer _).
  - lia.
  - lia.
  - reflexivity.
Defined.

End GeminiRetriesExample.

Section GeminiFallback.

Import GeminiGenerate.

#[local] Opaque JS.js.

Variable respond : nat -> jsstring -> jsstring -> ApiError + jsstring.

Abbreviation lastRequest prompt st :=
  (respond (calls st - 1) (model st) prompt).

Lemma retry_outcome prompt maxRetries baseDelay st :
  (0 < maxRetries)%nat ->
  let out := retryWithBackoff (generateContent respond prompt) maxRetries baseDelay st in
  model (fst out) = model st
  /\ (calls st < calls (fst out) <= calls st + maxRetries)%nat
  /\ lastRequest prompt (fst out) = snd out.
Proof.
  intros Hpos out. subst out. unfold retryWithBackoff.
  destruct (retryLoop_outcome respond prompt baseDelay maxRetries 0%nat None st)
    as (Hm & Hc & Hlt & Hout).
  specialize (Hlt Hpos). rewrite Hm.
  split; [reflexivity |]. split; [lia |].
  destruct (snd (retryLoop _ _ _ _ _ _)) as [e | text].
  - destruct Hout as [[H _] | [_ H]]; [lia | exact H].
  - apply Hout.
Qed.

Lemma fallbackLoop_outcome prompt :
  forall models st,
    models <> [] ->
    let out := fallbackLoop respond prompt models st in
    (calls st + 1 <= calls (fst out) <= calls st + 2 * List.length models)%nat
    /\ match snd out with
       | Ok text =>
           In (model (fst out)) models
           /\ lastRequest prompt (fst out) = inr text
       | Throw message =>
           model (fst out) = List.last models []
           /\ (calls st + List.length models <= calls (fst out))%nat
           /\ exists e, lastRequest prompt (fst out) = inl e
                /\ message = allModelsMessage (e_message e)
       end.
Proof.
  induction models as [| name rest IH]; intros st Hne out; [contradiction |].
  subst out. cbn [fallbackLoop].
  pose proof (retry_outcome prompt 2 1000 (setModel name st) ltac:(lia)) as Hr.
  cbn zeta in Hr. cbn [setModel model calls] in Hr.
  destruct (retryWithBackoff (generateContent respond prompt) 2 1000 (setModel name st))
    as [st' [e | text]]; cbn [fst snd] in Hr; destruct Hr as (Hm & Hc & Hlast).
  - destruct rest as [| name2 rest].
    + cbn [fst snd List.length List.last]. split; [lia |].
      split; [exact Hm |]. split; [lia |]. exists e. split; [exact Hlast | reflexivity].
    + specialize (IH st' ltac:(discriminate)). cbn zeta in IH.
      destruct IH as (Hc2 & Hout). cbn [List.length] in *. split; [lia |].
      destruct (snd (fallbackLoop respond prompt (name2 :: rest) st')) as [text | message].
      * destruct Hout as [Hin Hl]. split; [right; exact Hin | exact Hl].
      * destruct Hout as (Hm2 & Hc3 & Hex).
        split; [exact Hm2 |]. split; [lia | exact Hex].
  - cbn [fst snd List.length]. split; [lia |].
    split; [left; symmetry; exact Hm | exact Hlast].
Qed.

(** The trace only grows, and a loop of at least one turn asks the model
    in use. *)
Lemma retryLoop_trace prompt baseDelay :
  forall left a lastError st,
    exists more,
      trace (fst (retryLoop (generateContent respond prompt) left a baseDelay
                    lastError st))
      = trace st ++ more
      /\ ((0 < left)%nat -> In (GenerateContent (model st) prompt) more).
Proof.
  induction left as [| left IH]; intros a lastError st.
  - exists []. cbn. rewrite app_nil_r. split; [reflexivity | lia].
  - cbn [retryLoop generateContent].
    destruct (respond (calls st) (model st) prompt) as [error | text].
    + destruct (isRateLimit error); cbn [negb].
      * destruct (IH (S a) (Some error)
                    (sleep (baseDelay * 2 ^ Z.of_nat a)
                       {| model := model st; calls := S (calls st);
                          trace := trace st ++ [GenerateContent (model st) prompt] |}))
          as (more & -> & _).
        cbn [sleep trace]. rewrite <- !app_assoc. eexists. split; [reflexivity |].
        intros _. left. reflexivity.
      * cbn [fst trace]. eexists. split; [reflexivity |]. intros _. left. reflexivity.
    + cbn [fst trace]. eexists. split; [reflexivity |]. intros _. left. reflexivity.
Qed.

(** When the loop over the other models ends with an error, every one of
    them was asked. *)
Lemma fallbackLoop_trace prompt :
  forall models st,
    let out := fallbackLoop respond prompt models st in
    exists more,
      trace (fst out) = trace st ++ more
      /\ match snd out with
         | Ok _ => True
         | Throw _ => forall m, In m models -> In (GenerateContent m prompt) more
         end.
Proof.
  induction models as [| name rest IH]; intros st out; subst out.
  - exists []. cbn. rewrite app_nil_r. split; [reflexivity | intros m []].
  - cbn [fallbackLoop]. unfold retryWithBackoff.
    destruct (retryLoop_trace prompt 1000 2 0%nat None (setModel name st))
      as (more & Hmore & Hin).
    specialize (Hin ltac:(lia)). cbn [setModel model trace] in Hmore, Hin.
    destruct (retryLoop (generateContent respond prompt) 2 0 1000 None
                (setModel name st)) as [st' [e | text]]; cbn [fst] in Hmore.
    + destruct rest as [| name2 rest].
      * cbn [fst snd]. exists more. split; [exact Hmore |].
        intros m [<- | []]. exact Hin.
      * specialize (IH st'). cbn zeta in IH. destruct IH as (more2 & Hmore2 & Hall).
        exists (more ++ more2). rewrite Hmore2, Hmore, app_assoc.
        split; [reflexivity |].
        destruct (snd (fallbackLoop respond prompt (name2 :: rest) st'));
          [exact I |].
        intros m [<- | Hm]; apply in_or_app; [left; exact Hin | right; exact (Hall m Hm)].
    + cbn [fst snd]. exists more. split; [exact Hmore | exact I].
Qed.

(** An error that sends [analyzeUser] to the other models. *)
Definition speaksOf404 (e : ApiError) : bool :=
  JS.truthy (e_message e)
  && (JS.includes (e_message e) (JS.js "404") || statusIs e 404).

(** X18. How the Gemini client obtains the text of an analysis.  It makes
    at least one and at most 13 requests (three turns with the model in
    use, two with each of five other models).  A text it returns is the
    answer to its last request, and the model that gave it is the one that
    stays in use.  The other models are tried only after an error of the
    model in use whose status is none of 429, 400 and 403 and that speaks
    of 404; otherwise at most three requests are made and the error is
    told by its status: 429, 400 and 403 have messages of their own, any
    other error is passed on.  When the other models all fail, each was
    asked at least once, the last of them stays in use, and the message
    carries the error of that last model only. *)
Theorem generate_outcomes :
  forall prompt st,
    let out := generate respond prompt st in
    (calls st + 1 <= calls (fst out) <= calls st + 13)%nat
    /\ match snd out with
       | Ok text =>
           lastRequest prompt (fst out) = inr text
           /\ (model (fst out) = model st \/ In (model (fst out)) fallbackModels)
       | Throw message =>
           (model (fst out) = model st
            /\ (calls (fst out) <= calls st + 3)%nat
            /\ exists e,
                 lastRequest prompt (fst out) = inl e
                 /\ message
                    = (if statusIs e 429 then rateLimitMessage
                       else if statusIs e 400 then tooLargeMessage
                       else if statusIs e 403 then accessMessage
                       else e_message e)
                 /\ (statusIs e 429 || statusIs e 400 || statusIs e 403
                     || negb (speaksOf404 e) = true))
           \/ (model (fst out) = JS.js "gemini-pro"
               /\ (calls st + 6 <= calls (fst out))%nat
               /\ (forall m, In m fallbackModels ->
                     In (GenerateContent m prompt) (trace (fst out)))
               /\ exists e,
                    lastRequest prompt (fst out) = inl e
                    /\ message = allModelsMessage (e_message e))
       end
    /\ (model (fst out) <> model st \/ (calls st + 3 < calls (fst out))%nat ->
        exists n e,
          (calls st <= n < calls st + 3)%nat
          /\ respond n (model st) prompt = inl e
          /\ statusIs e 429 = false /\ statusIs e 400 = false
          /\ statusIs e 403 = false /\ speaksOf404 e = true).
Proof.
  intros prompt st out. subst out. unfold generate.
  pose proof (retry_outcome prompt 3 2000 st ltac:(lia)) as Hr. cbn zeta in Hr.
  destruct (retryWithBackoff (generateContent respond prompt) 3 2000 st)
    as [st' [e | text]]; cbn [fst snd] in Hr; destruct Hr as (Hm & Hc & Hlast).
  - fold (speaksOf404 e).
    destruct (statusIs e 429) eqn:H429;
      [| destruct (statusIs e 400) eqn:H400;
         [| destruct (statusIs e 403) eqn:H403;
            [| destruct (speaksOf404 e) eqn:H404]]].
    1-3, 5: cbn [fst snd]; split; [lia |]; split;
      [ left; split; [exact Hm |]; split; [lia |]; exists e;
        rewrite ?H429, ?H400, ?H403, ?H404; split; [exact Hlast |]; split; reflexivity
      | intros [Hmore | Hmore]; [contradiction | lia] ].
    pose proof (fallbackLoop_outcome prompt fallbackModels st' ltac:(discriminate)) as Hf.
    cbn zeta in Hf. destruct Hf as (Hc2 & Hout).
    pose proof (fallbackLoop_trace prompt fallbackModels st') as Ht.
    cbn zeta in Ht. destruct Ht as (more & Hmore & Hall).
    change (List.length fallbackModels) with 5%nat in *.
    split; [lia |]. split.
    + destruct (snd (fallbackLoop respond prompt fallbackModels st')) as [text | message].
      * destruct Hout as [Hin Hl]. split; [exact Hl | right; exact Hin].
      * destruct Hout as (Hm2 & Hc3 & Hex). right.
        split; [exact Hm2 |]. split; [lia |]. split; [| exact Hex].
        intros name Hname. rewrite Hmore. apply in_or_app. right.
        exact (Hall name Hname).
    + intros _. exists (calls st' - 1)%nat, e.
      split; [lia |]. rewrite <- Hm. split; [exact Hlast |]. repeat split; assumption.
  - cbn [fst snd]. split; [lia |]. split.
    + split; [exact Hlast | left; exact Hm].
    + intros [Hmore | Hmore]; [contradiction | lia].
Qed.

End GeminiFallback.

Section GeminiFallbackExample.

Import GeminiGenerate.

Definition notFoundText : jsstring :=
  Eval vm_compute in JS.js "[404 Not Found] models/x is not found".

Definition notFound : ApiError :=
  {| e_status := Some 404; e_message := notFoundText |}.

(** The model in use is gone; the second of the other models answers. *)
Definition modelGone (n : nat) (m _ : jsstring) : ApiError + jsstring :=
  if JS.eqb m (JS.js "gemini-2.5-pro") then inr shortAnswer else inl notFound.

Example generate_switches_model :
  let out := generate modelGone shortPrompt freshModel in
  snd out = Ok shortAnswer
  /\ model (fst out) = JS.js "gemini-2.5-pro"
  /\ calls (fst out) = 3%nat.
Proof. vm_compute. repeat split. Qed.

Lemma generate_outcomes_witness :
  exists n e,
    (0 <= n < 3)%nat
    /\ modelGone n (model freshModel) shortPrompt = inl e
    /\ speaksOf404 e = true.
Proof.
  destruct (proj2 (proj2 (generate_outcomes modelGone shortPrompt freshModel)))
    as (n & e & Hn & He & _ & _ & _ & H404).
  - left. vm_compute. discriminate.
  - exists n, e. split; [exact Hn |]. split; [exact He | exact H404].
Defined.

End GeminiFallbackExample.

(** ** The figures of an analysis *)

Section AnalysisFigures.

Import JS Analysis Providers Store.

#[local] Opaque JS.js.

Definition lengths (messages : list jsstring) : list Z :=
  List.map (fun m => Z.of_nat (List.length m)) messages.

Lemma list_sum_lengths messages :
  Z.of_nat (list_sum (List.map (@List.length N) messages)) = sumZ (lengths messages).
Proof.
  induction messages as [| m r IH]; [reflexivity |].
  change (list_sum (List.map (@List.length N) (m :: r)))
    with (List.length m + list_sum (List.map (@List.length N) r))%nat.
  rewrite Nat2Z.inj_add, IH. reflexivity.
Qed.

Lemma sumZ_bounds (l : list Z) lo hi :
  (forall x, In x l -> lo <= x <= hi) ->
  lo * Z.of_nat (List.length l) <= sumZ l <= hi * Z.of_nat (List.length l).
Proof.
  induction l as [| x l IH]; intros H; [cbn; lia |].
  cbn [sumZ List.length]. rewrite Nat2Z.inj_succ.
  pose proof (H x (or_introl eq_refl)).
  specialize (IH (fun y Hy => H y (or_intror Hy))). nia.
Qed.

Lemma sumZ_lengths_nonneg messages : 0 <= sumZ (lengths messages).
Proof.
  induction messages as [| m r IH]; [cbn; lia |].
  change (sumZ (lengths (m :: r)))
    with (Z.of_nat (List.length m) + sumZ (lengths r)). lia.
Qed.

(** X19. The average length of the messages of an analysis is the mean of
    their lengths rounded to the nearest integer, a half rounded up.  It
    lies between the length of the shortest and that of the longest
    message, and it is 0 exactly when the lengths average below one
    half. *)
Theorem averageMessageLength_rounds :
  forall messages,
    messages <> [] ->
    let n := Z.of_nat (List.length messages) in
    let total := sumZ (lengths messages) in
    let average := averageMessageLength messages in
    2 * total - n < 2 * n * average <= 2 * total + n
    /\ (forall lo hi,
          (forall m, In m messages -> lo <= Z.of_nat (List.length m) <= hi) ->
          lo <= average <= hi)
    /\ (average = 0 <-> 2 * total < n).
Proof.
  intros messages Hne n total average.
  assert (Hn : 0 < n).
  { subst n. destruct messages; [contradiction | cbn [List.length]; lia]. }
  assert (Havg : average = (2 * total + n) / (2 * n)).
  { subst average total n. unfold averageMessageLength.
    rewrite list_sum_lengths. reflexivity. }
  assert (Hround : 2 * total - n < 2 * n * average <= 2 * total + n).
  { rewrite Havg.
    pose proof (Z.div_mod (2 * total + n) (2 * n) ltac:(lia)) as Hd.
    pose proof (Z.mod_pos_bound (2 * total + n) (2 * n) ltac:(lia)) as Hm.
    lia. }
  split; [exact Hround |]. split.
  - intros lo hi Hb.
    assert (Hs : lo * n <= total <= hi * n).
    { subst total n. rewrite <- (length_map (fun m : jsstring => Z.of_nat (List.length m))).
      apply sumZ_bounds. intros x Hx. unfold lengths in Hx.
      apply in_map_iff in Hx. destruct Hx as (m & <- & Hm). apply Hb, Hm. }
    nia.
  - pose proof (sumZ_lengths_nonneg messages) as Ht. fold total in Ht.
    split; intros H; nia.
Qed.

Lemma averageMessageLength_rounds_witness :
  3 <= averageMessageLength [JS.js "abc"; JS.js "abcd"] <= 4.
Proof.
  apply (proj1 (proj2 (averageMessageLength_rounds [JS.js "abc"; JS.js "abcd"]
                         ltac:(discriminate)))).
  intros m [<- | [<- | []]]; vm_compute; split; discriminate.
Defined.

End AnalysisFigures.

Section AnalysisResults.

Import JS Analysis Providers Store.

#[local] Opaque JS.js.

Ltac run :=
  cbn -[findByUserId findByTelegramId fetchLimit createAnalysisPrompt
        parseAnalysisResponse averageMessageLength insufficientData prepare
        completions repeat].


(** Whether a client goes on past its check of the key. *)
Definition configured (w : World) (p : Provider) : bool :=
  match p with
  | DeepSeek => truthyOpt (DEEPSEEK_API_KEY w)
  | Qwen => isAvailable w Qwen
  | Gemini => GeminiService.modelSet w || truthyOpt (GEMINI_API_KEY w)
  end.



Lemma prepare_outcome w id limit :
  match findByTelegramId (db w) id with
  | None => prepare w id limit = ([EvFindUser id], Ok (inl None))
  | Some u =>
      match findByUserId (db w) (u_id u) (limitOnly (fetchLimit limit)) with
      | Ok rows =>
          Z.of_nat (List.length rows) <= 30
          /\ exists log,
               completions log = []
               /\ prepare w id limit
                  = (log, Ok (match rows with
                              | [] => inl (Some insufficientData)
                              | _ => inr (u, List.map text rows)
                              end))
      | Throw e => exists log, prepare w id limit = (log, Throw e)
      end
  end.
Proof.
  destruct (findByTelegramId (db w) id) as [u |] eqn:Hu.
  - rewrite (prepare_known w id limit u Hu).
    destruct (findByUserId (db w) (u_id u) (limitOnly (fetchLimit limit)))
      as [rows | e] eqn:Hrows.
    + split.
      * destruct (fetchLimit_cases limit) as (Hle & Hne & _).
        destruct (findByUserId_rows _ _ _ _ Hne Hrows). lia.
      * eexists. split; [| reflexivity]. reflexivity.
    + eexists. reflexivity.
  - apply prepare_unknown, Hu.
Qed.



(** A world whose one message is analysed by Gemini alone, which meets
    the rate limit on its first request. *)
Definition busyGemini : World :=
  {| db := db (worldWith [bobSays 1 (JS.js "привет")]);
     DEEPSEEK_API_KEY := None; DASHSCOPE_API_KEY := None;
     GEMINI_API_KEY := Some (JS.js "k"); geminiModel := None;
     deepseekFetch := fun _ => Throw [];
     qwenCreate := fun _ => Throw [];
     geminiRespond := busyOnce |}.

Example gemini_asks_twice :
  List.map fst (completions (events (analyzeUser busyGemini Gemini 777 (Some 30))))
  = [Gemini; Gemini]
  /\ exists a, outcome (analyzeUser busyGemini Gemini 777 (Some 30)) = Ok (Some a)
               /\ style a = JS.js "краткий".
Proof. vm_compute. split; [reflexivity | eexists; split; reflexivity]. Qed.


(** The fields of an analysis that the text of the model left alone. *)
Definition allDefaults (a : UserAnalysis) : Prop :=
  style a = default_style /\ topics a = default_topics
  /\ activity a = default_activity /\ tone a = default_tone
  /\ features a = default_features.

(** X21. An empty text from the model, for a stored user with messages.
    The clients of DeepSeek and Qwen refuse it with an error of their own,
    so that the handler goes on to the next provider; the client of Gemini
    takes it and returns an analysis whose five fields all say that
    nothing was given, with the count and the average length of the
    messages. *)
Theorem empty_completion :
  forall w id limit u m rows,
    findByTelegramId (db w) id = Some u ->
    findByUserId (db w) (u_id u) (limitOnly (fetchLimit limit)) = Ok (m :: rows) ->
    let prompt := createAnalysisPrompt (List.map text (m :: rows))
                    (u_username u) (u_first_name u) in
    (configured w DeepSeek = true ->
     forall r, deepseekFetch w prompt = Ok r -> ok r = true ->
       jsonContent r = Ok None \/ jsonContent r = Ok (Some []) ->
       outcome (analyzeUser w DeepSeek id limit)
       = Throw (JS.js "Пустой ответ от DeepSeek API"))
    /\ (configured w Qwen = true ->
        qwenCreate w prompt = Ok (Some (ContentString []))
        \/ qwenCreate w prompt = Ok (Some ContentUndefined)
        \/ qwenCreate w prompt = Ok (Some (ContentParts [])) ->
        outcome (analyzeUser w Qwen id limit)
        = Throw (JS.js "Пустой текст ответа от Qwen API"))
    /\ (configured w Gemini = true ->
        snd (GeminiService.geminiGenerate w prompt) = Ok [] ->
        exists a,
          outcome (analyzeUser w Gemini id limit) = Ok (Some a)
          /\ allDefaults a
          /\ messageCount a = Z.of_nat (List.length (m :: rows))
          /\ averageLength a
             = JS.ofNumber (averageMessageLength (List.map text (m :: rows)))
               ++ JS.js " символов").
Proof.
  intros w id limit u m rows Hu Hrows prompt. subst prompt.
  pose proof (prepare_outcome w id limit) as Hprep. rewrite Hu, Hrows in Hprep.
  destruct Hprep as (_ & log & _ & Hprep). cbn [List.map] in *.
  split; [| split].
  - intros Hc r Hfetch Hok Hjson. cbn [configured] in Hc.
    unfold analyzeUser, DeepSeekService.analyzeUser, DeepSeekService.complete.
    rewrite Hc, Hprep. run. rewrite Hfetch. run. rewrite Hok. run.
    destruct Hjson as [-> | ->]; reflexivity.
  - intros Hc Hcreate. cbn [configured] in Hc.
    unfold analyzeUser, QwenService.analyzeUser.
    rewrite Hc, Hprep. run.
    destruct Hcreate as [-> | [-> | ->]]; reflexivity.
  - intros Hc Hgen. cbn [configured] in Hc.
    unfold analyzeUser, GeminiService.analyzeUser.
    assert (Hk : negb (GeminiService.modelSet w) && negb (truthyOpt (GEMINI_API_KEY w))
                 = false).
    { destruct (GeminiService.modelSet w), (truthyOpt (GEMINI_API_KEY w));
        try reflexivity. discriminate. }
    rewrite Hk, Hprep. cbn [mbind M_bind mret M_ret outcome snd]. cbv zeta.
    rewrite Hgen. cbn [outcome snd].
    eexists. split; [reflexivity |].
    split; [repeat split |].
    split; [unfold parseAnalysisResponse; cbn [messageCount List.length];
            rewrite length_map; reflexivity | reflexivity].
Qed.

Lemma empty_completion_witness :
  exists a,
    outcome (analyzeUser
               {| db := db (worldWith [bobSays 1 (JS.js "привет")]);
                  DEEPSEEK_API_KEY := None; DASHSCOPE_API_KEY := None;
                  GEMINI_API_KEY := Some (JS.js "k"); geminiModel := Some GeminiService.firstModel;
                  deepseekFetch := fun _ => Throw [];
                  qwenCreate := fun _ => Throw [];
                  geminiRespond := fun _ _ _ => inr [] |} Gemini 777 None)
    = Ok (Some a)
    /\ allDefaults a.
Proof.
  destruct (proj2 (proj2 (empty_completion
              {| db := db (worldWith [bobSays 1 (JS.js "привет")]);
                 DEEPSEEK_API_KEY := None; DASHSCOPE_API_KEY := None;
                 GEMINI_API_KEY := Some (JS.js "k"); geminiModel := Some GeminiService.firstModel;
                 deepseekFetch := fun _ => Throw [];
                 qwenCreate := fun _ => Throw [];
                 geminiRespond := fun _ _ _ => inr [] |} 777 None bob
              (bobSays 1 (JS.js "привет")) []
              ltac:(vm_compute; reflexivity) ltac:(vm_compute; reflexivity)))
              eq_refl eq_refl) as (a & Ha & Hd & _).
  exists a. split; assumption.
Defined.

End AnalysisResults.

(** ** The buttons of the statistics *)

Section StatsButtons.

Import StatsMenu.

Lemma uint_all_digits d :
  forallb isDigit
    (List.map N_of_ascii (list_ascii_of_string (NilEmpty.string_of_uint d))) = true.
Proof. induction d; cbn; try assumption; reflexivity. Qed.

Lemma takeWhile_all f s rest :
  forallb f s = true ->
  match rest with c :: _ => f c = false | [] => True end ->
  takeWhile f (s ++ rest) = s.
Proof.
  intros Hs Hrest. induction s as [| c s IH]; cbn in *.
  - destruct rest as [| c r]; [reflexivity |]. cbn. rewrite Hrest. reflexivity.
  - apply andb_true_iff in Hs. destruct Hs as [Hc Hs].
    rewrite Hc, IH by exact Hs. reflexivity.
Qed.

(** The digits of a number, and its sign. *)
Definition digitsOf (n : Z) : jsstring :=
  List.map N_of_ascii
    (list_ascii_of_string
       (NilZero.string_of_uint
          (match Z.to_int n with Decimal.Pos d | Decimal.Neg d => d end))).

Lemma ofNumber_sign_digits n :
  JS.ofNumber n = (if n <? 0 then [45%N] else []) ++ digitsOf n
  /\ forallb isDigit (digitsOf n) = true /\ digitsOf n <> [].
Proof.
  unfold JS.ofNumber, digitsOf.
  destruct n as [| p | p]; cbn [Z.to_int Z.ltb Z.compare].
  - split; [reflexivity |]. split; [reflexivity | discriminate].
  - pose proof (DecimalPos.Unsigned.to_uint_nonnil p) as Hnn.
    split; [reflexivity |].
    unfold NilZero.string_of_uint. destruct (Pos.to_uint p) eqn:E; try contradiction;
      (split; [apply uint_all_digits | discriminate]).
  - pose proof (DecimalPos.Unsigned.to_uint_nonnil p) as Hnn.
    split; [reflexivity |].
    unfold NilZero.string_of_uint. destruct (Pos.to_uint p) eqn:E; try contradiction;
      (split; [apply uint_all_digits | discriminate]).
Qed.

Lemma intCapture_ofNumber n rest :
  match rest with c :: _ => isDigit c = false | [] => True end ->
  intCapture (JS.ofNumber n ++ rest) = Some (JS.ofNumber n, rest).
Proof.
  intros Hrest. destruct (ofNumber_sign_digits n) as (Heq & Hd & Hne).
  rewrite Heq. unfold intCapture.
  assert (Hfirst : exists c r, digitsOf n = c :: r /\ isDigit c = true).
  { destruct (digitsOf n) as [| c r]; [contradiction |].
    cbn in Hd. apply andb_true_iff in Hd. exists c, r. split; [reflexivity | apply Hd]. }
  destruct (n <? 0).
  - cbn [app]. change ((45 =? 45)%N) with true. cbn iota.
    rewrite (takeWhile_all isDigit _ rest Hd Hrest).
    destruct (digitsOf n) as [| c r]; [contradiction |].
    rewrite skipn_app, skipn_all, Nat.sub_diag. reflexivity.
  - cbn [app]. destruct Hfirst as (c & r & Hc & Hdig). rewrite Hc in *.
    cbn [app].
    assert (Hnot : (c =? 45)%N = false).
    { unfold isDigit in Hdig. destruct (N.eqb_spec c 45); [subst; discriminate | reflexivity]. }
    rewrite Hnot. change (c :: r ++ rest) with ((c :: r) ++ rest).
    rewrite (takeWhile_all isDigit _ rest Hd Hrest).
    rewrite skipn_app, skipn_all, Nat.sub_diag. reflexivity.
Qed.

Lemma parseInt_ofNumber n : parseInt (JS.ofNumber n) = n.
Proof.
  unfold parseInt, JS.ofNumber. rewrite List.map_map.
  rewrite (List.map_ext _ (fun a => a)) by apply ascii_N_embedding.
  rewrite List.map_id, string_of_list_ascii_of_string.
  destruct (to_int_not_nil n) as [H1 H2].
  rewrite (NilZero.isi _ H1 H2). apply DecimalZ.of_to.
Qed.

Lemma afterPrefix_app prefix rest :
  afterPrefix prefix (prefix ++ rest) = Some rest.
Proof.
  unfold afterPrefix.
  assert (Hs : JS.startsWith (prefix ++ rest) prefix = true).
  { induction prefix as [| c p IH]; [destruct rest; reflexivity |].
    cbn. rewrite N.eqb_refl. exact IH. }
  rewrite Hs, skipn_app, skipn_all, Nat.sub_diag. reflexivity.
Qed.

Lemma chatOnly_made prefix chatId :
  chatOnly prefix (prefix ++ JS.ofNumber chatId) = Some chatId.
Proof.
  unfold chatOnly. rewrite afterPrefix_app.
  rewrite <- (app_nil_r (JS.ofNumber chatId)) at 1.
  rewrite intCapture_ofNumber by exact I. rewrite parseInt_ofNumber. reflexivity.
Qed.

Lemma afterPrefix_differs prefix prefix' rest :
  JS.startsWith (prefix' ++ rest) prefix = false ->
  afterPrefix prefix (prefix' ++ rest) = None.
Proof. intros H. unfold afterPrefix. rewrite H. reflexivity. Qed.

Definition generalPrefix : jsstring := Eval vm_compute in JS.js "stats:general:".
Definition userPrefix : jsstring := Eval vm_compute in JS.js "stats:user:".
Definition periodPrefix : jsstring := Eval vm_compute in JS.js "stats:period:".
Definition menuPrefix : jsstring := Eval vm_compute in JS.js "stats:menu:".

Definition dataOf (rows : list (list Button)) : list jsstring :=
  List.map callback_data (concat rows).

Lemma chatAndPeriod_made chatId period :
  period <> [] -> forallb isWord period = true ->
  chatAndPeriod (periodPrefix ++ JS.ofNumber chatId ++ 58%N :: period)
  = Some (chatId, period).
Proof.
  intros Hne Hw. unfold chatAndPeriod.
  change (JS.js "stats:period:") with periodPrefix.
  rewrite afterPrefix_app, intCapture_ofNumber by reflexivity.
  rewrite parseInt_ofNumber, Hw. destruct period; [contradiction | reflexivity].
Qed.

(** The four periods of the buttons. *)
Definition periods : list jsstring :=
  Eval vm_compute in [JS.js "today"; JS.js "week"; JS.js "month"; JS.js "all"].

(** X22. Every button of the statistics leads to the action it is made
    for, with the chat it was made with: the data of a button of the menu
    or of the period keyboard is handled by the action of its kind, and
    the chat id read back from it (also a negative one, as the ids of
    groups are) and the period are those the button was built from.  The
    chat id is taken within the safe integers, which the template renders
    as plain decimal digits.  The period keyboard is the same wherever it
    is shown: its four period buttons always lead to the statistics of the
    chat, also below the heading of the statistics of a user. *)
Theorem stats_buttons_dispatch :
  forall chatId,
    Z.abs chatId < 2 ^ 53 ->
    List.map dispatch (dataOf (createStatsMenu chatId))
    = [Some (GeneralStats chatId); Some (UserStats chatId)]
    /\ List.map dispatch (dataOf (createPeriodButtons chatId))
       = List.map (fun period => Some (PeriodSelection chatId period)) periods
         ++ [Some (BackToMenu chatId)].
Proof.
  intros chatId _.
  assert (Hgeneral : dispatch (generalPrefix ++ JS.ofNumber chatId)
                     = Some (GeneralStats chatId)).
  { unfold dispatch. change (JS.js "stats:general:") with generalPrefix.
    rewrite chatOnly_made. reflexivity. }
  assert (Huser : dispatch (userPrefix ++ JS.ofNumber chatId)
                  = Some (UserStats chatId)).
  { unfold dispatch. change (JS.js "stats:general:") with generalPrefix.
    change (JS.js "stats:user:") with userPrefix.
    unfold chatOnly at 1. rewrite afterPrefix_differs by reflexivity.
    rewrite chatOnly_made. reflexivity. }
  assert (Hperiod : forall period,
            In period periods ->
            dispatch (periodPrefix ++ JS.ofNumber chatId ++ 58%N :: period)
            = Some (PeriodSelection chatId period)).
  { intros period Hin. unfold dispatch.
    change (JS.js "stats:general:") with generalPrefix.
    change (JS.js "stats:user:") with userPrefix.
    unfold chatOnly at 1 2. rewrite !afterPrefix_differs by reflexivity.
    rewrite chatAndPeriod_made; [reflexivity | |];
      repeat (destruct Hin as [<- | Hin]; [first [discriminate | reflexivity] |]);
      destruct Hin. }
  assert (Hmenu : dispatch (menuPrefix ++ JS.ofNumber chatId)
                  = Some (BackToMenu chatId)).
  { unfold dispatch. change (JS.js "stats:general:") with generalPrefix.
    change (JS.js "stats:user:") with userPrefix.
    change (JS.js "stats:menu:") with menuPrefix.
    unfold chatOnly at 1 2, chatAndPeriod.
    change (JS.js "stats:period:") with periodPrefix.
    rewrite !afterPrefix_differs by reflexivity.
    rewrite chatOnly_made. reflexivity. }
  split.
  - unfold dataOf, createStatsMenu. cbn [concat app List.map callback_data].
    change (JS.js "stats:general:") with generalPrefix.
    change (JS.js "stats:user:") with userPrefix.
    rewrite Hgeneral, Huser. reflexivity.
  - unfold dataOf, createPeriodButtons, periods.
    cbn [concat app List.map callback_data].
    change (JS.js "stats:period:") with periodPrefix.
    change (JS.js "stats:menu:") with menuPrefix.
    change (JS.js ":today") with (58%N :: nth 0 periods []).
    change (JS.js ":week") with (58%N :: nth 1 periods []).
    change (JS.js ":month") with (58%N :: nth 2 periods []).
    change (JS.js ":all") with (58%N :: nth 3 periods []).
    rewrite !Hperiod, Hmenu by (unfold periods; cbn; tauto).
    reflexivity.
Qed.

Lemma stats_buttons_dispatch_witness :
  List.map dispatch (dataOf (createStatsMenu (-1001234567890)))
  = [Some (GeneralStats (-1001234567890)); Some (UserStats (-1001234567890))].
Proof.
  apply (proj1 (stats_buttons_dispatch (-1001234567890) ltac:(vm_compute; reflexivity))).
Defined.

End StatsButtons.

(** ** The handler of [POST /api/analyze] *)

Section DashboardPost.

Import JS Analysis Providers Store Dashboard.

#[local] Opaque JS.js.

Ltac go :=
  cbn -[findByUsername selectTexts createAnalysisPrompt parseAnalysisResponse
        averageMessageLength insufficientData tryModels models].

Variable w : World.
Variable geminiByModel : jsstring -> jsstring -> Result jsstring.

Abbreviation post := (POST w geminiByModel).

(** The requests among the events go to the provider [p]. *)
Definition onlyTo (p : Provider) (log : list Event) : Prop :=
  forall q prompt, In (EvCompletion q prompt) log -> q = p.

Lemma onlyTo_app p a b : onlyTo p a -> onlyTo p b -> onlyTo p (a ++ b).
Proof.
  intros Ha Hb q prompt Hin. apply in_app_or in Hin.
  destruct Hin; [apply (Ha q prompt) | apply (Hb q prompt)]; assumption.
Qed.

Lemma onlyTo_nil p : onlyTo p [].
Proof. intros q prompt []. Qed.

Lemma onlyTo_fetch p uid limit rows : onlyTo p [EvFetchMessages uid limit rows].
Proof. intros q prompt [H | []]. discriminate. Qed.

Lemma onlyTo_completion p prompt : onlyTo p [EvCompletion p prompt].
Proof. intros q prompt' [H | []]. injection H as <- _. reflexivity. Qed.

Lemma gather_events username :
  onlyTo Qwen (events (gather w username))
  /\ onlyTo Gemini (events (gather w username))
  /\ onlyTo DeepSeek (events (gather w username)).
Proof.
  unfold gather. destruct (findByUsername (db w) username) as [u |];
    [| repeat split; apply onlyTo_nil].
  destruct (selectTexts (db w) (u_id u) 30) as [msgs | e]; go;
    [| repeat split; apply onlyTo_nil].
  destruct msgs; go; repeat split; apply onlyTo_fetch.
Qed.

Lemma tryModels_events prompt names :
  onlyTo Gemini (events (tryModels geminiByModel prompt names)).
Proof.
  induction names as [| name rest IH]; [apply onlyTo_nil |].
  cbn [tryModels]. unfold events in *.
  destruct (geminiByModel name prompt) as [text | e].
  - go. apply onlyTo_completion.
  - destruct rest as [| name2 rest]; [go; apply onlyTo_completion |].
    change (mbind ?f (emit ?e)) with (M_bind _ _ f (emit e)).
    unfold M_bind, emit at 1.
    destruct (tryModels geminiByModel prompt (name2 :: rest)) as [log r].
    cbn [fst] in *. apply (onlyTo_app Gemini [_]); [apply onlyTo_completion | exact IH].
Qed.

Lemma analyzeWith_events p username :
  onlyTo p (events (analyzeWith w geminiByModel p username)).
Proof.
  destruct p; unfold analyzeWith.
  - unfold Route.analyzeUserWithDeepseek.
    destruct (truthyOpt (DEEPSEEK_API_KEY w)); go; [| apply onlyTo_nil].
    destruct (findByUsername (db w) username) as [u |]; [| apply onlyTo_nil].
    destruct (selectTexts (db w) (u_id u) 30) as [msgs | e]; go; [| apply onlyTo_nil].
    destruct msgs as [| m msgs]; go; [apply onlyTo_fetch |].
    assert (H : onlyTo DeepSeek
                  [EvFetchMessages (u_id u) 30 (S (List.length msgs));
                   EvCompletion DeepSeek
                     (createAnalysisPrompt (m :: msgs) (u_username u)
                        (u_first_name u))]).
    { apply (onlyTo_app DeepSeek [_] [_]);
        [apply onlyTo_fetch | apply onlyTo_completion]. }
    destruct (deepseekFetch w _) as [r | e]; go; [| exact H].
    destruct (ok r); go.
    + destruct (jsonContent r) as [[c |] | e]; go; try exact H.
      destruct (truthy c); exact H.
    + destruct (status r =? 402); exact H.
  - unfold analyzeUserWithQwen.
    destruct (truthyOpt (DASHSCOPE_API_KEY w)); go; [| apply onlyTo_nil].
    pose proof (proj1 (gather_events username)) as Hg. unfold events in Hg.
    destruct (gather w username) as [log [[early | [user messages]] | e]]; go;
      rewrite ?app_nil_r; try exact Hg.
    assert (H : onlyTo Qwen
                  (log ++ [EvCompletion Qwen
                             (createAnalysisPrompt messages (u_username user)
                                (u_first_name user))])).
    { apply onlyTo_app; [exact Hg | apply onlyTo_completion]. }
    destruct (qwenCreate w _) as [[[s | parts | | json] |] | e]; go;
      rewrite ?app_nil_r; try exact H.
    + destruct (truthy s); go; rewrite ?app_nil_r; exact H.
    + destruct (truthy (partsLines parts)); go; rewrite ?app_nil_r; exact H.
    + destruct (falsyJson json); go; rewrite ?app_nil_r; exact H.
  - unfold analyzeUserWithGemini.
    destruct (truthyOpt (GEMINI_API_KEY w)); go; [| apply onlyTo_nil].
    pose proof (proj1 (proj2 (gather_events username))) as Hg. unfold events in Hg.
    destruct (gather w username) as [log [[early | [user messages]] | e]]; go;
      rewrite ?app_nil_r; try exact Hg.
    pose proof (tryModels_events
                  (createAnalysisPrompt messages (u_username user) (u_first_name user))
                  models) as Ht.
    unfold events in Ht.
    destruct (tryModels geminiByModel _ models) as [log' [text | e]]; go;
      rewrite ?app_nil_r; apply onlyTo_app; assumption.
Qed.

Lemma providerLoop_events p username analysis lastError :
  onlyTo p (fst (providerLoop w geminiByModel username [p] analysis lastError)).
Proof.
  cbn [providerLoop]. destruct analysis; [apply onlyTo_nil |].
  pose proof (analyzeWith_events p username) as H. unfold events in H.
  destruct (analyzeWith w geminiByModel p username) as [log [a | e]];
    cbn [fst] in *.
  - destruct a; cbn [fst]; rewrite app_nil_r; exact H.
  - cbn [fst]. rewrite app_nil_r. exact H.
Qed.

Lemma removeFirstAt_without s : ~ In 64%N s -> removeFirstAt s = s.
Proof.
  induction s as [| c r IH]; intros Hn; [reflexivity |]. cbn.
  destruct (N.eqb_spec c 64) as [-> | _]; [exfalso; apply Hn; left; reflexivity |].
  rewrite IH; [reflexivity |]. intros H. apply Hn. right. exact H.
Qed.

(** X23. The handler of [POST /api/analyze] of the dashboard.  It answers
    200 with an analysis, or 400, 404 or 500 with a message, and never
    otherwise.  Only a 200 adds to the list of recent analyses: the
    cleaned user name and the time go to the front, and the list never
    grows beyond ten.  A 400 or a 404 comes before any message is fetched
    and before any provider is asked; a user name given as [@name] is
    treated as [name].  When the request names one of the three providers,
    no other provider is asked, whatever that one answers. *)
Theorem POST_outcomes :
  forall body recent now,
    let out := post body recent now in
    let response := fst (snd out) in
    let recent' := snd (snd out) in
    In (r_status response) [200; 400; 404; 500]
    /\ (r_status response = 200 <-> exists a, r_body response = inr a)
    /\ (r_status response <> 200 -> recent' = recent)
    /\ (r_status response = 200 ->
        exists b username,
          body = Ok b /\ b_username b = Some username
          /\ findByUsername (db w) (cleanUsername username) <> None
          /\ recent' = firstn 10 ((cleanUsername username, now) :: recent))
    /\ ((List.length recent <= 10)%nat -> (List.length recent' <= 10)%nat)
    /\ (r_status response = 400 \/ r_status response = 404 -> fst out = [])
    /\ (forall b p, body = Ok b -> selectedProvider (b_provider b) = Some p ->
          onlyTo p (fst out))
    /\ (forall name provider,
          name <> [] -> ~ In 64%N name ->
          post (Ok {| b_username := Some (64%N :: name); b_provider := provider |})
            recent now
          = post (Ok {| b_username := Some name; b_provider := provider |})
              recent now).
Proof.
  intros body recent now out response recent'. subst out response recent'.
  assert (Hlast : forall name provider,
            name <> [] -> ~ In 64%N name ->
            post (Ok {| b_username := Some (64%N :: name); b_provider := provider |})
              recent now
            = post (Ok {| b_username := Some name; b_provider := provider |})
                recent now).
  { intros name provider Hne Hno. unfold POST. cbn [b_username b_provider].
    assert (Hclean : cleanUsername (64%N :: name) = cleanUsername name).
    { unfold cleanUsername. cbn [removeFirstAt]. change ((64 =? 64)%N) with true.
      cbn iota. rewrite removeFirstAt_without by exact Hno. reflexivity. }
    rewrite Hclean. destruct name; [contradiction | reflexivity]. }
  assert (Hrefuse : forall status message,
            status = 400 \/ status = 404 \/ status = 500 ->
            let out := (@nil Event, (errorResponse status message, recent)) in
            In (r_status (fst (snd out))) [200; 400; 404; 500]
            /\ (r_status (fst (snd out)) = 200 <-> exists a, r_body (fst (snd out)) = inr a)
            /\ (r_status (fst (snd out)) <> 200 -> snd (snd out) = recent)
            /\ (r_status (fst (snd out)) = 200 ->
                exists b' username,
                  body = Ok b' /\ b_username b' = Some username
                  /\ findByUsername (db w) (cleanUsername username) <> None
                  /\ snd (snd out) = firstn 10 ((cleanUsername username, now) :: recent))
            /\ ((List.length recent <= 10)%nat -> (List.length (snd (snd out)) <= 10)%nat)
            /\ (r_status (fst (snd out)) = 400 \/ r_status (fst (snd out)) = 404 ->
                fst out = [])
            /\ (forall b' p, body = Ok b' -> selectedProvider (b_provider b') = Some p ->
                  onlyTo p (fst out))).
  { intros status message Hs out. subst out. cbn [fst snd errorResponse r_status r_body].
    split; [cbn; destruct Hs as [-> | [-> | ->]]; tauto |].
    split; [split; [intros ->; destruct Hs as [H | [H | H]]; discriminate
                   | intros [a [=]]] |].
    split; [reflexivity |].
    split; [intros ->; destruct Hs as [H | [H | H]]; discriminate |].
    split; [tauto |]. split; [reflexivity |].
    intros b' p _ _. apply onlyTo_nil. }
  unfold POST.
  destruct body as [b | e].
  2: { destruct (Hrefuse 500 (analysisError e) (or_intror (or_intror eq_refl)))
         as (H1 & H2 & H3 & H4 & H5 & H6 & H7).
       repeat (split; [assumption |]). exact Hlast. }
  destruct (b_username b) as [username |] eqn:Hname.
  2: { destruct (Hrefuse 400 (JS.js "Username обязателен") (or_introl eq_refl))
         as (H1 & H2 & H3 & H4 & H5 & H6 & H7).
       repeat (split; [assumption |]). exact Hlast. }
  destruct (truthy username) eqn:Htruthy; cbn [negb].
  2: { destruct (Hrefuse 400 (JS.js "Username обязателен") (or_introl eq_refl))
         as (H1 & H2 & H3 & H4 & H5 & H6 & H7).
       repeat (split; [assumption |]). exact Hlast. }
  destruct (truthy (cleanUsername username)) eqn:Hclean; cbn [negb].
  2: { destruct (Hrefuse 400 (JS.js "Username не может быть пустым") (or_introl eq_refl))
         as (H1 & H2 & H3 & H4 & H5 & H6 & H7).
       repeat (split; [assumption |]). exact Hlast. }
  destruct (findByUsername (db w) (cleanUsername username)) as [user |] eqn:Huser.
  2: { destruct (Hrefuse 404 (JS.js "Пользователь @" ++ cleanUsername username
                              ++ JS.js " не найден в базе данных")
                         (or_intror (or_introl eq_refl)))
         as (H1 & H2 & H3 & H4 & H5 & H6 & H7).
       repeat (split; [assumption |]). exact Hlast. }
  assert (Hone : forall p, selectedProvider (b_provider b) = Some p ->
            onlyTo p (fst (providerLoop w geminiByModel (cleanUsername username)
                             (order (b_provider b)) None None))).
  { intros p Hp. unfold order. rewrite Hp. apply providerLoop_events. }
  destruct (providerLoop w geminiByModel (cleanUsername username)
              (order (b_provider b)) None None) as [log [[a |] lastError]];
    cbn [fst snd errorResponse r_status r_body] in *.
  - split; [cbn; tauto |].
    split; [split; [intros _; eexists; reflexivity | reflexivity] |].
    split; [intros H; contradiction |].
    split.
    { intros _. exists b, username. split; [reflexivity |]. split; [exact Hname |].
      split; [rewrite Huser; discriminate | reflexivity]. }
    split; [intros _; apply firstn_le_length |].
    split; [intros [H | H]; discriminate |].
    split; [intros b' p [= <-] Hp; apply Hone, Hp | exact Hlast].
  - split; [cbn; tauto |].
    split; [split; [discriminate | intros [a [=]]] |].
    split; [reflexivity |].
    split; [discriminate |].
    split; [tauto |].
    split; [intros [H | H]; discriminate |].
    split; [intros b' p [= <-] Hp; apply Hone, Hp | exact Hlast].
Qed.

End DashboardPost.

Section DashboardExample.

Import JS Analysis Providers Store Dashboard.

Lemma POST_outcomes_witness :
  POST (worldWith []) (fun _ _ => Throw [])
    (Ok {| b_username := Some (64%N :: JS.js "bob"); b_provider := None |}) [] 5
  = POST (worldWith []) (fun _ _ => Throw [])
      (Ok {| b_username := Some (JS.js "bob"); b_provider := None |}) [] 5.
Proof.
  apply (proj2 (proj2 (proj2 (proj2 (proj2 (proj2 (proj2
           (POST_outcomes (worldWith []) (fun _ _ => Throw []) (Throw []) [] 5)))))))).
  - discriminate.
  - vm_compute. intuition discriminate.
Defined.

Example POST_known_user :
  let out := POST (worldWith []) (fun _ _ => Throw [])
               (Ok {| b_username := Some (JS.js " @bob "); b_provider := None |})
               [] 5 in
  r_status (fst (snd out)) = 200
  /\ r_body (fst (snd out)) = inr insufficientData
  /\ snd (snd out) = [(JS.js "bob", 5)].
Proof. vm_compute. repeat split. Qed.

End DashboardExample.

(** ** The target of [/analyze] *)

Section AnalyzeTarget.

Import JS Analysis Providers Store AnalyzeHandlers AnalyzeCommand DigestFlow.

#[local] Opaque JS.js.

Lemma firstMention_here name rest :
  name <> [] -> forallb StatsMenu.isWord name = true ->
  match rest with c :: _ => StatsMenu.isWord c = false | [] => True end ->
  firstMention (64%N :: name ++ rest) = Some name.
Proof.
  intros Hne Hw Hrest. cbn [firstMention]. change ((64 =? 64)%N) with true. cbn iota.
  rewrite (takeWhile_all StatsMenu.isWord name rest Hw Hrest).
  destruct name; [contradiction | reflexivity].
Qed.

Lemma firstMention_skip prefix s :
  ~ In 64%N prefix -> firstMention (prefix ++ s) = firstMention s.
Proof.
  induction prefix as [| c p IH]; intros Hn; [reflexivity |].
  cbn [app firstMention].
  destruct (N.eqb_spec c 64) as [-> | _]; [exfalso; apply Hn; left; reflexivity |].
  apply IH. intros H. apply Hn. right. exact H.
Qed.

(** No event of a client is the entering of a client. *)
Lemma analyzeUser_never_enters w p id limit q :
  ~ In (EvAnalyzeUser q) (events (Providers.analyzeUser w p id limit)).
Proof.
  assert (Hprep : ~ In (EvAnalyzeUser q) (events (prepare w id limit))).
  { destruct (findByTelegramId (db w) id) as [u |] eqn:Hu.
    - rewrite (prepare_known w id limit u Hu).
      destruct (findByUserId (db w) (u_id u) (limitOnly (fetchLimit limit)));
        cbn [events fst]; intros H;
        repeat (destruct H as [H | H]; [discriminate H |]); exact H.
    - rewrite (prepare_unknown w id limit Hu). cbn [events fst].
      intros [H | []]. discriminate H. }
  destruct (analyzeUser_events w p id limit) as [-> | [-> | (prompt & n & _ & _ & ->)]].
  - intros [].
  - exact Hprep.
  - intros H. apply in_app_or in H. destruct H as [H | H]; [exact (Hprep H) |].
    apply repeat_spec in H. discriminate H.
Qed.

Lemma runProviders_enters w id q :
  In (EvAnalyzeUser q)
    (events (runProviders (Providers.isAvailable w) (Providers.analyzeUser w) id)) ->
  Providers.isAvailable w q = true.
Proof.
  rewrite runProviders_run. cbn [events fst]. intros Hin.
  apply in_flat_map in Hin. destruct Hin as (p & Hp & Hin).
  destruct Hin as [Heq | Hin].
  - injection Heq as <-.
    destruct (entered_prefix (Providers.isAvailable w) (Providers.analyzeUser w) id
                providers) as [notTried Hpre].
    assert (Hf : In p (List.filter (Providers.isAvailable w) providers)).
    { rewrite Hpre. apply in_or_app. left. exact Hp. }
    apply filter_In in Hf. apply Hf.
  - exfalso. exact (analyzeUser_never_enters w p id (Some 30) q Hin).
Qed.

(** A user found by name is found by the Telegram id of the row. *)
Lemma findByUsername_stored db username user :
  findByUsername db username = Some user ->
  exists stored, findByTelegramId db (u_telegram_id user) = Some stored.
Proof.
  unfold findByUsername, findByTelegramId. intros H.
  apply find_some in H. destruct H as [Hin _].
  destruct (List.find (fun u => u_telegram_id u =? u_telegram_id user) (users db))
    as [stored |] eqn:Hf; [exists stored; reflexivity |].
  pose proof (find_none _ _ Hf user Hin) as Hno. cbn in Hno.
  rewrite Z.eqb_refl in Hno. discriminate.
Qed.

Section Requests.

Variable refusal : nat -> Sent -> option jsstring.

(** How a handler ends: the error of its last reply leaves it only when
    that reply, the one of the outer [catch], was refused. *)
Definition endsWell (text : jsstring) (out : Handled) : Prop :=
  h_returned out = false ->
  exists before,
    h_sent out = before ++ [Reply text]
    /\ refusal (List.length before) (Reply text) <> None.

Lemma lastReply_ends text log sent :
  h_events (lastReply refusal text log sent) = log
  /\ h_sent (lastReply refusal text log sent) = sent ++ [Reply text]
  /\ endsWell text (lastReply refusal text log sent).
Proof.
  unfold endsWell, lastReply, request.
  destruct (refusal (List.length sent) (Reply text)) as [m |] eqn:Hr;
    cbn [h_events h_sent h_returned].
  - split; [reflexivity |]. split; [reflexivity |].
    intros _. exists sent. split; [reflexivity |]. rewrite Hr. discriminate.
  - split; [reflexivity |]. split; [reflexivity | discriminate].
Qed.

(** A request that ends the handler, with a [catch] that keeps the events
    and adds at most [k] requests. *)
Lemma finish_ends text log sent s recover k :
  (forall sent' message,
     h_events (recover sent' message) = log
     /\ (exists more, h_sent (recover sent' message) = sent' ++ more
                      /\ (List.length more <= k)%nat)
     /\ endsWell text (recover sent' message)) ->
  h_events (finish refusal log sent s recover) = log
  /\ (exists more, h_sent (finish refusal log sent s recover) = sent ++ s :: more
                   /\ (List.length more <= k)%nat
                   /\ (refusal (List.length sent) s = None -> more = []))
  /\ endsWell text (finish refusal log sent s recover).
Proof.
  intros Hrec. unfold finish, request.
  destruct (refusal (List.length sent) s) as [m |].
  - destruct (Hrec (sent ++ [s]) m) as (He & (more & Hs & Hk) & Hend).
    split; [exact He |]. split; [| exact Hend].
    exists more. rewrite Hs, <- app_assoc. split; [reflexivity |].
    split; [exact Hk | discriminate].
  - cbn [h_events h_sent h_returned]. split; [reflexivity |]. split.
    + exists []. split; [reflexivity |]. split; [cbn; lia | reflexivity].
    + unfold endsWell. cbn. discriminate.
Qed.

Lemma outer_ends text log sent (message : jsstring) :
  h_events (lastReply refusal text log sent) = log
  /\ (exists more, h_sent (lastReply refusal text log sent) = sent ++ more
                   /\ (List.length more <= 1)%nat)
  /\ endsWell text (lastReply refusal text log sent).
Proof.
  destruct (lastReply_ends text log sent) as (He & Hs & Hend).
  split; [exact He |]. split; [| exact Hend].
  exists [Reply text]. split; [exact Hs | cbn; lia].
Qed.

End Requests.

(** X24. Whom [/analyze] is about, and what it asks of Telegram, whatever
    Telegram answers.  The sender of the message replied to comes first,
    whatever the text names; else the first [@word] of the text, and when
    no stored user has that name the reply says so and nothing else is
    done: the sender of the command is not considered, not even for the
    text [/analyze@botname], in which the name of the bot is taken for a
    user name.  A stored user of that name is always analysed, also when
    the Telegram id of the row is 0: the notice is sent and the providers
    are run for that id.  Only without a reply and without such a word is
    the sender analysed.  A provider client is entered only once the
    notice is sent, for a target that is stored, and only when the
    provider is available.  The handler makes at most four requests; when
    Telegram accepts them all it is one reply, or the notice and one edit
    of it; the error of a request leaves the handler only when the reply
    of its outer [catch] is refused. *)
Theorem handleAnalyzeCommand_target :
  forall refusal w cmd,
    let out := handleAnalyzeCommand refusal w cmd in
    (forall id, c_reply_from cmd = Some id -> id <> 0 ->
       resolveTarget (db w) cmd = Analyse id)
    /\ (c_reply_from cmd = None ->
        forall username, firstMention (c_text cmd) = Some username ->
          (findByUsername (db w) username = None ->
             h_events out = []
             /\ exists more,
                  h_sent out = DigestFlow.Reply (unknownUsernameText username) :: more
                  /\ (refusal 0%nat (DigestFlow.Reply (unknownUsernameText username))
                      = None -> more = []))
          /\ (forall user, findByUsername (db w) username = Some user ->
                resolveTarget (db w) cmd = Analyse (u_telegram_id user)
                /\ (exists stored,
                      findByTelegramId (db w) (u_telegram_id user) = Some stored)
                /\ (exists more, h_sent out = DigestFlow.Reply processingText :: more)
                /\ (refusal 0%nat (DigestFlow.Reply processingText) = None ->
                    h_events out
                    = events (runProviders (Providers.isAvailable w)
                                (Providers.analyzeUser w) (u_telegram_id user)))))
    /\ (c_reply_from cmd = None -> firstMention (c_text cmd) = None ->
        forall id, c_sender cmd = Some id -> id <> 0 ->
          resolveTarget (db w) cmd = Analyse id)
    /\ (forall botname rest,
          botname <> [] -> forallb StatsMenu.isWord botname = true ->
          match rest with c :: _ => StatsMenu.isWord c = false | [] => True end ->
          firstMention (JS.js "/analyze" ++ 64%N :: botname ++ rest) = Some botname)
    /\ (forall p, In (EvAnalyzeUser p) (h_events out) ->
          Providers.isAvailable w p = true
          /\ refusal 0%nat (DigestFlow.Reply processingText) = None
          /\ exists id user,
               resolveTarget (db w) cmd = Analyse id
               /\ findByTelegramId (db w) id = Some user)
    /\ (List.length (h_sent out) <= 4)%nat
    /\ ((forall n s, refusal n s = None) ->
        (exists text, h_sent out = [DigestFlow.Reply text])
        \/ exists text,
             h_sent out = [DigestFlow.Reply processingText; DigestFlow.EditMessage text])
    /\ endsWell refusal commandError out.
Proof.
  intros refusal w cmd out.
  (* the handler, by its target *)
  assert (Houter : forall log sent' (message : jsstring),
            h_events (DigestFlow.lastReply refusal commandError log sent') = log
            /\ (exists more,
                  h_sent (DigestFlow.lastReply refusal commandError log sent')
                  = sent' ++ more /\ (List.length more <= 1)%nat)
            /\ endsWell refusal commandError
                 (DigestFlow.lastReply refusal commandError log sent')).
  { intros log sent' message. apply outer_ends. exact message. }
  assert (Hinner : forall log sent' message,
            let r := DigestFlow.finish refusal log sent'
                       (DigestFlow.EditMessage (errorNotice message))
                       (fun sent (_ : jsstring) =>
                          DigestFlow.lastReply refusal commandError log sent) in
            h_events r = log
            /\ (exists more, h_sent r = sent' ++ more /\ (List.length more <= 2)%nat)
            /\ endsWell refusal commandError r).
  { intros log sent' message r. subst r.
    destruct (finish_ends refusal commandError log sent'
                (DigestFlow.EditMessage (errorNotice message))
                (fun sent (_ : jsstring) =>
                   DigestFlow.lastReply refusal commandError log sent) 1%nat
                (fun s m => Houter log s m)) as (He & (more & Hs & Hk & _) & Hend).
    split; [exact He |]. split; [| exact Hend].
    eexists. split; [exact Hs |]. cbn [List.length]. lia. }
  assert (Hreply : forall text,
            let r := DigestFlow.finish refusal [] [] (DigestFlow.Reply text)
                       (fun sent (_ : jsstring) =>
                          DigestFlow.lastReply refusal commandError [] sent) in
            h_events r = []
            /\ (exists more, h_sent r = DigestFlow.Reply text :: more
                             /\ (List.length more <= 1)%nat
                             /\ (refusal 0%nat (DigestFlow.Reply text) = None ->
                                 more = []))
            /\ endsWell refusal commandError r).
  { intros text r. subst r.
    exact (finish_ends refusal commandError [] [] (DigestFlow.Reply text) _ 1%nat
             (fun s m => Houter [] s m)). }
  assert (Hanalyse : forall id,
            resolveTarget (db w) cmd = Analyse id ->
            (refusal 0%nat (DigestFlow.Reply processingText) = None ->
             match findByTelegramId (db w) id with
             | None => h_events out = []
             | Some _ =>
                 h_events out
                 = events (runProviders (Providers.isAvailable w)
                             (Providers.analyzeUser w) id)
             end)
            /\ (refusal 0%nat (DigestFlow.Reply processingText) <> None ->
                h_events out = [])
            /\ (exists more, h_sent out = DigestFlow.Reply processingText :: more
                             /\ (List.length more <= 3)%nat
                             /\ ((forall n s, refusal n s = None) ->
                                 exists text, more = [DigestFlow.EditMessage text]))
            /\ endsWell refusal commandError out).
  { intros id Hid. subst out. unfold handleAnalyzeCommand. rewrite Hid.
    unfold DigestFlow.request. cbn [List.length app].
    destruct (refusal 0%nat (DigestFlow.Reply processingText)) as [m |] eqn:Hnotice;
      cbv beta iota zeta.
    - destruct (Houter [] [DigestFlow.Reply processingText] m)
        as (He & (more & Hs & Hk) & Hend).
      split; [intros [=] |]. split; [intros _; exact He |].
      split; [| exact Hend].
      exists more. split; [exact Hs |]. split; [lia |].
      intros Hall. rewrite Hall in Hnotice. discriminate.
    - destruct (findByTelegramId (db w) id) as [user |].
      + destruct (runProviders _ _ id) as [log [[a service] | e]] eqn:Hrun;
          cbn [events fst].
        * match goal with
          | |- context [DigestFlow.finish refusal log ?sent ?s ?rec] =>
              destruct (finish_ends refusal commandError log sent s rec 2%nat
                          (fun s' m => Hinner log s' m))
                as (He & (more & Hs & Hk & Hacc) & Hend)
          end.
          split; [intros _; exact He |]. split; [intros H; contradiction |].
          split; [| exact Hend].
          eexists. split; [exact Hs |]. cbn [List.length]. split; [lia |].
          intros Hall. eexists. rewrite (Hacc (Hall _ _)). reflexivity.
        * destruct (finish_ends refusal commandError log
                      [DigestFlow.Reply processingText]
                      (DigestFlow.EditMessage (errorNotice e))
                      (fun sent (_ : jsstring) =>
                         DigestFlow.lastReply refusal commandError log sent) 1%nat
                      (fun s' m => Houter log s' m))
            as (He & (more & Hs & Hk & Hacc) & Hend).
          split; [intros _; exact He |]. split; [intros H; contradiction |].
          split; [| exact Hend].
          eexists. split; [exact Hs |]. cbn [List.length]. split; [lia |].
          intros Hall. eexists. rewrite (Hacc (Hall _ _)). reflexivity.
      + match goal with
        | |- context [DigestFlow.finish refusal [] ?sent ?s ?rec] =>
            destruct (finish_ends refusal commandError [] sent s rec 2%nat
                        (fun s' m => Hinner [] s' m))
              as (He & (more & Hs & Hk & Hacc) & Hend)
        end.
        split; [intros _; exact He |]. split; [intros H; contradiction |].
        split; [| exact Hend].
        eexists. split; [exact Hs |]. cbn [List.length]. split; [lia |].
        intros Hall. eexists. rewrite (Hacc (Hall _ _)). reflexivity. }
  assert (Hother : forall text,
            handleAnalyzeCommand refusal w cmd
            = DigestFlow.finish refusal [] [] (DigestFlow.Reply text)
                (fun sent (_ : jsstring) =>
                   DigestFlow.lastReply refusal commandError [] sent) ->
            h_events out = []
            /\ (exists more, h_sent out = DigestFlow.Reply text :: more
                             /\ (List.length more <= 1)%nat
                             /\ (refusal 0%nat (DigestFlow.Reply text) = None ->
                                 more = []))
            /\ endsWell refusal commandError out).
  { intros text Heq. subst out. rewrite Heq. apply Hreply. }
  split; [| split; [| split; [| split; [| split; [| split; [| split]]]]]].
  - intros id Hreply' Hne. unfold resolveTarget, checked. rewrite Hreply'.
    destruct (Z.eqb_spec id 0); [contradiction | reflexivity].
  - intros Hreply' username Hmention. split.
    + intros Hnone.
      destruct (Hother (unknownUsernameText username)) as (He & (more & Hs & _ & Hacc) & _).
      { unfold handleAnalyzeCommand, resolveTarget.
        rewrite Hreply', Hmention, Hnone. reflexivity. }
      split; [exact He |]. exists more. split; assumption.
    + intros user Huser.
      assert (Hid : resolveTarget (db w) cmd = Analyse (u_telegram_id user)).
      { unfold resolveTarget. rewrite Hreply', Hmention, Huser. reflexivity. }
      destruct (findByUsername_stored _ _ _ Huser) as [stored Hstored].
      destruct (Hanalyse _ Hid) as (Hev & _ & (more & Hs & _) & _).
      split; [exact Hid |]. split; [exists stored; exact Hstored |].
      split; [exists more; exact Hs |].
      intros Hacc. specialize (Hev Hacc). rewrite Hstored in Hev. exact Hev.
  - intros Hreply' Hmention id Hsender Hne. unfold resolveTarget, checked.
    rewrite Hreply', Hmention, Hsender.
    destruct (Z.eqb_spec id 0); [contradiction | reflexivity].
  - intros botname rest Hne Hw Hrest.
    rewrite firstMention_skip by (vm_compute; intuition discriminate).
    apply firstMention_here; assumption.
  - intros p Hin.
    destruct (resolveTarget (db w) cmd) as [id | username |] eqn:Hid.
    + destruct (Hanalyse id eq_refl) as (Hev & Hno & _ & _).
      destruct (refusal 0%nat (DigestFlow.Reply processingText)) as [m |] eqn:Hnotice.
      { rewrite Hno in Hin by discriminate. destruct Hin. }
      specialize (Hev eq_refl).
      destruct (findByTelegramId (db w) id) as [user |] eqn:Huser.
      * rewrite Hev in Hin. split; [exact (runProviders_enters w id p Hin) |].
        split; [reflexivity |]. exists id, user. split; [reflexivity | exact Huser].
      * rewrite Hev in Hin. destruct Hin.
    + destruct (Hother (unknownUsernameText username)) as (He & _).
      { unfold handleAnalyzeCommand. rewrite Hid. reflexivity. }
      rewrite He in Hin. destruct Hin.
    + destruct (Hother usageText) as (He & _).
      { unfold handleAnalyzeCommand. rewrite Hid. reflexivity. }
      rewrite He in Hin. destruct Hin.
  - destruct (resolveTarget (db w) cmd) as [id | username |] eqn:Hid.
    + destruct (Hanalyse id eq_refl) as (_ & _ & (more & Hs & Hk & _) & _).
      rewrite Hs. cbn [List.length]. lia.
    + destruct (Hother (unknownUsernameText username)) as (_ & (more & Hs & Hk & _) & _).
      { unfold handleAnalyzeCommand. rewrite Hid. reflexivity. }
      rewrite Hs. cbn [List.length]. lia.
    + destruct (Hother usageText) as (_ & (more & Hs & Hk & _) & _).
      { unfold handleAnalyzeCommand. rewrite Hid. reflexivity. }
      rewrite Hs. cbn [List.length]. lia.
  - intros Hall.
    destruct (resolveTarget (db w) cmd) as [id | username |] eqn:Hid.
    + destruct (Hanalyse id eq_refl) as (_ & _ & (more & Hs & _ & Hone) & _).
      destruct (Hone Hall) as [text ->]. right. exists text. exact Hs.
    + destruct (Hother (unknownUsernameText username)) as (_ & (more & Hs & _ & Hacc) & _).
      { unfold handleAnalyzeCommand. rewrite Hid. reflexivity. }
      left. eexists. rewrite Hs, (Hacc (Hall _ _)). reflexivity.
    + destruct (Hother usageText) as (_ & (more & Hs & _ & Hacc) & _).
      { unfold handleAnalyzeCommand. rewrite Hid. reflexivity. }
      left. eexists. rewrite Hs, (Hacc (Hall _ _)). reflexivity.
  - destruct (resolveTarget (db w) cmd) as [id | username |] eqn:Hid.
    + apply (Hanalyse id eq_refl).
    + apply (Hother (unknownUsernameText username)).
      unfold handleAnalyzeCommand. rewrite Hid. reflexivity.
    + apply (Hother usageText).
      unfold handleAnalyzeCommand. rewrite Hid. reflexivity.
Qed.

(** A user whose stored Telegram id is 0, with one message. *)
Definition nobody : UserData :=
  {| u_id := 1; u_telegram_id := 0; u_username := Some (JS.js "nobody");
     u_first_name := None; u_last_name := None;
     u_created_at := 0; u_updated_at := 0 |}.

Definition worldOfNobody : World :=
  {| db := {| users := [nobody]; messages := [bobSays 1 (JS.js "привет")];
              messages_id_seq := 10 |};
     DEEPSEEK_API_KEY := None;
     DASHSCOPE_API_KEY := Some (JS.js "sk-2");
     GEMINI_API_KEY := None;
     geminiModel := None;
     deepseekFetch := fun _ => Throw [];
     qwenCreate := fun _ => Ok (Some (ContentString goodReply));
     geminiRespond := fun _ _ _ => inr [] |}.

Definition analyzeNobody : Command :=
  {| c_text := JS.js "/analyze @nobody"; c_reply_from := None; c_sender := Some 777 |}.

(** The user found by name is analysed although the id is 0, and the
    sender of the command is not. *)
Example analyze_by_name_with_id_zero :
  List.filter (fun e => match e with EvAnalyzeUser _ => true | _ => false end)
    (h_events (handleAnalyzeCommand allAccepted worldOfNobody analyzeNobody))
  = [EvAnalyzeUser Qwen]
  /\ List.length (h_sent (handleAnalyzeCommand allAccepted worldOfNobody analyzeNobody))
     = 2%nat.
Proof. vm_compute. split; reflexivity. Qed.

Example analyze_bot_name :
  handleAnalyzeCommand allAccepted (worldWith [])
    {| c_text := JS.js "/analyze@StatsBot"; c_reply_from := None; c_sender := Some 777 |}
  = {| h_events := [];
       h_sent := [DigestFlow.Reply (unknownUsernameText (JS.js "StatsBot"))];
       h_returned := true |}.
Proof. vm_compute. reflexivity. Qed.

Lemma handleAnalyzeCommand_target_witness :
  findByUsername (db worldOfNobody) (JS.js "nobody") = Some nobody
  /\ h_events (handleAnalyzeCommand allAccepted worldOfNobody analyzeNobody)
     = events (runProviders (Providers.isAvailable worldOfNobody)
                 (Providers.analyzeUser worldOfNobody) 0).
Proof.
  assert (Hfound : findByUsername (db worldOfNobody) (JS.js "nobody") = Some nobody)
    by (vm_compute; reflexivity).
  split; [exact Hfound |].
  refine (proj2 (proj2 (proj2 (proj2 (proj1 (proj2
            (handleAnalyzeCommand_target allAccepted worldOfNobody analyzeNobody))
            eq_refl (JS.js "nobody") _) nobody Hfound))) eq_refl).
  vm_compute. reflexivity.
Defined.

(** The messages of the errors of the Gemini client and of the handler
    itself, as the handler shows them. *)
Example errorNotice_of_known_errors :
  errorNotice GeminiGenerate.rateLimitMessage = limitNotice
  /\ errorNotice GeminiGenerate.tooLargeMessage = tooMuchNotice
  /\ errorNotice GeminiGenerate.accessMessage = accessNotice
  /\ errorNotice noAlternative = failureNotice
  /\ errorNotice Providers.DeepSeekService.INSUFFICIENT_BALANCE = failureNotice.
Proof. vm_compute. repeat split. Qed.

End AnalyzeTarget.

(** ** The top users *)

Section TopUsersFacts.

Import Store MessageQueries StatsService TopUsers.

(** [users.id] is the primary key, and [messages.user_id] refers to it. *)
Definition usersKeyed (db : Db) : Prop :=
  List.NoDup (List.map u_id (users db))
  /\ forall m, In m (messages db) -> In (user_id m) (List.map u_id (users db)).

Lemma insertByCount_perm g l : Permutation (insertByCount g l) (g :: l).
Proof.
  induction l as [| x r IH]; [reflexivity |].
  cbn. destruct (tu_count x <? tu_count g); [reflexivity |].
  rewrite IH. apply perm_swap.
Qed.

Lemma orderByCountDesc_perm l : Permutation (orderByCountDesc l) l.
Proof.
  induction l as [| x r IH]; [reflexivity |].
  cbn. rewrite insertByCount_perm. apply perm_skip, IH.
Qed.

Definition byCount (l : list TopUser) : Prop :=
  StronglySorted (fun a b => tu_count b <= tu_count a) l.

Lemma insertByCount_sorted g l : byCount l -> byCount (insertByCount g l).
Proof.
  unfold byCount. induction l as [| x r IH]; intros Hs.
  - repeat constructor.
  - apply StronglySorted_inv in Hs. destruct Hs as [Hr Hx]. cbn.
    destruct (Z.ltb_spec (tu_count x) (tu_count g)).
    + constructor; [constructor; assumption |].
      constructor; [lia |].
      rewrite List.Forall_forall in Hx |- *. intros y Hy. specialize (Hx y Hy). lia.
    + constructor; [apply IH; exact Hr |].
      rewrite List.Forall_forall in Hx |- *. intros y Hy.
      apply (Permutation_in _ (insertByCount_perm g r)) in Hy.
      destruct Hy as [<- | Hy]; [lia | apply Hx; exact Hy].
Qed.

Lemma orderByCountDesc_sorted l : byCount (orderByCountDesc l).
Proof.
  induction l as [| x r IH]; [constructor |].
  cbn. apply insertByCount_sorted, IH.
Qed.

Lemma byCount_app a b :
  byCount (a ++ b) -> forall x y, In x a -> In y b -> tu_count y <= tu_count x.
Proof.
  unfold byCount. induction a as [| h a IH]; intros Hs x y Hx Hy; [destruct Hx |].
  cbn in Hs. apply StronglySorted_inv in Hs. destruct Hs as [Hs Hh].
  destruct Hx as [<- | Hx].
  - rewrite List.Forall_forall in Hh. apply Hh, in_or_app. right. exact Hy.
  - exact (IH Hs x y Hx Hy).
Qed.

(** What the groups are. *)
Lemma groups_spec db chatId startDate endDate us g :
  In g (groups db chatId startDate endDate us)
  <-> exists u, In u us
        /\ 0 < countByUserId db (u_id u) chatId startDate endDate
        /\ g = {| tu_user_id := u_id u;
                  tu_count := countByUserId db (u_id u) chatId startDate endDate;
                  tu_username := u_username u; tu_first_name := u_first_name u |}.
Proof.
  induction us as [| v us IH]; cbn [groups].
  - split; [intros [] | intros (u & [] & _)].
  - unfold groupOf.
    destruct (Z.ltb_spec 0 (countByUserId db (u_id v) chatId startDate endDate)).
    + cbn [In]. rewrite IH. split.
      * intros [<- | (u & Hu & Hpos & Hg)].
        -- exists v. split; [left; reflexivity |]. split; [assumption | reflexivity].
        -- exists u. split; [right; exact Hu |]. split; assumption.
      * intros (u & [<- | Hu] & Hpos & Hg).
        -- left. symmetry. exact Hg.
        -- right. exists u. split; [exact Hu |]. split; assumption.
    + rewrite IH. split.
      * intros (u & Hu & Hpos & Hg). exists u. split; [right; exact Hu |].
        split; assumption.
      * intros (u & [<- | Hu] & Hpos & Hg); [lia |].
        exists u. split; [exact Hu |]. split; assumption.
Qed.

Lemma groups_ids db chatId startDate endDate us :
  List.NoDup (List.map u_id us) ->
  List.NoDup (List.map tu_user_id (groups db chatId startDate endDate us))
  /\ forall id, In id (List.map tu_user_id (groups db chatId startDate endDate us))
       <-> In id (List.map u_id us)
           /\ 0 < countByUserId db id chatId startDate endDate.
Proof.
  intros Hnd. split.
  - induction us as [| v us IH]; [constructor |].
    inversion Hnd as [| x xs Hnotin Hnd']; subst. cbn [groups]. unfold groupOf.
    destruct (0 <? _); [| apply IH, Hnd'].
    cbn [List.map tu_user_id]. constructor; [| apply IH, Hnd'].
    intros Hin. apply Hnotin. apply in_map_iff in Hin. destruct Hin as (g & Hg & Hin).
    apply groups_spec in Hin. destruct Hin as (u & Hu & _ & ->). cbn in Hg.
    apply in_map_iff. exists u. split; assumption.
  - intros id. rewrite !in_map_iff. split.
    + intros (g & <- & Hin). apply groups_spec in Hin.
      destruct Hin as (u & Hu & Hpos & ->). cbn [tu_user_id].
      split; [exists u; split; [reflexivity | exact Hu] | exact Hpos].
    + intros [(u & <- & Hu) Hpos]. eexists. split; [| apply groups_spec; exists u;
        split; [exact Hu |]; split; [exact Hpos | reflexivity]]. reflexivity.
Qed.

Lemma activeUsers_spec db chatId startDate endDate id :
  In id (activeUsers db chatId startDate endDate)
  <-> 0 < countByUserId db id chatId startDate endDate.
Proof.
  unfold activeUsers. rewrite nodup_In, countByUserId_ofUser.
  set (rows := List.filter (matches chatId startDate endDate) (messages db)).
  split.
  - intros Hin. apply in_map_iff in Hin. destruct Hin as (m & Hu & Hm).
    assert (Hin' : In m (ofUser id rows)).
    { apply filter_In. split; [exact Hm | apply Z.eqb_eq, Hu]. }
    destruct (ofUser id rows); [destruct Hin' | cbn; lia].
  - intros Hpos. destruct (ofUser id rows) as [| m l] eqn:E; [cbn in Hpos; lia |].
    assert (Hin : In m (ofUser id rows)) by (rewrite E; left; reflexivity).
    apply filter_In in Hin. destruct Hin as [Hm Hu]. apply Z.eqb_eq in Hu.
    apply in_map_iff. exists m. split; assumption.
Qed.

Lemma sumZ_perm l1 l2 : Permutation l1 l2 -> sumZ l1 = sumZ l2.
Proof. induction 1; cbn; lia. Qed.



Lemma sumZ_nonneg (l : list Z) : (forall x, In x l -> 0 <= x) -> 0 <= sumZ l.
Proof.
  induction l as [| x l IH]; intros H; [cbn; lia |].
  cbn [sumZ]. pose proof (H x (or_introl eq_refl)).
  specialize (IH (fun y Hy => H y (or_intror Hy))). lia.
Qed.

Lemma sumZ_positive_zero (l : list Z) :
  (forall x, In x l -> 0 < x) -> (sumZ l = 0 <-> l = []).
Proof.
  intros H. destruct l as [| x l]; [tauto |]. split; [| discriminate].
  cbn [sumZ]. pose proof (H x (or_introl eq_refl)).
  pose proof (sumZ_nonneg l (fun y Hy => Z.lt_le_incl _ _ (H y (or_intror Hy)))).
  lia.
Qed.

Lemma sumZ_firstn_le (l : list Z) n :
  (forall x, In x l -> 0 <= x) -> sumZ (firstn n l) <= sumZ l.
Proof.
  revert n. induction l as [| x l IH]; intros n Hpos.
  - rewrite firstn_nil. lia.
  - destruct n as [| n]; cbn [firstn sumZ].
    + pose proof (Hpos x (or_introl eq_refl)).
      pose proof (sumZ_nonneg l (fun y Hy => Hpos y (or_intror Hy))). lia.
    + specialize (IH n (fun y Hy => Hpos y (or_intror Hy))). lia.
Qed.

(** The groups are the users that [getStats] counts, each with the count
    of [countByUserId]. *)
Lemma groups_active db chatId startDate endDate :
  usersKeyed db ->
  Permutation (List.map tu_user_id (groups db chatId startDate endDate (users db)))
    (activeUsers db chatId startDate endDate)
  /\ List.map tu_count (groups db chatId startDate endDate (users db))
     = List.map (fun id => countByUserId db id chatId startDate endDate)
         (List.map tu_user_id (groups db chatId startDate endDate (users db))).
Proof.
  intros [Hnd Hfk].
  destruct (groups_ids db chatId startDate endDate (users db) Hnd) as [Hnd' Hids].
  split.
  - apply Permutation.NoDup_Permutation; [exact Hnd' | apply NoDup_nodup |].
    intros id. rewrite Hids, activeUsers_spec. split; [tauto |].
    intros Hpos. split; [| exact Hpos].
    rewrite countByUserId_ofUser in Hpos.
    destruct (ofUser id (List.filter (matches chatId startDate endDate) (messages db)))
      as [| m l] eqn:E; [cbn in Hpos; lia |].
    assert (Hin : In m (ofUser id (List.filter (matches chatId startDate endDate)
                                     (messages db))))
      by (rewrite E; left; reflexivity).
    apply filter_In in Hin. destruct Hin as [Hm Hu]. apply Z.eqb_eq in Hu.
    apply filter_In in Hm. destruct Hm as [Hm _]. rewrite <- Hu. apply Hfk, Hm.
  - rewrite List.map_map. apply map_ext_in. intros g Hg.
    apply groups_spec in Hg. destruct Hg as (u & _ & _ & ->). reflexivity.
Qed.

(** X25. The top users of a chat.  Whatever order the server gives to
    equal counts, every listed user is a stored user with the names of
    its row and the count that [countByUserId] gives for the same filters,
    which is positive; the counts come in descending order, and a user
    with messages who is not listed has no more than any listed one.  With
    [users.id] the key that [messages.user_id] refers to and message ids
    unique, the list has [min(limit, totalUsers)] entries, so it is empty
    exactly when the filters leave no message; its counts add up to at
    most [totalMessages], and to [totalMessages] when the limit does not
    cut.  The answer of the query for a limit that is not negative is of
    this kind. *)
Theorem getTopUsers_admissible :
  forall db limit chatId startDate endDate,
    (0 <= limit ->
     exists result,
       getTopUsersByMessageCount db limit chatId startDate endDate = Ok result
       /\ admissible db limit chatId startDate endDate result)
    /\ forall result,
         admissible db limit chatId startDate endDate result ->
         byCount result
         /\ (forall g, In g result ->
               tu_count g = countByUserId db (tu_user_id g) chatId startDate endDate
               /\ 0 < tu_count g
               /\ exists u, In u (users db) /\ u_id u = tu_user_id g
                    /\ tu_username g = u_username u
                    /\ tu_first_name g = u_first_name u)
         /\ (forall u, In u (users db) ->
               0 < countByUserId db (u_id u) chatId startDate endDate ->
               ~ In (u_id u) (List.map tu_user_id result) ->
               forall g, In g result ->
                 countByUserId db (u_id u) chatId startDate endDate <= tu_count g)
         /\ (usersKeyed db -> messageIdsFresh db ->
             let totalMessages := fst (getStats db chatId startDate endDate) in
             let totalUsers := snd (getStats db chatId startDate endDate) in
             Z.of_nat (List.length result) = Z.min limit totalUsers
             /\ (result = [] <-> limit = 0 \/ totalMessages = 0)
             /\ sumZ (List.map tu_count result) <= totalMessages
             /\ (totalUsers <= limit ->
                 sumZ (List.map tu_count result) = totalMessages)).
Proof.
  intros db limit chatId startDate endDate. split.
  - intros Hlimit. unfold getTopUsersByMessageCount.
    destruct (Z.ltb_spec limit 0); [lia |].
    eexists. split; [reflexivity |]. split; [exact Hlimit |].
    eexists. split; [apply orderByCountDesc_perm |].
    split; [apply orderByCountDesc_sorted | reflexivity].
  - intros result (Hlimit & ordered & Hperm & Hsorted & ->).
    set (all := groups db chatId startDate endDate (users db)) in *.
    assert (Hsplit : ordered = firstn (Z.to_nat limit) ordered
                               ++ skipn (Z.to_nat limit) ordered)
      by (symmetry; apply firstn_skipn).
    assert (Hin : forall g, In g (firstn (Z.to_nat limit) ordered) -> In g all).
    { intros g Hg. apply (Permutation_in _ Hperm). rewrite Hsplit.
      apply in_or_app. left. exact Hg. }
    split; [| split; [| split]].
    + unfold byCount in *. rewrite Hsplit in Hsorted.
      clear -Hsorted. revert Hsorted.
      generalize (firstn (Z.to_nat limit) ordered) (skipn (Z.to_nat limit) ordered).
      intros a b. induction a as [| h a IH]; intros Hs; [constructor |].
      cbn in Hs. apply StronglySorted_inv in Hs. destruct Hs as [Hs Hh].
      constructor; [apply IH, Hs |].
      rewrite List.Forall_forall in Hh |- *. intros y Hy. apply Hh, in_or_app.
      left. exact Hy.
    + intros g Hg. apply Hin, groups_spec in Hg.
      destruct Hg as (u & Hu & Hpos & ->). cbn [tu_count tu_user_id tu_username tu_first_name].
      split; [reflexivity |]. split; [exact Hpos |].
      exists u. repeat split. exact Hu.
    + intros u Hu Hpos Hnot g Hg.
      assert (Hall : In {| tu_user_id := u_id u;
                           tu_count := countByUserId db (u_id u) chatId startDate endDate;
                           tu_username := u_username u;
                           tu_first_name := u_first_name u |} ordered).
      { apply (Permutation_in _ (Permutation_sym Hperm)). apply groups_spec.
        exists u. split; [exact Hu |]. split; [exact Hpos | reflexivity]. }
      rewrite Hsplit in Hall. apply in_app_or in Hall. destruct Hall as [Hl | Hr].
      * exfalso. apply Hnot. apply in_map_iff. eexists. split; [| exact Hl]. reflexivity.
      * rewrite Hsplit in Hsorted.
        exact (byCount_app _ _ Hsorted g _ Hg Hr).
    + intros Hkeyed Hfresh totalMessages totalUsers.
      destruct (groups_active db chatId startDate endDate Hkeyed) as [Hact Hcounts].
      fold all in Hact, Hcounts.
      assert (Husers : totalUsers = Z.of_nat (List.length all)).
      { subst totalUsers. unfold getStats, countDistinct. cbn [snd].
        fold (activeUsers db chatId startDate endDate).
        rewrite <- (Permutation_length Hact), length_map. reflexivity. }
      assert (Htotal : sumZ (List.map tu_count all) = totalMessages).
      { subst totalMessages. rewrite Hcounts.
        rewrite (sumZ_perm _ _ (Permutation_map _ Hact)).
        rewrite sumCounts_sumZ, totalMessages_length by exact Hfresh.
        apply sumCounts_distinct. }
      assert (Hlen : List.length ordered = List.length all)
        by apply (Permutation_length Hperm).
      assert (Hsum : sumZ (List.map tu_count ordered) = totalMessages).
      { rewrite <- Htotal. apply sumZ_perm, Permutation_map, Hperm. }
      assert (Hpos : forall x, In x (List.map tu_count ordered) -> 0 <= x).
      { intros x Hx. apply in_map_iff in Hx. destruct Hx as (g & <- & Hg).
        apply (Permutation_in _ Hperm), groups_spec in Hg.
        destruct Hg as (u & _ & Hp & ->). cbn. lia. }
      assert (Hallpos : forall x, In x (List.map tu_count all) -> 0 < x).
      { intros x Hx. apply in_map_iff in Hx. destruct Hx as (g & <- & Hg).
        apply groups_spec in Hg. destruct Hg as (u & _ & Hp & ->). exact Hp. }
      assert (Hzero : totalMessages = 0 <-> all = []).
      { rewrite <- Htotal, (sumZ_positive_zero _ Hallpos).
        split; [apply map_eq_nil | intros ->; reflexivity]. }
      split; [rewrite length_firstn, Hlen, Husers; lia |]. split; [| split].
      * split.
        -- intros Hnil.
           assert (Hl : List.length (firstn (Z.to_nat limit) ordered) = 0%nat)
             by (rewrite Hnil; reflexivity).
           rewrite length_firstn, Hlen in Hl.
           destruct (Z.eq_dec limit 0) as [| Hne]; [left; assumption | right].
           apply Hzero. destruct all; [reflexivity | cbn in Hl; lia].
        -- intros [-> | H0]; [reflexivity |].
           apply Hzero in H0. rewrite H0 in Hlen.
           destruct ordered; [apply firstn_nil | discriminate].
      * rewrite <- Hsum, <- firstn_map. apply sumZ_firstn_le, Hpos.
      * intros Hcut. rewrite firstn_all2; [exact Hsum |]. rewrite Hlen. lia.
Qed.

Lemma getTopUsers_admissible_witness :
  usersKeyed threeRows /\ messageIdsFresh threeRows
  /\ exists result,
       getTopUsersByMessageCount threeRows 1 (Some (-1)) None None = Ok result
       /\ admissible threeRows 1 (Some (-1)) None None result
       /\ List.map tu_user_id result = [7]
       /\ List.map tu_count result = [2]
       /\ (forall g, In g result ->
             exists u, In u (users threeRows) /\ u_id u = tu_user_id g
                       /\ tu_username g = u_username u
                       /\ tu_first_name g = u_first_name u)
       /\ Z.of_nat (List.length result)
          = Z.min 1 (snd (getStats threeRows (Some (-1)) None None))
       /\ sumZ (List.map tu_count result)
          <= fst (getStats threeRows (Some (-1)) None None).
Proof.
  assert (Hkeyed : usersKeyed threeRows).
  { split.
    - repeat constructor; cbn; intuition discriminate.
    - intros m Hm. cbn in Hm. cbn.
      repeat (destruct Hm as [<- | Hm]; [cbn; tauto |]). destruct Hm. }
  assert (Hfresh : messageIdsFresh threeRows).
  { split.
    - repeat constructor; cbn; intuition discriminate.
    - intros m Hm. cbn in Hm.
      repeat (destruct Hm as [<- | Hm]; [cbn; lia |]). destruct Hm. }
  split; [exact Hkeyed |]. split; [exact Hfresh |].
  destruct (proj1 (getTopUsers_admissible threeRows 1 (Some (-1)) None None)
              ltac:(lia)) as (result & Hres & Hadm).
  destruct (proj2 (getTopUsers_admissible threeRows 1 (Some (-1)) None None)
              result Hadm) as (_ & Hrows & _ & Hsum).
  destruct (Hsum Hkeyed Hfresh) as (Hlen & _ & Hle & _).
  exists result. split; [exact Hres |]. split; [exact Hadm |].
  split; [vm_compute in Hres; injection Hres as <-; reflexivity |].
  split; [vm_compute in Hres; injection Hres as <-; reflexivity |].
  split; [| split; [exact Hlen | exact Hle]].
  intros g Hg. destruct (Hrows g Hg) as (_ & _ & Hu). exact Hu.
Defined.

End TopUsersFacts.
